(* ===== verification/_CoqProject ===== *)
-Q . S2P
Prelude.v
PyStr.v
PyFloat.v
Json.v
Credentials.v
Script.v
Sysbench.v
Regex.v
Effects.v
Membership.v
Provisioning.v
Deployment.v
Network.v
SecurityGroups.v
Infrastructure.v
DbNode.v
Slave.v
Master.v
ProxyManager.v
TrustedHost.v
Gatekeeper.v
Benchmark.v
Cluster.v
