(* ===== verification/Prelude.v ===== *)
(** * A MySQL cluster behind a gatekeeper, a trusted host and a proxy manager

    The program under [src/] is five Flask services and the scripts that
    provision them on EC2.  A client request crosses, in order:
    - the gatekeeper ([src/mysql/gatekeeper/gatekeeper_app.py]), which
      checks the statement against [SQL_SANITIZATION_REGEX] and forwards the
      body and headers;
    - the trusted host ([src/mysql/trusted_host/trusted_host_app.py]), which
      checks the keys, the mode and the credential pair, then forwards the
      body;
    - the proxy manager ([src/mysql/proxy_manager/proxy_manager_app.py]),
      which reads [instance_info.json] and sends [{query}] to the primary's
      [/write] (DIRECT), a random replica's [/read] (RANDOM) or the replica
      with the lowest ping (any other mode);
    - the primary ([src/mysql/master/master_app.py]), which executes a write
      locally and replays it to every replica in turn, or a replica
      ([src/mysql/slave/slave_app.py]), which executes against its local
      database.
    Provisioning ([src/infrastructure/]) creates the key pair, the VPC,
    one security group per tier and the instances, names them, writes the
    membership files every hop reads, and deploys the applications.

    ** Files, in dependency order
    - [Prelude]: this header, the shared hint database [cluster] and tactics.
    - [PyStr], [PyFloat], [Json]: the Python values and operations the
      handlers use ([str.strip], [str.upper], [splitlines], [float()],
      [dict.get], subscripts, [in], comprehensions, [next(...)], [str()],
      Flask's [jsonify] text) and the exceptions they raise.
    - [Credentials]: [get_aws_credentials] of
      [aws_infrastructure_utilities.py], the INI reader of
      [~/.aws/credentials], over a record of the home directory, the
      text files and the directories.
    - [Script]: the effect monad of the scripts: a script is run against
      an oracle that answers each call given the calls that took effect
      before it, and returns those calls and its value or exception;
      [try]/[except], [try]/[finally], [for] loops, a script of another
      world embedded in this one; the monad laws; a [calls_in] logic
      (every call a script can make satisfies a predicate) with the hint
      database [script]; an [emits] logic (in every world that answers,
      or every such world satisfying a predicate [W], the script returns
      and the calls a selector picks are a given list, whatever the
      answers) and a [raises_in] logic (which exceptions can escape).
    - [Sysbench]: [sysbench_setup.py], a script over [subprocess.run],
      [print] and [time.sleep].
    - [Regex]: regular expressions over character classes, their language,
      a derivative matcher proved to decide it, and Python's anchored
      [re.match].
    - [Effects]: a handler is a program of a free monad over the commands
      it issues (open a JSON file, [requests.post], [ping], [random], MySQL
      connect/query/exec); [try]/[except] is [catch]; [run] interprets a
      program against any [Oracle] and returns outcome, state and the trace
      of commands, so ordering claims are statements about traces.
    - [Membership]: the views of [instance_info.json] (primary, replicas,
      their addresses) and the comprehensions of the sources that compute
      them.
    - [Provisioning]: [collect_instance_data], [save_instance_details]
      (files as a [gmap] from path to JSON), [deploy_instance] and the
      [deploy_*] functions, steps 6-8 of [main].
    - [Deployment]: [setup_deployment] of
      [aws_remote_app_deployment.py] and its helpers ([upload_directory],
      [extract_relevant_statistics], [save_statistics_to_file]) as a
      script over the paramiko, [os] and file calls, and [deploy_all],
      which runs it on the deployments [deploy_instance] selects.
    - [Network]: the parts of Python's [ipaddress] that
      [get_local_ip_cidr] uses, on 32-bit integers with [Z.land],
      [Z.lxor] and [Z.shiftr] ([Ipaddress]), and how AWS reads a CIDR.
    - [SecurityGroups]: [create_security_groups] as a script over the two
      EC2 calls it makes, and how EC2 applies the rules it installs.
    - [Infrastructure]: [main] of [aws_infrastructure.py] and the AWS
      steps it calls ([create_keypair], [create_vpc_and_subnet],
      [get_latest_ubuntu_ami], [create_instances]) as scripts over the
      boto3, HTTP and file calls ([Aws], [Infra]), with
      [create_security_groups] embedded; also [wait_for_instances] and
      [terminate_instances], which [main] does not call.
    - [DbNode]: the [Database] type class (a query and an exec that may
      fail) and the world of one database node.
    - [Slave], [Master], [ProxyManager], [TrustedHost], [Gatekeeper]: one
      Module per service, with one Definition per handler and helper named
      as in the source; a [...Proofs] Module with the spec-level
      definitions and theorems; a [...Witness] Module with a concrete world
      (the spec's three-node example) in which each theorem's hypotheses
      hold and its conclusion is evaluated.
    - [Cluster]: the services together.  A topology says which app runs
      at which address and which files each host has; a post to
      [http://ip:80/path] runs the handler of that route at that address
      (under Flask's catch-all) in the same world, whose state is the
      database of every host; nested requests are bounded by a fuel.  The
      routes of each app ([gatekeeper_routes], ...) are the [@app.route]
      decorators; [endpoint] gives the app each role's host serves.
    - [Benchmark]: [benchmark.py], the load-test client: the queries it
      generates, [send_requests_to_api] as a script over the file, clock,
      HTTP and print calls, and the statistics it appends, with [:.4f]
      rendered exactly; its theorems run it against the [Gatekeeper] and
      [TrustedHost] checks.

    ** What is proved
    - Gatekeeper: a string query is rejected with 400, before any
      command, iff its stripped statement is outside the allow-list
      language of the spec (the regex match, with the final-newline case
      of [$], is proved to decide exactly that language); an accepted one
      is forwarded once with the client's headers and the reply relayed.
    - Trusted host: a request it does not admit is answered 400 or 401
      without any command, 401 only for a valid body; an admitted one is
      forwarded unchanged (the mode is not upper-cased); a configuration
      error gives 500 and no forward.
    - Proxy manager: DIRECT, RANDOM and latency-based routing, each in
      closed form (RANDOM without a replica answers 500 and never falls
      back to the primary), the latter refined to an argmin over the parsed ping
      samples (first strictly lowest, in membership order); the view never
      lets an exception escape; missing fields give 400.
    - Primary: local execution first, then one post per replica in
      membership order, one outcome per replica, an unreachable replica
      recorded and skipped; configuration errors and missing queries.
    - Replica: the contract of [/read] and [/write] on every branch.
    - Provisioning: the membership list has one primary, first, and is the
      same for the primary and the proxy manager; [deploy_slave] deploys the
      replica application on the primary's instance too.
    - Sysbench: in every world that answers, [main] returns and runs the
      same sixteen commands whatever they return, so the success marker
      is created even after failures.
    - Deployment: [setup_deployment] returns and closes the session
      whatever fails (given that [print] and [close] work); in every world
      that answers it runs the install commands, the benchmark and the
      gunicorn start in order; run on what provisioning plans, it starts
      two servers on port 80 of the primary; the primary's first
      deployment runs [sysbench_setup.py] after uploading only the files
      of [../mysql/master], among which it is not;
      [extract_relevant_statistics] finds the statistics exactly when the
      three markers occur in order, and returns what [re.search] matches:
      from the first [SQL statistics:], through the first occurrence of
      each later marker, to the end of the execution time line.
    - Network: [get_local_ip_cidr] returns the /24 of the
      reported address; SSH is admitted exactly from that /24; every tier
      admits TCP port 80 from any address.
    - Infrastructure: whatever AWS answers, [main] launches instances
      only into the four groups it created with all their rules, so every
      instance is reachable on port 80 from the Internet;
      [get_latest_ubuntu_ami], which sorts the images by date in reverse
      and takes the head, equals a scan for the first image of latest
      date; a failing VPC or security group step ends [main] with the
      [ValueError] or [TypeError] of unpacking the helper's error value.
    - Cluster (composition): when only one address runs the primary's
      app and every membership file names it only under the master
      tag, a request whose mode is not exactly ["DIRECT"], entering
      anywhere, never changes the primary's database, at any fuel; so
      the lower-case ["direct"] the trusted host admits is answered 200
      by a replica's [/read] and executed nowhere (run on the spec's
      three-node cluster in [ClusterWitness]).
    - Credentials: the dict [get_aws_credentials] returns is not empty
      and maps stripped keys without [=] to stripped values (the one
      theorem of kind type: [strip] is idempotent and never adds a
      character); a file written in the format is read back as the
      entries of the profile's sections, later entries winning; a
      directory at the path raises [IsADirectoryError].
    - Benchmark: when the gatekeeper answers, [send_requests_to_api]
      posts every query the given number of times, in order, with the
      credentials; when every request fails it prints each query and its
      failure, in order, and dies with [StatisticsError]; the report it
      prints shows the mean, on its minimum line the least time and on
      its maximum line the greatest, in that order; [main] sends 4000
      requests, every one of which the gatekeeper's regex and the trusted
      host's checks admit.

    ** Modelling choices and bounds
    Strings are Latin-1 code points (one [ascii] each); Python's Unicode
    beyond U+00FF is not modelled.  [float()] is an exact rational or
    [inf]/[-inf]/[nan]; IEEE rounding is not modelled: rounding is
    monotone, so a comparison of two parsed ping times can differ from
    the exact one only when both round to the same double.  JSON bodies are
    values, not text, except where a service reads [resp.text].  Every
    loop of the handlers runs over a finite list, so every definition is
    structurally recursive and needs no fuel.  The replay theorems of the
    primary assume replica replies that are JSON objects, the customized
    routing theorem a world whose ping answers do not change during a
    request; both are stated as hypotheses.  AWS is an oracle: an answer
    may be any JSON value or exception and may depend on every earlier
    call, so the theorems on [main] hold for every behaviour of the
    account; a resource object is its id, and a
    parameter that is not a string is refused by botocore before sending,
    modelled as an exception at that point.  Only IPv4 answers of
    api.ipify.org are modelled (it serves no IPv6 address).  The shell
    and the SSH session are oracles too: a command's exit status and
    streams are any values, and a call reads the part of the answer its
    Python counterpart returns; [print] is a call that may fail.  In
    [Cluster] a post at fuel [S n] runs its callee at fuel [n] and fails
    at fuel 0; a client request nests at most four posts (gatekeeper,
    trusted host, proxy manager, node, replay), so fuel 5 runs it whole,
    and the composition theorem is proved for every fuel.  URLs are
    parsed as the services build them ([http://ip:80/path]).

    ** Not modelled
    The [print] calls of the provisioning utilities, which change no
    state (the scripts of [Sysbench], [Deployment] and [Benchmark] do
    model theirs, as calls whose text is read back or which may fail);
    the Flask and logging
    set-up and the [if __name__ == '__main__'] entry points, which only
    start a server or call [main]; [DB_CONFIG], which only names the
    local server the [Database] instance stands for; the
    MySQL engine (abstracted by [Database]); [config.py], which is not in
    the repository ([Infra.config] takes its values as parameters);
    and concurrency between requests (the spec says requests
    share no state). *)

From stdpp Require Export base list strings gmap.
From Stdlib Require Export ZArith.

(** Shared automation of the development. *)
Create HintDb cluster.

(** Invert a hypothesis and clean up. *)
Ltac invc H := inversion H; subst; clear H.

(** [next((x for x in l if p(x)), None)] of the sources is [List.find p l]. *)
Lemma find_first {A} (p : A -> bool) (l : list A) x :
  find p l = Some x ->
  exists l1 l2, l = l1 ++ x :: l2 /\ p x = true /\ Forall (fun y => p y = false) l1.
Proof.
  induction l as [|y l IH]; simpl; [discriminate|].
  destruct (p y) eqn:Hy.
  - intros [= <-]. exists [], l. auto.
  - intros H. destruct (IH H) as (l1 & l2 & -> & Hx & Hl1).
    exists (y :: l1), l2. auto.
Qed.

(** [any(f(y) for y in map(g, l))]. *)
Lemma existsb_map {A B} (f : B -> bool) (g : A -> B) (l : list A) :
  existsb f (map g l) = existsb (fun x => f (g x)) l.
Proof. induction l as [|x l IH]; simpl; [done|]. by rewrite IH. Qed.

Lemma existsb_false_and {A} (f : A -> bool) (l : list A) : existsb (fun x => false && f x) l = false.
Proof. by induction l. Qed.

Lemma map_as_concat {A B} (f : A -> B) (l : list A) : map f l = concat (map (fun x => [f x]) l).
Proof. induction l as [|x l IH]; simpl; [done|]. by rewrite IH. Qed.
