(* ===== verification/PyStr.v ===== *)
(** * Python [str] operations used by the services

    A Python string is a sequence of code points.  The model reads a Rocq
    [string] as a sequence of code points U+0000..U+00FF (Latin-1), one
    [ascii] per code point, and gives the methods the sources call
    ([str.isspace], [str.strip], [str.upper], the [in] operator, [split],
    [splitlines]) their CPython meaning on that range. *)

From Stdlib Require Import Ascii.
From stdpp Require Import pretty.
From S2P Require Import Prelude.

Local Open Scope N_scope.

(** ** Character classes *)

(** [str.isspace] on Latin-1: [\t\n\v\f\r], the separators [\x1c..\x1f],
    the space, NEL [\x85] and the no-break space [\xa0]. *)
Definition py_isspace (c : ascii) : bool :=
  let n := N_of_ascii c in
  ((9 <=? n) && (n <=? 13)) || ((28 <=? n) && (n <=? 32)) || (n =? 133) || (n =? 160).

(** [str.isdigit] restricted to the ASCII digits. *)
Definition is_digit (c : ascii) : bool :=
  let n := N_of_ascii c in (48 <=? n) && (n <=? 57).

(** ** [str.strip()] *)

Fixpoint lstrip (s : string) : string :=
  match s with
  | EmptyString => EmptyString
  | String c s' => if py_isspace c then lstrip s' else s
  end.

Fixpoint string_rev_app (s acc : string) : string :=
  match s with
  | EmptyString => acc
  | String c s' => string_rev_app s' (String c acc)
  end.

Definition string_rev (s : string) : string := string_rev_app s EmptyString.

Definition rstrip (s : string) : string := string_rev (lstrip (string_rev s)).

(** [s.strip()] removes leading and trailing whitespace. *)
Definition py_strip (s : string) : string := rstrip (lstrip s).

(** ** [str.upper()] *)

(** Upper case of one Latin-1 code point, as a string because [ß]
    becomes ["SS"].  [µ] and [ÿ], whose upper cases lie outside Latin-1,
    are left unchanged: their images are not ASCII either way. *)
Definition upper_char (c : ascii) : string :=
  let n := N_of_ascii c in
  if (97 <=? n) && (n <=? 122) then String (ascii_of_N (n - 32)) EmptyString
  else if n =? 223 then "SS"
  else if (224 <=? n) && (n <=? 254) && negb (n =? 247)
  then String (ascii_of_N (n - 32)) EmptyString
  else String c EmptyString.

Fixpoint py_upper (s : string) : string :=
  match s with
  | EmptyString => EmptyString
  | String c s' => upper_char c +:+ py_upper s'
  end.

(** ** Substrings: the [in] operator on strings *)

Fixpoint is_prefix (p s : string) : bool :=
  match p, s with
  | EmptyString, _ => true
  | String a p', String b s' => bool_decide (a = b) && is_prefix p' s'
  | String _ _, EmptyString => false
  end.

(** [needle in hay]. *)
Fixpoint py_str_contains (needle hay : string) : bool :=
  is_prefix needle hay ||
  match hay with
  | EmptyString => false
  | String _ hay' => py_str_contains needle hay'
  end.

(** ** Decimal rendering of integers, as [str(n)] prints them *)

Definition py_str_int (z : Z) : string :=
  match z with
  | Z0 => "0"
  | Zpos p => pretty (Npos p)
  | Zneg p => "-" +:+ pretty (Npos p)
  end.

(** ** ASCII lower case, as HTTP header names are compared *)
Definition lower_char (c : ascii) : ascii :=
  let n := N_of_ascii c in
  if (65 <=? n) && (n <=? 90) then ascii_of_N (n + 32) else c.

Fixpoint ascii_lower (s : string) : string :=
  match s with
  | EmptyString => EmptyString
  | String c s' => String (lower_char c) (ascii_lower s')
  end.

(** ** [str.splitlines()] *)

(** Line boundaries of [str.splitlines] in Latin-1: [\n], [\r] (and the
    pair [\r\n]), [\v], [\f], [\x1c], [\x1d], [\x1e] and NEL [\x85]. *)
Definition is_line_break (c : ascii) : bool :=
  let n := N_of_ascii c in
  (n =? 10) || (n =? 11) || (n =? 12) || (n =? 13) ||
  (n =? 28) || (n =? 29) || (n =? 30) || (n =? 133).

Fixpoint splitlines_go (s cur : string) : list string :=
  match s with
  | EmptyString => if bool_decide (cur = EmptyString) then [] else [cur]
  | String c s' =>
      if bool_decide (N_of_ascii c = 13) then
        match s' with
        | String c' s'' =>
            if bool_decide (N_of_ascii c' = 10) then cur :: splitlines_go s'' EmptyString
            else cur :: splitlines_go s' EmptyString
        | EmptyString => [cur]
        end
      else if is_line_break c then cur :: splitlines_go s' EmptyString
      else splitlines_go s' (cur +:+ String c EmptyString)
  end.

Definition splitlines (s : string) : list string := splitlines_go s EmptyString.

(** ** [s.split(sep)[1]] and [s.split()[0]] *)

Fixpoint string_drop (n : nat) (s : string) : string :=
  match n, s with
  | O, _ => s
  | S n', String _ s' => string_drop n' s'
  | S _, EmptyString => EmptyString
  end.

(** The text before and after the first occurrence of [sep]. *)
Fixpoint break_at (sep s : string) : option (string * string) :=
  if is_prefix sep s then Some (EmptyString, string_drop (String.length sep) s)
  else match s with
       | EmptyString => None
       | String c s' =>
           match break_at sep s' with
           | Some (b, a) => Some (String c b, a)
           | None => None
           end
       end.

(** [s.split(sep)[1]] for a non-empty [sep]: [None] is the [IndexError]
    of a string without [sep]. *)
Definition split_second (sep s : string) : option string :=
  match break_at sep s with
  | None => None
  | Some (_, rest) => match break_at sep rest with None => Some rest | Some (mid, _) => Some mid end
  end.

Fixpoint take_word (s : string) : string :=
  match s with
  | EmptyString => EmptyString
  | String c s' => if py_isspace c then EmptyString else String c (take_word s')
  end.

(** [s.split()[0]]: the first whitespace-separated word; [None] is the
    [IndexError] of a blank string. *)
Definition first_word (s : string) : option string :=
  match lstrip s with EmptyString => None | t => Some (take_word t) end.

(** ** [s.split(c)] for a one-character separator *)

(** [s.split(c)]: the pieces between the occurrences of [c], empty ones
    included, so that there is always one more piece than separators. *)
Fixpoint split_on (c : ascii) (s : string) : list string :=
  match s with
  | EmptyString => [EmptyString]
  | String a s' =>
      let rest := split_on c s' in
      if bool_decide (a = c) then EmptyString :: rest
      else match rest with
           | r :: rs => String a r :: rs
           | [] => [String a EmptyString]
           end
  end.

(** [c in s] for one character. *)
Fixpoint has_char (c : ascii) (s : string) : bool :=
  match s with
  | EmptyString => false
  | String a s' => bool_decide (a = c) || has_char c s'
  end.

(** [s * n]. *)
Fixpoint repeat_str (s : string) (n : nat) : string :=
  match n with O => EmptyString | S n' => s +:+ repeat_str s n' end.

(** ** Lemmas on [strip] *)

Lemma string_rev_app_list s acc :
  String.list_ascii_of_string (string_rev_app s acc) =
    reverse (String.list_ascii_of_string s) ++ String.list_ascii_of_string acc.
Proof.
  revert acc. induction s as [|c s IH]; intros acc; simpl; [done|].
  rewrite IH, reverse_cons, <-app_assoc. done.
Qed.

Lemma lstrip_head s c w :
  String.list_ascii_of_string (lstrip s) = c :: w -> py_isspace c = false.
Proof.
  induction s as [|c' s IH]; simpl; [discriminate|].
  destruct (py_isspace c') eqn:Hc; [exact IH|]. simpl. by intros [= <- _].
Qed.

(** The text [s.strip()] returns does not end with whitespace. *)
Lemma py_strip_last s c :
  last (String.list_ascii_of_string (py_strip s)) = Some c -> py_isspace c = false.
Proof.
  unfold py_strip, rstrip, string_rev. rewrite string_rev_app_list, app_nil_r, last_reverse.
  destruct (String.list_ascii_of_string (lstrip _)) as [|c' w] eqn:Hl; simpl; [discriminate|].
  intros [= ->]. by eapply lstrip_head.
Qed.


(** ** Lemmas on [split_on] *)

Lemma split_on_no_sep c s : has_char c s = false -> split_on c s = [s].
Proof.
  induction s as [|a s IH]; simpl; [done|].
  intros [Ha Hs]%orb_false_elim. rewrite Ha, IH by done. done.
Qed.

Lemma split_on_app c s t :
  has_char c s = false -> split_on c (s +:+ String c t) = s :: split_on c t.
Proof.
  induction s as [|a s IH]; simpl.
  - intros _. by rewrite bool_decide_eq_true_2.
  - intros [Ha Hs]%orb_false_elim. rewrite Ha, IH by done. done.
Qed.

Lemma has_char_app c s t : has_char c (s +:+ t) = has_char c s || has_char c t.
Proof. induction s as [|a s IH]; simpl; [done|]. by rewrite IH, orb_assoc. Qed.

Lemma is_prefix_app p s : is_prefix p (p +:+ s) = true.
Proof. induction p as [|a p IH]; [by destruct s|]. simpl. by rewrite bool_decide_eq_true_2, IH. Qed.

(** ** Lemmas on [+:+] and [break_at] *)

Lemma string_app_cons x a b : String x a +:+ b = String x (a +:+ b).
Proof. reflexivity. Qed.

Lemma string_app_nil_l a : EmptyString +:+ a = a.
Proof. reflexivity. Qed.

Lemma string_app_assoc a b c : (a +:+ b) +:+ c = a +:+ (b +:+ c).
Proof. induction a as [|x a IH]; [done|]. by rewrite !string_app_cons, IH. Qed.

Lemma string_app_nil_r a : a +:+ EmptyString = a.
Proof. induction a as [|x a IH]; [done|]. by rewrite string_app_cons, IH. Qed.

Lemma string_length_app a b : String.length (a +:+ b) = (String.length a + String.length b)%nat.
Proof. induction a as [|x a IH]; [done|]. rewrite string_app_cons. simpl. by rewrite IH. Qed.

Lemma string_drop_app_le n w y :
  (n <= String.length w)%nat -> string_drop n (w +:+ y) = string_drop n w +:+ y.
Proof.
  revert n. induction w as [|x w IH]; intros [|n] Hn; simpl in *; try done; [lia|].
  apply IH. lia.
Qed.

Lemma string_drop_length_app p s : string_drop (String.length p) (p +:+ s) = s.
Proof. induction p as [|x p IH]; simpl; [done|]. apply IH. Qed.

Lemma is_prefix_drop p s : is_prefix p s = true -> s = p +:+ string_drop (String.length p) s.
Proof.
  revert s. induction p as [|x p IH]; intros s H; [done|]. destruct s as [|y s]; [done|].
  simpl in H. apply andb_true_iff in H as [Hxy%bool_decide_eq_true_1 Hp]. subst y.
  rewrite string_app_cons. simpl. by rewrite <- IH.
Qed.

(** [break_at] splits at an occurrence of [sep]. *)
Lemma break_at_some sep s b a : break_at sep s = Some (b, a) -> s = b +:+ sep +:+ a.
Proof.
  revert b a. induction s as [|x s IH]; intros b a; simpl.
  - destruct (is_prefix sep EmptyString) eqn:Hp; [|done]. intros [= <- <-]. simpl.
    by apply is_prefix_drop.
  - destruct (is_prefix sep (String x s)) eqn:Hp.
    + intros [= <- <-]. simpl. by apply is_prefix_drop.
    + destruct (break_at sep s) as [[b' a']|]; [|done]. intros [= <- <-].
      rewrite string_app_cons. by rewrite <- IH.
Qed.

Lemma break_at_unfold sep s :
  break_at sep s =
    if is_prefix sep s then Some (EmptyString, string_drop (String.length sep) s)
    else match s with
         | EmptyString => None
         | String c s' =>
             match break_at sep s' with Some (b, a) => Some (String c b, a) | None => None end
         end.
Proof. by destruct s. Qed.

(** If [sep] occurs before [y], the first occurrence is found, and what
    follows it ends with [y]. *)
Lemma break_at_suffix sep u y :
  exists b a m, break_at sep (u +:+ sep +:+ y) = Some (b, a) /\ a = m +:+ y.
Proof.
  induction u as [|x u IH].
  - rewrite string_app_nil_l, break_at_unfold, is_prefix_app, string_drop_length_app.
    by exists EmptyString, y, EmptyString.
  - rewrite string_app_cons, break_at_unfold.
    destruct (is_prefix sep (String x (u +:+ sep +:+ y))) eqn:Hp.
    + eexists _, _, (string_drop (String.length sep) (String x u +:+ sep)).
      split; [done|]. rewrite <- string_app_cons, <- string_app_assoc, string_drop_app_le; [done|].
      rewrite string_length_app. lia.
    + destruct IH as (b & a & m & -> & ->). by exists (String x b), (m +:+ y), m.
Qed.

Lemma break_at_none sep s : break_at sep s = None -> forall u y, s <> u +:+ sep +:+ y.
Proof. intros Hn u y ->. destruct (break_at_suffix sep u y) as (b & a & m & Hb & _). congruence. Qed.

(** ... and the occurrence it splits at is the first one. *)
Lemma break_at_first sep s b a :
  break_at sep s = Some (b, a) ->
  forall u y, s = u +:+ sep +:+ y -> (String.length b <= String.length u)%nat.
Proof.
  revert b a. induction s as [|x s IH]; intros b a; rewrite break_at_unfold.
  - destruct (is_prefix sep EmptyString); [intros [= <- _]; simpl; lia|done].
  - destruct (is_prefix sep (String x s)) eqn:Hp; [intros [= <- _]; simpl; lia|].
    destruct (break_at sep s) as [[b' a']|] eqn:Hb; [|done]. intros [= <- _] [|x' u] y Hu.
    + rewrite string_app_nil_l in Hu. rewrite Hu, is_prefix_app in Hp. discriminate.
    + rewrite string_app_cons in Hu. injection Hu as <- Hu. simpl. specialize (IH _ _ eq_refl u y Hu). lia.
Qed.

Lemma break_at_char_none c s : break_at (String c EmptyString) s = None -> has_char c s = false.
Proof.
  induction s as [|x s IH]; [done|]. rewrite break_at_unfold. simpl.
  destruct (bool_decide (c = x)) eqn:Hcx; [done|]. simpl.
  destruct (break_at _ s) as [[??]|]; [done|]. intros _. rewrite IH by done.
  rewrite orb_false_r. apply bool_decide_eq_false. apply bool_decide_eq_false in Hcx. congruence.
Qed.

(** The text before the first occurrence of a character does not
    contain it. *)
Lemma break_at_char_some c s b a : break_at (String c EmptyString) s = Some (b, a) -> has_char c b = false.
Proof.
  revert b. induction s as [|x s IH]; intros b; [done|]. rewrite break_at_unfold. simpl.
  destruct (bool_decide (c = x)) eqn:Hcx; simpl; [by intros [= <- _]|].
  destruct (break_at _ s) as [[b' a']|] eqn:Hb; [|done]. intros [= <- <-]. simpl.
  rewrite (IH b') by done. rewrite orb_false_r. apply bool_decide_eq_false.
  apply bool_decide_eq_false in Hcx. congruence.
Qed.

(** ** [strip] is idempotent and keeps characters out *)

Lemma string_rev_app_spec s acc : string_rev_app s acc = string_rev s +:+ acc.
Proof.
  unfold string_rev. revert acc. induction s as [|c s IH]; intros acc; [done|]. simpl.
  rewrite (IH (String c acc)), (IH (String c EmptyString)), string_app_assoc. done.
Qed.

Lemma string_rev_cons c s : string_rev (String c s) = string_rev s +:+ String c EmptyString.
Proof. unfold string_rev at 1. simpl. apply string_rev_app_spec. Qed.

Lemma string_rev_app_distr a b : string_rev (a +:+ b) = string_rev b +:+ string_rev a.
Proof.
  induction a as [|c a IH].
  - by rewrite string_app_nil_l, string_app_nil_r.
  - by rewrite string_app_cons, !string_rev_cons, IH, string_app_assoc.
Qed.

Lemma string_rev_involutive s : string_rev (string_rev s) = s.
Proof. induction s as [|c s IH]; [done|]. by rewrite string_rev_cons, string_rev_app_distr, IH. Qed.

(** [lstrip] removes a prefix; [rstrip] keeps one. *)
Lemma lstrip_suffix s : exists p, s = p +:+ lstrip s.
Proof.
  induction s as [|c s [p Hp]]; [by exists EmptyString|]. simpl.
  destruct (py_isspace c); [exists (String c p) | exists EmptyString]; by rewrite ?string_app_cons, <- ?Hp.
Qed.

Lemma rstrip_prefix s : exists w, s = rstrip s +:+ w.
Proof.
  destruct (lstrip_suffix (string_rev s)) as [p Hp]. exists (string_rev p).
  unfold rstrip. rewrite <- string_rev_app_distr, <- Hp. by rewrite string_rev_involutive.
Qed.

Lemma lstrip_idem s : lstrip (lstrip s) = lstrip s.
Proof. induction s as [|c s IH]; simpl; [done|]. destruct (py_isspace c) eqn:Hc; [done|]. simpl. by rewrite Hc. Qed.

Lemma rstrip_idem s : rstrip (rstrip s) = rstrip s.
Proof. unfold rstrip. by rewrite string_rev_involutive, lstrip_idem. Qed.

(** A text that [lstrip] leaves alone keeps its prefixes alone too. *)
Lemma lstrip_prefix_fixed v w : lstrip (v +:+ w) = v +:+ w -> lstrip v = v.
Proof.
  destruct v as [|c v]; [done|]. rewrite string_app_cons. intros H. simpl.
  destruct (py_isspace c) eqn:Hc; [|done]. exfalso.
  pose proof (lstrip_head (String c (v +:+ w)) c (String.list_ascii_of_string (v +:+ w))) as Hh.
  rewrite H in Hh. rewrite Hh in Hc; done.
Qed.

Lemma lstrip_py_strip s : lstrip (py_strip s) = py_strip s.
Proof.
  unfold py_strip. destruct (rstrip_prefix (lstrip s)) as [w Hw].
  apply (lstrip_prefix_fixed _ w). rewrite <- Hw. apply lstrip_idem.
Qed.

(** Stripping a stripped text changes nothing. *)
Lemma py_strip_idem s : py_strip (py_strip s) = py_strip s.
Proof. unfold py_strip at 1. by rewrite lstrip_py_strip; unfold py_strip; rewrite rstrip_idem. Qed.

(** A stripped text is one that neither side of [strip] changes. *)
Lemma py_strip_fixed s : py_strip s = s <-> lstrip s = s /\ rstrip s = s.
Proof.
  split.
  - intros H. rewrite <- H. split; [apply lstrip_py_strip|]. unfold py_strip. apply rstrip_idem.
  - intros [Hl Hr]. unfold py_strip. by rewrite Hl, Hr.
Qed.

Lemma string_rev_inj a b : string_rev a = string_rev b -> a = b.
Proof. intros H. by rewrite <- (string_rev_involutive a), H, string_rev_involutive. Qed.

(** A text that starts (ends) with a character [strip] keeps is kept
    whole on that side, whatever follows (precedes) it. *)
Lemma lstrip_app_l a b : lstrip a = a -> a <> EmptyString -> lstrip (a +:+ b) = a +:+ b.
Proof.
  destruct a as [|c a]; [done|]. intros H _. rewrite string_app_cons.
  pose proof (lstrip_head (String c a) c (String.list_ascii_of_string a)) as Hc.
  rewrite H in Hc. simpl. by rewrite Hc.
Qed.

Lemma rstrip_app_r a b : rstrip b = b -> b <> EmptyString -> rstrip (a +:+ b) = a +:+ b.
Proof.
  intros H Hb.
  assert (Hl : lstrip (string_rev b) = string_rev b).
  { apply string_rev_inj. by rewrite string_rev_involutive. }
  assert (Hn : string_rev b <> EmptyString).
  { intros He. apply Hb, string_rev_inj. by rewrite He. }
  unfold rstrip. rewrite string_rev_app_distr, (lstrip_app_l _ _ Hl Hn), string_rev_app_distr.
  by rewrite !string_rev_involutive.
Qed.

Lemma has_char_app_false c s t : has_char c (s +:+ t) = false -> has_char c s = false /\ has_char c t = false.
Proof. rewrite has_char_app. apply orb_false_elim. Qed.

(** Stripping never adds a character. *)
Lemma py_strip_has_char c s : has_char c s = false -> has_char c (py_strip s) = false.
Proof.
  intros H. destruct (lstrip_suffix s) as [p Hp]. rewrite Hp in H.
  apply has_char_app_false in H as [_ H]. unfold py_strip.
  destruct (rstrip_prefix (lstrip s)) as [w Hw]. rewrite Hw in H.
  by apply has_char_app_false in H as [H _].
Qed.

(** ** Splitting at the first occurrence of a character *)

Lemma break_at_char_app c s t :
  has_char c s = false -> break_at (String c EmptyString) (s +:+ String c t) = Some (s, t).
Proof.
  induction s as [|x s IH]; intros H; rewrite break_at_unfold.
  - simpl. by rewrite bool_decide_eq_true_2.
  - simpl in H. apply orb_false_elim in H as [Hx Hs]. rewrite string_app_cons. simpl.
    apply bool_decide_eq_false in Hx. rewrite bool_decide_eq_false_2 by congruence.
    simpl. by rewrite IH.
Qed.
