(* ===== verification/PyFloat.v ===== *)
(** * Python [float]: the literal syntax of [float(s)] and the [<] test

    The proxy manager reads a ping time with [float(...)] and compares
    times with [<], starting from [float("inf")].  A float is modelled as
    an exact rational, [inf], [-inf] or [nan]; [float(s)] accepts Python's
    syntax (sign, digits with single underscores, a fraction, an exponent,
    [inf], [infinity], [nan] in any case) and yields the exact value of the
    literal.  The rounding to a double is not modelled: it changes an
    order only between literals closer than one part in 2^52, or beyond
    1e308, which ping never prints. *)

From Stdlib Require Import Ascii QArith.
From S2P Require Import Prelude PyStr.

Inductive pyfloat : Type :=
| PFin (q : Q)
| PInf
| PNegInf
| PNaN.

Definition q_ltb (x y : Q) : bool := negb (Qle_bool y x).

Lemma q_ltb_spec x y : q_ltb x y = true <-> (x < y)%Q.
Proof.
  unfold q_ltb. rewrite negb_true_iff. split.
  - intros H. apply Qnot_le_lt. intros Hle. apply Qle_bool_iff in Hle. congruence.
  - intros H. destruct (Qle_bool y x) eqn:E; [|done].
    apply Qle_bool_iff in E. exfalso. by apply (Qlt_not_le x y).
Qed.

(** [a < b] on floats: [nan] is unordered. *)
Definition pf_lt (a b : pyfloat) : bool :=
  match a, b with
  | PNaN, _ | _, PNaN => false
  | PFin x, PFin y => q_ltb x y
  | PNegInf, PNegInf => false
  | PNegInf, _ => true
  | PFin _, PInf => true
  | _, _ => false
  end.

(** ** [float(s)] *)

Local Open Scope N_scope.

Definition digit_val (c : ascii) : option N :=
  if is_digit c then Some (N_of_ascii c - 48) else None.

Definition is_char (n : N) (c : ascii) : bool := N.eqb (N_of_ascii c) n.

(** The rest of a [digitpart] after its first digit: digits, each maybe
    preceded by one underscore.  Returns the value, the digit count and
    the unread text. *)
Fixpoint digits_go (s : string) (acc : N) (k : nat) : N * nat * string :=
  match s with
  | EmptyString => (acc, k, EmptyString)
  | String c s' =>
      match digit_val c with
      | Some d => digits_go s' (acc * 10 + d) (S k)
      | None =>
          if is_char 95 c then
            match s' with
            | String c2 s'' =>
                match digit_val c2 with
                | Some d => digits_go s'' (acc * 10 + d) (S k)
                | None => (acc, k, s)
                end
            | EmptyString => (acc, k, s)
            end
          else (acc, k, s)
      end
  end.

Definition digitpart (s : string) : option (N * nat * string) :=
  match s with
  | String c s' => match digit_val c with Some d => Some (digits_go s' d 1) | None => None end
  | EmptyString => None
  end.

(** [digitpart ["." [digitpart]] | "." digitpart]: the value [m / 10^k]
    as [(m, k)] and the unread text. *)
Definition parse_mantissa (s : string) : option (N * nat * string) :=
  match digitpart s with
  | Some (iv, _, r) =>
      match r with
      | String c r' =>
          if is_char 46 c then
            match digitpart r' with
            | Some (fv, k, r'') => Some (iv * 10 ^ N.of_nat k + fv, k, r'')
            | None => Some (iv, 0%nat, r')
            end
          else Some (iv, 0%nat, r)
      | EmptyString => Some (iv, 0%nat, r)
      end
  | None =>
      match s with
      | String c r' =>
          if is_char 46 c then
            match digitpart r' with Some (fv, k, r'') => Some (fv, k, r'') | None => None end
          else None
      | EmptyString => None
      end
  end.

(** [[("e" | "E") ["+" | "-"] digitpart]]. *)
Definition parse_exponent (s : string) : option (Z * string) :=
  match s with
  | String c r =>
      if is_char 101 c || is_char 69 c then
        let '(neg, r') := match r with
                          | String c' r'' =>
                              if is_char 45 c' then (true, r'')
                              else if is_char 43 c' then (false, r'') else (false, r)
                          | EmptyString => (false, r)
                          end in
        match digitpart r' with
        | Some (v, _, r'') => Some (if neg then Z.opp (Z.of_N v) else Z.of_N v, r'')
        | None => None
        end
      else Some (0%Z, s)
  | EmptyString => Some (0%Z, s)
  end.

Definition decimal_value (m : N) (k : nat) (e : Z) : Q :=
  (inject_Z (Z.of_N m) * Qpower (inject_Z 10) (e - Z.of_nat k))%Q.

(** [float(s)]; [None] is the [ValueError] of a string that is no
    float literal. *)
Definition py_float (s0 : string) : option pyfloat :=
  let s := py_strip s0 in
  let '(neg, body) := match s with
                      | String c r =>
                          if is_char 45 c then (true, r)
                          else if is_char 43 c then (false, r) else (false, s)
                      | EmptyString => (false, s)
                      end in
  let low := ascii_lower body in
  if bool_decide (low = "inf") || bool_decide (low = "infinity") then
    Some (if neg then PNegInf else PInf)
  else if bool_decide (low = "nan") then Some PNaN
  else
    match parse_mantissa body with
    | Some (m, k, r) =>
        match parse_exponent r with
        | Some (e, EmptyString) =>
            let q := decimal_value m k e in
            Some (PFin (if neg then Qopp q else q))
        | _ => None
        end
    | None => None
    end.
