(* ===== verification/Json.v ===== *)
(** * JSON values as the services see them, and the Python operations on them

    [request.json], [json.load] and [response.json()] give Python values
    built from JSON: [None], booleans, integers, strings, lists and dicts.
    This file holds that value type, the Python exceptions the services
    raise or catch, and the Python operations the handlers apply to
    values ([d.get(k)], [d.get(k, default)], [d[k]], the [in] operator,
    truthiness, iteration and [str()]). *)

From Stdlib Require Import Ascii.
From stdpp Require Import sorting.
From S2P Require Import Prelude PyStr.

Local Set Warnings "-register-all".

(** ** Values *)

(** A dict is the list of its entries in insertion order; the services
    only build dicts with distinct keys, and a lookup reads the first
    entry with the key. *)
Inductive json : Type :=
| JNull
| JBool (b : bool)
| JInt (z : Z)
| JStr (s : string)
| JList (l : list json)
| JDict (kvs : list (string * json)).

(** ** Python exceptions met in the sources *)
Inductive exn : Type :=
| FileNotFoundError (msg : string)
| ValueError (msg : string)
| ConnectionError (msg : string)
| RequestException (msg : string)
(** [requests.JSONDecodeError], raised by [resp.json()]: it is both a
    [requests.RequestException] and a [ValueError]. *)
| JSONDecodeError (msg : string)
| MySQLError (msg : string)
| KeyError (key : string)
| AttributeError (msg : string)
| TypeError (msg : string)
| IndexError (msg : string)
(** [botocore.exceptions.ClientError]: the error code AWS answered and
    the operation that was called. *)
| ClientError (code operation msg : string)
(** [SystemExit], raised by [exit(code)]; not an [Exception]. *)
| SystemExit (code : Z)
(** [botocore.exceptions.ParamValidationError], raised before sending a
    request whose parameter has the wrong type. *)
| ParamValidationError (msg : string)
(** [UnboundLocalError], raised when a local variable is read before it
    is assigned. *)
| UnboundLocalError (msg : string)
(** [statistics.StatisticsError], a [ValueError]. *)
| StatisticsError (msg : string)
(** [IsADirectoryError], the [OSError] of [open] on a directory. *)
| IsADirectoryError (msg : string).

(** [str(e)]. *)
Definition exn_str (e : exn) : string :=
  match e with
  | FileNotFoundError m | ValueError m | ConnectionError m | RequestException m | JSONDecodeError m
  | MySQLError m | AttributeError m | TypeError m | IndexError m | ParamValidationError m
  | UnboundLocalError m | StatisticsError m | IsADirectoryError m => m
  | KeyError k => "'" +:+ k +:+ "'"
  | ClientError code op m =>
      "An error occurred (" +:+ code +:+ ") when calling the " +:+ op +:+ " operation: " +:+ m
  | SystemExit code => py_str_int code
  end.

(** ** Truthiness: [if not x] *)
Definition truthy (v : json) : bool :=
  match v with
  | JNull => false
  | JBool b => b
  | JInt z => negb (Z.eqb z 0)
  | JStr s => negb (bool_decide (s = EmptyString))
  | JList l => negb (bool_decide (l = []))
  | JDict kvs => negb (bool_decide (kvs = []))
  end.

(** ** Dict access *)

Fixpoint assoc (k : string) (kvs : list (string * json)) : option json :=
  match kvs with
  | [] => None
  | (k', v) :: kvs' => if bool_decide (k = k') then Some v else assoc k kvs'
  end.

Definition type_name (v : json) : string :=
  match v with
  | JNull => "NoneType" | JBool _ => "bool" | JInt _ => "int"
  | JStr _ => "str" | JList _ => "list" | JDict _ => "dict"
  end.

(** [d.get(k, default)] on the entries of a dict. *)
Definition get_or (kvs : list (string * json)) (k : string) (default : json) : json :=
  match assoc k kvs with Some x => x | None => default end.

(** [v.get(k, default)]: only dicts have a [get] method. *)
Definition py_get_default (v : json) (k : string) (default : json) : exn + json :=
  match v with
  | JDict kvs => inr (get_or kvs k default)
  | _ => inl (AttributeError ("'" +:+ type_name v +:+ "' object has no attribute 'get'"))
  end.

(** [v.get(k)] returns [None] when the key is absent. *)
Definition py_get (v : json) (k : string) : exn + json := py_get_default v k JNull.

(** [v[k]] with a string key. *)
Definition py_subscript (v : json) (k : string) : exn + json :=
  match v with
  | JDict kvs =>
      match assoc k kvs with Some x => inr x | None => inl (KeyError k) end
  | JStr _ | JList _ => inl (TypeError (type_name v +:+ " indices must be integers"))
  | _ => inl (TypeError ("'" +:+ type_name v +:+ "' object is not subscriptable"))
  end.

(** [v[i]] with an index [i >= 0]. *)
Definition py_index (v : json) (i : nat) : exn + json :=
  match v with
  | JList l => match l !! i with Some x => inr x | None => inl (IndexError "list index out of range") end
  | JStr s => match String.get i s with
              | Some c => inr (JStr (String c EmptyString))
              | None => inl (IndexError "string index out of range")
              end
  | JDict _ => inl (KeyError (py_str_int (Z.of_nat i)))
  | _ => inl (TypeError ("'" +:+ type_name v +:+ "' object is not subscriptable"))
  end.

(** [k in v] for a string [k]: a key of a dict, an element of a list,
    a substring of a string. *)
Definition py_contains (v : json) (k : string) : exn + bool :=
  match v with
  | JDict kvs => inr (bool_decide (is_Some (assoc k kvs)))
  | JList l => inr (existsb (fun x => match x with JStr s => bool_decide (s = k) | _ => false end) l)
  | JStr s => inr (py_str_contains k s)
  | _ => inl (TypeError ("argument of type '" +:+ type_name v +:+ "' is not iterable"))
  end.

(** [for x in v]: a list yields its elements, a dict its keys, a string
    its characters. *)
Definition py_iter (v : json) : exn + list json :=
  match v with
  | JList l => inr l
  | JDict kvs => inr (map (fun kv => JStr kv.1) kvs)
  | JStr s => inr (map (fun c => JStr (String c EmptyString)) (String.list_ascii_of_string s))
  | _ => inl (TypeError ("'" +:+ type_name v +:+ "' object is not iterable"))
  end.

(** [", ".join(l)]. *)
Fixpoint join_comma (l : list string) : string :=
  match l with
  | [] => EmptyString
  | [a] => a
  | a :: l' => a +:+ ", " +:+ join_comma l'
  end.

(** [str(v)], as the f-strings of the sources render a value.  Containers
    are rendered by a simplified [repr]. *)
Fixpoint py_str (v : json) : string :=
  match v with
  | JNull => "None"
  | JBool true => "True"
  | JBool false => "False"
  | JInt z => py_str_int z
  | JStr s => s
  | JList l => "[" +:+ join_comma (map py_str l) +:+ "]"
  | JDict kvs =>
      "{" +:+ join_comma (map (fun kv => "'" +:+ kv.1 +:+ "': " +:+ py_str kv.2) kvs) +:+ "}"
  end.

(** ** JSON text, as Flask's [jsonify] writes it

    Flask's default JSON provider sorts the keys of every dict, escapes
    every non-ASCII character ([ensure_ascii]) and writes no blanks
    between tokens. *)

Definition hex_digit (n : N) : ascii :=
  if (n <? 10)%N then ascii_of_N (48 + n) else ascii_of_N (87 + n).

(** One character of a JSON string literal. *)
Definition json_escape_char (c : ascii) : string :=
  let n := N_of_ascii c in
  let bs := String "092"%char in
  if (n =? 34)%N then bs (String c EmptyString)
  else if (n =? 92)%N then bs (String c EmptyString)
  else if (n =? 10)%N then bs "n"
  else if (n =? 13)%N then bs "r"
  else if (n =? 9)%N then bs "t"
  else if (n =? 8)%N then bs "b"
  else if (n =? 12)%N then bs "f"
  else if (n <? 32)%N || (127 <? n)%N
  then bs ("u00" +:+ String (hex_digit (n / 16)) (String (hex_digit (n mod 16)) EmptyString))
  else String c EmptyString.

Fixpoint json_escape (s : string) : string :=
  match s with
  | EmptyString => EmptyString
  | String c s' => json_escape_char c +:+ json_escape s'
  end.

Definition json_string_lit (s : string) : string :=
  String "034"%char (json_escape s +:+ String "034"%char EmptyString).

(** [",".join(l)]. *)
Fixpoint join_with (sep : string) (l : list string) : string :=
  match l with
  | [] => EmptyString
  | [a] => a
  | a :: l' => a +:+ sep +:+ join_with sep l'
  end.

Definition key_le (a b : string * string) : Prop := String.le a.1 b.1.
#[local] Instance key_le_dec : RelDecision key_le := fun a b => _.

Fixpoint json_text (v : json) : string :=
  match v with
  | JNull => "null"
  | JBool true => "true"
  | JBool false => "false"
  | JInt z => py_str_int z
  | JStr s => json_string_lit s
  | JList l => "[" +:+ join_with "," (map json_text l) +:+ "]"
  | JDict kvs =>
      "{" +:+ join_with ","
        (map (fun kv => json_string_lit kv.1 +:+ ":" +:+ kv.2)
           (merge_sort key_le (map (fun kv => (kv.1, json_text kv.2)) kvs))) +:+ "}"
  end.

(** The body text of [jsonify(v)]: the JSON text and a newline. *)
Definition jsonify_text (v : json) : string := json_text v +:+ String "010" EmptyString.

(** ** List comprehensions *)

(** [[f(x) for x in l if p(x)]]: for each element the condition, then the
    expression; the first exception stops the comprehension. *)
Fixpoint py_filter_map (p : json -> exn + bool) (f : json -> exn + json) (l : list json)
  : exn + list json :=
  match l with
  | [] => inr []
  | x :: l' =>
      match p x with
      | inl e => inl e
      | inr false => py_filter_map p f l'
      | inr true =>
          match f x with
          | inl e => inl e
          | inr y => match py_filter_map p f l' with inl e => inl e | inr ys => inr (y :: ys) end
          end
      end
  end.

(** [instance["Name"] != "mysql_master_node"] and its negation. *)
Definition master_tag : string := "mysql_master_node".

Definition is_master_name (v : json) : bool :=
  match v with JStr s => bool_decide (s = master_tag) | _ => false end.

Definition name_is_not_master (inst : json) : exn + bool :=
  match py_subscript inst "Name" with
  | inl e => inl e
  | inr n => inr (negb (is_master_name n))
  end.

Definition name_is_master (inst : json) : exn + bool :=
  match py_subscript inst "Name" with
  | inl e => inl e
  | inr n => inr (is_master_name n)
  end.

(** [next((x for x in l if p(x)), None)] with a test that may raise. *)
Fixpoint py_find (p : json -> exn + bool) (l : list json) : exn + option json :=
  match l with
  | [] => inr None
  | x :: l' =>
      match p x with
      | inl e => inl e
      | inr true => inr (Some x)
      | inr false => py_find p l'
      end
  end.

(** [[x for x in l if p(x)]]. *)
Definition py_filter (p : json -> exn + bool) (l : list json) : exn + list json :=
  py_filter_map p inr l.
