(* ===== verification/Credentials.v ===== *)
(** * Reading the AWS credentials file: [get_aws_credentials] in
      [src/infrastructure/aws_infrastructure_utilities.py]

    [get_aws_credentials(profile)] expands [~/.aws/credentials], raises
    [FileNotFoundError] when the file does not exist, and otherwise reads
    it line by line: blank lines and comments are skipped, a line
    [[name]] selects the profile [name], and in the requested profile a
    line [key = value] sets [credentials[key]].  It raises [ValueError]
    when no credential was found, and returns the dict otherwise.

    The operating system is a record of the home directory, the text
    files and the directories ([os_state]): a path that does not exist
    raises [FileNotFoundError], a directory [IsADirectoryError].  The
    loop is a [fold_left] of [parse_line] over the lines of the file,
    with the loop's two variables as a record ([parse_state]); the dict is a [gmap], as no caller reads its order.
    The theorem [get_aws_credentials_type] is the type of the result: a
    non-empty map whose keys and values are stripped and whose keys hold
    no [=].  [get_aws_credentials_rendered] shows that the parser reads
    back a file written in the format ([render_credentials]): the result
    is the entries of every section of the profile, a later entry
    replacing an earlier one, or [ValueError] when there are none. *)

From Stdlib Require Import Ascii.
From S2P Require Import Prelude PyStr Json.

Module Credentials.

(** What the script reads of the operating system: the home directory
    ([HOME], or the password database without it), the regular files,
    by path, with their text, and the paths of the directories. *)
Record os_state : Type := mkOsState {
  home : string;
  text_files : gmap string string;
  directories : gset string
}.

(** [userhome.rstrip('/')]. *)
Fixpoint lstrip_slash (s : string) : string :=
  match s with
  | EmptyString => EmptyString
  | String c s' => if bool_decide (c = "/"%char) then lstrip_slash s' else s
  end.

Definition rstrip_slash (s : string) : string := string_rev (lstrip_slash (string_rev s)).

(** [os.path.expanduser('~' + rest)] for a [rest] that starts with [/]. *)
Definition expanduser (os : os_state) (rest : string) : string := rstrip_slash (home os) +:+ rest.

(** [for line in file] on a file opened in text mode: universal newlines
    end a line at [\n], [\r] or [\r\n], and a last line without
    terminator is still a line.  The terminator is left out; the loop
    strips every line first, and a terminator is whitespace, so this is
    the text the loop works on. *)
Fixpoint file_lines_go (s cur : string) : list string :=
  match s with
  | EmptyString => if bool_decide (cur = EmptyString) then [] else [cur]
  | String c s' =>
      if bool_decide (N_of_ascii c = 13%N) then
        match s' with
        | String c' s'' =>
            if bool_decide (N_of_ascii c' = 10%N) then cur :: file_lines_go s'' EmptyString
            else cur :: file_lines_go s' EmptyString
        | EmptyString => [cur]
        end
      else if bool_decide (N_of_ascii c = 10%N) then cur :: file_lines_go s' EmptyString
      else file_lines_go s' (cur +:+ String c EmptyString)
  end.

Definition file_lines (s : string) : list string := file_lines_go s EmptyString.

(** [s.endswith(suffix)]. *)
Definition py_endswith (suffix s : string) : bool := is_prefix (string_rev suffix) (string_rev s).

(** [s[1:-1]]. *)
Definition slice_inner (s : string) : string := string_rev (string_drop 1 (string_rev (string_drop 1 s))).

(** The variables of the loop: [current_profile] ([None] before the
    first header) and [credentials]. *)
Record parse_state : Type := mkParseState {
  current_profile : option string;
  credentials : gmap string string
}.

(** [not line or line.startswith('#') or line.startswith(';')]. *)
Definition skipped (line : string) : bool :=
  bool_decide (line = EmptyString) || is_prefix "#" line || is_prefix ";" line.

(** [line.startswith('[') and line.endswith(']')]. *)
Definition is_header (line : string) : bool := is_prefix "[" line && py_endswith "]" line.

(** One iteration of the loop, on the line as read. *)
Definition parse_line (profile : string) (st : parse_state) (raw : string) : parse_state :=
  let line := py_strip raw in
  if skipped line then st
  else if is_header line then mkParseState (Some (py_strip (slice_inner line))) (credentials st)
  else if bool_decide (current_profile st = Some profile) then
    (* [line.split('=', 1)] has two pieces exactly when [=] occurs. *)
    match break_at "=" line with
    | Some (key, value) =>
        mkParseState (current_profile st) (<[py_strip key := py_strip value]> (credentials st))
    | None => st
    end
  else st.

Definition credentials_path (os : os_state) : string := expanduser os "/.aws/credentials".

(** [get_aws_credentials(profile='default')]. *)
Definition get_aws_credentials (os : os_state) (profile : string) : exn + gmap string string :=
  let path := credentials_path os in
  if negb (bool_decide (is_Some (text_files os !! path) \/ path ∈ directories os)) then
    inl (FileNotFoundError ("Credentials file not found at " +:+ path))
  else
  match text_files os !! path with
  | None => inl (IsADirectoryError ("[Errno 21] Is a directory: '" +:+ path +:+ "'"))
  | Some content =>
      let st := fold_left (parse_line profile) (file_lines content) (mkParseState None ∅) in
      if bool_decide (credentials st = ∅) then
        inl (ValueError ("No credentials found for profile: " +:+ profile))
      else inr (credentials st)
  end.

End Credentials.

Module CredentialsProofs.
Import Credentials.

(** The type of an entry of the result: key and value are stripped,
    and the key holds no [=]. *)
Definition entry_ok (key value : string) : Prop :=
  py_strip key = key /\ py_strip value = value /\ has_char "=" key = false.

Lemma parse_line_entries profile st raw :
  map_Forall entry_ok (credentials st) -> map_Forall entry_ok (credentials (parse_line profile st raw)).
Proof.
  intros H. unfold parse_line.
  destruct (skipped _); [done|]. destruct (is_header _); [done|].
  case_bool_decide; [|done].
  destruct (break_at "=" _) as [[key value]|] eqn:Hb; [|done]. simpl.
  apply map_Forall_insert_2; [|done].
  split; [apply py_strip_idem|]. split; [apply py_strip_idem|].
  apply py_strip_has_char. by eapply break_at_char_some.
Qed.

Lemma fold_parse_entries profile lines st :
  map_Forall entry_ok (credentials st) ->
  map_Forall entry_ok (credentials (fold_left (parse_line profile) lines st)).
Proof.
  revert st. induction lines as [|raw lines IH]; intros st H; simpl; [done|].
  apply IH, parse_line_entries, H.
Qed.

(** C37: whenever [get_aws_credentials] returns, its dict is not empty,
    every key and every value is a stripped text (stripping it again
    changes nothing), and no key contains [=]: the line was split at its
    first [=]. *)
Theorem get_aws_credentials_type os profile creds :
  get_aws_credentials os profile = inr creds ->
  creds <> ∅ /\ map_Forall entry_ok creds.
Proof.
  unfold get_aws_credentials. destruct (negb _); [done|].
  destruct (text_files os !! _) as [content|]; [|done].
  case_bool_decide as Hempty; [done|]. intros [= <-]. split; [done|].
  apply fold_parse_entries, map_Forall_empty.
Qed.

(** ** Reading back a rendered file *)

Definition nl : string := String "010" EmptyString.

(** A file as [aws configure] writes it: one header per profile, then
    one [key=value] line per entry, each line ended by a newline. *)
Fixpoint render_lines (ls : list string) : string :=
  match ls with
  | [] => EmptyString
  | l :: ls' => l +:+ nl +:+ render_lines ls'
  end.

Definition render_entry (kv : string * string) : string := kv.1 +:+ "=" +:+ kv.2.

Definition render_section (sec : string * list (string * string)) : list string :=
  ("[" +:+ sec.1 +:+ "]") :: map render_entry sec.2.

Definition render_credentials (sections : list (string * list (string * string))) : string :=
  render_lines (flat_map render_section sections).

(** What the dict should hold: the entries of every section of the
    profile, in file order, a later entry replacing an earlier one. *)
Definition insert_entries (es : list (string * string)) (m : gmap string string) : gmap string string :=
  fold_left (fun m kv => <[kv.1 := kv.2]> m) es m.

Definition profile_credentials (profile : string) (sections : list (string * list (string * string)))
    : gmap string string :=
  fold_left (fun m sec => if bool_decide (sec.1 = profile) then insert_entries sec.2 m else m) sections ∅.

(** A line without end-of-line characters. *)
Definition no_eol (s : string) : Prop := has_char "010" s = false /\ has_char "013" s = false.

(** An entry the format can hold: stripped key and value, no [=] in the
    key, a first character that does not make the line a comment or a
    header, and no line break. *)
Definition entry_wf (kv : string * string) : Prop :=
  entry_ok kv.1 kv.2 /\ no_eol kv.1 /\ no_eol kv.2 /\
  match kv.1 +:+ "=" with
  | String c _ => c <> "#"%char /\ c <> ";"%char /\ c <> "["%char
  | EmptyString => False
  end.

Definition section_wf (sec : string * list (string * string)) : Prop :=
  py_strip sec.1 = sec.1 /\ no_eol sec.1 /\ Forall entry_wf sec.2.

Lemma ascii_N_inj c d : N_of_ascii c = N_of_ascii d -> c = d.
Proof. intros E. by rewrite <- (ascii_N_embedding c), <- (ascii_N_embedding d), E. Qed.

Lemma file_lines_go_line l rest cur :
  no_eol l -> file_lines_go (l +:+ nl +:+ rest) cur = (cur +:+ l) :: file_lines_go rest EmptyString.
Proof.
  revert cur. induction l as [|c l IH]; intros cur [H10 H13].
  - by rewrite string_app_nil_r.
  - simpl in H10, H13. apply orb_false_elim in H10 as [Hc10 H10], H13 as [Hc13 H13].
    apply bool_decide_eq_false in Hc10, Hc13.
    rewrite string_app_cons. simpl.
    rewrite (bool_decide_eq_false_2 (N_of_ascii c = 13%N)) by
      (intros E; apply Hc13, ascii_N_inj, E).
    rewrite (bool_decide_eq_false_2 (N_of_ascii c = 10%N)) by
      (intros E; apply Hc10, ascii_N_inj, E).
    rewrite IH by done. by rewrite string_app_assoc.
Qed.

Lemma file_lines_render ls : Forall no_eol ls -> file_lines (render_lines ls) = ls.
Proof.
  unfold file_lines. induction 1 as [|l ls Hl _ IH]; [done|]. simpl.
  by rewrite file_lines_go_line, IH.
Qed.

Lemma no_eol_app a b : no_eol a -> no_eol b -> no_eol (a +:+ b).
Proof. intros [Ha1 Ha2] [Hb1 Hb2]. split; by rewrite has_char_app, ?Ha1, ?Hb1, ?Ha2, ?Hb2. Qed.

Lemma no_eol_char c : c <> "010"%char -> c <> "013"%char -> no_eol (String c EmptyString).
Proof. intros H1 H2. split; simpl; rewrite orb_false_r; by apply bool_decide_eq_false_2. Qed.

Lemma render_section_no_eol sec : section_wf sec -> Forall no_eol (render_section sec).
Proof.
  intros (_ & Hq & Hes). constructor.
  - apply no_eol_app; [by apply no_eol_char|]. apply no_eol_app; [done|]. by apply no_eol_char.
  - apply Forall_map. eapply Forall_impl; [exact Hes|]. intros [k v] (_ & Hk & Hv & _).
    apply no_eol_app; [done|]. apply no_eol_app; [by apply no_eol_char|done].
Qed.

(** A line whose first character is none of [#], [;], [[] is neither
    skipped nor a header. *)
Lemma skipped_cons c r : c <> "#"%char -> c <> ";"%char -> skipped (String c r) = false.
Proof.
  intros H1 H2. unfold skipped. rewrite bool_decide_eq_false_2 by done. simpl.
  by rewrite !bool_decide_eq_false_2 by congruence.
Qed.

Lemma is_header_cons c r : c <> "["%char -> is_header (String c r) = false.
Proof. intros H. unfold is_header. simpl. by rewrite bool_decide_eq_false_2 by congruence. Qed.

Lemma header_stripped q : py_strip q = q -> py_strip ("[" +:+ q +:+ "]") = "[" +:+ q +:+ "]".
Proof.
  intros Hq. apply py_strip_fixed. split.
  - by apply lstrip_app_l.
  - rewrite <- string_app_assoc. by apply rstrip_app_r.
Qed.

Lemma is_header_bracket q : is_header ("[" +:+ q +:+ "]") = true.
Proof.
  unfold is_header, py_endswith. rewrite !string_rev_app_distr, string_app_assoc. simpl.
  by rewrite ?is_prefix_app.
Qed.

Lemma slice_inner_bracket q : slice_inner ("[" +:+ q +:+ "]") = q.
Proof.
  unfold slice_inner. change (string_drop 1 ("[" +:+ q +:+ "]")) with (q +:+ "]").
  rewrite string_rev_app_distr. change (string_drop 1 ("]" +:+ string_rev q)) with (string_rev q).
  apply string_rev_involutive.
Qed.

(** A header line selects its profile and keeps the dict. *)
Lemma parse_header profile st q :
  py_strip q = q -> parse_line profile st ("[" +:+ q +:+ "]") = mkParseState (Some q) (credentials st).
Proof.
  intros Hq. unfold parse_line. rewrite header_stripped by done.
  rewrite string_app_cons, string_app_nil_l, skipped_cons by done.
  rewrite <- (string_app_nil_l (q +:+ "]")), <- string_app_cons.
  by rewrite is_header_bracket, slice_inner_bracket, Hq.
Qed.

Lemma entry_stripped kv : entry_wf kv -> py_strip (render_entry kv) = render_entry kv.
Proof.
  destruct kv as [k v]. intros ((Hk & Hv & _) & _). unfold render_entry; simpl in *.
  apply py_strip_fixed in Hk as [Hkl _], Hv as [_ Hvr]. apply py_strip_fixed. split.
  - destruct k as [|c k]; [rewrite string_app_nil_l; by apply lstrip_app_l|]. by apply lstrip_app_l.
  - destruct v as [|c v].
    + rewrite string_app_nil_r. by apply rstrip_app_r.
    + rewrite <- string_app_assoc. by apply rstrip_app_r.
Qed.

Lemma entry_head kv : entry_wf kv ->
  exists c r, render_entry kv = String c r /\ c <> "#"%char /\ c <> ";"%char /\ c <> "["%char.
Proof.
  destruct kv as [k v]. intros (_ & _ & _ & Hh). unfold render_entry; simpl in *.
  rewrite <- string_app_assoc. destruct (k +:+ "=") as [|c r]; [done|].
  exists c, (r +:+ v). by rewrite string_app_cons.
Qed.

(** An entry line of the selected profile sets its key; of another
    profile, changes nothing. *)
Lemma parse_entry profile q m kv :
  entry_wf kv ->
  parse_line profile (mkParseState (Some q) m) (render_entry kv) =
    mkParseState (Some q) (if bool_decide (q = profile) then <[kv.1 := kv.2]> m else m).
Proof.
  intros Hwf. unfold parse_line. rewrite entry_stripped by done.
  destruct (entry_head kv Hwf) as (c & r & Hcr & H1 & H2 & H3).
  rewrite Hcr, skipped_cons, is_header_cons by done. rewrite <- Hcr. simpl.
  destruct kv as [k v]. destruct Hwf as ((Hk & Hv & Heq) & _). unfold render_entry. simpl.
  destruct (decide (q = profile)) as [<-|Hne].
  - rewrite !bool_decide_eq_true_2 by done. by rewrite (string_app_cons _ EmptyString v), string_app_nil_l, break_at_char_app; simpl in *; rewrite ?Hk, ?Hv.
  - by rewrite !bool_decide_eq_false_2 by congruence.
Qed.

Lemma parse_entries profile q m es :
  Forall entry_wf es ->
  fold_left (parse_line profile) (map render_entry es) (mkParseState (Some q) m) =
    mkParseState (Some q) (if bool_decide (q = profile) then insert_entries es m else m).
Proof.
  intros Hes. revert m. induction Hes as [|kv es Hkv _ IH]; intros m; simpl.
  - by case_bool_decide.
  - rewrite parse_entry, IH by done. by case_bool_decide.
Qed.

Lemma parse_sections profile st secs :
  Forall section_wf secs ->
  credentials (fold_left (parse_line profile) (flat_map render_section secs) st) =
    fold_left (fun m sec => if bool_decide (sec.1 = profile) then insert_entries sec.2 m else m)
      secs (credentials st).
Proof.
  intros Hs. revert st. induction Hs as [|[q es] secs (Hq & _ & Hes) _ IH]; intros st; [done|].
  simpl. rewrite fold_left_app, parse_header, parse_entries, IH by done. done.
Qed.

(** C38: [get_aws_credentials] reads back a file written in the format
    ([render_credentials]: a [[name]] line per section, then a
    [key=value] line per entry): it returns the entries of every section
    of the requested profile, in file order, a later entry replacing an
    earlier one, and raises [ValueError] when there are none. *)
Theorem get_aws_credentials_rendered os profile sections :
  Forall section_wf sections ->
  text_files os !! credentials_path os = Some (render_credentials sections) ->
  get_aws_credentials os profile =
    if bool_decide (profile_credentials profile sections = ∅)
    then inl (ValueError ("No credentials found for profile: " +:+ profile))
    else inr (profile_credentials profile sections).
Proof.
  intros Hwf Hf. unfold get_aws_credentials, render_credentials in *. rewrite Hf.
  rewrite (bool_decide_eq_true_2 (is_Some _ \/ _)) by (left; by eexists). cbn [negb].
  rewrite file_lines_render.
  - by rewrite parse_sections.
  - apply Forall_flat_map. eapply Forall_impl; [exact Hwf|]. apply render_section_no_eol.
Qed.

End CredentialsProofs.

Module CredentialsWitness.
Import Credentials.

Definition nl : string := String "010" EmptyString.

(** A credentials file with two profiles, a comment, spaces around the
    [=] and a value that holds [=]. *)
Definition credentials_file : string :=
  "# written by aws configure" +:+ nl +:+
  "[default]" +:+ nl +:+
  "aws_access_key_id = AKIAEXAMPLE" +:+ nl +:+
  "aws_secret_access_key=abc/def=" +:+ nl +:+
  "[ other ]" +:+ nl +:+
  "aws_access_key_id = AKIAOTHER" +:+ nl.

Definition machine : os_state :=
  mkOsState "/home/ubuntu/" {[ "/home/ubuntu/.aws/credentials" := credentials_file ]} ∅.

Lemma get_aws_credentials_type_witness :
  get_aws_credentials machine "default" =
    inr {[ "aws_access_key_id" := "AKIAEXAMPLE"; "aws_secret_access_key" := "abc/def=" ]} /\
  map_Forall CredentialsProofs.entry_ok
    ({[ "aws_access_key_id" := "AKIAEXAMPLE"; "aws_secret_access_key" := "abc/def=" ]} : gmap string string).
Proof.
  assert (H : get_aws_credentials machine "default" =
    inr {[ "aws_access_key_id" := "AKIAEXAMPLE"; "aws_secret_access_key" := "abc/def=" ]}).
  { vm_compute. reflexivity. }
  split; [exact H|]. exact (proj2 (CredentialsProofs.get_aws_credentials_type _ _ _ H)).
Defined.

(** Two sections of [default], with another profile between them. *)
Definition sections : list (string * list (string * string)) :=
  [("default", [("aws_access_key_id", "AKIAEXAMPLE"); ("aws_secret_access_key", "abc/def=")]);
   ("other", [("aws_access_key_id", "AKIAOTHER")]);
   ("default", [("aws_access_key_id", "AKIANEW")])].

Definition rendered_machine : os_state :=
  mkOsState "/home/ubuntu" {[ "/home/ubuntu/.aws/credentials" := CredentialsProofs.render_credentials sections ]} ∅.

Lemma get_aws_credentials_rendered_witness :
  get_aws_credentials rendered_machine "default" =
    inr {[ "aws_access_key_id" := "AKIANEW"; "aws_secret_access_key" := "abc/def=" ]}.
Proof.
  rewrite (CredentialsProofs.get_aws_credentials_rendered rendered_machine "default" sections).
  - vm_compute. reflexivity.
  - repeat constructor; vm_compute; try reflexivity; discriminate.
  - vm_compute. reflexivity.
Defined.

(** [~/.aws/credentials] is a directory: [os.path.exists] holds and
    [open] raises. *)
Example credentials_directory :
  get_aws_credentials (mkOsState "/home/ubuntu" ∅ {[ "/home/ubuntu/.aws/credentials" ]}) "default" =
    inl (IsADirectoryError "[Errno 21] Is a directory: '/home/ubuntu/.aws/credentials'").
Proof. vm_compute. reflexivity. Qed.

End CredentialsWitness.
