(* ===== verification/Script.v ===== *)
(** * Scripts: the effect monad of the provisioning and setup scripts

    The scripts under [src/infrastructure/] and [sysbench_setup.py] are
    straight-line Python that calls an outside world (boto3, requests,
    paramiko, the shell, the disk) and may raise.  A script is a function
    of an [oracle], which answers each call given the calls that took
    effect before it (so the world may keep state), and of that history;
    it returns the calls it made that took effect, in order, and its value
    or the exception that stopped it.  [try_except] is a [try] with its
    [except] clauses, [try_finally] a [try ... finally].

    The file proves the monad laws, pointwise, and a small logic
    [calls_in P m] (every call [m] can make satisfies [P]), whose rules
    are in the hint database [script] and are applied by [calls_in_auto]. *)

From S2P Require Import Prelude Json.

Section Script.
Context {C R : Type}.

(** The world: the answer to a call, given the calls that took effect. *)
Definition oracle := list C -> C -> exn + R.

Definition M (A : Type) := oracle -> list C -> list C * (exn + A).

Definition ret {A} (x : A) : M A := fun _ _ => ([], inr x).

Definition bind {A B} (m : M A) (k : A -> M B) : M B := fun o h =>
  let '(l1, r) := m o h in
  match r with
  | inl e => (l1, inl e)
  | inr a => let '(l2, r2) := k a o (h ++ l1) in (l1 ++ l2, r2)
  end.

Definition raise {A} (e : exn) : M A := fun _ _ => ([], inl e).

Definition lift {A} (r : exn + A) : M A := fun _ _ => ([], r).

(** A call takes effect when it returns. *)
Definition call (c : C) : M R := fun o h =>
  match o h c with
  | inl e => ([], inl e)
  | inr v => ([c], inr v)
  end.

(** [try: m except ...]: [hd e] is the handler of the clause that
    matches [e], if one does. *)
Definition try_except {A} (m : M A) (hd : exn -> option (M A)) : M A := fun o h =>
  let '(l, r) := m o h in
  match r with
  | inr a => (l, inr a)
  | inl e => match hd e with
             | None => (l, inl e)
             | Some k => let '(l2, r2) := k o (h ++ l) in (l ++ l2, r2)
             end
  end.

(** The handler of [except Exception]: every exception but [SystemExit]. *)
Definition except_exception {A} (k : M A) (e : exn) : option (M A) :=
  match e with SystemExit _ => None | _ => Some k end.

(** The handler of [except Exception as e]. *)
Definition except_exception_as {A} (k : exn -> M A) (e : exn) : option (M A) :=
  match e with SystemExit _ => None | _ => Some (k e) end.

(** The outcome of [m] as a value: what a [try] around one statement
    tells the code after it. *)
Definition catch {A} (m : M A) : M (exn + A) := fun o h =>
  let '(l, r) := m o h in (l, inr r).

(** [try: m finally: f]: [f] runs in both cases; its own exception wins. *)
Definition try_finally {A} (m : M A) (f : M unit) : M A := fun o h =>
  let '(l, r) := m o h in
  let '(l2, r2) := f o (h ++ l) in
  (l ++ l2, match r2 with inl e => inl e | inr _ => r end).

(** [for x in xs: body(x)]. *)
Fixpoint for_each {X} (xs : list X) (body : X -> M unit) : M unit :=
  match xs with
  | [] => ret tt
  | x :: xs' => bind (body x) (fun _ => for_each xs' body)
  end.

(** A script of another world run inside this one: each of its calls [c]
    is the call [f c] here, and it sees the history so far. *)
Definition embed {C1 A} (f : C1 -> C)
    (m : (list C1 -> C1 -> exn + R) -> list C1 -> list C1 * (exn + A)) : M A := fun o h =>
  let '(l, r) := m (fun h1 c => o (h ++ map f h1) (f c)) [] in (map f l, r).

End Script.

Arguments oracle : clear implicits.
Arguments M : clear implicits.

Declare Scope script_scope.
Delimit Scope script_scope with script.
Notation "x <- m ;; k" := (bind m (fun x => k))
  (at level 100, m at next level, right associativity) : script_scope.
Notation "m ;;; k" := (bind m (fun _ => k))
  (at level 100, right associativity) : script_scope.

Section Laws.
Context {C R : Type}.
Implicit Types o : oracle C R.

Lemma bind_ret_l {A B} (x : A) (k : A -> M C R B) o h : bind (ret x) k o h = k x o h.
Proof. unfold bind, ret. rewrite app_nil_r. by destruct (k x o h). Qed.

Lemma bind_ret_r {A} (m : M C R A) o h : bind m ret o h = m o h.
Proof. unfold bind, ret. destruct (m o h) as [l [e|a]]; by rewrite ?app_nil_r. Qed.

Lemma bind_assoc {A B D} (m : M C R A) (f : A -> M C R B) (g : B -> M C R D) o h :
  bind (bind m f) g o h = bind m (fun x => bind (f x) g) o h.
Proof.
  unfold bind. destruct (m o h) as [l [e|a]]; [done|].
  destruct (f a o (h ++ l)) as [l2 [e2|b]]; [done|].
  rewrite app_assoc. destruct (g b o ((h ++ l) ++ l2)) as [l3 r3]. by rewrite app_assoc.
Qed.

Lemma bind_lift_inr {A B} (a : A) (k : A -> M C R B) o h : bind (lift (inr a)) k o h = k a o h.
Proof. apply bind_ret_l. Qed.

Lemma bind_ok {A B} (m : M C R A) (k : A -> M C R B) o h l a :
  m o h = (l, inr a) -> bind m k o h = (l ++ (k a o (h ++ l)).1, (k a o (h ++ l)).2).
Proof. unfold bind. intros ->. by destruct (k a o (h ++ l)). Qed.

Lemma bind_err {A B} (m : M C R A) (k : A -> M C R B) o h l e :
  m o h = (l, inl e) -> bind m k o h = (l, inl e).
Proof. unfold bind. by intros ->. Qed.

(** A call in the log of [m] then [k] is a call of [m], or a call of [k]
    once [m] returned. *)
Lemma bind_log_in {A B} (m : M C R A) (k : A -> M C R B) o h c :
  c ∈ (bind m k o h).1 ->
  c ∈ (m o h).1 \/
  exists l a, m o h = (l, inr a) /\ (bind m k o h).1 = l ++ (k a o (h ++ l)).1 /\ c ∈ (k a o (h ++ l)).1.
Proof.
  destruct (m o h) as [l [e|a]] eqn:Hm.
  - rewrite (bind_err _ _ _ _ _ _ Hm). by left.
  - rewrite (bind_ok _ _ _ _ _ _ Hm). cbn [fst]. intros [Hl|Hk]%elem_of_app; [by left|].
    right. by exists l, a.
Qed.

(** ** What calls a script can make *)

Definition calls_in {A} (P : C -> Prop) (m : M C R A) : Prop :=
  forall o h c, c ∈ (m o h).1 -> P c.

Lemma calls_in_ret {A} P (x : A) : calls_in P (ret x).
Proof. intros o h c Hc. by apply elem_of_nil in Hc. Qed.

Lemma calls_in_lift {A} P (r : exn + A) : calls_in P (lift r).
Proof. intros o h c Hc. by apply elem_of_nil in Hc. Qed.

Lemma calls_in_raise {A} P e : calls_in (A:=A) P (raise e).
Proof. intros o h c Hc. by apply elem_of_nil in Hc. Qed.

Lemma calls_in_call P c : P c -> calls_in P (call c).
Proof.
  intros Hc o h c'. unfold call. destruct (o h c); simpl; [by intros ?%elem_of_nil|].
  by intros ->%list_elem_of_singleton.
Qed.

Lemma calls_in_bind {A B} P (m : M C R A) (k : A -> M C R B) :
  calls_in P m -> (forall a, calls_in P (k a)) -> calls_in P (bind m k).
Proof.
  intros Hm Hk o h c [Hc | (l & a & _ & _ & Hc)]%bind_log_in; [by eapply Hm | by eapply Hk].
Qed.

Lemma calls_in_try {A} P (m : M C R A) hd :
  calls_in P m -> (forall e k, hd e = Some k -> calls_in P k) -> calls_in P (try_except m hd).
Proof.
  intros Hm Hh o h c. unfold try_except. destruct (m o h) as [l [e|a]] eqn:Ho.
  - destruct (hd e) as [k|] eqn:He; [|intros Hc; eapply Hm; by rewrite Ho].
    destruct (k o (h ++ l)) as [l2 r2] eqn:Hko. intros [Hc|Hc]%elem_of_app.
    + eapply Hm. by rewrite Ho.
    + eapply (Hh e k He o). by rewrite Hko.
  - intros Hc. eapply Hm. by rewrite Ho.
Qed.

Lemma calls_in_finally {A} P (m : M C R A) f :
  calls_in P m -> calls_in P f -> calls_in P (try_finally m f).
Proof.
  intros Hm Hf o h c. unfold try_finally. destruct (m o h) as [l r] eqn:Ho.
  destruct (f o (h ++ l)) as [l2 r2] eqn:Hfo. intros [Hc|Hc]%elem_of_app.
  - eapply Hm. by rewrite Ho.
  - eapply Hf. by rewrite Hfo.
Qed.

Lemma calls_in_for_each {X} P (xs : list X) body :
  (forall x, calls_in P (body x)) -> calls_in P (for_each xs body).
Proof.
  intros Hb. induction xs as [|x xs IH]; simpl; [apply calls_in_ret|].
  apply calls_in_bind; [apply Hb | intros _; apply IH].
Qed.

(** ** Inversion of a script that returned *)

Lemma bind_inr_inv {A B} (m : M C R A) (k : A -> M C R B) o h l b :
  bind m k o h = (l, inr b) ->
  exists l1 a l2, m o h = (l1, inr a) /\ k a o (h ++ l1) = (l2, inr b) /\ l = l1 ++ l2.
Proof.
  unfold bind. destruct (m o h) as [l1 [e|a]]; [done|].
  destruct (k a o (h ++ l1)) as [l2 r2] eqn:Hk. intros [= <- ->]. by exists l1, a, l2.
Qed.

Lemma call_inr_inv c o h l v : call (C:=C) (R:=R) c o h = (l, inr v) -> l = [c] /\ o h c = inr v.
Proof. unfold call. by destruct (o h c); intros [= <- <-]. Qed.

Lemma lift_inr_inv {A} (r : exn + A) o h l a : lift (C:=C) (R:=R) r o h = (l, inr a) -> l = [] /\ r = inr a.
Proof. unfold lift. by intros [= <- ->]. Qed.

Lemma ret_inr_inv {A} (x : A) o h l a : ret (C:=C) (R:=R) x o h = (l, inr a) -> l = [] /\ x = a.
Proof. unfold ret. by intros [= <- <-]. Qed.

(** Each pass of a loop that ran to its end returned, and its calls are
    calls of the loop. *)
Lemma for_each_inr_inv {X} (xs : list X) body o h l :
  for_each xs body o h = (l, inr tt) ->
  forall x, x ∈ xs -> exists h' l', body x o h' = (l', inr tt) /\ l' ⊆ l.
Proof.
  revert h l. induction xs as [|y xs IH]; intros h l Hrun x Hx; [by apply elem_of_nil in Hx|].
  simpl in Hrun. apply bind_inr_inv in Hrun as (l1 & [] & l2 & Hb & Hrest & ->).
  apply elem_of_cons in Hx as [->|Hx].
  - exists h, l1. split; [done|]. set_solver.
  - destruct (IH _ _ Hrest x Hx) as (h' & l' & Hx' & Hsub). exists h', l'. split; [done|]. set_solver.
Qed.

Lemma calls_in_for_each_in {X} P (xs : list X) body :
  (forall x, x ∈ xs -> calls_in P (body x)) -> calls_in P (for_each xs body).
Proof.
  intros Hb. induction xs as [|x xs IH]; simpl; [apply calls_in_ret|].
  apply calls_in_bind; [apply Hb; set_solver | intros _; apply IH; set_solver].
Qed.

Lemma calls_in_True {A} (m : M C R A) : calls_in (fun _ => True) m.
Proof. done. Qed.

Lemma calls_in_weaken {A} (P Q : C -> Prop) (m : M C R A) :
  (forall c, P c -> Q c) -> calls_in P m -> calls_in Q m.
Proof. intros HPQ Hm o h c Hc. by apply HPQ, (Hm o h). Qed.

End Laws.

Lemma calls_in_embed {C C1 R A} (f : C1 -> C) (P : C1 -> Prop) (Q : C -> Prop) (m : M C1 R A) :
  calls_in P m -> (forall c1, P c1 -> Q (f c1)) -> calls_in Q (embed f m).
Proof.
  intros Hm HPQ o h c. unfold embed.
  destruct (m _ []) as [l r] eqn:Hrun. simpl. intros (c1 & -> & Hc1)%list_elem_of_fmap.
  apply HPQ. eapply Hm. by rewrite Hrun.
Qed.

Lemma embed_inr_inv {C C1 R A} (f : C1 -> C) (m : M C1 R A) (o : oracle C R) h l a :
  embed f m o h = (l, inr a) ->
  exists l1, m (fun h1 c => o (h ++ map f h1) (f c)) [] = (l1, inr a) /\ l = map f l1.
Proof. unfold embed. destruct (m _ []) as [l1 r]. intros [= <- ->]. by exists l1. Qed.


(** ** What a script does in a world that answers every call *)

Section Emits.
Context {C R D : Type} {W : oracle C R -> Prop}.
Implicit Types o : oracle C R.

(** A world that answers every call, whatever it answers. *)
Definition answers o : Prop := forall h c, exists r, o h c = inr r.

(** [m] returns in every world that answers and satisfies [W], and the
    calls it makes that [sel] selects are [ds], in order: whatever else
    the answers are. *)
Definition emits_in (W : oracle C R -> Prop) {A} (sel : C -> option D) (ds : list D) (m : M C R A)
    : Prop :=
  forall o h, W o -> answers o -> exists l a, m o h = (l, inr a) /\ omap sel l = ds.

(** The same in every world that answers. *)
Definition emits {A} (sel : C -> option D) (ds : list D) (m : M C R A) : Prop :=
  emits_in (fun _ => True) sel ds m.

Lemma emits_ret {A} sel (x : A) : emits_in W sel [] (ret x).
Proof. intros o h _ _. by exists [], x. Qed.

Lemma emits_lift_inr {A} sel (a : A) : emits_in W sel [] (lift (inr a)).
Proof. intros o h _ _. by exists [], a. Qed.

Lemma emits_call sel c : emits_in W sel (match sel c with Some d => [d] | None => [] end) (call c).
Proof.
  intros o h HW Ho. destruct (Ho h c) as [r Hr]. exists [c], r. unfold call. rewrite Hr.
  split; [done|]. simpl. by destruct (sel c).
Qed.

Lemma emits_eq {A} sel ds ds' (m : M C R A) : emits_in W sel ds m -> ds = ds' -> emits_in W sel ds' m.
Proof. by intros ? <-. Qed.

Lemma emits_call_eq sel c ds :
  ds = match sel c with Some d => [d] | None => [] end -> emits_in W sel ds (call c).
Proof. intros ->. apply emits_call. Qed.

Lemma emits_bind {A B} sel ds ds1 ds2 (m : M C R A) (k : A -> M C R B) :
  emits_in W sel ds1 m -> (forall a, emits_in W sel ds2 (k a)) -> ds = ds1 ++ ds2 -> emits_in W sel ds (bind m k).
Proof.
  intros Hm Hk -> o h HW Ho. destruct (Hm o h HW Ho) as (l1 & a & Hm1 & Hs1).
  destruct (Hk a o (h ++ l1) HW Ho) as (l2 & b & Hk2 & Hs2).
  exists (l1 ++ l2), b. rewrite (bind_ok _ _ _ _ _ _ Hm1), Hk2. split; [done|].
  by rewrite omap_app, Hs1, Hs2.
Qed.

Lemma emits_for_each {X} sel (f : X -> list D) (xs : list X) body :
  (forall x, emits_in W sel (f x) (body x)) -> emits_in W sel (concat (map f xs)) (for_each xs body).
Proof.
  intros Hb. induction xs as [|x xs IH]; simpl; [apply emits_ret|].
  eapply emits_bind; [apply Hb | intros _; apply IH | done].
Qed.

Lemma emits_try {A} sel ds (m : M C R A) hd : emits_in W sel ds m -> emits_in W sel ds (try_except m hd).
Proof.
  intros Hm o h HW Ho. destruct (Hm o h HW Ho) as (l & a & Hrun & Hs). exists l, a.
  unfold try_except. by rewrite Hrun.
Qed.

Lemma emits_finally {A} sel ds ds1 ds2 (m : M C R A) f :
  emits_in W sel ds1 m -> emits_in W sel ds2 f -> ds = ds1 ++ ds2 -> emits_in W sel ds (try_finally m f).
Proof.
  intros Hm Hf -> o h HW Ho. destruct (Hm o h HW Ho) as (l1 & a & Hm1 & Hs1).
  destruct (Hf o (h ++ l1) HW Ho) as (l2 & [] & Hf2 & Hs2). exists (l1 ++ l2), a.
  unfold try_finally. rewrite Hm1, Hf2. split; [done|]. by rewrite omap_app, Hs1, Hs2.
Qed.

(** A [catch]ed script that returns: the code after it sees its value. *)
Lemma emits_catch_bind {A B} sel ds ds1 ds2 (m : M C R A) (k : exn + A -> M C R B) :
  emits_in W sel ds1 m -> (forall a, emits_in W sel ds2 (k (inr a))) -> ds = ds1 ++ ds2 ->
  emits_in W sel ds (bind (catch m) k).
Proof.
  intros Hm Hk -> o h HW Ho. destruct (Hm o h HW Ho) as (l1 & a & Hm1 & Hs1).
  destruct (Hk a o (h ++ l1) HW Ho) as (l2 & b & Hk2 & Hs2). exists (l1 ++ l2), b.
  assert (Hc : catch m o h = (l1, inr (inr a))) by (unfold catch; by rewrite Hm1).
  rewrite (bind_ok _ _ _ _ _ _ Hc), Hk2. split; [done|]. by rewrite omap_app, Hs1, Hs2.
Qed.

Lemma emits_for_each_nil {X} sel (xs : list X) body :
  (forall x, emits_in W sel [] (body x)) -> emits_in W sel [] (for_each xs body).
Proof.
  intros Hb. induction xs as [|x xs IH]; simpl; [apply emits_ret|].
  eapply emits_bind; [apply Hb | intros _; apply IH | done].
Qed.

Lemma emits_in_weaken {A} (W' : oracle C R -> Prop) sel ds (m : M C R A) :
  emits_in W' sel ds m -> (forall o, W o -> W' o) -> emits_in W sel ds m.
Proof. intros Hm HW' o h HW Ho. apply Hm; auto. Qed.

(** A call whose answer the world [W] fixes: the code after it sees an
    answer that satisfies [P]. *)
Lemma emits_call_known {B} (P : R -> Prop) sel ds ds2 c (k : R -> M C R B) :
  (forall o h, W o -> exists v, o h c = inr v /\ P v) ->
  (forall v, P v -> emits_in W sel ds2 (k v)) ->
  ds = match sel c with Some d => d :: ds2 | None => ds2 end ->
  emits_in W sel ds (bind (call c) k).
Proof.
  intros Hc Hk -> o h HW Ho. destruct (Hc o h HW) as (v & Hv & HP).
  destruct (Hk v HP o (h ++ [c]) HW Ho) as (l2 & b & Hk2 & Hs2). exists (c :: l2), b.
  assert (Hcall : call c o h = ([c], inr v)) by (unfold call; by rewrite Hv).
  rewrite (bind_ok _ _ _ _ _ _ Hcall), Hk2. split; [done|].
  change (c :: l2) with ([c] ++ l2). rewrite omap_app, Hs2. simpl. by destruct (sel c).
Qed.

(** The same, with a property [P] of the value returned: what a loop
    that threads a value needs. *)
Definition emits_post {A} (sel : C -> option D) (ds : list D) (P : A -> Prop) (m : M C R A) : Prop :=
  forall o h, W o -> answers o -> exists l a, m o h = (l, inr a) /\ omap sel l = ds /\ P a.

Lemma emits_post_ret {A} sel (P : A -> Prop) x : P x -> emits_post sel [] P (ret x).
Proof. intros Hx o h _ _. by exists [], x. Qed.

Lemma emits_post_bind {A B} sel ds ds1 ds2 (P : A -> Prop) (Q : B -> Prop) (m : M C R A)
    (k : A -> M C R B) :
  emits_post sel ds1 P m -> (forall a, P a -> emits_post sel ds2 Q (k a)) -> ds = ds1 ++ ds2 ->
  emits_post sel ds Q (bind m k).
Proof.
  intros Hm Hk -> o h HW Ho. destruct (Hm o h HW Ho) as (l1 & a & Hm1 & Hs1 & Ha).
  destruct (Hk a Ha o (h ++ l1) HW Ho) as (l2 & b & Hk2 & Hs2 & Hb).
  exists (l1 ++ l2), b. rewrite (bind_ok _ _ _ _ _ _ Hm1), Hk2. split_and!; [done| |done].
  by rewrite omap_app, Hs1, Hs2.
Qed.

Lemma emits_post_of {A} sel ds (m : M C R A) : emits_in W sel ds m -> emits_post sel ds (fun _ => True) m.
Proof. intros Hm o h HW Ho. destruct (Hm o h HW Ho) as (l & a & ? & ?). by exists l, a. Qed.

Lemma emits_of_post {A} sel ds P (m : M C R A) : emits_post sel ds P m -> emits_in W sel ds m.
Proof. intros Hm o h HW Ho. destruct (Hm o h HW Ho) as (l & a & ? & ? & _). by exists l, a. Qed.

(** A [catch] of a script that raises [e] without a call. *)
Lemma catch_raised {A B} (m : M C R A) (k : exn + A -> M C R B) e o h :
  m o h = ([], inl e) -> bind (catch m) k o h = k (inl e) o h.
Proof. intros Hm. unfold bind, catch. rewrite Hm, app_nil_r. by destruct (k (inl e) o h). Qed.

Lemma emits_post_ext {A} sel ds P (m m' : M C R A) :
  (forall o h, m o h = m' o h) -> emits_post sel ds P m' -> emits_post sel ds P m.
Proof. intros Hext Hm o h HW Ho. rewrite Hext. by apply Hm. Qed.

Lemma emits_post_catch_bind {A B} sel ds ds1 ds2 (P : A -> Prop) (Q : B -> Prop) (m : M C R A)
    (k : exn + A -> M C R B) :
  emits_post sel ds1 P m -> (forall a, P a -> emits_post sel ds2 Q (k (inr a))) -> ds = ds1 ++ ds2 ->
  emits_post sel ds Q (bind (catch m) k).
Proof.
  intros Hm Hk -> o h HW Ho. destruct (Hm o h HW Ho) as (l1 & a & Hm1 & Hs1 & Ha).
  destruct (Hk a Ha o (h ++ l1) HW Ho) as (l2 & b & Hk2 & Hs2 & Hb). exists (l1 ++ l2), b.
  assert (Hc : catch m o h = (l1, inr (inr a))) by (unfold catch; by rewrite Hm1).
  rewrite (bind_ok _ _ _ _ _ _ Hc), Hk2. split_and!; [done| |done]. by rewrite omap_app, Hs1, Hs2.
Qed.

Lemma emits_post_call_known {B} (P : R -> Prop) sel ds ds2 c (Q : B -> Prop) (k : R -> M C R B) :
  (forall o h, W o -> exists v, o h c = inr v /\ P v) ->
  (forall v, P v -> emits_post sel ds2 Q (k v)) ->
  ds = match sel c with Some d => d :: ds2 | None => ds2 end ->
  emits_post sel ds Q (bind (call c) k).
Proof.
  intros Hc Hk -> o h HW Ho. destruct (Hc o h HW) as (v & Hv & HP).
  destruct (Hk v HP o (h ++ [c]) HW Ho) as (l2 & b & Hk2 & Hs2 & Hb). exists (c :: l2), b.
  assert (Hcall : call c o h = ([c], inr v)) by (unfold call; by rewrite Hv).
  rewrite (bind_ok _ _ _ _ _ _ Hcall), Hk2. split_and!; [done| |done].
  change (c :: l2) with ([c] ++ l2). rewrite omap_app, Hs2. simpl. by destruct (sel c).
Qed.

Lemma emits_post_mono {A} sel ds (P Q : A -> Prop) (m : M C R A) :
  emits_post sel ds P m -> (forall a, P a -> Q a) -> emits_post sel ds Q m.
Proof. intros Hm HPQ o h HW Ho. destruct (Hm o h HW Ho) as (l & a & ? & ? & ?). exists l, a. auto. Qed.

End Emits.

(** Selecting from what [sel] selects. *)
Lemma emits_omap {C R D E A} W (sel : C -> option D) (f : D -> option E) ds (m : M C R A) :
  emits_in W sel ds m ->
  emits_in W (fun c => match sel c with Some d => f d | None => None end) (omap f ds) m.
Proof.
  intros Hm o h HW Ho. destruct (Hm o h HW Ho) as (l & a & Hrun & Hs). exists l, a.
  split; [done|]. subst ds. clear. induction l as [|c l IH]; [done|].
  cbn [omap list_omap] in *. destruct (sel c) as [d|]; cbn [omap list_omap]; [destruct (f d)|]; by rewrite IH.
Qed.


(** ** Which exceptions a script can raise *)

Section Raises.
Context {C R : Type}.
Implicit Types o : oracle C R.

(** Every exception [m] raises satisfies [P], in a world whose
    exceptions do. *)
Definition raises_in {A} (P : exn -> Prop) (m : M C R A) : Prop :=
  forall o h l e, (forall h' c e', o h' c = inl e' -> P e') -> m o h = (l, inl e) -> P e.

Lemma raises_in_ret {A} P (x : A) : raises_in P (ret x).
Proof. by intros o h l e _ [=]. Qed.

Lemma raises_in_call P c : raises_in P (call c).
Proof. intros o h l e Ho. unfold call. destruct (o h c) eqn:Hc; intros [= _ <-]. by eapply Ho. Qed.

Lemma raises_in_bind {A B} P (m : M C R A) (k : A -> M C R B) :
  raises_in P m -> (forall a, raises_in P (k a)) -> raises_in P (bind m k).
Proof.
  intros Hm Hk o h l e Ho. unfold bind. destruct (m o h) as [l1 [e1|a]] eqn:Hm1.
  - intros [= _ <-]. by eapply Hm.
  - destruct (k a o (h ++ l1)) as [l2 r2] eqn:Hk2. intros [= _ ->]. by eapply Hk.
Qed.

Lemma raises_in_for_each {X} P (xs : list X) body :
  (forall x, raises_in P (body x)) -> raises_in P (for_each xs body).
Proof.
  intros Hb. induction xs as [|x xs IH]; simpl; [apply raises_in_ret|].
  apply raises_in_bind; [apply Hb | intros _; apply IH].
Qed.

Lemma raises_in_try {A} P (m : M C R A) hd :
  raises_in P m -> (forall e k, hd e = Some k -> raises_in P k) -> raises_in P (try_except m hd).
Proof.
  intros Hm Hh o h l e Ho. unfold try_except. destruct (m o h) as [l1 [e1|a]] eqn:Hm1; [|done].
  destruct (hd e1) as [k|] eqn:He.
  - destruct (k o (h ++ l1)) as [l2 r2] eqn:Hk. intros [= _ ->]. by eapply (Hh e1 k He).
  - intros [= _ <-]. by eapply Hm.
Qed.

Lemma raises_in_finally {A} P (m : M C R A) f :
  raises_in P m -> raises_in P f -> raises_in P (try_finally m f).
Proof.
  intros Hm Hf o h l e Ho. unfold try_finally. destruct (m o h) as [l1 r1] eqn:Hm1.
  destruct (f o (h ++ l1)) as [l2 [e2|[]]] eqn:Hf2; intros [= _ Hr].
  - subst. by eapply Hf.
  - subst. by eapply Hm.
Qed.

End Raises.

(** Proves [emits sel ds m] for a script whose selected calls do not
    depend on the answers. *)
Ltac emits_auto :=
  repeat first
    [ eapply emits_catch_bind; [| intros ? | ]
    | eapply emits_bind; [| intros ? | ]
    | eapply emits_finally | apply emits_try
    | (eapply emits_call_eq; cbn; reflexivity) | apply emits_ret | apply emits_lift_inr
    | match goal with
      | |- emits _ _ (if ?b then _ else _) => destruct b
      | |- emits_in _ _ _ (if ?b then _ else _) => destruct b end
    | (cbn; reflexivity) ].

(** Proves [raises_in P m] for a script that raises nothing of its own. *)
Ltac raises_in_auto :=
  repeat (intros; first
    [ apply raises_in_bind | apply raises_in_try | apply raises_in_finally
    | apply raises_in_for_each | apply raises_in_call | apply raises_in_ret
    | progress simplify_eq | case_match ]);
  try done.

Create HintDb script.
#[export] Hint Resolve calls_in_ret calls_in_lift calls_in_raise calls_in_call : script.

(** Proves [calls_in P m] for a script built from the monad's operations. *)
Ltac calls_in_auto :=
  repeat (intros; first
    [ apply calls_in_bind | apply calls_in_try | apply calls_in_finally
    | apply calls_in_for_each | apply calls_in_call
    | apply calls_in_ret | apply calls_in_lift | apply calls_in_raise
    | progress simplify_eq | case_match ]);
  try done.
