(* ===== verification/Sysbench.v ===== *)
(** * The benchmark script of the replicas: [src/mysql/slave/sysbench_setup.py]

    The script installs MySQL, configures a user and a database, imports
    the Sakila sample database and runs sysbench, each step through
    [run_shell_command], which runs a shell command, prints a message
    chosen by its return code, and goes on.  It is a [Script] over the
    calls [Shell] ([subprocess.run(..., shell=True)]), [Print] ([print])
    and [Sleep] ([time.sleep]); the world answers each with a
    [completed] process ([Print] and [Sleep] ignore the answer).

    [main_runs_every_command] shows that in every world that answers,
    [main] returns and runs the same sixteen commands in the same order,
    whatever they return: a failed step never stops the script, and the
    success marker [mysql_setup_sysbench.success] is created even when
    every command before it failed.  [script_output] is what the script
    prints, which [setup_deployment] reads back (see [Deployment]). *)

From Stdlib Require Import Ascii.
From S2P Require Import Prelude PyStr Json Script.

Module Sysbench.
Local Open Scope script_scope.

Inductive shell_call : Type :=
| Shell (command : string)
| Print (text : string)
| Sleep (seconds : Z).

(** [subprocess.CompletedProcess] with [text=True] and both pipes. *)
Record completed : Type := mkCompleted {
  returncode : Z;
  stdout : string;
  stderr : string
}.

Abbreviation SH := (M shell_call completed).

Definition nl : string := String "010" EmptyString.
Definition dq : string := String "034" EmptyString.

Definition print (s : string) : SH unit := call (Print s) ;;; ret tt.

(** The defaults of [run_shell_command]'s keyword arguments. *)
Definition default_error_message : string := "Error executing command".
Definition default_success_message : string := "Command succeeded".

(** [run_shell_command(command, error_message, success_message)]. *)
Definition run_shell_command (command error_message success_message : string) : SH unit :=
  result <- call (Shell command) ;;
  if negb (returncode result =? 0)%Z
  then print (error_message +:+ ": " +:+ command +:+ nl +:+ stderr result)
  else print (success_message +:+ ": " +:+ command +:+ nl +:+ stdout result).

Definition install_mysql : SH unit :=
  print "Installing MySQL Server..." ;;;
  run_shell_command "sudo apt update" "Failed to update system packages" default_success_message ;;;
  run_shell_command "sudo apt install -y mysql-server" "Failed to install MySQL Server"
    default_success_message.

Definition mysql_commands : list string :=
  [ "CREATE USER IF NOT EXISTS 'admin_elaa'@'localhost' IDENTIFIED WITH mysql_native_password BY 'admin_elaa_password123';";
    "GRANT ALL PRIVILEGES ON *.* TO 'admin_elaa'@'localhost';";
    "FLUSH PRIVILEGES;";
    "CREATE DATABASE IF NOT EXISTS sysbench_test;" ].

(** [f"echo \"{command}\" | sudo mysql"]. *)
Definition echo_to_mysql (command : string) : string :=
  "echo " +:+ dq +:+ command +:+ dq +:+ " | sudo mysql".

Definition configure_mysql : SH unit :=
  print "Configuring MySQL..." ;;;
  for_each mysql_commands (fun command =>
    run_shell_command (echo_to_mysql command) ("Failed to execute: " +:+ command)
      default_success_message) ;;;
  print "MySQL user and database configured successfully.".

Definition sakila_commands : list string :=
  [ "mysql -u admin_elaa -p'admin_elaa_password123' sysbench_test < sakila-db/sakila-schema.sql";
    "mysql -u admin_elaa -p'admin_elaa_password123' sysbench_test < sakila-db/sakila-data.sql" ].

Definition download_and_import_sakila : SH unit :=
  print "Downloading and importing Sakila database..." ;;;
  run_shell_command "wget https://downloads.mysql.com/docs/sakila-db.tar.gz"
    "Failed to download Sakila database" default_success_message ;;;
  run_shell_command "tar -xvf sakila-db.tar.gz" "Failed to extract Sakila database"
    default_success_message ;;;
  for_each sakila_commands (fun command =>
    run_shell_command command ("Failed to execute: " +:+ command) default_success_message) ;;;
  print "Sakila database imported successfully.".

(** Python joins the adjacent literals of each command. *)
Definition sysbench_commands : list string :=
  [ "sysbench /usr/share/sysbench/oltp_read_write.lua " +:+
    "--mysql-host=localhost --mysql-user=admin_elaa --mysql-password=admin_elaa_password123 " +:+
    "--mysql-db=sakila --tables=4 --table-size=1000 prepare";
    "sysbench /usr/share/sysbench/oltp_read_write.lua " +:+
    "--mysql-host=localhost --mysql-user=admin_elaa --mysql-password=admin_elaa_password123 " +:+
    "--mysql-db=sakila --threads=8 --time=60 run";
    "sysbench /usr/share/sysbench/oltp_read_write.lua " +:+
    "--mysql-host=localhost --mysql-user=admin_elaa --mysql-password=admin_elaa_password123 " +:+
    "--mysql-db=sakila cleanup" ].

Definition run_sysbench : SH unit :=
  print "Ensuring sysbench is installed..." ;;;
  run_shell_command "sudo apt update" "Failed to update system packages" default_success_message ;;;
  run_shell_command "sudo apt install -y sysbench" "Failed to install sysbench"
    default_success_message ;;;
  print "Running sysbench on Sakila database..." ;;;
  for_each sysbench_commands (fun command =>
    run_shell_command command ("Failed to execute: " +:+ command) default_success_message) ;;;
  run_shell_command "touch mysql_setup_sysbench.success" "Failed to mark script success"
    default_success_message ;;;
  print "Sysbench benchmark completed and cleaned up.".

Definition main : SH unit :=
  install_mysql ;;;
  call (Sleep 10) ;;;
  configure_mysql ;;;
  call (Sleep 5) ;;;
  download_and_import_sakila ;;;
  run_sysbench.

(** What the script writes on its standard output: each [print] adds a
    newline. *)
Fixpoint script_output (l : list shell_call) : string :=
  match l with
  | [] => EmptyString
  | Print s :: l' => s +:+ nl +:+ script_output l'
  | _ :: l' => script_output l'
  end.

Definition shell_command (c : shell_call) : option string :=
  match c with Shell s => Some s | _ => None end.

End Sysbench.

Module SysbenchProofs.
Import Sysbench.

(** One command: it runs, whatever it returns. *)
Lemma run_shell_command_emits command em sm :
  emits shell_command [command] (run_shell_command command em sm).
Proof. unfold run_shell_command, print. emits_auto. Qed.

Lemma print_emits s : emits shell_command [] (print s).
Proof. unfold print. emits_auto. Qed.

Lemma sleep_emits z : emits shell_command [] (call (Sleep z) : SH completed).
Proof. by apply emits_call_eq. Qed.

Lemma for_each_run_emits_map (cmd f g : string -> string) commands :
  emits shell_command (map cmd commands)
    (for_each commands (fun command => run_shell_command (cmd command) (f command) (g command))).
Proof.
  replace (map cmd commands) with (concat (map (fun c => [cmd c]) commands)).
  - apply emits_for_each. intros. apply run_shell_command_emits.
  - induction commands; simpl; congruence.
Qed.

Lemma for_each_run_emits (f g : string -> string) commands :
  emits shell_command commands
    (for_each commands (fun command => run_shell_command command (f command) (g command))).
Proof.
  pose proof (for_each_run_emits_map (fun c => c) f g commands) as H.
  by rewrite map_id in H.
Qed.

(** The shell commands [main] runs, in order. *)
Definition main_commands : list string :=
  [ "sudo apt update";
    "sudo apt install -y mysql-server";
    "echo " +:+ dq +:+ "CREATE USER IF NOT EXISTS 'admin_elaa'@'localhost' IDENTIFIED WITH mysql_native_password BY 'admin_elaa_password123';" +:+ dq +:+ " | sudo mysql";
    "echo " +:+ dq +:+ "GRANT ALL PRIVILEGES ON *.* TO 'admin_elaa'@'localhost';" +:+ dq +:+ " | sudo mysql";
    "echo " +:+ dq +:+ "FLUSH PRIVILEGES;" +:+ dq +:+ " | sudo mysql";
    "echo " +:+ dq +:+ "CREATE DATABASE IF NOT EXISTS sysbench_test;" +:+ dq +:+ " | sudo mysql";
    "wget https://downloads.mysql.com/docs/sakila-db.tar.gz";
    "tar -xvf sakila-db.tar.gz";
    "mysql -u admin_elaa -p'admin_elaa_password123' sysbench_test < sakila-db/sakila-schema.sql";
    "mysql -u admin_elaa -p'admin_elaa_password123' sysbench_test < sakila-db/sakila-data.sql";
    "sudo apt update";
    "sudo apt install -y sysbench";
    "sysbench /usr/share/sysbench/oltp_read_write.lua --mysql-host=localhost --mysql-user=admin_elaa --mysql-password=admin_elaa_password123 --mysql-db=sakila --tables=4 --table-size=1000 prepare";
    "sysbench /usr/share/sysbench/oltp_read_write.lua --mysql-host=localhost --mysql-user=admin_elaa --mysql-password=admin_elaa_password123 --mysql-db=sakila --threads=8 --time=60 run";
    "sysbench /usr/share/sysbench/oltp_read_write.lua --mysql-host=localhost --mysql-user=admin_elaa --mysql-password=admin_elaa_password123 --mysql-db=sakila cleanup";
    "touch mysql_setup_sysbench.success" ].

Ltac sysbench_emits :=
  repeat first
    [ apply run_shell_command_emits | apply print_emits | apply sleep_emits
    | apply for_each_run_emits_map | apply for_each_run_emits
    | eapply emits_bind; [| intros ? | ] ].

(** C27: in every world that answers its calls, [main] returns and runs
    exactly the sixteen commands of [main_commands], in that order,
    whatever each of them returns: no failure stops the script, and the
    last command creates the success marker
    [mysql_setup_sysbench.success] even when every earlier one failed. *)
Theorem main_runs_every_command : emits shell_command main_commands main.
Proof.
  unfold main, install_mysql, configure_mysql, download_and_import_sakila, run_sysbench.
  sysbench_emits. all: cbn; reflexivity.
Qed.

End SysbenchProofs.

Module SysbenchWitness.
Import Sysbench.

Definition marker : string := "touch mysql_setup_sysbench.success".

(** A machine on which every command fails but the marker. *)
Definition only_marker_succeeds : oracle shell_call completed := fun _ c =>
  match c with
  | Shell s => if String.eqb s marker then inr (mkCompleted 0 "" "")
               else inr (mkCompleted 1 "" "E: failure")
  | _ => inr (mkCompleted 0 "" "")
  end.

Definition failure_reports (l : list shell_call) : nat :=
  length (List.filter (fun c => match c with Print s => is_prefix "Failed" s | _ => false end) l).

(** Fifteen failures are reported, and the marker is still created. *)
Example marker_after_fifteen_failures :
  let '(l, r) := main only_marker_succeeds [] in
  r = inr tt /\ failure_reports l = 15 /\ last (omap shell_command l) = Some marker.
Proof. vm_compute. auto. Qed.

End SysbenchWitness.
