(* ===== verification/Regex.v ===== *)
(** * Regular expressions, as Python's [re] matches an anchored pattern

    The gatekeeper compiles one pattern, [^[...]+;?$], and calls
    [pattern.match(s)].  This file gives regular expressions over
    character classes their language ([in_lang], the reference semantics),
    an executable matcher by Brzozowski derivatives ([re_matches]) proved
    to decide that language, and [py_re_match_anchored], the truth value of
    [re.match("^" + r + "$", s)]: [re.match] anchors at the start, and
    [$] matches at the end of the string or before a newline that ends
    it. *)

From Stdlib Require Import Ascii.
From S2P Require Import Prelude PyStr.

Inductive regex : Type :=
| RVoid
| REps
| RClass (p : ascii -> bool)
| RSeq (r1 r2 : regex)
| RAlt (r1 r2 : regex)
| RStar (r : regex).

(** [r+] and [r?]. *)
Definition RPlus (r : regex) : regex := RSeq r (RStar r).
Definition ROpt (r : regex) : regex := RAlt REps r.

Inductive in_lang : regex -> list ascii -> Prop :=
| L_eps : in_lang REps []
| L_class p c : p c = true -> in_lang (RClass p) [c]
| L_seq r1 r2 w1 w2 : in_lang r1 w1 -> in_lang r2 w2 -> in_lang (RSeq r1 r2) (w1 ++ w2)
| L_alt_l r1 r2 w : in_lang r1 w -> in_lang (RAlt r1 r2) w
| L_alt_r r1 r2 w : in_lang r2 w -> in_lang (RAlt r1 r2) w
| L_star_nil r : in_lang (RStar r) []
| L_star_cons r w1 w2 : in_lang r w1 -> in_lang (RStar r) w2 -> in_lang (RStar r) (w1 ++ w2).

#[export] Hint Constructors in_lang : cluster.

(** ** The derivative matcher *)

Fixpoint nullable (r : regex) : bool :=
  match r with
  | RVoid | RClass _ => false
  | REps | RStar _ => true
  | RSeq r1 r2 => nullable r1 && nullable r2
  | RAlt r1 r2 => nullable r1 || nullable r2
  end.

(** The words [w] such that [a :: w] is in the language of [r]. *)
Fixpoint deriv (a : ascii) (r : regex) : regex :=
  match r with
  | RVoid | REps => RVoid
  | RClass p => if p a then REps else RVoid
  | RSeq r1 r2 =>
      if nullable r1 then RAlt (RSeq (deriv a r1) r2) (deriv a r2) else RSeq (deriv a r1) r2
  | RAlt r1 r2 => RAlt (deriv a r1) (deriv a r2)
  | RStar r1 => RSeq (deriv a r1) (RStar r1)
  end.

Fixpoint re_matches (r : regex) (w : list ascii) : bool :=
  match w with
  | [] => nullable r
  | a :: w' => re_matches (deriv a r) w'
  end.

(** [re.match("^" + r + "$", s)] is truthy. *)
Definition py_re_match_anchored (r : regex) (s : string) : bool :=
  let w := String.list_ascii_of_string s in
  re_matches r w ||
  (match last w with Some c => bool_decide (c = "010"%char) | None => false end &&
   re_matches r (removelast w)).

(** ** The matcher decides the language *)

Lemma nullable_spec r : nullable r = true <-> in_lang r [].
Proof.
  split.
  - induction r; simpl; try discriminate; intros H.
    + constructor.
    + apply andb_true_iff in H as [H1 H2]. change [] with ([] ++ [] : list ascii). auto with cluster.
    + apply orb_true_iff in H as [H|H]; auto with cluster.
    + constructor.
  - intros H. remember [] as w eqn:Hw. induction H; simpl; try done.
    + apply app_eq_nil in Hw as [-> ->]. rewrite IHin_lang1, IHin_lang2; done.
    + rewrite IHin_lang; [done|done].
    + rewrite IHin_lang; [apply orb_true_r|done].
Qed.

(** A non-empty word of [r*] starts with a non-empty word of [r]. *)
Lemma star_cons_inv r a w :
  in_lang (RStar r) (a :: w) ->
  exists w1 w2, w = w1 ++ w2 /\ in_lang r (a :: w1) /\ in_lang (RStar r) w2.
Proof.
  intros H. remember (RStar r) as r' eqn:Hr. remember (a :: w) as w' eqn:Hw.
  revert w Hw. induction H as [| | | | | |r0 w1 w2 H1 _ H2 IH2]; intros w0 Hw;
    try discriminate; injection Hr as <-.
  destruct w1 as [|b w1]; simpl in Hw.
  - by apply IH2.
  - injection Hw as <- <-. exists w1, w2. by split_and!.
Qed.

Lemma seq_inv r1 r2 w :
  in_lang (RSeq r1 r2) w -> exists w1 w2, w = w1 ++ w2 /\ in_lang r1 w1 /\ in_lang r2 w2.
Proof. intros H. inversion H; subst. eauto. Qed.

Lemma alt_inv r1 r2 w : in_lang (RAlt r1 r2) w -> in_lang r1 w \/ in_lang r2 w.
Proof. intros H. inversion H; subst; auto. Qed.

Lemma deriv_spec a r w : in_lang (deriv a r) w <-> in_lang r (a :: w).
Proof.
  revert w. induction r as [| |p|r1 IH1 r2 IH2|r1 IH1 r2 IH2|r IH]; intros w; simpl; split.
  - inversion 1.
  - inversion 1.
  - inversion 1.
  - inversion 1.
  - destruct (p a) eqn:Hp; inversion 1; subst. by constructor.
  - inversion 1; subst. by rewrite H2; constructor.
  - destruct (nullable r1) eqn:Hn.
    + intros [(w1 & w2 & -> & H1 & H2)%seq_inv | H]%alt_inv.
      * change (a :: w1 ++ w2) with ((a :: w1) ++ w2). constructor; [by apply IH1|done].
      * change (a :: w) with ([] ++ a :: w). constructor; [by apply nullable_spec|by apply IH2].
    + intros (w1 & w2 & -> & H1 & H2)%seq_inv.
      change (a :: w1 ++ w2) with ((a :: w1) ++ w2). constructor; [by apply IH1|done].
  - intros (w1 & w2 & Hw & H1 & H2)%seq_inv. destruct w1 as [|b w1]; simpl in Hw.
    + subst w2. apply nullable_spec in H1 as ->. apply L_alt_r, IH2, H2.
    + injection Hw as <- ->. apply IH1 in H1.
      destruct (nullable r1); [apply L_alt_l|]; by constructor.
  - intros [H|H]%alt_inv; [apply L_alt_l, IH1, H|apply L_alt_r, IH2, H].
  - intros [H|H]%alt_inv; [apply L_alt_l, IH1, H|apply L_alt_r, IH2, H].
  - intros (w1 & w2 & -> & H1 & H2)%seq_inv.
    change (a :: w1 ++ w2) with ((a :: w1) ++ w2). constructor; [by apply IH|done].
  - intros (w1 & w2 & -> & H1 & H2)%star_cons_inv. constructor; [by apply IH|done].
Qed.

Theorem re_matches_spec r w : re_matches r w = true <-> in_lang r w.
Proof.
  revert r. induction w as [|a w IH]; intros r; simpl.
  - apply nullable_spec.
  - by rewrite IH, deriv_spec.
Qed.

(** ** The languages of the pattern's pieces *)

Lemma star_class_spec p w : in_lang (RStar (RClass p)) w <-> Forall (fun c => p c = true) w.
Proof.
  split.
  - intros H. remember (RStar (RClass p)) as r eqn:Hr. induction H; try discriminate; [done|].
    injection Hr as ->. inversion H; subst. constructor; auto.
  - induction 1 as [|c w Hc _ IH]; [constructor|].
    change (c :: w) with ([c] ++ w). constructor; [by constructor|done].
Qed.

Lemma plus_class_spec p w :
  in_lang (RPlus (RClass p)) w <-> w <> [] /\ Forall (fun c => p c = true) w.
Proof.
  unfold RPlus. split.
  - intros (w1 & w2 & -> & H1 & H2%star_class_spec)%seq_inv. inversion H1; subst.
    split; [done|]. by constructor.
  - intros [Hne Hall]. destruct w as [|c w]; [done|]. inversion Hall; subst.
    change (c :: w) with ([c] ++ w). constructor; [by constructor|by apply star_class_spec].
Qed.

Lemma opt_class_spec p w :
  in_lang (ROpt (RClass p)) w <-> w = [] \/ exists c, w = [c] /\ p c = true.
Proof.
  unfold ROpt. split.
  - intros [H|H]%alt_inv; inversion H; subst; eauto.
  - intros [->|(c & -> & Hc)]; [apply L_alt_l; constructor|apply L_alt_r; by constructor].
Qed.
