(* ===== verification/Effects.v ===== *)
(** * The effects of the services: HTTP, files, ping, randomness, MySQL

    Every handler of the sources is a Flask view that reads a JSON config
    file, calls another service with [requests.post], runs [ping], draws a
    random index, or talks to the local MySQL server.  A handler is
    modelled as a program of the free monad [prog] over the commands
    [cmd]: a program is a tree whose nodes are the calls the handler makes,
    in the order it makes them, and whose leaves are its result or the
    Python exception it raises.  [try]/[except] is [catch].

    [run] interprets a program against any [Oracle]: a world that answers
    each command and changes state.  It returns the outcome, the new state
    and the trace of the commands issued, so that ordering properties
    ("no downstream call before the check") are statements about traces. *)

From S2P Require Import Prelude PyStr Json.

(** ** HTTP bodies and responses *)

(** A Flask response: [jsonify(v), code] has a JSON body; an uncaught
    exception gives Flask's HTML error page. *)
Inductive body : Type :=
| BJson (v : json)
| BText (s : string).

Record response : Type := mkResponse { status : Z ; rbody : body }.

(** [jsonify(v), code] *)
Definition jsonify (v : json) (code : Z) : response := mkResponse code (BJson v).

(** Flask's answer to an exception the view does not catch. *)
Definition internal_server_error : response :=
  mkResponse 500 (BText "Internal Server Error").

(** [{"error": msg}], the error envelope of every service. *)
Definition error_body (msg : string) : json := JDict [("error", JStr msg)].

(** The requests library's view of a reply: [resp.json()] raises
    [requests.JSONDecodeError] on a body that is
    not JSON; [resp.text] is the body text. *)
Definition resp_json (r : response) : exn + json :=
  match rbody r with
  | BJson v => inr v
  | BText _ => inl (JSONDecodeError "Expecting value: line 1 column 1 (char 0)")
  end.

Definition resp_text (r : response) : string :=
  match rbody r with BJson v => jsonify_text v | BText s => s end.

(** ** Commands and their answers *)

(** [open(path)] then [json.load]. *)
Inductive file_result : Type :=
| FileMissing
| FileCorrupt
| FileLoaded (v : json).

(** [requests.post]: a transport failure ([requests.RequestException]) or
    a reply. *)
Inductive http_result : Type :=
| HttpFailed (msg : string)
| HttpReply (r : response).

(** [subprocess.run(["ping", "-c", "1", ip], ..., timeout=5)]. *)
Inductive ping_result : Type :=
| PingTimeout
| PingExited (returncode : Z) (stdout : string).

(** [mysql.connector.connect] with [DB_CONFIG]. *)
Inductive conn_result : Type :=
| ConnOk
| ConnFailed (msg : string).

(** [cursor.execute] with [fetchall] or [commit]/[rowcount]. *)
Inductive db_result (A : Type) : Type :=
| DbOk (a : A)
| DbFailed (msg : string).
Arguments DbOk {A}.
Arguments DbFailed {A}.

Inductive cmd : Type :=
| OpenJson (path : string)
| HttpPost (url : string) (payload : json) (headers : list (string * string))
| RunPing (ip : string)
| RandBelow (n : nat)
| DbConnect
| DbIsConnected
| DbQuery (query : json)
| DbExec (query : json).

Definition answer (c : cmd) : Type :=
  match c with
  | OpenJson _ => file_result
  | HttpPost _ _ _ => http_result
  | RunPing _ => ping_result
  | RandBelow _ => nat
  | DbConnect => conn_result
  | DbIsConnected => bool
  | DbQuery _ => db_result (list json)
  | DbExec _ => db_result Z
  end.

(** ** The program monad *)

Inductive prog (A : Type) : Type :=
| Ret (a : A)
| Throw (e : exn)
| Do (c : cmd) (k : answer c -> prog A).
Arguments Ret {A}.
Arguments Throw {A}.
Arguments Do {A}.

Fixpoint bind {A B} (p : prog A) (f : A -> prog B) : prog B :=
  match p with
  | Ret a => f a
  | Throw e => Throw e
  | Do c k => Do c (fun r => bind (k r) f)
  end.

Declare Scope prog_scope.
Delimit Scope prog_scope with prog.
Notation "x <- c ;; k" := (bind c (fun x => k))
  (at level 100, c at next level, right associativity) : prog_scope.
Open Scope prog_scope.

(** Issue one command. *)
Definition call (c : cmd) : prog (answer c) := Do c Ret.

(** A Python operation that may raise. *)
Definition lift {A} (r : exn + A) : prog A :=
  match r with inl e => Throw e | inr a => Ret a end.

(** [try: p except ...: h e]: [h e = None] when no clause matches the
    exception, which then propagates.  A handler's own exceptions are not
    caught by the same [try]. *)
Fixpoint catch {A} (p : prog A) (h : exn -> option (prog A)) : prog A :=
  match p with
  | Ret a => Ret a
  | Throw e => match h e with Some q => q | None => Throw e end
  | Do c k => Do c (fun r => catch (k r) h)
  end.

(** [try: x = p except ...: return h(e)]: the value of [p], or the early
    return chosen by the handler. *)
Definition attempt {A B} (p : prog A) (h : exn -> option B) : prog (B + A) :=
  catch (x <- p ;; Ret (inr x)) (fun e => match h e with Some b => Some (Ret (inl b)) | None => None end).

(** A Flask view: an exception the view lets escape becomes a 500 page. *)
Definition flask_view (p : prog response) : prog response :=
  catch p (fun _ => Some (Ret internal_server_error)).

(** ** Interpretation against a world *)

(** A world answers the commands a service issues. *)
Class Oracle (S : Type) := oracle : forall c : cmd, S -> answer c * S.

Inductive outcome (A : Type) : Type :=
| Normal (a : A)
| Raised (e : exn).
Arguments Normal {A}.
Arguments Raised {A}.

Record result (S A : Type) : Type := mkResult {
  res_out : outcome A;
  res_state : S;
  res_trace : list cmd
}.
Arguments mkResult {S A}.
Arguments res_out {S A}.
Arguments res_state {S A}.
Arguments res_trace {S A}.

Section Run.
Context {S : Type} `{Oracle S}.

Fixpoint run {A} (p : prog A) (s : S) : result S A :=
    match p with
    | Ret a => mkResult (Normal a) s []
    | Throw e => mkResult (Raised e) s []
    | Do c k =>
        let (r, s1) := oracle c s in
        let res := run (k r) s1 in
        mkResult (res_out res) (res_state res) (c :: res_trace res)
    end.

(** Sequencing: the trace of [p >>= f] is the trace of [p] followed by
    the trace of the continuation. *)
Lemma run_bind {A B} (p : prog A) (f : A -> prog B) s :
    run (bind p f) s =
      let r1 := run p s in
      match res_out r1 with
      | Normal a =>
          let r2 := run (f a) (res_state r1) in
          mkResult (res_out r2) (res_state r2) (res_trace r1 ++ res_trace r2)
      | Raised e => mkResult (Raised e) (res_state r1) (res_trace r1)
      end.
  Proof.
    revert s. induction p as [a|e|c k IH]; intros s; simpl.
    - by destruct (run (f a) s).
    - done.
    - destruct (oracle c s) as [r s1]. rewrite IH.
      destruct (run (k r) s1) as [[a|e] s2 tr]; simpl; [|done].
      by destruct (run (f a) s2).
  Qed.

Lemma run_catch {A} (p : prog A) h s :
    run (catch p h) s =
      let r1 := run p s in
      match res_out r1 with
      | Normal a => r1
      | Raised e =>
          match h e with
          | Some q =>
              let r2 := run q (res_state r1) in
              mkResult (res_out r2) (res_state r2) (res_trace r1 ++ res_trace r2)
          | None => r1
          end
      end.
  Proof.
    revert s. induction p as [a|e|c k IH]; intros s; simpl.
    - done.
    - destruct (h e); [by destruct (run p s)|done].
    - destruct (oracle c s) as [r s1]. rewrite IH.
      destruct (run (k r) s1) as [[a|e] s2 tr]; simpl; [done|].
      destruct (h e); [|done]. by destruct (run p s2).
  Qed.
End Run.

(** ** Programs that issue no command *)

(** [quiet p]: [p] returns or raises without any call to the outside. *)
Definition quiet {A} (p : prog A) : Prop :=
  match p with Do _ _ => False | _ => True end.

Lemma quiet_run {S A} `{Oracle S} (p : prog A) s :
  quiet p -> res_trace (run p s) = [] /\ res_state (run p s) = s.
Proof. destruct p; simpl; tauto. Qed.

#[export] Hint Resolve quiet_run : cluster.

(** ** A small program logic: what every return satisfies, and programs
    that never raise *)

Fixpoint all_returns {A} (P : A -> Prop) (p : prog A) : Prop :=
  match p with
  | Ret a => P a
  | Throw _ => True
  | Do c k => forall r, all_returns P (k r)
  end.

Fixpoint no_throw {A} (p : prog A) : Prop :=
  match p with
  | Ret _ => True
  | Throw _ => False
  | Do c k => forall r, no_throw (k r)
  end.

Lemma all_returns_bind {A B} (P : B -> Prop) (p : prog A) (f : A -> prog B) :
  (forall a, all_returns P (f a)) -> all_returns P (bind p f).
Proof. intros Hf. induction p; simpl; auto. Qed.

Lemma all_returns_catch {A} (P : A -> Prop) (p : prog A) h :
  all_returns P p -> (forall e q, h e = Some q -> all_returns P q) -> all_returns P (catch p h).
Proof.
  intros Hp Hh. induction p as [a|e|c k IH]; simpl in *; auto.
  destruct (h e) eqn:He; [eauto|done].
Qed.

Lemma no_throw_catch {A} (p : prog A) h :
  (forall e, exists q, h e = Some q /\ no_throw q) -> no_throw (catch p h).
Proof.
  intros Hh. induction p as [a|e|c k IH]; simpl; auto.
  destruct (Hh e) as (q & -> & Hq). done.
Qed.

Section Logic.
Context {S : Type} `{Oracle S}.

Lemma all_returns_run {A} (P : A -> Prop) (p : prog A) s a :
    all_returns P p -> res_out (run p s) = Normal a -> P a.
  Proof.
    revert s. induction p as [b|e|c k IH]; intros s; simpl.
    - by intros ? [= ->].
    - discriminate.
    - intros Hk. destruct (oracle c s) as [r s1]. simpl. apply IH, Hk.
  Qed.

Lemma no_throw_run {A} (p : prog A) s :
    no_throw p -> exists a, res_out (run p s) = Normal a.
  Proof.
    revert s. induction p as [b|e|c k IH]; intros s; simpl; [eauto|done|].
    intros Hk. destruct (oracle c s) as [r s1]. simpl. apply IH, Hk.
  Qed.
End Logic.

#[export] Hint Resolve all_returns_bind all_returns_catch no_throw_catch : cluster.

(** ** Concrete worlds, for running the handlers on examples *)
Module Tables.
(** A world given by tables: files, replies by URL, ping outputs, random
    draws. *)
Record tables : Type := mkTables {
    t_files : string -> file_result;
    t_net : string -> json -> http_result;
    t_ping : string -> ping_result;
    t_rand : nat -> nat
  }.

Definition table_oracle (t : tables) : Oracle unit :=
    fun c _ =>
      match c return answer c * unit with
      | OpenJson p => (t_files t p, tt)
      | HttpPost u b _ => (t_net t u b, tt)
      | RunPing ip => (t_ping t ip, tt)
      | RandBelow n => (t_rand t n, tt)
      | DbConnect => (ConnOk, tt)
      | DbIsConnected => (true, tt)
      | DbQuery _ => (DbOk [], tt)
      | DbExec _ => (DbOk 0%Z, tt)
      end.
End Tables.
