(* ===== verification/Membership.v ===== *)
(** * The cluster membership view

    [instance_info.json] is a JSON list of node descriptors
    [{"Name", "InstanceID", "PublicIP", ...}] written by provisioning.  The
    primary and the proxy manager read it on every request through Python
    comprehensions and generator expressions.  This file gives the pure
    views of that list (the primary member, the replica members, their
    addresses) and shows that on well-formed descriptors the comprehensions
    of the sources compute them without raising. *)

From S2P Require Import Prelude PyStr Json.

(** A descriptor with the three fields the services read. *)
Definition instance_wf (v : json) : bool :=
  match v with
  | JDict kvs =>
      bool_decide (is_Some (assoc "Name" kvs)) &&
      bool_decide (is_Some (assoc "InstanceID" kvs)) &&
      bool_decide (is_Some (assoc "PublicIP" kvs))
  | _ => false
  end.

Definition members_wf (insts : list json) : Prop := Forall (fun v => instance_wf v = true) insts.

Definition member_field (k : string) (v : json) : option json :=
  match v with JDict kvs => assoc k kvs | _ => None end.

(** Tagged ["mysql_master_node"]. *)
Definition is_primary (v : json) : bool :=
  match member_field "Name" v with Some n => is_master_name n | None => false end.

Definition primary_member (insts : list json) : option json := List.find is_primary insts.

Definition replica_members (insts : list json) : list json :=
  List.filter (fun v => negb (is_primary v)) insts.

(** Field [k] of every replica, in membership order. *)
Definition replica_field (k : string) (insts : list json) : list json :=
  omap (member_field k) (replica_members insts).

Definition replica_ips (insts : list json) : list json := replica_field "PublicIP" insts.

(** ** The comprehensions on well-formed descriptors *)

Lemma instance_wf_fields v :
  instance_wf v = true ->
  exists kvs n i p, v = JDict kvs /\ assoc "Name" kvs = Some n /\
    assoc "InstanceID" kvs = Some i /\ assoc "PublicIP" kvs = Some p.
Proof.
  destruct v as [| | | | |kvs]; try discriminate. simpl.
  intros Hv. apply andb_prop in Hv as [Hv Hp]. apply andb_prop in Hv as [Hn Hi].
  apply bool_decide_eq_true in Hn as [n Hn].
  apply bool_decide_eq_true in Hi as [i Hi].
  apply bool_decide_eq_true in Hp as [p Hp].
  by exists kvs, n, i, p.
Qed.

Lemma name_is_not_master_wf v :
  instance_wf v = true -> name_is_not_master v = inr (negb (is_primary v)).
Proof.
  intros (kvs & n & i & p & -> & Hn & _ & _)%instance_wf_fields.
  unfold name_is_not_master, is_primary. simpl. by rewrite Hn.
Qed.

Lemma name_is_master_wf v :
  instance_wf v = true -> name_is_master v = inr (is_primary v).
Proof.
  intros (kvs & n & i & p & -> & Hn & _ & _)%instance_wf_fields.
  unfold name_is_master, is_primary. simpl. by rewrite Hn.
Qed.

(** [[instance[k] for instance in insts if instance["Name"] != ...]] for
    the two fields the primary reads. *)
Lemma replica_field_comprehension k insts :
  members_wf insts -> k = "PublicIP" \/ k = "InstanceID" ->
  py_filter_map name_is_not_master (fun i => py_subscript i k) insts = inr (replica_field k insts).
Proof.
  intros Hwf Hk. unfold replica_field.
  induction Hwf as [|v insts Hv Hwf IH]; [done|]. simpl.
  rewrite (name_is_not_master_wf v Hv), IH.
  destruct (instance_wf_fields v Hv) as (kvs & n & i & p & -> & _ & Hi & Hp).
  destruct (is_primary (JDict kvs)); simpl; [done|].
  destruct Hk as [-> | ->]; simpl; [rewrite Hp | rewrite Hi]; done.
Qed.

(** [[instance for instance in insts if instance["Name"] != ...]]. *)
Lemma replica_members_comprehension insts :
  members_wf insts -> py_filter name_is_not_master insts = inr (replica_members insts).
Proof.
  unfold py_filter. intros Hwf.
  induction Hwf as [|v insts Hv Hwf IH]; [done|]. simpl.
  rewrite (name_is_not_master_wf v Hv), IH. by destruct (is_primary v).
Qed.

(** [next((instance for instance in insts if instance["Name"] == ...), None)]. *)
Lemma primary_member_generator insts :
  members_wf insts -> py_find name_is_master insts = inr (primary_member insts).
Proof.
  intros Hwf. induction Hwf as [|v insts Hv Hwf IH]; [done|]. simpl.
  rewrite (name_is_master_wf v Hv). by destruct (is_primary v).
Qed.

Lemma replica_members_wf insts : members_wf insts -> members_wf (replica_members insts).
Proof.
  unfold members_wf, replica_members. induction 1; simpl; [constructor|].
  destruct (negb (is_primary x)); auto.
Qed.

#[export] Hint Resolve replica_members_wf : cluster.
