(* ===== verification/Provisioning.v ===== *)
(** * Provisioning: [src/infrastructure/aws_infrastructure_utilities.py],
      [src/infrastructure/aws_remote_app_deployment.py] and steps 6 to 8 of
      [main] in [src/infrastructure/aws_infrastructure.py]

    Provisioning names the EC2 instances it launched ([collect_instance_data]),
    writes the membership files the services read ([save_instance_details]),
    and deploys one application per instance over SSH ([deploy_instance] and
    the five [deploy_*] functions).  The AWS calls that launch instances and
    the SSH session of [setup_deployment] are not modelled: an instance is
    its id, DNS name and address once running, a [create_tags] call is the
    pair it sends, and a deployment is the arguments of [setup_deployment].
    The files are a [gmap] from path to the JSON value [json.dump] writes.

    The theorems show that the database membership list has exactly one
    primary, first, and well-formed descriptors (the invariant the primary
    and the proxy manager rely on), that the master and the proxy manager
    read the same list, and that [deploy_slave], whose filter is ['all'],
    also deploys the replica application on the primary's instance. *)

From S2P Require Import Prelude PyStr Json Membership.

Module Provisioning.

(** A running EC2 instance: [instance.id], [instance.public_dns_name] and
    [instance.public_ip_address], which is [None] without a public address. *)
Record ec2_instance : Type := mkInstance {
  ec2_id : string;
  ec2_dns : string;
  ec2_ip : option string
}.

Definition opt_str (o : option string) : json :=
  match o with Some s => JStr s | None => JNull end.

(** [master_name if i == 1 else (slave_name or master_name)]. *)
Definition instance_name (i : nat) (master_name : string) (slave_name : option string) : string :=
  if Nat.eqb i 1 then master_name
  else match slave_name with
       | Some s => if bool_decide (s = EmptyString) then master_name else s
       | None => master_name
       end.

(** [instance_info]. *)
Definition instance_info (x : ec2_instance) (name : string) : json :=
  JDict [("Name", JStr name); ("InstanceID", JStr (ec2_id x));
         ("PublicDNS", JStr (ec2_dns x)); ("PublicIP", opt_str (ec2_ip x))].

(** The loop of [collect_instance_data] from index [i]: the [create_tags]
    calls, as (instance id, name), and the descriptors, in order. *)
Fixpoint collect_go (i : nat) (insts : list ec2_instance) (master_name : string)
    (slave_name : option string) : list (string * string) * list json :=
  match insts with
  | [] => ([], [])
  | x :: xs =>
      let name := instance_name i master_name slave_name in
      let rest := collect_go (S i) xs master_name slave_name in
      ((ec2_id x, name) :: rest.1, instance_info x name :: rest.2)
  end.

(** [collect_instance_data(instances, master_name, slave_name=None)]:
    [enumerate(instances, start=1)]. *)
Definition collect_instance_data (insts : list ec2_instance) (master_name : string)
    (slave_name : option string) : list (string * string) * list json :=
  collect_go 1 insts master_name slave_name.

Abbreviation files := (gmap string json) (only parsing).

(** [save_json(data, filename)]. *)
Definition save_json (data : json) (filename : string) (fs : files) : files := <[filename := data]> fs.

(** [save_instance_details(...)]. *)
Definition save_instance_details (mysql_data proxy_manager_data gatekeeper_data trusted_host_data : json)
    (fs : files) : files :=
  save_json gatekeeper_data "../benchmark/gatekeeper_info.json"
  (save_json trusted_host_data "../mysql/gatekeeper/trustedhost_info.json"
  (save_json proxy_manager_data "../mysql/trusted_host/proxy_info.json"
  (save_json mysql_data "../mysql/proxy_manager/instance_info.json"
  (save_json mysql_data "../mysql/master/instance_info.json" fs)))).

(** A call [setup_deployment(path, app_name, ip, instance_id, name, is_db)]. *)
Record deployment : Type := mkDeployment {
  d_path : string;
  d_app : string;
  d_ip : json;
  d_id : json;
  d_name : json;
  d_is_db : bool
}.

(** The loop of [deploy_instance]: the filter reads [instance['Name']]
    first, then the call reads [PublicIP] and [InstanceID].  The result
    is the deployments made, in order, and the exception that stopped the
    loop, if one did: the deployments before it have happened. *)
Fixpoint deploy_loop (insts : list json) (name_filter path app_name : string) (is_db : bool)
    : list deployment * option exn :=
  match insts with
  | [] => ([], None)
  | inst :: rest =>
      match py_subscript inst "Name" with
      | inl e => ([], Some e)
      | inr n =>
          let name_eq := match n with JStr s => bool_decide (s = name_filter) | _ => false end in
          if name_eq || bool_decide (name_filter = "all") then
            match py_subscript inst "PublicIP" with
            | inl e => ([], Some e)
            | inr ip =>
                match py_subscript inst "InstanceID" with
                | inl e => ([], Some e)
                | inr iid =>
                    let r := deploy_loop rest name_filter path app_name is_db in
                    (mkDeployment path app_name ip iid n is_db :: r.1, r.2)
                end
            end
          else deploy_loop rest name_filter path app_name is_db
      end
  end.

(** [deploy_instance(instance_file, name_filter, path, app_name, is_db)]. *)
Definition deploy_instance (fs : files) (instance_file name_filter path app_name : string)
    (is_db : bool) : list deployment * option exn :=
  match fs !! instance_file with
  | None => ([], Some (FileNotFoundError ("No such file or directory: '" +:+ instance_file +:+ "'")))
  | Some details =>
      match py_iter details with
      | inl e => ([], Some e)
      | inr insts => deploy_loop insts name_filter path app_name is_db
      end
  end.

Definition deploy_master (fs : files) : list deployment * option exn :=
  deploy_instance fs "../mysql/master/instance_info.json" "mysql_master_node" "master" "master_app.py" true.

Definition deploy_slave (fs : files) : list deployment * option exn :=
  deploy_instance fs "../mysql/master/instance_info.json" "all" "slave" "slave_app.py" true.

Definition deploy_proxy_manager (fs : files) : list deployment * option exn :=
  deploy_instance fs "../mysql/trusted_host/proxy_info.json" "all" "proxy_manager" "proxy_manager_app.py" false.

Definition deploy_trusted_host (fs : files) : list deployment * option exn :=
  deploy_instance fs "../mysql/gatekeeper/trustedhost_info.json" "all" "trusted_host" "trusted_host_app.py" false.

Definition deploy_gatekeeper (fs : files) : list deployment * option exn :=
  deploy_instance fs "../benchmark/gatekeeper_info.json" "all" "gatekeeper" "gatekeeper_app.py" false.

(** Statements run one after the other; the first exception stops them. *)
Fixpoint run_steps (steps : list (files -> list deployment * option exn)) (fs : files)
    : list deployment * option exn :=
  match steps with
  | [] => ([], None)
  | st :: sts =>
      let r := st fs in
      match r.2 with
      | Some e => (r.1, Some e)
      | None => let r' := run_steps sts fs in (r.1 ++ r'.1, r'.2)
      end
  end.

(** What steps 6 to 8 of [main] leave behind. *)
Record provisioned : Type := mkProvisioned {
  p_tags : list (string * string);
  p_files : files;
  p_deployments : list deployment;
  p_error : option exn
}.

(** Steps 6 to 8 of [main]: name the instances, save the files, deploy in
    the order master, replicas, proxy manager, gatekeeper, trusted host. *)
Definition main_after_launch (mysql_instances proxy_manager_instances trusted_host_instances
    gatekeeper_instances : list ec2_instance) (fs : files) : provisioned :=
  let mysql := collect_instance_data mysql_instances "mysql_master_node" (Some "mysql_slave_node") in
  let proxy := collect_instance_data proxy_manager_instances "proxy_manager_node" None in
  let gk := collect_instance_data gatekeeper_instances "gatekeeper_node" None in
  let th := collect_instance_data trusted_host_instances "trusted_host_node" None in
  let fs' := save_instance_details (JList mysql.2) (JList proxy.2) (JList gk.2) (JList th.2) fs in
  let ds := run_steps [deploy_master; deploy_slave; deploy_proxy_manager; deploy_gatekeeper;
                       deploy_trusted_host] fs' in
  mkProvisioned (mysql.1 ++ proxy.1 ++ gk.1 ++ th.1) fs' ds.1 ds.2.

End Provisioning.

Module ProvisioningProofs.
Import Provisioning.

(** The deployment [deploy_instance] makes for the descriptor of [x]
    named [n]. *)
Definition deployment_of (path app_name : string) (is_db : bool) (xn : ec2_instance * string)
    : deployment :=
  mkDeployment path app_name (opt_str (ec2_ip xn.1)) (JStr (ec2_id xn.1)) (JStr xn.2) is_db.

Definition selected_by (name_filter : string) (xn : ec2_instance * string) : bool :=
  bool_decide (xn.2 = name_filter) || bool_decide (name_filter = "all").

Lemma collect_go_rest i xs m sl :
  2 <= i -> sl <> EmptyString ->
  (collect_go i xs m (Some sl)).2 = map (fun x => instance_info x sl) xs.
Proof.
  revert i. induction xs as [|x xs IH]; intros i Hi Hsl; [done|]. simpl.
  unfold instance_name. rewrite (proj2 (Nat.eqb_neq i 1)) by lia.
  rewrite (bool_decide_eq_false_2 _ Hsl), IH by (lia || done). done.
Qed.

(** The database membership list [main] writes: the first instance is the
    primary, every other one a replica. *)
Lemma collect_mysql x xs :
  (collect_instance_data (x :: xs) "mysql_master_node" (Some "mysql_slave_node")).2 =
    map (uncurry instance_info) ((x, "mysql_master_node") :: map (fun y => (y, "mysql_slave_node")) xs).
Proof.
  unfold collect_instance_data. simpl. rewrite collect_go_rest by (lia || done).
  by rewrite map_map.
Qed.

Lemma deploy_loop_infos l name_filter path app_name is_db :
  deploy_loop (map (uncurry instance_info) l) name_filter path app_name is_db =
    (map (deployment_of path app_name is_db) (List.filter (selected_by name_filter) l), None).
Proof.
  induction l as [|[x n] l IH]; [done|]. simpl. rewrite IH. unfold selected_by. simpl.
  destruct (bool_decide (n = name_filter) || bool_decide (name_filter = "all")); simpl; [|done].
  reflexivity.
Qed.

Lemma collect_go_single i xs m :
  (collect_go i xs m None).2 = map (uncurry instance_info) (map (fun x => (x, m)) xs).
Proof.
  revert i. induction xs as [|x xs IH]; intros i; [done|]. simpl. rewrite IH.
  unfold instance_name. by destruct (Nat.eqb i 1).
Qed.

Lemma collect_single xs m :
  (collect_instance_data xs m None).2 = map (uncurry instance_info) (map (fun x => (x, m)) xs).
Proof. apply collect_go_single. Qed.

Lemma selected_all l : List.filter (selected_by "all") l = l.
Proof. induction l as [|xn l IH]; [done|]. simpl. unfold selected_by at 1. by rewrite orb_true_r, IH. Qed.

Lemma selected_primary x xs :
  List.filter (selected_by "mysql_master_node")
    ((x, "mysql_master_node") :: map (fun y => (y, "mysql_slave_node")) xs) = [(x, "mysql_master_node")].
Proof. simpl. f_equal. by induction xs. Qed.

(** [deploy_instance] on a file of descriptors. *)
Lemma deploy_instance_infos fs path l name_filter dir app_name is_db :
  fs !! path = Some (JList (map (uncurry instance_info) l)) ->
  deploy_instance fs path name_filter dir app_name is_db =
    (map (deployment_of dir app_name is_db) (List.filter (selected_by name_filter) l), None).
Proof. intros Hf. unfold deploy_instance. rewrite Hf. apply deploy_loop_infos. Qed.

Ltac saved_file :=
  unfold save_instance_details, save_json;
  rewrite ?lookup_insert_ne by discriminate; by rewrite lookup_insert_eq.

Section Saved.
Context (d1 d2 d3 d4 : json) (fs : files).

Lemma save_master_file : save_instance_details d1 d2 d3 d4 fs !! "../mysql/master/instance_info.json" = Some d1.
Proof. saved_file. Qed.
Lemma save_proxy_manager_file : save_instance_details d1 d2 d3 d4 fs !! "../mysql/proxy_manager/instance_info.json" = Some d1.
Proof. saved_file. Qed.
Lemma save_proxy_info_file : save_instance_details d1 d2 d3 d4 fs !! "../mysql/trusted_host/proxy_info.json" = Some d2.
Proof. saved_file. Qed.
Lemma save_trustedhost_file : save_instance_details d1 d2 d3 d4 fs !! "../mysql/gatekeeper/trustedhost_info.json" = Some d4.
Proof. saved_file. Qed.
Lemma save_gatekeeper_file : save_instance_details d1 d2 d3 d4 fs !! "../benchmark/gatekeeper_info.json" = Some d3.
Proof. saved_file. Qed.
End Saved.

Lemma instance_info_wf x n : instance_wf (instance_info x n) = true.
Proof. reflexivity. Qed.

Lemma is_primary_master x : is_primary (instance_info x "mysql_master_node") = true.
Proof. reflexivity. Qed.

Lemma is_primary_replica x : is_primary (instance_info x "mysql_slave_node") = false.
Proof. reflexivity. Qed.

(** C18: the database membership list provisioning writes is the one the
    primary and the proxy manager read, its descriptors are well formed,
    the first instance is its only primary and every other instance is a
    replica, in launch order. *)
Theorem main_membership x xs pms ths gks fs :
  let p := main_after_launch (x :: xs) pms ths gks fs in
  exists data,
    p_files p !! "../mysql/master/instance_info.json" = Some (JList data) /\
    p_files p !! "../mysql/proxy_manager/instance_info.json" = Some (JList data) /\
    members_wf data /\ primary_member data = Some (instance_info x "mysql_master_node") /\
    replica_members data = map (fun y => instance_info y "mysql_slave_node") xs.
Proof.
  unfold main_after_launch. cbv zeta. cbn [p_files]. rewrite collect_mysql.
  eexists. split_and!; [apply save_master_file|apply save_proxy_manager_file|..].
  - apply Forall_forall. intros v (yn & -> & _)%list_elem_of_fmap. destruct yn; apply instance_info_wf.
  - done.
  - unfold replica_members. cbn [List.filter map uncurry]. rewrite is_primary_master. simpl.
    induction xs as [|y xs IH]; [done|]. cbn [List.filter map uncurry].
    by rewrite is_primary_replica, IH.
Qed.

(** Computes the deployments of [main_after_launch] on a non-empty list
    of database instances. *)
Ltac main_deployments_rw :=
  unfold main_after_launch, deploy_master, deploy_slave, deploy_proxy_manager,
    deploy_gatekeeper, deploy_trusted_host; cbv zeta; cbn [p_error p_deployments];
  rewrite collect_mysql, !collect_single;
  let fs' := fresh "fs'" in let Hfs := fresh "Hfs" in
  remember (save_instance_details _ _ _ _ _) as fs' eqn:Hfs; cbn [run_steps];
  erewrite !(deploy_instance_infos fs') by (subst fs'; first
    [apply save_master_file|apply save_proxy_info_file|apply save_gatekeeper_file
    |apply save_trustedhost_file]);
  cbn [snd fst]; rewrite selected_primary, !selected_all, app_nil_r.

(** C19: [main] deploys, without error, the primary application on the
    first database instance, then the replica application on every
    database instance, the first included: [deploy_slave] filters with
    ['all'], so the primary's instance also receives [slave_app.py] on the
    same port. *)
Theorem main_deployments x xs pms ths gks fs :
  let p := main_after_launch (x :: xs) pms ths gks fs in
  p_error p = None /\
  p_deployments p =
    [deployment_of "master" "master_app.py" true (x, "mysql_master_node")] ++
    map (deployment_of "slave" "slave_app.py" true)
      ((x, "mysql_master_node") :: map (fun y => (y, "mysql_slave_node")) xs) ++
    map (deployment_of "proxy_manager" "proxy_manager_app.py" false)
      (map (fun y => (y, "proxy_manager_node")) pms) ++
    map (deployment_of "gatekeeper" "gatekeeper_app.py" false)
      (map (fun y => (y, "gatekeeper_node")) gks) ++
    map (deployment_of "trusted_host" "trusted_host_app.py" false)
      (map (fun y => (y, "trusted_host_node")) ths).
Proof. main_deployments_rw. done. Qed.
End ProvisioningProofs.

Module ProvisioningExample.
Import Provisioning ProvisioningProofs.

Definition node (n : string) : ec2_instance := mkInstance ("i-" +:+ n) (n +:+ ".compute") (Some n).

(** Three database instances: the primary's address [A] receives both
    [master_app.py] and [slave_app.py]. *)
Example primary_gets_two_apps :
  map (fun d => (d_ip d, d_app d))
    (List.filter (fun d => if d_ip d is JStr "A" then true else false)
       (p_deployments (main_after_launch [node "A"; node "B"; node "C"] [node "P"] [node "T"] [node "G"] ∅))) =
    [(JStr "A", "master_app.py"); (JStr "A", "slave_app.py")].
Proof. vm_compute. reflexivity. Qed.

End ProvisioningExample.
