(* ===== verification/Deployment.v ===== *)
(** * Remote deployment: [setup_deployment] and its helpers in
      [src/infrastructure/aws_remote_app_deployment.py]

    [setup_deployment] connects to an instance over SSH (paramiko), runs
    the install commands, uploads the application's directory over SFTP
    ([upload_directory]), on a database node runs [sysbench_setup.py] and
    saves the part of its output between [SQL statistics:] and the
    execution time ([extract_relevant_statistics],
    [save_statistics_to_file]), and starts the application under gunicorn
    on port 80.  It is a [Script] over [ssh_call]: each paramiko, [os] or
    file operation that can fail is a call, and [print] is the call [Say].
    The world answers a call with a [reply]; a call reads the part of the
    reply that its Python counterpart returns.  An [Exec] is
    [exec_command] followed by [recv_exit_status].  The session's host is
    part of the calls [Exec], [Put] and [Close], so that the calls of
    several deployments say which machine they act on.

    [SECRET_KEY_PATH] comes from [config.py], which is not in the
    repository; it is a variable of the section. *)

From Stdlib Require Import Ascii.
From S2P Require Import Prelude PyStr Json Script Provisioning.

Module Deployment.
Local Open Scope script_scope.

Inductive ssh_call : Type :=
| Say (text : string)
| Connect (hostname : json) (username key_filename : string)
| Exec (host : json) (command : string)
| AbsPath (path : string)
| OpenSftp (host : json)
| ListDir (path : string)
| Put (host : json) (localpath remotepath : string)
| CloseSftp (host : json)
| OpenFile (path mode : string)
| WriteFile (path text : string)
| CloseFile (path : string)
| Close (host : json).

(** What the world answers: the exit status and both streams of a
    command, the path [os.path.abspath] returns (in [out]) and the names
    [os.listdir] returns. *)
Record reply : Type := mkReply {
  exit_status : Z;
  out : string;
  err : string;
  names : list string
}.

Abbreviation SSH := (M ssh_call reply).

Definition nl : string := String "010" EmptyString.

Definition print (s : string) : SSH unit := call (Say s) ;;; ret tt.

(** [os.path.join(a, b)]: an absolute [b] replaces [a]; a slash is
    added unless [a] is empty or ends with one. *)
Definition path_join (a b : string) : string :=
  if is_prefix "/" b then b
  else if String.eqb a "" || is_prefix "/" (string_rev a) then a +:+ b
  else a +:+ "/" +:+ b.

(** [d.get(k, default)] on a dict of strings. *)
Fixpoint str_get (d : list (string * string)) (k default : string) : string :=
  match d with
  | [] => default
  | (k', v) :: d' => if String.eqb k k' then v else str_get d' k default
  end.

Definition directory_map : list (string * string) :=
  [ ("master", "../mysql/master");
    ("slave", "../mysql/slave");
    ("proxy_manager", "../mysql/proxy_manager");
    ("trusted_host", "../mysql/trusted_host");
    ("gatekeeper", "../mysql/gatekeeper") ].

(** [upload_directory(ssh_client, local_directory)] on the session with
    [host]: [open_sftp] runs before the [try], [sftp.close()] in its
    [finally]. *)
Definition upload_directory (host : json) (local_directory : string) : SSH unit :=
  let local_directory := str_get directory_map local_directory "../mysql/gatekeeper" in
  local_absolute_path <- call (AbsPath local_directory) ;;
  let local_absolute_path := out local_absolute_path in
  call (OpenSftp host) ;;;
  print ("Uploading files in " +:+ local_absolute_path) ;;;
  try_finally
    (items <- call (ListDir local_directory) ;;
     for_each (names items) (fun item =>
       let local_path := path_join local_absolute_path item in
       let remote_app_path := "/home/ubuntu/" +:+ item in
       print ("Uploading " +:+ local_path +:+ " to " +:+ remote_app_path) ;;;
       call (Put host local_path remote_app_path) ;;;
       print ("Uploaded " +:+ local_path +:+ " to " +:+ remote_app_path)))
    (call (CloseSftp host) ;;; ret tt).

Definition statistics_file : string := "sysbench_statistics.log".

(** [save_statistics_to_file(instance_name, instance_id, statistics_output)]:
    [with open(file_path, "a")] closes the file on every path. *)
Definition save_statistics_to_file (instance_name instance_id : json) (statistics_output : string)
    : SSH unit :=
  let file_path := statistics_file in
  call (OpenFile file_path "a") ;;;
  try_finally
    (call (WriteFile file_path ("Instance Name: " +:+ py_str instance_name +:+
                                ", Instance ID: " +:+ py_str instance_id +:+ nl)) ;;;
     call (WriteFile file_path statistics_output) ;;;
     call (WriteFile file_path (nl +:+ repeat_str "=" 50 +:+ nl +:+ nl)) ;;;
     ret tt)
    (call (CloseFile file_path) ;;; ret tt).

Definition sql_statistics : string := "SQL statistics:".
Definition threads_fairness : string := "Threads fairness:".
Definition execution_time : string := "execution time (avg/stddev):".
Definition not_found : string := "Relevant statistics not found.".

(** [extract_relevant_statistics(output)]: the match of
    [SQL statistics:.*?Threads fairness:.*?execution time \(avg/stddev\):.*?(?:\n|$)]
    under [re.DOTALL], found by searching each literal after the previous
    one; the match ends after the first newline that follows, or at the
    end of the output. *)
Definition extract_relevant_statistics (output : string) : string :=
  match break_at sql_statistics output with
  | None => not_found
  | Some (_, r0) =>
      match break_at threads_fairness r0 with
      | None => not_found
      | Some (a, r1) =>
          match break_at execution_time r1 with
          | None => not_found
          | Some (b, r2) =>
              let c := match break_at nl r2 with Some (c, _) => c +:+ nl | None => r2 end in
              sql_statistics +:+ a +:+ threads_fairness +:+ b +:+ execution_time +:+ c
          end
      end
  end.

(** [app_name.split('/')[-1].split('.')[0]]: [split] never returns an
    empty list. *)
Definition app_module (app_name : string) : string :=
  let base := List.last (split_on "/"%char app_name) app_name in
  match split_on "."%char base with first :: _ => first | [] => base end.

Definition app_deploy_cmd (app_name : string) : string :=
  "sudo gunicorn " +:+ app_module app_name +:+
  ":app -w 4 --bind 0.0.0.0:80 --log-level debug --access-logfile access.log --error-logfile error.log &".

Definition install_commands (is_db : bool) : list string :=
  [ "sudo apt-get update";
    "sudo apt install python3 python3-pip -y";
    "sudo pip3 install flask gunicorn requests boto3" ] ++
  (if is_db then ["sudo pip3 install mysql-connector-python"] else []).

Section Setup.
Variable SECRET_KEY_PATH : string.

(** The body of the [try] after [ssh = paramiko.SSHClient()]
    ([set_missing_host_key_policy] only sets a field of the client). *)
Definition deploy_body (path app_name : string) (public_ip instance_id instance_name : json)
    (is_db : bool) : SSH unit :=
  let ip := py_str public_ip in
  call (Connect public_ip "ubuntu" SECRET_KEY_PATH) ;;;
  print ("Connected to " +:+ ip +:+ " for " +:+ py_str instance_id +:+ " in " +:+ path +:+ "...") ;;;
  for_each (install_commands is_db) (fun install_command =>
    call (Exec public_ip install_command) ;;;
    print ("Completed running " +:+ install_command +:+ " ...")) ;;;
  print ("Completed running start commands for " +:+ ip +:+ " in " +:+ path +:+ "...") ;;;
  upload_directory public_ip path ;;;
  print ("Completed uploading files for " +:+ ip +:+ " in " +:+ path +:+ "...") ;;;
  (if is_db then
     r <- call (Exec public_ip "python3 sysbench_setup.py") ;;
     let sysbench_output := out r in
     let sysbench_errors := err r in
     (if negb (String.eqb sysbench_errors "") then
        print ("Sysbench errors for " +:+ py_str instance_id +:+ ": " +:+ sysbench_errors)
      else ret tt) ;;;
     let relevant_statistics := extract_relevant_statistics sysbench_output in
     print ("Sysbench Statistics for " +:+ py_str instance_id +:+ ":") ;;;
     print relevant_statistics ;;;
     save_statistics_to_file instance_name instance_id relevant_statistics
   else ret tt) ;;;
  call (Exec public_ip (app_deploy_cmd app_name)) ;;;
  print ("Completed deploying " +:+ app_name +:+ " at " +:+ ip +:+ " in " +:+ path +:+ "...").

(** The [except Exception as e] clause. *)
Definition deploy_error (public_ip : json) (e : exn) : SSH unit :=
  print ("Error deploying to " +:+ py_str public_ip +:+ ": " +:+ exn_str e).

(** [setup_deployment(path, app_name, public_ip, instance_id, instance_name, is_db)].
    The first statement of the [try] is a [print]; if it raises, [ssh] is
    never bound and the [finally] raises [UnboundLocalError]. *)
Definition setup_deployment (path app_name : string) (public_ip instance_id instance_name : json)
    (is_db : bool) : SSH unit :=
  r <- catch (print ("Connecting to " +:+ py_str public_ip +:+ " for " +:+ py_str instance_id +:+
                     " in " +:+ path +:+ "...")) ;;
  match r with
  | inr _ =>
      try_finally
        (try_except (deploy_body path app_name public_ip instance_id instance_name is_db)
           (except_exception_as (deploy_error public_ip)))
        (call (Close public_ip) ;;; ret tt)
  | inl e =>
      try_finally
        (try_except (raise e) (except_exception_as (deploy_error public_ip)))
        (raise (UnboundLocalError "cannot access local variable 'ssh' where it is not associated with a value"))
  end.

(** The loop of [deploy_instance] once its filter chose the deployments
    ([Provisioning.deploy_loop]): [setup_deployment] on each, in order. *)
Definition deploy_all (ds : list Provisioning.deployment) : SSH unit :=
  for_each ds (fun d =>
    setup_deployment (Provisioning.d_path d) (Provisioning.d_app d) (Provisioning.d_ip d)
      (Provisioning.d_id d) (Provisioning.d_name d) (Provisioning.d_is_db d)).

End Setup.

End Deployment.

Module DeploymentProofs.
Import Provisioning ProvisioningProofs Deployment.
Local Open Scope script_scope.

(** The commands a session runs, with the host it runs them on. *)
Definition exec_command (c : ssh_call) : option (json * string) :=
  match c with Exec host cmd => Some (host, cmd) | _ => None end.

Lemma upload_directory_emits host dir : emits exec_command [] (upload_directory host dir).
Proof.
  unfold upload_directory, print. emits_auto. apply emits_for_each_nil. intros. emits_auto.
  reflexivity.
Qed.

Lemma save_statistics_emits name iid stats :
  emits exec_command [] (save_statistics_to_file name iid stats).
Proof. unfold save_statistics_to_file. emits_auto. Qed.

(** The commands [setup_deployment] runs on the instance, in order. *)
Definition deploy_commands (app_name : string) (is_db : bool) : list string :=
  install_commands is_db ++ (if is_db then ["python3 sysbench_setup.py"] else []) ++
  [app_deploy_cmd app_name].

Lemma install_emits ip is_db :
  emits exec_command (map (pair ip) (install_commands is_db))
    (for_each (install_commands is_db) (fun install_command =>
       call (Exec ip install_command) ;;; print ("Completed running " +:+ install_command +:+ " ..."))).
Proof.
  replace (map (pair ip) (install_commands is_db))
    with (concat (map (fun c => [(ip, c)]) (install_commands is_db))) by (by destruct is_db).
  apply emits_for_each. intros c. unfold print. emits_auto.
Qed.

Ltac deploy_emits :=
  repeat first
    [ apply upload_directory_emits | apply save_statistics_emits | apply install_emits
    | eapply emits_catch_bind; [| intros ? | ]
    | eapply emits_bind; [| intros ? | ]
    | eapply emits_finally | apply emits_try
    | (eapply emits_call_eq; cbn; reflexivity) | apply emits_ret
    | match goal with
      | |- emits _ _ (if ?b then _ else _) => destruct b
      | |- emits_in _ _ _ (if ?b then _ else _) => destruct b end ].

Lemma deploy_body_emits key path app_name ip iid name is_db :
  emits exec_command (map (pair ip) (deploy_commands app_name is_db))
    (deploy_body key path app_name ip iid name is_db).
Proof.
  unfold deploy_body, deploy_commands, print. rewrite !map_app.
  destruct is_db; cbn [app]; deploy_emits; reflexivity.
Qed.

(** C29: in every world that answers, [setup_deployment] returns and
    runs on the instance the install commands, [python3 sysbench_setup.py]
    on a database node, and the gunicorn command that serves the
    application on port 80, in that order, whatever their exit statuses:
    a failed install never stops the start of the application. *)
Theorem setup_deployment_runs_commands key path app_name ip iid name is_db :
  emits exec_command (map (pair ip) (deploy_commands app_name is_db))
    (setup_deployment key path app_name ip iid name is_db).
Proof.
  unfold setup_deployment, print.
  eapply emits_catch_bind; [deploy_emits; reflexivity | intros _ |].
  - eapply emits_finally; [apply emits_try, deploy_body_emits | deploy_emits; reflexivity |].
    reflexivity.
  - by rewrite !app_nil_r.
Qed.

Definition not_exit (e : exn) : Prop := forall z, e <> SystemExit z.

Lemma deploy_body_raises key path app_name ip iid name is_db :
  raises_in not_exit (deploy_body key path app_name ip iid name is_db).
Proof.
  unfold deploy_body, upload_directory, save_statistics_to_file, print. raises_in_auto.
Qed.

Section Handled.
Context (o : oracle ssh_call reply) (ip : json).
Hypothesis o_no_exit : forall h c e, o h c = inl e -> not_exit e.
Hypothesis o_says : forall h s, exists r, o h (Say s) = inr r.
Hypothesis o_closes : forall h, exists r, o h (Close ip) = inr r.

Lemma print_ok h s : print s o h = ([Say s], inr tt).
Proof. destruct (o_says h s) as [r Hr]. unfold print, bind, call, ret. by rewrite Hr. Qed.

Lemma close_ok h : (call (Close ip) ;;; ret tt)%script o h = ([Close ip], inr tt).
Proof. destruct (o_closes h) as [r Hr]. unfold bind, call, ret. by rewrite Hr. Qed.

(** The [try ... except Exception] around [deploy_body] returns. *)
Lemma deploy_body_handled key path app_name iid name is_db h :
  exists l, try_except (deploy_body key path app_name ip iid name is_db)
              (except_exception_as (deploy_error ip)) o h = (l, inr tt).
Proof.
  unfold try_except. destruct (deploy_body _ _ _ _ _ _ _ o h) as [l [e|[]]] eqn:Hb; [|by eexists].
  assert (He : not_exit e) by (eapply deploy_body_raises; [exact o_no_exit | exact Hb]).
  destruct e; try (by exfalso; eapply He); cbn [except_exception_as];
    unfold deploy_error; rewrite print_ok; by eexists.
Qed.

End Handled.

(** C28: [setup_deployment] handles every error: in a world where
    [print] and [ssh.close()] never fail and nothing calls [exit], it
    returns normally whatever the connection, the commands, the upload or
    the statistics file do, and the last thing it does is close the SSH
    session. *)
Theorem setup_deployment_returns_and_closes key path app_name ip iid name is_db o h :
  (forall h' c e, o h' c = inl e -> not_exit e) ->
  (forall h' s, exists r, o h' (Say s) = inr r) ->
  (forall h', exists r, o h' (Close ip) = inr r) ->
  exists l, setup_deployment key path app_name ip iid name is_db o h = (l, inr tt) /\
            last l = Some (Close ip).
Proof.
  intros Hx Hs Hc. unfold setup_deployment.
  set (s := "Connecting to " +:+ _).
  assert (Hcatch : catch (print s) o h = ([Say s], inr (inr tt)))
    by (unfold catch; by rewrite (print_ok o Hs)).
  rewrite (bind_ok _ _ _ _ _ _ Hcatch). cbn [fst snd].
  destruct (deploy_body_handled o ip Hx Hs key path app_name iid name is_db (h ++ [Say s]))
    as [l Hl].
  unfold try_finally. rewrite Hl, (close_ok o ip Hc). cbn.
  eexists. split; [reflexivity|]. by rewrite app_comm_cons, last_snoc.
Qed.

(** The gunicorn start commands among the commands a session runs. *)
Definition gunicorn_start (hc : json * string) : option (json * string) :=
  if is_prefix "sudo gunicorn " hc.2 then Some hc else None.

Definition app_start (c : ssh_call) : option (json * string) :=
  match exec_command c with Some hc => gunicorn_start hc | None => None end.

Lemma setup_deployment_starts key path app_name ip iid name is_db :
  emits app_start [(ip, app_deploy_cmd app_name)]
    (setup_deployment key path app_name ip iid name is_db).
Proof.
  replace [(ip, app_deploy_cmd app_name)]
    with (omap gunicorn_start (map (pair ip) (deploy_commands app_name is_db))).
  - apply emits_omap, setup_deployment_runs_commands.
  - unfold deploy_commands. rewrite !map_app, !omap_app.
    assert (Hs : gunicorn_start (ip, app_deploy_cmd app_name) = Some (ip, app_deploy_cmd app_name))
      by (unfold gunicorn_start, app_deploy_cmd; cbn [snd]; by rewrite is_prefix_app).
    cbn [map omap list_omap]. rewrite Hs. by destruct is_db.
Qed.

Lemma deploy_all_starts key ds :
  emits app_start (map (fun d => (d_ip d, app_deploy_cmd (d_app d))) ds) (deploy_all key ds).
Proof.
  replace (map _ ds) with (concat (map (fun d => [(d_ip d, app_deploy_cmd (d_app d))]) ds))
    by (induction ds; simpl; congruence).
  apply emits_for_each. intros d. apply setup_deployment_starts.
Qed.

(** C30: what provisioning deploys, run through [setup_deployment]: in
    every world that answers, gunicorn is started on port 80 with
    [master_app] on the primary's address, then with [slave_app] on every
    database address, the primary's included, then with the proxy
    manager, gatekeeper and trusted host applications on theirs: the
    primary's instance is asked to serve two applications on one port. *)
Theorem main_starts_two_servers_on_primary key x xs pms ths gks fs :
  emits app_start
    ((opt_str (ec2_ip x), app_deploy_cmd "master_app.py") ::
     map (fun y => (opt_str (ec2_ip y), app_deploy_cmd "slave_app.py")) (x :: xs) ++
     map (fun y => (opt_str (ec2_ip y), app_deploy_cmd "proxy_manager_app.py")) pms ++
     map (fun y => (opt_str (ec2_ip y), app_deploy_cmd "gatekeeper_app.py")) gks ++
     map (fun y => (opt_str (ec2_ip y), app_deploy_cmd "trusted_host_app.py")) ths)
    (deploy_all key (p_deployments (main_after_launch (x :: xs) pms ths gks fs))).
Proof.
  main_deployments_rw. eapply emits_eq; [apply deploy_all_starts|].
  rewrite !map_app. cbn [map app]. rewrite !map_map. reflexivity.
Qed.

(** ** The statistics [setup_deployment] keeps *)

(** The three literals of the pattern occur in [output], in order. *)
Definition markers_in_order (output : string) : Prop :=
  exists pre a b c,
    output = pre +:+ sql_statistics +:+ a +:+ threads_fairness +:+ b +:+ execution_time +:+ c.

(** The last part of the match: up to the first newline, included, or
    to the end of the output. *)
Definition line_end (c post : string) : Prop :=
  exists c', has_char "010"%char c' = false /\
             ((c = c' +:+ nl /\ exists r, post = r) \/ (c = c' /\ post = EmptyString)).

Lemma newline_part r2 :
  exists c post, r2 = c +:+ post /\ line_end c post /\
    match break_at nl r2 with Some (c, _) => c +:+ nl | None => r2 end = c.
Proof.
  destruct (break_at nl r2) as [[c' post]|] eqn:Hb.
  - exists (c' +:+ nl), post. split; [by rewrite (break_at_some _ _ _ _ Hb), string_app_assoc|].
    split; [|done]. exists c'. split; [by eapply break_at_char_some|]. left. eauto.
  - exists r2, EmptyString. rewrite string_app_nil_r. split; [done|]. split; [|done].
    exists r2. split; [by apply break_at_char_none|]. by right.
Qed.

(** [p] ends where the first occurrence of [m] in [t] starts. *)
Definition first_at (m t p : string) : Prop :=
  forall u y, t = u +:+ m +:+ y -> (String.length p <= String.length u)%nat.

(** C31: [extract_relevant_statistics] finds the statistics exactly when
    [SQL statistics:], [Threads fairness:] and
    [execution time (avg/stddev):] occur in the output in that order, and
    then returns the piece of the output that [re.search] matches: it
    starts at the first [SQL statistics:], runs to the first
    [Threads fairness:] after it and to the first
    [execution time (avg/stddev):] after that, and ends with the first
    newline that follows, or with the output. *)
Theorem extract_relevant_statistics_spec output :
  (extract_relevant_statistics output = not_found <-> ~ markers_in_order output) /\
  (markers_in_order output ->
   exists pre a b c post,
     output = pre +:+ extract_relevant_statistics output +:+ post /\
     extract_relevant_statistics output =
       sql_statistics +:+ a +:+ threads_fairness +:+ b +:+ execution_time +:+ c /\
     first_at sql_statistics output pre /\
     first_at threads_fairness (a +:+ threads_fairness +:+ b +:+ execution_time +:+ c +:+ post) a /\
     first_at execution_time (b +:+ execution_time +:+ c +:+ post) b /\
     line_end c post).
Proof.
  assert (Hfound : markers_in_order output ->
    exists pre a b c post,
     output = pre +:+ extract_relevant_statistics output +:+ post /\
     extract_relevant_statistics output =
       sql_statistics +:+ a +:+ threads_fairness +:+ b +:+ execution_time +:+ c /\
     first_at sql_statistics output pre /\
     first_at threads_fairness (a +:+ threads_fairness +:+ b +:+ execution_time +:+ c +:+ post) a /\
     first_at execution_time (b +:+ execution_time +:+ c +:+ post) b /\
     line_end c post).
  { intros Hm.
    assert (Hx : exists pre a b r2,
      break_at sql_statistics output = Some (pre, a +:+ threads_fairness +:+ b +:+ execution_time +:+ r2) /\
      break_at threads_fairness (a +:+ threads_fairness +:+ b +:+ execution_time +:+ r2) =
        Some (a, b +:+ execution_time +:+ r2) /\
      break_at execution_time (b +:+ execution_time +:+ r2) = Some (b, r2) /\
      extract_relevant_statistics output =
      sql_statistics +:+ a +:+ threads_fairness +:+ b +:+ execution_time +:+
      match break_at nl r2 with Some (c, _) => c +:+ nl | None => r2 end).
    { revert Hm.
      intros (pre & a & b & c & ->). unfold extract_relevant_statistics.
      destruct (break_at_suffix sql_statistics pre (a +:+ threads_fairness +:+ b +:+ execution_time +:+ c))
        as (pre' & r0 & m0 & -> & Hr0).
      destruct (break_at_suffix threads_fairness (m0 +:+ a) (b +:+ execution_time +:+ c))
        as (a' & r1 & m1 & Hb1 & Hr1).
      destruct (break_at_suffix execution_time (m1 +:+ b) c) as (b' & r2 & m2 & Hb2 & _).
      rewrite string_app_assoc, <- Hr0 in Hb1. rewrite Hb1.
      rewrite string_app_assoc, <- Hr1 in Hb2. rewrite Hb2.
      exists pre', a', b', r2.
      rewrite <- (break_at_some _ _ _ _ Hb2), <- (break_at_some _ _ _ _ Hb1). done. }
    destruct Hx as (pre & a & b & r2 & Hb & H1 & H2 & ->).
    destruct (newline_part r2) as (c & post & -> & Hend & ->).
    exists pre, a, b, c, post. split_and!; [|done| | | |done].
    - rewrite (break_at_some _ _ _ _ Hb), !string_app_assoc. done.
    - intros u y Hu. exact (break_at_first _ _ _ _ Hb u y Hu).
    - intros u y Hu. exact (break_at_first _ _ _ _ H1 u y Hu).
    - intros u y Hu. exact (break_at_first _ _ _ _ H2 u y Hu). }
  split; [split|exact Hfound].
  - intros Hnf Hm. destruct (Hfound Hm) as (pre & a & b & c & post & _ & He & _).
    rewrite Hnf in He. discriminate.
  - intros Hn. unfold extract_relevant_statistics.
    destruct (break_at sql_statistics output) as [[pre r0]|] eqn:H0; [|done].
    destruct (break_at threads_fairness r0) as [[a r1]|] eqn:H1; [|done].
    destruct (break_at execution_time r1) as [[b r2]|] eqn:H2; [|done].
    exfalso. apply Hn. exists pre, a, b, r2.
    by rewrite (break_at_some _ _ _ _ H0), (break_at_some _ _ _ _ H1), (break_at_some _ _ _ _ H2).
Qed.

(** ** The first deployment of the primary *)

(** [os.listdir(dir)] returns [ns]. *)
Definition lists (dir : string) (ns : list string) (o : oracle ssh_call reply) : Prop :=
  forall h, exists r, o h (ListDir dir) = inr r /\ names r = ns.

(** The files a session uploads and the commands it runs. *)
Definition upload_or_exec (c : ssh_call) : option string :=
  match c with Put _ _ remote => Some remote | Exec _ cmd => Some cmd | _ => None end.

Lemma upload_directory_puts host path ns :
  emits_in (lists (str_get directory_map path "../mysql/gatekeeper") ns) upload_or_exec
    (map (fun n => "/home/ubuntu/" +:+ n) ns) (upload_directory host path).
Proof.
  unfold upload_directory, print.
  eapply emits_bind; [by apply emits_call_eq | intros abs |]; [|done].
  eapply emits_bind; [by apply emits_call_eq | intros _ |]; [|done].
  eapply emits_bind; [deploy_emits; reflexivity | intros _ |]; [|done].
  eapply (emits_finally _ _ (map (fun n => "/home/ubuntu/" +:+ n) ns));
    [| deploy_emits; reflexivity | by rewrite app_nil_r].
  eapply (emits_call_known (fun r => names r = ns)); [done | intros v Hv | done].
  rewrite Hv, map_as_concat. apply emits_for_each. intros n. deploy_emits; reflexivity.
Qed.

(** C32: the primary's first deployment ([deploy_master], which runs
    before [deploy_slave]) uploads the files of [../mysql/master] and then
    runs [python3 sysbench_setup.py]: the benchmark script is in
    [../mysql/slave], so whatever else the master directory holds (the
    repository has [master_app.py], and [deploy_instance] has just read
    the [instance_info.json] written there), in every world that answers
    and lists it without [sysbench_setup.py], the benchmark runs after
    uploads of which none is [/home/ubuntu/sysbench_setup.py]. *)
Theorem master_deployment_runs_missing_benchmark key ip iid name ns :
  ~ In "sysbench_setup.py" ns ->
  ~ In "/home/ubuntu/sysbench_setup.py" (map (fun n => "/home/ubuntu/" +:+ n) ns) /\
  emits_in (lists "../mysql/master" ns) upload_or_exec
    (install_commands true ++ map (fun n => "/home/ubuntu/" +:+ n) ns ++
     ["python3 sysbench_setup.py"; app_deploy_cmd "master_app.py"])
    (setup_deployment key "master" "master_app.py" ip iid name true).
Proof.
  intros Hn. split.
  { intros (n & Hn' & Hi)%in_map_iff. apply Hn.
    apply (f_equal (string_drop (String.length "/home/ubuntu/"))) in Hn'.
    rewrite string_drop_length_app in Hn'. rewrite Hn' in Hi. exact Hi. }
  unfold setup_deployment, deploy_body, save_statistics_to_file, print.
  repeat first
    [ match goal with
      | |- emits_in _ _ _ (upload_directory _ _) =>
          eapply emits_in_weaken; [apply upload_directory_puts | intros ?o ?Ho; exact Ho]
      end
    | eapply emits_catch_bind; [| intros ? | ]
    | eapply emits_bind; [| intros ? | ]
    | eapply emits_finally | apply emits_try
    | (eapply emits_call_eq; cbn; reflexivity) | apply emits_ret
    | progress cbn [for_each install_commands app]
    | match goal with |- emits_in _ _ _ (if ?b then _ else _) => destruct b end ].
  all: cbn; try reflexivity.
  all: simpl; rewrite <- ?app_assoc, ?app_nil_r; reflexivity.
Qed.

End DeploymentProofs.

Module DeploymentWitness.
Import Provisioning Deployment DeploymentProofs.

Definition ok_reply : reply := mkReply 0 "" "" [].

(** An instance that refuses the SSH connection. *)
Definition unreachable : oracle ssh_call reply := fun _ c =>
  match c with
  | Connect _ _ _ => inl (ConnectionError "[Errno 111] Connection refused")
  | _ => inr ok_reply
  end.

Lemma setup_deployment_returns_and_closes_witness :
  exists l, setup_deployment "key.pem" "slave" "slave_app.py" (JStr "3.80.1.2") (JStr "i-1")
              (JStr "mysql_slave_node") true unreachable [] = (l, inr tt) /\
            last l = Some (Close (JStr "3.80.1.2")).
Proof.
  apply (setup_deployment_returns_and_closes "key.pem" "slave" "slave_app.py" (JStr "3.80.1.2")
           (JStr "i-1") (JStr "mysql_slave_node") true unreachable []).
  - intros h c e He z ->. destruct c; simpl in He; discriminate.
  - intros h s. by exists ok_reply.
  - intros h. by exists ok_reply.
Defined.

(** The error is reported and the session closed. *)
Example unreachable_reported :
  (setup_deployment "key.pem" "slave" "slave_app.py" (JStr "3.80.1.2") (JStr "i-1")
     (JStr "mysql_slave_node") true unreachable []).1 =
  [Say "Connecting to 3.80.1.2 for i-1 in slave...";
   Say "Error deploying to 3.80.1.2: [Errno 111] Connection refused";
   Close (JStr "3.80.1.2")].
Proof. vm_compute. reflexivity. Qed.

(** The end of a sysbench run. *)
Definition sysbench_run_output : string :=
  "Running the test with following options:" +:+ nl +:+
  "SQL statistics:" +:+ nl +:+ "    queries performed: 1000" +:+ nl +:+
  "Threads fairness:" +:+ nl +:+ "    events (avg/stddev):           125.0/0.5" +:+ nl +:+
  "    execution time (avg/stddev):   59.9/0.01" +:+ nl +:+ nl +:+ "done" +:+ nl.

Lemma extract_relevant_statistics_spec_witness :
  markers_in_order sysbench_run_output /\
  exists pre a b c post,
    sysbench_run_output = pre +:+ extract_relevant_statistics sysbench_run_output +:+ post /\
    extract_relevant_statistics sysbench_run_output =
      sql_statistics +:+ a +:+ threads_fairness +:+ b +:+ execution_time +:+ c /\
    first_at sql_statistics sysbench_run_output pre /\
    first_at threads_fairness (a +:+ threads_fairness +:+ b +:+ execution_time +:+ c +:+ post) a /\
    first_at execution_time (b +:+ execution_time +:+ c +:+ post) b /\
    line_end c post.
Proof.
  assert (Hm : markers_in_order sysbench_run_output).
  { exists ("Running the test with following options:" +:+ nl),
      (nl +:+ "    queries performed: 1000" +:+ nl),
      (nl +:+ "    events (avg/stddev):           125.0/0.5" +:+ nl +:+ "    "),
      ("   59.9/0.01" +:+ nl +:+ nl +:+ "done" +:+ nl).
    vm_compute. reflexivity. }
  split; [exact Hm|]. exact (proj2 (extract_relevant_statistics_spec sysbench_run_output) Hm).
Defined.

(** The statistics kept: from [SQL statistics:] to the end of the
    execution time line. *)
Example sysbench_run_statistics :
  extract_relevant_statistics sysbench_run_output =
    "SQL statistics:" +:+ nl +:+ "    queries performed: 1000" +:+ nl +:+
    "Threads fairness:" +:+ nl +:+ "    events (avg/stddev):           125.0/0.5" +:+ nl +:+
    "    execution time (avg/stddev):   59.9/0.01" +:+ nl.
Proof. vm_compute. reflexivity. Qed.

(** A world that lists the master directory as [deploy_master] finds it:
    the repository's [master_app.py] and the [instance_info.json] written
    by provisioning. *)
Definition master_dir : list string := ["instance_info.json"; "master_app.py"].

Definition repository : oracle ssh_call reply := fun _ c =>
  match c with
  | ListDir d => if String.eqb d "../mysql/master" then inr (mkReply 0 "" "" master_dir)
                 else inr ok_reply
  | _ => inr ok_reply
  end.

Lemma master_deployment_runs_missing_benchmark_witness :
  exists l a, setup_deployment "key.pem" "master" "master_app.py" (JStr "3.80.1.1") (JStr "i-0")
                (JStr "mysql_master_node") true repository [] = (l, inr a) /\
              omap upload_or_exec l =
                install_commands true ++
                ["/home/ubuntu/instance_info.json"; "/home/ubuntu/master_app.py";
                 "python3 sysbench_setup.py"; app_deploy_cmd "master_app.py"].
Proof.
  apply (proj2 (master_deployment_runs_missing_benchmark "key.pem" (JStr "3.80.1.1") (JStr "i-0")
           (JStr "mysql_master_node") master_dir ltac:(simpl; intuition discriminate)) repository []).
  - intros h. by eexists.
  - intros h c. destruct c; cbn; try destruct (String.eqb _ _); by eexists.
Defined.

End DeploymentWitness.
