(* ===== verification/Network.v ===== *)
(** * The operator's network: [get_local_ip_cidr] in
      [src/infrastructure/aws_infrastructure_utilities.py]

    Provisioning restricts SSH to the /24 network of the operator's public
    address, which [get_local_ip_cidr] computes with Python's [ipaddress]
    module.
    An IPv4 address is a 32-bit integer, as [ipaddress] stores it: the
    parts of [ipaddress] the sources use ([_ip_int_from_string],
    [_string_from_ip_int], [_make_netmask], [ip_network(..., strict=False)]
    and [in]) are written here with [Z.land], [Z.lxor] and [Z.shiftr] on
    [Z], and an ingress rule admits a source address as [ipaddress]'s
    [in] would.

    The theorems show that printing and parsing an address are inverse on
    the 32-bit range, what [get_local_ip_cidr] returns, and how a rule
    written with that CIDR, or with 0.0.0.0/0, reads a source address. *)

From Stdlib Require Import Ascii.
From S2P Require Import Prelude PyStr Json.

Local Open Scope Z_scope.

Module Ipaddress.

(** [IPV4LENGTH] and [_ALL_ONES]. *)
Definition IPV4LENGTH : Z := 32.
Definition ALL_ONES : Z := 2 ^ IPV4LENGTH - 1.

(** [str.isascii() and str.isdigit()]. *)
Definition all_digits (s : string) : bool :=
  negb (bool_decide (s = EmptyString)) && forallb is_digit (String.list_ascii_of_string s).

(** [int(s, 10)] on a string of ASCII digits. *)
Definition decimal_value (s : string) : Z :=
  fold_left (fun acc c => acc * 10 + (Z.of_N (N_of_ascii c) - 48)) (String.list_ascii_of_string s) 0.

(** [_parse_octet(octet_str)]. *)
Definition parse_octet (s : string) : option Z :=
  if negb (all_digits s) then None
  else if 3 <? Z.of_nat (String.length s) then None
  else if negb (bool_decide (s = "0")) && bool_decide (String.get 0 s = Some "0"%char) then None
  else let n := decimal_value s in if 255 <? n then None else Some n.

(** [int.from_bytes(octets, 'big')]. *)
Definition from_bytes_big (l : list Z) : Z := fold_left (fun acc b => acc * 256 + b) l 0.

(** [_ip_int_from_string(ip_str)]. *)
Definition ip_int_from_string (s : string) : option Z :=
  if bool_decide (s = EmptyString) then None
  else match split_on "." s with
       | [a; b; c; d] =>
           match parse_octet a, parse_octet b, parse_octet c, parse_octet d with
           | Some a', Some b', Some c', Some d' => Some (from_bytes_big [a'; b'; c'; d'])
           | _, _, _, _ => None
           end
       | _ => None
       end.

(** [ip_int.to_bytes(4, 'big')]. *)
Definition to_bytes4 (z : Z) : list Z :=
  [Z.land (Z.shiftr z 24) 255; Z.land (Z.shiftr z 16) 255; Z.land (Z.shiftr z 8) 255; Z.land z 255].

(** [_string_from_ip_int(ip_int)]: [str(IPv4Address(ip_int))]. *)
Definition string_from_ip_int (z : Z) : string := join_with "." (map py_str_int (to_bytes4 z)).

(** [int.bit_length()] of a non-negative integer. *)
Definition bit_length (x : Z) : Z := if x =? 0 then 0 else Z.log2 x + 1.

(** [_count_righthand_zero_bits(number, bits)]. *)
Definition count_righthand_zero_bits (number bits : Z) : Z :=
  if number =? 0 then bits else Z.min bits (bit_length (Z.land (Z.lnot number) (number - 1))).

(** [_prefix_from_ip_int(ip_int)]: [None] is the [ValueError] of a mask
    that mixes zeroes and ones. *)
Definition prefix_from_ip_int (ip_int : Z) : option Z :=
  let trailing_zeroes := count_righthand_zero_bits ip_int IPV4LENGTH in
  let prefixlen := IPV4LENGTH - trailing_zeroes in
  let leading_ones := Z.shiftr ip_int trailing_zeroes in
  let all_ones := Z.shiftl 1 prefixlen - 1 in
  if leading_ones =? all_ones then Some prefixlen else None.

(** [_prefix_from_ip_string(ip_str)]: a netmask, else a hostmask. *)
Definition prefix_from_ip_string (s : string) : option Z :=
  match ip_int_from_string s with
  | None => None
  | Some ip_int =>
      match prefix_from_ip_int ip_int with
      | Some p => Some p
      | None => prefix_from_ip_int (Z.lxor ip_int ALL_ONES)
      end
  end.

(** [_prefix_from_prefix_string(prefixlen_str)]. *)
Definition prefix_from_prefix_string (s : string) : option Z :=
  if negb (all_digits s) then None
  else let p := decimal_value s in if (0 <=? p) && (p <=? IPV4LENGTH) then Some p else None.

(** [_make_netmask(arg)] for a string: the prefix length. *)
Definition make_netmask (s : string) : option Z :=
  match prefix_from_prefix_string s with
  | Some p => Some p
  | None => prefix_from_ip_string s
  end.

(** [_ip_int_from_prefix(prefixlen)]. *)
Definition ip_int_from_prefix (prefixlen : Z) : Z := Z.lxor ALL_ONES (Z.shiftr ALL_ONES prefixlen).

(** [ip_network(address, strict)] for an IPv4 network: the network
    address and the prefix length.  With [strict=False] the host bits are
    cleared; with [strict=True] they must be clear. *)
Definition ip_network (address : string) (strict : bool) : option (Z * Z) :=
  let parts := split_on "/" address in
  let addr_mask := match parts with
                   | [a] => Some (a, None)
                   | [a; m] => Some (a, Some m)
                   | _ => None
                   end in
  match addr_mask with
  | None => None
  | Some (a, m) =>
      match ip_int_from_string a,
            match m with None => Some IPV4LENGTH | Some m' => make_netmask m' end with
      | Some packed, Some prefixlen =>
          let netmask := ip_int_from_prefix prefixlen in
          if Z.land packed netmask =? packed then Some (packed, prefixlen)
          else if strict then None
          else Some (Z.land packed netmask, prefixlen)
      | _, _ => None
      end
  end.

(** [str(network)]. *)
Definition network_string (n : Z * Z) : string := string_from_ip_int n.1 +:+ "/" +:+ py_str_int n.2.

(** [address in network]. *)
Definition network_contains (n : Z * Z) (addr : Z) : bool :=
  Z.land addr (ip_int_from_prefix n.2) =? n.1.

End Ipaddress.

(** [get_local_ip_cidr()] after [requests.get('https://api.ipify.org')]
    answered [response_text]: [ip_network(f'{public_ip}/255.255.255.0',
    strict=False)] printed with [str]; a malformed answer raises the
    [ValueError] of [ip_network]. *)
Definition get_local_ip_cidr (response_text : string) : exn + string :=
  let public_ip := py_strip response_text in
  let subnet_mask := "255.255.255.0" in
  let address := public_ip +:+ "/" +:+ subnet_mask in
  match Ipaddress.ip_network address false with
  | Some n => inr (Ipaddress.network_string n)
  | None => inl (ValueError ("'" +:+ address +:+ "' does not appear to be an IPv4 or IPv6 network"))
  end.

(** How AWS reads the CIDR of an ingress rule and tests a source address
    against it, as [ipaddress] would: [ip_network(cidr)] then [in]. *)
Definition cidr_admits (cidr : string) (src : Z) : bool :=
  match Ipaddress.ip_network cidr true with
  | Some n => Ipaddress.network_contains n src
  | None => false
  end.

Module NetworkProofs.
Import Ipaddress.

(** ** Big-endian bytes of a 32-bit address *)

Lemma shiftr_8_div z k : 0 <= k -> Z.shiftr z (8 * (k + 1)) = Z.shiftr z (8 * k) / 256.
Proof.
  intros Hk. rewrite !Z.shiftr_div_pow2 by lia. rewrite Z.div_div by lia.
  f_equal. replace (8 * (k + 1)) with (8 * k + 8) by lia. by rewrite Z.pow_add_r by lia.
Qed.

Lemma from_to_bytes4 z : 0 <= z < 2 ^ 32 -> from_bytes_big (to_bytes4 z) = z.
Proof.
  intros Hz. unfold from_bytes_big, to_bytes4; simpl.
  change 255 with (Z.ones 8). rewrite !Z.land_ones by lia.
  assert (H1 : Z.shiftr z 8 = z / 256).
  { by rewrite Z.shiftr_div_pow2 by lia. }
  assert (H2 : Z.shiftr z 16 = Z.shiftr z 8 / 256) by exact (shiftr_8_div z 1 ltac:(lia)).
  assert (H3 : Z.shiftr z 24 = Z.shiftr z 16 / 256) by exact (shiftr_8_div z 2 ltac:(lia)).
  rewrite H3, H2, H1.
  set (y1 := z / 256). set (y2 := y1 / 256). set (y3 := y2 / 256).
  assert (y3 < 256) by (subst y1 y2 y3; rewrite !Z.div_div by lia; apply Z.div_lt_upper_bound; lia).
  assert (0 <= y3) by (subst y1 y2 y3; apply Z.div_pos; [apply Z.div_pos; [apply Z.div_pos|]|]; lia).
  rewrite (Z.mod_small y3) by lia. change (2 ^ 8) with 256.
  pose proof (Z_div_mod_eq_full z 256). pose proof (Z_div_mod_eq_full y1 256).
  pose proof (Z_div_mod_eq_full y2 256). lia.
Qed.

Lemma to_bytes4_range z b : In b (to_bytes4 z) -> 0 <= b < 256.
Proof.
  unfold to_bytes4. change 255 with (Z.ones 8). rewrite !Z.land_ones by lia.
  simpl. intros Hb. repeat destruct Hb as [<- | Hb]; try apply Z.mod_pos_bound; try lia; done.
Qed.

(** ** Octets: printing then parsing, checked on the 256 values *)

Definition octet_ok (n : Z) : bool :=
  bool_decide (parse_octet (py_str_int n) = Some n) &&
  negb (has_char "." (py_str_int n)) && negb (has_char "/" (py_str_int n)) &&
  negb (bool_decide (py_str_int n = EmptyString)).

Lemma octet_table : forallb (fun k => octet_ok (Z.of_nat k)) (seq 0 256) = true.
Proof. vm_compute. reflexivity. Qed.

Lemma octet_ok_range n : 0 <= n < 256 -> octet_ok n = true.
Proof.
  intros Hn. pose proof octet_table as Ht. rewrite forallb_forall in Ht.
  rewrite <- (Z2Nat.id n) by lia. apply Ht. apply in_seq. lia.
Qed.

Lemma octet_facts n : 0 <= n < 256 ->
  parse_octet (py_str_int n) = Some n /\ has_char "." (py_str_int n) = false /\
  has_char "/" (py_str_int n) = false /\ py_str_int n <> EmptyString.
Proof.
  intros Hn%octet_ok_range. unfold octet_ok in Hn.
  rewrite !andb_true_iff, !negb_true_iff in Hn. destruct Hn as [[[Ha Hb] Hc] Hd].
  apply bool_decide_eq_true in Ha. apply bool_decide_eq_false in Hd. done.
Qed.

(** ** Dotted quads *)

Definition bytes4 (l : list Z) : Prop := length l = 4%nat /\ Forall (fun b => 0 <= b < 256) l.

Lemma to_bytes4_bytes z : bytes4 (to_bytes4 z).
Proof. split; [done|]. apply Forall_forall. intros b Hb. by apply (to_bytes4_range z), list_elem_of_In. Qed.

Lemma string_app_char (c : ascii) x : String c EmptyString +:+ x = String c x.
Proof. done. Qed.

Lemma dotted_split l : bytes4 l ->
  split_on "." (join_with "." (map py_str_int l)) = map py_str_int l /\
  has_char "/" (join_with "." (map py_str_int l)) = false /\
  join_with "." (map py_str_int l) <> EmptyString.
Proof.
  intros [Hlen Hl]. destruct l as [|a [|b [|c [|d [|]]]]]; simpl in Hlen; try lia.
  rewrite !Forall_cons in Hl. destruct Hl as (Ha & Hb & Hc & Hd & _).
  apply octet_facts in Ha as (_ & Ha1 & Ha2 & Ha3), Hb as (_ & Hb1 & Hb2 & _),
    Hc as (_ & Hc1 & Hc2 & _), Hd as (_ & Hd1 & Hd2 & _).
  cbn [map join_with]. rewrite !string_app_char.
  rewrite !split_on_app, split_on_no_sep by done. split; [done|].
  repeat (rewrite has_char_app; cbn [has_char]). rewrite Ha2, Hb2, Hc2, Hd2. split; [done|].
  destruct (py_str_int a); [done|]. discriminate.
Qed.

Lemma parse_dotted l : bytes4 l -> ip_int_from_string (join_with "." (map py_str_int l)) = Some (from_bytes_big l).
Proof.
  intros Hl. pose proof (dotted_split l Hl) as (Hs & _ & Hne). unfold ip_int_from_string.
  rewrite bool_decide_eq_false_2 by done. rewrite Hs.
  destruct Hl as [Hlen Hl]. destruct l as [|a [|b [|c [|d [|]]]]]; simpl in Hlen; try lia.
  rewrite !Forall_cons in Hl. destruct Hl as (Ha & Hb & Hc & Hd & _). cbn [map].
  apply octet_facts in Ha as [-> _], Hb as [-> _], Hc as [-> _], Hd as [-> _]. done.
Qed.

(** The printed form of an address parses back to it: on every 32-bit
    integer, [_ip_int_from_string] inverts [_string_from_ip_int]. *)
Theorem ip_string_roundtrip z : 0 <= z < 2 ^ 32 -> ip_int_from_string (string_from_ip_int z) = Some z.
Proof. intros Hz. unfold string_from_ip_int. rewrite parse_dotted by apply to_bytes4_bytes. by rewrite from_to_bytes4. Qed.

(** ** [ip_network] on a printed address and a mask *)

Lemma ip_network_printed z m p strict :
  0 <= z < 2 ^ 32 -> has_char "/" m = false -> make_netmask m = Some p ->
  ip_network (string_from_ip_int z +:+ "/" +:+ m) strict =
  if Z.land z (ip_int_from_prefix p) =? z then Some (z, p)
  else if strict then None else Some (Z.land z (ip_int_from_prefix p), p).
Proof.
  intros Hz Hm Hp. unfold ip_network. rewrite string_app_char.
  pose proof (dotted_split _ (to_bytes4_bytes z)) as (_ & Hs & _).
  rewrite split_on_app, split_on_no_sep by done.
  unfold string_from_ip_int. rewrite parse_dotted by apply to_bytes4_bytes.
  rewrite from_to_bytes4, Hp by done. done.
Qed.

Lemma land_range z m : 0 <= z < 2 ^ 32 -> 0 <= m -> 0 <= Z.land z m < 2 ^ 32.
Proof.
  intros Hz Hm. split; [by apply Z.land_nonneg; left; lia|].
  destruct (Z.eq_dec (Z.land z m) 0) as [->|Hne]; [lia|].
  destruct (Z.eq_dec z 0) as [->|]; [by rewrite Z.land_0_l in Hne|].
  assert (Z.log2 z < 32) by (apply Z.log2_lt_pow2; lia).
  pose proof (Z.log2_land z m ltac:(lia) Hm).
  apply Z.log2_lt_pow2; [pose proof (Z.land_nonneg z m); lia | lia].
Qed.

Definition mask24 : Z := ip_int_from_prefix 24.

Lemma mask24_value : mask24 = 4294967040.
Proof. reflexivity. Qed.

(** C23: [get_local_ip_cidr] turns the address api.ipify.org reports into
    its /24 network: the address with its last octet cleared, printed
    with the suffix /24. *)
Theorem get_local_ip_cidr_spec text z :
  0 <= z < 2 ^ 32 -> py_strip text = string_from_ip_int z ->
  get_local_ip_cidr text = inr (string_from_ip_int (Z.land z 4294967040) +:+ "/24").
Proof.
  intros Hz Ht. unfold get_local_ip_cidr. cbv zeta. rewrite Ht.
  rewrite (ip_network_printed z "255.255.255.0" 24 false Hz) by reflexivity.
  fold mask24. rewrite mask24_value.
  destruct (Z.eqb_spec (Z.land z 4294967040) z) as [->|]; reflexivity.
Qed.

(** The operator's network as a rule reads it back. *)
Lemma cidr_admits_24 z src : 0 <= z < 2 ^ 32 ->
  cidr_admits (string_from_ip_int (Z.land z 4294967040) +:+ "/24") src =
  (Z.land src 4294967040 =? Z.land z 4294967040).
Proof.
  intros Hz. unfold cidr_admits.
  rewrite (ip_network_printed _ "24" 24 true) by (try apply land_range; try lia; reflexivity).
  fold mask24. rewrite mask24_value, <- Z.land_assoc, Z.land_diag, Z.eqb_refl. done.
Qed.

Lemma cidr_admits_any src : cidr_admits "0.0.0.0/0" src = true.
Proof. unfold cidr_admits. vm_compute ip_network. unfold network_contains. simpl. by rewrite Z.land_0_r. Qed.

End NetworkProofs.

Module NetworkWitness.
Import Ipaddress NetworkProofs.

(** 81.56.7.200, as api.ipify.org answers it. *)
Definition operator : Z := 1362626504.

Example operator_cidr : get_local_ip_cidr "81.56.7.200" = inr "81.56.7.0/24".
Proof. vm_compute. reflexivity. Qed.

Lemma ip_string_roundtrip_witness : (0 <= operator < 2 ^ 32) /\
  ip_int_from_string (string_from_ip_int operator) = Some operator.
Proof. split; [unfold operator; lia | apply ip_string_roundtrip; unfold operator; lia]. Defined.

Lemma get_local_ip_cidr_spec_witness : (0 <= operator < 2 ^ 32) /\
  py_strip "81.56.7.200 " = string_from_ip_int operator /\
  get_local_ip_cidr "81.56.7.200 " = inr (string_from_ip_int (Z.land operator 4294967040) +:+ "/24").
Proof.
  split; [unfold operator; lia|]. split; [vm_compute; reflexivity|].
  apply get_local_ip_cidr_spec; [unfold operator; lia | vm_compute; reflexivity].
Defined.

End NetworkWitness.
