(* ===== verification/SecurityGroups.v ===== *)
(** * The firewall of the cluster: [create_security_groups] in
      [src/infrastructure/aws_infrastructure_utilities.py]

    Provisioning creates one security group per tier and authorizes the
    same four ingress rules on each: SSH from the operator's CIDR, HTTP,
    HTTPS and ICMP from 0.0.0.0/0.  [create_security_groups] is a script
    of the [Script] monad over the two EC2 calls it makes; the group ids
    are the raw [sg['GroupId']] values, and a parameter that is not a
    string is refused by botocore before the call.  A rule admits a
    packet as EC2 applies it, with [cidr_admits] of [Network].

    The theorems show that, whatever EC2 answers, a run that returns the
    four ids has authorized all four rules on each of them, and no other
    rule: so every tier admits HTTP from any address, and SSH exactly from
    the operator's /24. *)

From S2P Require Import Prelude PyStr Json Script Network.

Local Open Scope Z_scope.

Module SecurityGroups.

(** An entry of [IpPermissions]: protocol, port range and [IpRanges]. *)
Record ip_permission := {
  ip_protocol : string;
  from_port : Z;
  to_port : Z;
  cidr_ips : list string
}.

(** The calls of [create_security_groups] on the EC2 client. *)
Inductive ec2_call :=
  | CreateSecurityGroup (group_name description vpc_id : string)
  | AuthorizeSecurityGroupIngress (group_id : string) (perm : ip_permission).

Abbreviation EC2 := (M ec2_call json).

(** A string parameter of a boto3 call: botocore refuses another type. *)
Definition str_param (v : json) : exn + string :=
  match v with
  | JStr s => inr s
  | _ => inl (ParamValidationError ("Invalid type for parameter, value: " +:+ py_str v +:+
                                    ", type: <class '" +:+ type_name v +:+ "'>, valid types: <class 'str'>"))
  end.

(** [d[k]] on a dict of the script. *)
Definition dict_subscript {V} (d : gmap string V) (k : string) : exn + V :=
  match d !! k with Some v => inr v | None => inl (KeyError k) end.

Definition groups_to_create : list (string * string) :=
  [("gatekeeper", "Internet-facing security group");
   ("trusted_host", "Trusted host security group");
   ("proxy_manager", "Proxy manager security group");
   ("mysql_nodes", "MySQL nodes security group")].

Definition rule (proto : string) (port : Z) (cidr : string) : ip_permission :=
  {| ip_protocol := proto; from_port := port; to_port := port; cidr_ips := [cidr] |}.

(** The rules of one tier: the four tiers have the same ones. *)
Definition tier_rules (ssh_allowed_ip : string) : list ip_permission :=
  [rule "tcp" 22 ssh_allowed_ip; rule "tcp" 80 "0.0.0.0/0";
   rule "tcp" 443 "0.0.0.0/0"; rule "icmp" (-1) "0.0.0.0/0"].

(** [sg_rules], in the insertion order [items()] iterates. *)
Definition sg_rules (ssh_allowed_ip : string) : list (string * list ip_permission) :=
  [("gatekeeper", tier_rules ssh_allowed_ip); ("trusted_host", tier_rules ssh_allowed_ip);
   ("proxy_manager", tier_rules ssh_allowed_ip); ("mysql_nodes", tier_rules ssh_allowed_ip)].

Local Open Scope script_scope.

(** The creation loop: [security_groups[name] = sg['GroupId']]. *)
Fixpoint create_groups (vpc_id : json) (gs : list (string * string))
    (security_groups : gmap string json) : EC2 (gmap string json) :=
  match gs with
  | [] => ret security_groups
  | (name, description) :: gs' =>
      vid <- lift (str_param vpc_id) ;;
      sg <- call (CreateSecurityGroup (py_upper name +:+ "_SG") description vid) ;;
      gid <- lift (py_subscript sg "GroupId") ;;
      create_groups vpc_id gs' (<[name := gid]> security_groups)
  end.

(** [for rule in rules: ec2_client.authorize_security_group_ingress(...)]. *)
Definition authorize_rules (sg_id : json) (rules : list ip_permission) : EC2 unit :=
  for_each rules (fun r =>
    gid <- lift (str_param sg_id) ;;
    call (AuthorizeSecurityGroupIngress gid r) ;;; ret tt).

(** [for sg_name, rules in sg_rules.items()]. *)
Definition authorize_groups (security_groups : gmap string json)
    (rules : list (string * list ip_permission)) : EC2 unit :=
  for_each rules (fun '(sg_name, rs) =>
    sg_id <- lift (dict_subscript security_groups sg_name) ;;
    authorize_rules sg_id rs).

(** [create_security_groups(ec2_client, vpc_id, ssh_allowed_ip)]: the
    four group ids, or [None] when anything raised. *)
Definition create_security_groups (vpc_id : json) (ssh_allowed_ip : string)
    : EC2 (option (json * json * json * json)) :=
  try_except (
    security_groups <- create_groups vpc_id groups_to_create ∅ ;;
    authorize_groups security_groups (sg_rules ssh_allowed_ip) ;;;
    g <- lift (dict_subscript security_groups "gatekeeper") ;;
    t <- lift (dict_subscript security_groups "trusted_host") ;;
    p <- lift (dict_subscript security_groups "proxy_manager") ;;
    m <- lift (dict_subscript security_groups "mysql_nodes") ;;
    ret (Some (g, t, p, m)))
  (except_exception (ret None)).

(** How EC2 applies the ingress rules of a group to a packet: a rule
    admits it when the protocol matches, the port is in range ([-1] for
    every ICMP type) and the source is in one of its CIDR ranges. *)
Definition rule_admits (p : ip_permission) (proto : string) (port src : Z) : bool :=
  bool_decide (ip_protocol p = proto) &&
  ((from_port p =? -1) || ((from_port p <=? port) && (port <=? to_port p))) &&
  existsb (fun c => cidr_admits c src) (cidr_ips p).

(** The rules that calls which took effect installed on a group. *)
Definition admits (calls : list ec2_call) (group_id proto : string) (port src : Z) : bool :=
  existsb (fun c => match c with
                    | AuthorizeSecurityGroupIngress gid p =>
                        bool_decide (gid = group_id) && rule_admits p proto port src
                    | CreateSecurityGroup _ _ _ => false
                    end) calls.

End SecurityGroups.

Module SecurityGroupProofs.
Import SecurityGroups NetworkProofs.

(** The rules a call authorizes come from [tier_rules]. *)
Definition from_tier (ssh : string) (c : ec2_call) : Prop :=
  match c with AuthorizeSecurityGroupIngress _ r => r ∈ tier_rules ssh | _ => True end.

Lemma create_groups_calls ssh v gs sgs : calls_in (from_tier ssh) (create_groups v gs sgs).
Proof.
  revert sgs. induction gs as [|[n d] gs IH]; intros sgs; simpl; [apply calls_in_ret|].
  apply calls_in_bind; [apply calls_in_lift|intros vid].
  apply calls_in_bind; [by apply calls_in_call|intros sg].
  apply calls_in_bind; [apply calls_in_lift|intros gid]. apply IH.
Qed.

Lemma create_security_groups_calls ssh v : calls_in (from_tier ssh) (create_security_groups v ssh).
Proof.
  unfold create_security_groups. apply calls_in_try.
  - apply calls_in_bind; [apply create_groups_calls|intros sgs].
    apply calls_in_bind; [|intros; calls_in_auto].
    apply calls_in_for_each_in. intros [n rs] Hin.
    assert (rs = tier_rules ssh) as -> by (unfold sg_rules in Hin; set_solver).
    apply calls_in_bind; [apply calls_in_lift|intros sg_id].
    apply calls_in_for_each_in. intros r Hr. calls_in_auto.
  - intros e k. unfold except_exception. case_match; intros [= <-]; apply calls_in_ret.
Qed.

(** An authorization loop that ran to its end authorized every rule on
    the group, whose id is a string. *)
Lemma authorize_rules_ok x rs o h l :
  authorize_rules x rs o h = (l, inr tt) -> rs <> [] ->
  exists s, x = JStr s /\ forall r, r ∈ rs -> AuthorizeSecurityGroupIngress s r ∈ l.
Proof.
  intros Hrun Hne. destruct rs as [|r0 rs0]; [done|].
  assert (Hall := for_each_inr_inv _ _ _ _ _ Hrun).
  destruct (Hall r0 ltac:(set_solver)) as (h0 & l0 & Hb0 & _).
  apply bind_inr_inv in Hb0 as (? & s & ? & Hs & _ & _). apply lift_inr_inv in Hs as [_ Hs].
  destruct x; simplify_eq/=. exists s. split; [done|].
  intros r Hr. destruct (Hall r Hr) as (h' & l' & Hb & Hsub).
  apply bind_inr_inv in Hb as (? & s' & l2 & Hs' & Hc & ->). apply lift_inr_inv in Hs' as [-> [= <-]].
  apply bind_inr_inv in Hc as (l3 & v & l4 & Hc & _ & ->). apply call_inr_inv in Hc as [-> _].
  apply Hsub. set_solver.
Qed.

Lemma authorize_groups_ok sgs rules o h l :
  authorize_groups sgs rules o h = (l, inr tt) ->
  forall n rs x, (n, rs) ∈ rules -> rs <> [] -> sgs !! n = Some x ->
  exists s, x = JStr s /\ forall r, r ∈ rs -> AuthorizeSecurityGroupIngress s r ∈ l.
Proof.
  intros Hrun n rs x Hin Hne Hx.
  destruct (for_each_inr_inv _ _ _ _ _ Hrun _ Hin) as (h' & l' & Hb & Hsub).
  apply bind_inr_inv in Hb as (? & sg_id & l2 & Hl & Ha & ->). apply lift_inr_inv in Hl as [-> Hl].
  unfold dict_subscript in Hl. rewrite Hx in Hl. injection Hl as <-.
  destruct (authorize_rules_ok _ _ _ _ _ Ha Hne) as (s & -> & Hr). exists s. split; [done|].
  intros r Hr'. apply Hsub. simpl. by apply Hr.
Qed.

Lemma dict_subscript_inv {V} (d : gmap string V) k v : dict_subscript d k = inr v -> d !! k = Some v.
Proof. unfold dict_subscript. by destruct (d !! k); intros [= ->]. Qed.

(** Whatever EC2 answers, a run that returns the four ids has authorized
    every rule of [tier_rules] on each of them. *)
Lemma create_security_groups_some v ssh o h calls g t p m :
  create_security_groups v ssh o h = (calls, inr (Some (g, t, p, m))) ->
  exists gs, [g; t; p; m] = map JStr gs /\
    forall s r, s ∈ gs -> r ∈ tier_rules ssh -> AuthorizeSecurityGroupIngress s r ∈ calls.
Proof.
  unfold create_security_groups, try_except.
  destruct (bind _ _ o h) as [l [e|a]] eqn:Hb.
  { unfold except_exception. destruct e; simpl; congruence. }
  intros [= -> ->].
  apply bind_inr_inv in Hb as (l1 & sgs & l2 & _ & Hb & ->).
  apply bind_inr_inv in Hb as (l3 & [] & l4 & Ha & Hb & ->).
  apply bind_inr_inv in Hb as (? & g' & ? & Hg & Hb & ->). apply lift_inr_inv in Hg as [-> Hg%dict_subscript_inv].
  apply bind_inr_inv in Hb as (? & t' & ? & Ht & Hb & ->). apply lift_inr_inv in Ht as [-> Ht%dict_subscript_inv].
  apply bind_inr_inv in Hb as (? & p' & ? & Hp & Hb & ->). apply lift_inr_inv in Hp as [-> Hp%dict_subscript_inv].
  apply bind_inr_inv in Hb as (? & m' & ? & Hm & Hb & ->). apply lift_inr_inv in Hm as [-> Hm%dict_subscript_inv].
  apply ret_inr_inv in Hb as [-> [= <- <- <- <-]].
  assert (Hok := authorize_groups_ok _ _ _ _ _ Ha).
  unfold sg_rules in Hok.
  destruct (Hok "gatekeeper" (tier_rules ssh) g' ltac:(set_solver) ltac:(done) Hg) as (sg & -> & Hg').
  destruct (Hok "trusted_host" (tier_rules ssh) t' ltac:(set_solver) ltac:(done) Ht) as (st & -> & Ht').
  destruct (Hok "proxy_manager" (tier_rules ssh) p' ltac:(set_solver) ltac:(done) Hp) as (sp & -> & Hp').
  destruct (Hok "mysql_nodes" (tier_rules ssh) m' ltac:(set_solver) ltac:(done) Hm) as (sm & -> & Hm').
  exists [sg; st; sp; sm]. split; [done|]. intros s r Hs Hr.
  rewrite !elem_of_app. right. left.
  repeat (apply elem_of_cons in Hs as [->|Hs]; [by auto|]). by apply elem_of_nil in Hs.
Qed.

Lemma rule_admits_same proto port c src : rule_admits (rule proto port c) proto port src = cidr_admits c src.
Proof.
  unfold rule_admits. cbn [ip_protocol from_port to_port cidr_ips rule existsb].
  by rewrite bool_decide_eq_true_2, Z.leb_refl, orb_true_r, orb_false_r.
Qed.

(** What a group admits after a run that returned its id: exactly what
    one of the rules of [tier_rules] admits. *)
Lemma admits_tier v ssh o h calls g t p m s proto port src :
  create_security_groups v ssh o h = (calls, inr (Some (g, t, p, m))) ->
  JStr s ∈ [g; t; p; m] ->
  admits calls s proto port src = existsb (fun r => rule_admits r proto port src) (tier_rules ssh).
Proof.
  intros Hrun Hs. destruct (create_security_groups_some _ _ _ _ _ _ _ _ _ Hrun) as (gs & Hgs & Hall).
  rewrite Hgs in Hs. apply list_elem_of_fmap in Hs as (s' & [= <-] & Hs).
  assert (Hfrom : forall c, c ∈ calls -> from_tier ssh c).
  { intros c Hc. eapply (create_security_groups_calls ssh v o h). by rewrite Hrun. }
  apply eq_bool_prop_intro. unfold admits. rewrite !Is_true_true, !existsb_exists. split.
  - intros (c & Hc & Hadm). destruct c as [|gid r]; [done|].
    apply andb_prop in Hadm as [_ Hadm]. exists r. split; [|done].
    apply list_elem_of_In. apply (Hfrom _ (proj2 (list_elem_of_In _ _) Hc)).
  - intros (r & Hr & Hadm). exists (AuthorizeSecurityGroupIngress s r). split.
    + apply list_elem_of_In, Hall; [done|by apply list_elem_of_In].
    + by rewrite bool_decide_eq_true_2.
Qed.

(** C21: every tier admits HTTP from the whole Internet: whatever EC2
    answers, when [create_security_groups] returns the four group ids,
    each of them, the trusted host's, the proxy manager's and the MySQL
    nodes' included, admits TCP port 80 from every source address. *)
Theorem every_tier_admits_http v ssh o h calls g t p m :
  create_security_groups v ssh o h = (calls, inr (Some (g, t, p, m))) ->
  forall s src, JStr s ∈ [g; t; p; m] -> admits calls s "tcp" 80 src = true.
Proof.
  intros Hrun s src Hs. rewrite (admits_tier _ _ _ _ _ _ _ _ _ _ _ _ _ Hrun Hs).
  unfold tier_rules. cbn [existsb]. by rewrite (rule_admits_same "tcp" 80), cidr_admits_any, orb_true_r.
Qed.

(** C22: SSH is admitted exactly from the operator's /24: with the CIDR
    [get_local_ip_cidr] prints for the operator's address [z], every
    group [create_security_groups] returns admits TCP port 22 from a
    source address if and only if it agrees with [z] on its top 24 bits. *)
Theorem ssh_only_from_operator_network v z o h calls g t p m :
  0 <= z < 2 ^ 32 ->
  create_security_groups v (Ipaddress.string_from_ip_int (Z.land z 4294967040) +:+ "/24") o h =
    (calls, inr (Some (g, t, p, m))) ->
  forall s src, JStr s ∈ [g; t; p; m] ->
    admits calls s "tcp" 22 src = (Z.land src 4294967040 =? Z.land z 4294967040).
Proof.
  intros Hz Hrun s src Hs. rewrite (admits_tier _ _ _ _ _ _ _ _ _ _ _ _ _ Hrun Hs).
  remember (Ipaddress.string_from_ip_int (Z.land z 4294967040) +:+ "/24") as ssh eqn:Hssh.
  unfold tier_rules. cbn [existsb]. rewrite (rule_admits_same "tcp" 22).
  replace (rule_admits (rule "tcp" 80 "0.0.0.0/0") "tcp" 22 src) with false by reflexivity.
  replace (rule_admits (rule "tcp" 443 "0.0.0.0/0") "tcp" 22 src) with false by reflexivity.
  replace (rule_admits (rule "icmp" (-1) "0.0.0.0/0") "tcp" 22 src) with false by reflexivity.
  rewrite !orb_false_r, Hssh. by apply cidr_admits_24.
Qed.

End SecurityGroupProofs.

Module SecurityGroupWitness.
Import SecurityGroups SecurityGroupProofs.

(** An EC2 client that names each group after its [GroupName]. *)
Definition ec2 : Script.oracle ec2_call json := fun _ c =>
  match c with
  | CreateSecurityGroup n _ _ => inr (JDict [("GroupId", JStr ("sg-" +:+ n))])
  | AuthorizeSecurityGroupIngress _ _ => inr JNull
  end.

Definition ids : json * json * json * json :=
  (JStr "sg-GATEKEEPER_SG", JStr "sg-TRUSTED_HOST_SG", JStr "sg-PROXY_MANAGER_SG", JStr "sg-MYSQL_NODES_SG").

(** 81.56.7.200, the operator's address. *)
Definition operator : Z := 1362626504.

Definition operator_cidr : string := Ipaddress.string_from_ip_int (Z.land operator 4294967040) +:+ "/24".

Example operator_cidr_text : operator_cidr = "81.56.7.0/24".
Proof. vm_compute. reflexivity. Qed.

Lemma every_tier_admits_http_witness :
  create_security_groups (JStr "vpc-1") operator_cidr ec2 [] =
    ((create_security_groups (JStr "vpc-1") operator_cidr ec2 []).1, inr (Some ids)) /\
  forall s src, JStr s ∈ [JStr "sg-GATEKEEPER_SG"; JStr "sg-TRUSTED_HOST_SG"; JStr "sg-PROXY_MANAGER_SG";
                          JStr "sg-MYSQL_NODES_SG"] ->
    admits (create_security_groups (JStr "vpc-1") operator_cidr ec2 []).1 s "tcp" 80 src = true.
Proof.
  assert (H : create_security_groups (JStr "vpc-1") operator_cidr ec2 [] =
    ((create_security_groups (JStr "vpc-1") operator_cidr ec2 []).1, inr (Some ids))) by (vm_compute; reflexivity).
  split; [exact H | exact (every_tier_admits_http _ _ _ _ _ _ _ _ _ H)].
Defined.

Lemma ssh_only_from_operator_network_witness :
  (0 <= operator < 2 ^ 32) /\
  create_security_groups (JStr "vpc-1") operator_cidr ec2 [] =
    ((create_security_groups (JStr "vpc-1") operator_cidr ec2 []).1, inr (Some ids)) /\
  forall s src, JStr s ∈ [JStr "sg-GATEKEEPER_SG"; JStr "sg-TRUSTED_HOST_SG"; JStr "sg-PROXY_MANAGER_SG";
                          JStr "sg-MYSQL_NODES_SG"] ->
    admits (create_security_groups (JStr "vpc-1") operator_cidr ec2 []).1 s "tcp" 22 src =
      (Z.land src 4294967040 =? Z.land operator 4294967040).
Proof.
  assert (Hz : 0 <= operator < 2 ^ 32) by (unfold operator; lia).
  assert (H : create_security_groups (JStr "vpc-1") operator_cidr ec2 [] =
    ((create_security_groups (JStr "vpc-1") operator_cidr ec2 []).1, inr (Some ids))) by (vm_compute; reflexivity).
  split; [exact Hz|]. split; [exact H | exact (ssh_only_from_operator_network _ _ _ _ _ _ _ _ _ Hz H)].
Defined.

End SecurityGroupWitness.
