(* ===== verification/Infrastructure.v ===== *)
(** * Launching the cluster: [main] in [src/infrastructure/aws_infrastructure.py]
      and the AWS steps of [src/infrastructure/aws_infrastructure_utilities.py]

    [main] creates a key pair, computes the operator's CIDR, creates the
    VPC and its subnet, the four security groups, picks the latest Ubuntu
    image, launches the four tiers and hands over to the naming, saving
    and deployment steps of [Provisioning].  Each AWS, HTTP or file
    operation is a [call] answered by an oracle, the boto3 client or the
    operating system, with a JSON value or an exception; a small
    writer-and-error monad threads the calls that took effect, in order,
    and the Python exception that stops the script.  A Python tuple is a
    JSON list and [None] is [JNull]; unpacking one is [unpack].

    The theorems show that [get_latest_ubuntu_ami], which sorts the
    images by creation date, picks the first image of latest date; that
    [main] launches no instance unless the four security groups were
    created with all their rules, and then every instance it launches
    admits HTTP from any address; and what [main] does when the VPC or
    the security groups cannot be created: it crashes on unpacking the
    error value the helper returns. *)

From Stdlib Require Import Ascii.
From S2P Require Import Prelude PyStr Json Script Network SecurityGroups Provisioning.

Local Open Scope Z_scope.

Module Aws.
Import SecurityGroups.SecurityGroups.

(** The parameters of [ec2.create_instances]. *)
Record launch := mkLaunch {
  l_image_id : json;
  l_instance_type : string;
  l_key_name : json;
  l_count : Z;
  l_subnet_id : string;
  l_group : json;
  l_name_tag : string
}.

(** The operations of the script on AWS, the network and the disk. *)
Inductive aws_call :=
  | CreateVpc (cidr : string)
  | CreateTags (resources : list string) (tags : list (string * string))
  | ModifyVpcAttribute (vpc_id attribute : string)
  | VpcWaitUntilAvailable (vpc_id : string)
  | CreateSubnet (vpc_id cidr : string)
  | CreateInternetGateway
  | AttachInternetGateway (vpc_id ig_id : string)
  | CreateRouteTable (vpc_id : string)
  | CreateRoute (route_table_id destination ig_id : string)
  | AssociateWithSubnet (route_table_id subnet_id : string)
  | SecurityGroupCall (c : ec2_call)
  | DescribeKeyPairs (key_names : list string)
  | CreateKeyPair (key_name key_type key_format : string)
  | OpenForWriting (path : string)
  | WriteFile (path : string) (content : string)
  | Chmod (path : string) (mode : Z)
  | DescribeImages (filters : list (string * list string)) (owners : list string)
  | CreateInstances (l : launch)
  | HttpGet (url : string)
  | Sleep (seconds : Z)
  | InstanceLoad (instance_id : string)
  | WaitInstanceRunning (instance_ids : list string).

(** What boto3, requests and the OS answer to a call, given the calls
    that took effect before it. *)
Abbreviation oracle := (Script.oracle aws_call json).

Abbreviation M := (Script.M aws_call json).

End Aws.

Module Infra.
Import Aws SecurityGroups.SecurityGroups Provisioning.Provisioning.
Local Open Scope script_scope.

(** The values [main] imports from [config]. *)
Record config := mkConfig {
  AVAILABILITY_ZONE : string;
  SECRET_KEY_NAME : string;
  VPC_CIDR_BLOCK : string;
  PUBLIC_CIDR_BLOCK : string;
  IG_DEST_CIDR_BLOCK : string;
  MYSQL_NODE_TYPE : string;
  PROXY_MANAGER_NODE_TYPE : string;
  GATEKEEPER_NODE_TYPE : string;
  TRUSTED_HOST_NODE_TYPE : string;
  MYSQL_NODE_COUNT : Z;
  PROXY_MANAGER_NODE_COUNT : Z;
  GATEKEEPER_NODE_COUNT : Z;
  TRUSTED_HOST_NODE_COUNT : Z
}.

(** [resource.id] of a boto3 resource, which the answer stands for by its id. *)
Definition attr_id (v : json) : exn + string :=
  match v with
  | JStr s => inr s
  | _ => inl (AttributeError ("'" +:+ type_name v +:+ "' object has no attribute 'id'"))
  end.

(** [create_vpc_and_subnet(ec2_client, ec2_resource)]: the pair
    [(vpc_id, subnet)], or the triple [(None, None, None)] on any error. *)
Definition create_vpc_and_subnet (cfg : config) : M json :=
  try_except (
    vpc_response <- call (CreateVpc (VPC_CIDR_BLOCK cfg)) ;;
    vpc <- lift (py_subscript vpc_response "Vpc") ;;
    vpc_id_v <- lift (py_subscript vpc "VpcId") ;;
    vpc_id <- lift (str_param vpc_id_v) ;;
    call (CreateTags [vpc_id] [("Name", "LOG8415_LAB3")]) ;;;
    call (ModifyVpcAttribute vpc_id "EnableDnsSupport") ;;;
    call (ModifyVpcAttribute vpc_id "EnableDnsHostnames") ;;;
    call (VpcWaitUntilAvailable vpc_id) ;;;
    subnet <- call (CreateSubnet vpc_id (PUBLIC_CIDR_BLOCK cfg)) ;;
    ig <- call CreateInternetGateway ;;
    ig_id <- lift (attr_id ig) ;;
    call (AttachInternetGateway vpc_id ig_id) ;;;
    route_table <- call (CreateRouteTable vpc_id) ;;
    rt_id <- lift (attr_id route_table) ;;
    call (CreateRoute rt_id (IG_DEST_CIDR_BLOCK cfg) ig_id) ;;;
    subnet_id <- lift (attr_id subnet) ;;
    call (AssociateWithSubnet rt_id subnet_id) ;;;
    ret (JList [vpc_id_v; subnet]))
  (fun _ => Some (ret (JList [JNull; JNull; JNull]))).

(** The EC2 client [create_security_groups] talks to, after the calls
    [h] of [main]. *)
Definition sg_oracle (o : oracle) (h : list aws_call) : Script.oracle ec2_call json :=
  fun h1 c => o (h ++ map SecurityGroupCall h1) (SecurityGroupCall c).

(** [create_security_groups(ec2_client, vpc_id, local_ip_cidr)] in
    [main]: the four ids as a tuple, or [None]. *)
Definition security_groups_step (vpc_id : json) (ssh_allowed_ip : string) : M json :=
  r <- embed SecurityGroupCall (create_security_groups vpc_id ssh_allowed_ip) ;;
  ret (match r with Some (g, t, p, m) => JList [g; t; p; m] | None => JNull end).

(** [a, b, ... = value]: a tuple of the expected length, else the
    [ValueError] or [TypeError] of Python's unpacking. *)
Definition unpack (n : nat) (v : json) : exn + list json :=
  match py_iter v with
  | inl _ => inl (TypeError ("cannot unpack non-iterable " +:+ type_name v +:+ " object"))
  | inr l =>
      if Nat.eqb (length l) n then inr l
      else if Nat.ltb n (length l) then
        inl (ValueError ("too many values to unpack (expected " +:+ py_str_int (Z.of_nat n) +:+ ")"))
      else inl (ValueError ("not enough values to unpack (expected " +:+ py_str_int (Z.of_nat n)
                            +:+ ", got " +:+ py_str_int (Z.of_nat (length l)) +:+ ")"))
  end.

(** [get_local_ip_cidr()]: the HTTP request, then [Network]'s computation. *)
Definition get_local_ip_cidr_step : M string :=
  response <- call (HttpGet "https://api.ipify.org") ;;
  text <- lift (str_param response) ;;
  lift (get_local_ip_cidr text).

(** ** [create_keypair(ec2_client, key_name)] *)

(** The lookup: [Some id] returns [id], [None] goes on to create the
    key.  Only a [ClientError] is caught: an InvalidKeyPair.NotFound goes
    on, any other error returns [None]. *)
Definition find_keypair (key_name : string) : M (option json) :=
  try_except (
    key_pairs <- call (DescribeKeyPairs [key_name]) ;;
    if truthy key_pairs then
      kps <- lift (py_get key_pairs "KeyPairs") ;;
      if truthy kps then
        first <- lift (py_index kps 0) ;;
        key_pair_id <- lift (py_subscript first "KeyName") ;;
        ret (Some key_pair_id)
      else ret None
    else ret None)
  (fun e => match e with
            | ClientError _ _ _ =>
                Some (if py_str_contains "InvalidKeyPair.NotFound" (exn_str e) then ret None
                      else ret (Some JNull))
            | _ => None
            end).

(** [file.write(private_key)]: only a string can be written. *)
Definition write_text (path : string) (v : json) : M json :=
  match v with
  | JStr s => call (WriteFile path s)
  | _ => raise (TypeError ("write() argument must be str, not " +:+ type_name v))
  end.

(** The creation, under [except Exception]. *)
Definition new_keypair (key_name : string) : M json :=
  try_except (
    key_pair <- call (CreateKeyPair key_name "rsa" "pem") ;;
    private_key <- lift (py_get key_pair "KeyMaterial") ;;
    let key_file_path := key_name +:+ ".pem" in
    call (OpenForWriting key_file_path) ;;;
    write_text key_file_path private_key ;;;
    call (Chmod key_file_path 256) ;;;
    lift (py_get key_pair "KeyName"))
  (fun _ => Some (ret JNull)).

Definition create_keypair (key_name : string) : M json :=
  found <- find_keypair key_name ;;
  match found with
  | Some key_pair_id => ret key_pair_id
  | None => new_keypair key_name
  end.

(** ** [get_latest_ubuntu_ami(ec2_client)] *)

Definition ami_filters : list (string * list string) :=
  [("name", ["ubuntu/images/hvm-ssd/ubuntu-focal-20.04-amd64-server-*"]);
   ("architecture", ["x86_64"]); ("root-device-type", ["ebs"])].

(** Python's [<] on strings, by code point. *)
Definition str_lt (a b : string) : bool :=
  match String.compare a b with Lt => true | _ => false end.

(** One step of [sorted(..., reverse=True)], which is stable: [x] goes
    after every element whose key is not smaller. *)
Fixpoint insert_desc {A} (x : string * A) (l : list (string * A)) : list (string * A) :=
  match l with
  | [] => [x]
  | y :: ys => if str_lt y.1 x.1 then x :: y :: ys else y :: insert_desc x ys
  end.

Definition sort_desc {A} (l : list (string * A)) : list (string * A) :=
  fold_left (fun acc x => insert_desc x acc) l [].

(** [x['CreationDate']], a string in every answer of DescribeImages. *)
Definition creation_date (x : json) : exn + (string * json) :=
  match py_subscript x "CreationDate" with
  | inl e => inl e
  | inr (JStr d) => inr (d, x)
  | inr v => inl (TypeError ("'<' not supported between instances of '" +:+ type_name v +:+ "' and 'str'"))
  end.

Fixpoint map_exn {A B} (f : A -> exn + B) (l : list A) : exn + list B :=
  match l with
  | [] => inr []
  | x :: xs => match f x with
               | inl e => inl e
               | inr y => match map_exn f xs with inl e => inl e | inr ys => inr (y :: ys) end
               end
  end.

Definition get_latest_ubuntu_ami : M json :=
  images <- call (DescribeImages ami_filters ["099720109477"]) ;;
  imgs <- lift (match py_subscript images "Images" with inl e => inl e | inr v => py_iter v end) ;;
  keyed <- lift (map_exn creation_date imgs) ;;
  latest <- lift (match sort_desc keyed with
                  | [] => inr JNull
                  | (_, x) :: _ => py_subscript x "ImageId"
                  end) ;;
  if truthy latest then ret latest else raise (SystemExit 1).

(** ** [create_instances] and [main] *)

Definition create_instances (image_id : json) (instance_type : string) (count : Z)
    (subnet : json) (sg_id : json) (name_tag : string) (keyname : json) : M json :=
  subnet_id <- lift (attr_id subnet) ;;
  call (CreateInstances (mkLaunch image_id instance_type keyname count subnet_id sg_id name_tag)).

(** [instance.wait_until_running(); instance.load()] in
    [collect_instance_data]: the instance as [Provisioning] reads it. *)
Definition load_instance (v : json) : M ec2_instance :=
  id <- lift (attr_id v) ;;
  desc <- call (InstanceLoad id) ;;
  dns <- lift (match py_get desc "PublicDnsName" with inl e => inl e | inr d => str_param d end) ;;
  ip <- lift (py_get desc "PublicIpAddress") ;;
  ret (mkInstance id dns (match ip with JStr a => Some a | _ => None end)).

Fixpoint load_instances (vs : list json) : M (list ec2_instance) :=
  match vs with
  | [] => ret []
  | v :: vs' => x <- load_instance v ;; xs <- load_instances vs' ;; ret (x :: xs)
  end.

Definition load_all (v : json) : M (list ec2_instance) :=
  vs <- lift (py_iter v) ;; load_instances vs.

(** [main()]: the files on disk before it runs are [fs]. *)
Definition main (cfg : config) (fs : files) : M provisioned :=
  key_pair <- create_keypair (SECRET_KEY_NAME cfg) ;;
  local_ip_cidr <- get_local_ip_cidr_step ;;
  vs <- create_vpc_and_subnet cfg ;;
  vpc_subnet <- lift (unpack 2 vs) ;;
  let vpc_id := nth 0 vpc_subnet JNull in
  let subnet := nth 1 vpc_subnet JNull in
  sgs <- security_groups_step vpc_id local_ip_cidr ;;
  groups <- lift (unpack 4 sgs) ;;
  let gatekeeper_sg := nth 0 groups JNull in
  let trusted_host_sg := nth 1 groups JNull in
  let proxy_manager_sg := nth 2 groups JNull in
  let mysql_sg := nth 3 groups JNull in
  ubuntu_ami_id <- get_latest_ubuntu_ami ;;
  mysql_instances <- create_instances ubuntu_ami_id (MYSQL_NODE_TYPE cfg) (MYSQL_NODE_COUNT cfg)
                       subnet mysql_sg "MySQLNodes" key_pair ;;
  proxy_manager_instances <- create_instances ubuntu_ami_id (PROXY_MANAGER_NODE_TYPE cfg)
                       (PROXY_MANAGER_NODE_COUNT cfg) subnet proxy_manager_sg "ProxyManagerNode" key_pair ;;
  trusted_host_instances <- create_instances ubuntu_ami_id (TRUSTED_HOST_NODE_TYPE cfg)
                       (TRUSTED_HOST_NODE_COUNT cfg) subnet trusted_host_sg "TrustedHostNode" key_pair ;;
  gatekeeper_instances <- create_instances ubuntu_ami_id (GATEKEEPER_NODE_TYPE cfg)
                       (GATEKEEPER_NODE_COUNT cfg) subnet gatekeeper_sg "GateKeeperNode" key_pair ;;
  call (Sleep 60) ;;;
  mysql <- load_all mysql_instances ;;
  proxy <- load_all proxy_manager_instances ;;
  gk <- load_all gatekeeper_instances ;;
  th <- load_all trusted_host_instances ;;
  ret (main_after_launch mysql proxy th gk fs).

(** ** The helpers [main] does not call *)

(** [wait_for_instances(ec2_client, instance_ids)]: the waiter
    [instance_running] polls until every instance runs, or raises. *)
Definition wait_for_instances (instance_ids : list string) : M unit :=
  call (WaitInstanceRunning instance_ids) ;;; ret tt.

(** A boto3 client method called with a positional argument: botocore
    raises [TypeError] before sending any request. *)
Definition client_call_positional {A} (operation : string) : M A :=
  raise (TypeError (operation +:+ "() only accepts keyword arguments.")).

(** [terminate_instances(ec2_client, instance_ids)] passes the ids
    positionally to [ec2_client.terminate_instances]. *)
Definition terminate_instances (instance_ids : list string) : M unit :=
  _ <- (client_call_positional "terminate_instances" : M json) ;;
  ret tt.

End Infra.


Module ImageSort.
Import Infra.

(** ** Python's order on strings *)

Lemma str_lt_spec a b : str_lt a b = true <-> ~ String.le b a.
Proof.
  unfold str_lt, String.le, String.leb. rewrite (String.compare_antisym b a).
  destruct (String.compare a b); cbn; intuition congruence.
Qed.

Lemma str_lt_false a b : str_lt a b = false <-> String.le b a.
Proof.
  rewrite <- not_true_iff_false, str_lt_spec. split; [|tauto].
  intros H. destruct (decide (String.le b a)); tauto.
Qed.

Lemma str_lt_trans a b c : str_lt a b = true -> str_lt b c = true -> str_lt a c = true.
Proof.
  rewrite !str_lt_spec. intros Hab Hbc Hca.
  destruct (total String.le a b) as [Hab'|]; [|done]. apply Hbc. by transitivity a.
Qed.

Lemma str_le_lt_trans a b c : str_lt b a = false -> str_lt b c = true -> str_lt a c = true.
Proof.
  rewrite str_lt_false, !str_lt_spec. intros Hab Hbc Hca. apply Hbc. by transitivity a.
Qed.

(** ** The reference selection: the first element of latest key *)

Definition latest_step {A} (best : option (string * A)) (x : string * A) : option (string * A) :=
  match best with
  | None => Some x
  | Some b => if str_lt b.1 x.1 then Some x else Some b
  end.

Definition first_latest {A} (l : list (string * A)) : option (string * A) :=
  fold_left latest_step l None.

Lemma head_insert_desc {A} (x : string * A) l : head (insert_desc x l) = latest_step (head l) x.
Proof. destruct l as [|y l]; simpl; [done|]. by destruct (str_lt y.1 x.1). Qed.

Lemma head_fold_insert {A} (l acc : list (string * A)) :
  head (fold_left (fun acc x => insert_desc x acc) l acc) = fold_left latest_step l (head acc).
Proof.
  revert acc. induction l as [|x l IH]; intros acc; simpl; [done|].
  by rewrite IH, head_insert_desc.
Qed.

(** Sorting by key, latest first, and taking the head is selecting the
    first element of latest key. *)
Theorem sort_desc_head {A} (l : list (string * A)) : head (sort_desc l) = first_latest l.
Proof. unfold sort_desc, first_latest. by rewrite head_fold_insert. Qed.

Lemma fold_latest_spec {A} (l : list (string * A)) b x :
  fold_left latest_step l (Some b) = Some x ->
  (x = b /\ Forall (fun y => str_lt b.1 y.1 = false) l) \/
  (str_lt b.1 x.1 = true /\ exists l1 l2, l = l1 ++ x :: l2 /\
     Forall (fun y => str_lt y.1 x.1 = true) l1 /\ Forall (fun y => str_lt x.1 y.1 = false) l2).
Proof.
  revert b. induction l as [|y l IH]; intros b; simpl.
  - intros [= <-]. by left.
  - destruct (str_lt b.1 y.1) eqn:Hby; intros Hx.
    + right. destruct (IH y Hx) as [[-> Hl] | (Hyx & l1 & l2 & -> & H1 & H2)].
      * split; [done|]. by exists [], l.
      * split; [by eapply str_lt_trans|]. exists (y :: l1), l2. split_and!; [done| |done].
        by constructor.
    + destruct (IH b Hx) as [[-> Hl] | (Hbx & l1 & l2 & -> & H1 & H2)].
      * left. split; [done|]. by constructor.
      * right. split; [done|]. exists (y :: l1), l2. split_and!; [done| |done].
        constructor; [|done]. by eapply str_le_lt_trans.
Qed.

(** The image [get_latest_ubuntu_ami] takes is the first of latest
    creation date: every image before it is strictly older, and none
    after it is newer. *)
Theorem first_latest_spec {A} (l : list (string * A)) x :
  first_latest l = Some x ->
  exists l1 l2, l = l1 ++ x :: l2 /\
    Forall (fun y => str_lt y.1 x.1 = true) l1 /\ Forall (fun y => str_lt x.1 y.1 = false) l2.
Proof.
  unfold first_latest. destruct l as [|y l]; simpl; [done|]. intros Hx.
  destruct (fold_latest_spec l y x Hx) as [[-> Hl] | (Hyx & l1 & l2 & -> & H1 & H2)].
  - by exists [], l.
  - exists (y :: l1), l2. split_and!; [done| |done]. by constructor.
Qed.

Import Aws.

(** C24: [get_latest_ubuntu_ami] is equivalent to a single scan for the
    first image of latest creation date: it makes the one DescribeImages
    call and returns that image's ImageId, and exits with status 1 when
    there is no image or the ImageId is empty. *)
Theorem get_latest_ubuntu_ami_spec (o : oracle) h images imgs keyed :
  o h (DescribeImages ami_filters ["099720109477"]) = inr images ->
  py_subscript images "Images" = inr (JList imgs) ->
  map_exn creation_date imgs = inr keyed ->
  get_latest_ubuntu_ami o h =
    ([DescribeImages ami_filters ["099720109477"]],
     match first_latest keyed with
     | None => inl (SystemExit 1)
     | Some (_, x) =>
         match py_subscript x "ImageId" with
         | inl e => inl e
         | inr v => if truthy v then inr v else inl (SystemExit 1)
         end
     end).
Proof.
  intros Ho Himages Hkeyed. unfold get_latest_ubuntu_ami.
  rewrite (bind_ok _ _ _ _ [DescribeImages ami_filters ["099720109477"]] images) by (unfold call; by rewrite Ho).
  cbn beta. rewrite Himages. rewrite (bind_ok _ _ _ _ [] imgs) by done. cbn beta.
  rewrite (bind_ok _ _ _ _ [] keyed) by (unfold lift; by rewrite Hkeyed). cbn beta.
  rewrite <- sort_desc_head. destruct (sort_desc keyed) as [|[d x] rest]; simpl; [done|].
  unfold bind, lift. destruct (py_subscript x "ImageId") as [e|v]; simpl; [done|]. by destruct (truthy v).
Qed.

End ImageSort.

Module MainProofs.
Import Aws Infra SecurityGroups.SecurityGroups SecurityGroupProofs NetworkProofs.

Definition is_launch (c : aws_call) : bool :=
  match c with CreateInstances _ => true | _ => false end.

Definition no_launch {A} (m : M A) : Prop := calls_in (fun c => is_launch c = false) m.

(** The security group operations in a log of the script. *)
Definition sg_calls (log : list aws_call) : list ec2_call :=
  omap (fun c => match c with SecurityGroupCall x => Some x | _ => None end) log.

Definition http_rule_call (gid : string) : aws_call :=
  SecurityGroupCall (AuthorizeSecurityGroupIngress gid (rule "tcp" 80 "0.0.0.0/0")).

(** ** The steps before the launch launch nothing *)

Lemma create_keypair_no_launch k : no_launch (create_keypair k).
Proof.
  unfold no_launch, create_keypair, find_keypair, new_keypair, write_text. calls_in_auto.
Qed.

Lemma get_local_ip_cidr_step_no_launch : no_launch get_local_ip_cidr_step.
Proof. unfold no_launch, get_local_ip_cidr_step. calls_in_auto. Qed.

Lemma create_vpc_and_subnet_no_launch cfg : no_launch (create_vpc_and_subnet cfg).
Proof. unfold no_launch, create_vpc_and_subnet. calls_in_auto. Qed.

Lemma get_latest_ubuntu_ami_no_launch : no_launch get_latest_ubuntu_ami.
Proof. unfold no_launch, get_latest_ubuntu_ami. calls_in_auto. Qed.

Lemma security_groups_step_no_launch v cidr : no_launch (security_groups_step v cidr).
Proof.
  unfold no_launch, security_groups_step. apply calls_in_bind; [|intros; apply calls_in_ret].
  eapply calls_in_embed; [apply calls_in_True|done].
Qed.

Lemma load_instances_calls P vs : (forall id, P (InstanceLoad id)) -> calls_in P (load_instances vs).
Proof.
  intros HP. induction vs as [|v vs IH]; simpl; [apply calls_in_ret|].
  unfold load_instance. calls_in_auto.
Qed.

Lemma load_all_calls P v : (forall id, P (InstanceLoad id)) -> calls_in P (load_all v).
Proof. intros HP. unfold load_all. apply calls_in_bind; [apply calls_in_lift|]. by intros; apply load_instances_calls. Qed.

(** ** The security groups [main] unpacks *)

Lemma security_groups_step_four v cidr o h lsg sgs groups :
  security_groups_step v cidr o h = (lsg, inr sgs) -> unpack 4 sgs = inr groups ->
  exists g t p m, groups = [JStr g; JStr t; JStr p; JStr m] /\
    forall s, s ∈ [g; t; p; m] -> http_rule_call s ∈ lsg.
Proof.
  unfold security_groups_step. intros Hrun Hun.
  apply bind_inr_inv in Hrun as (l1 & r & l2 & He & Hret & ->). apply ret_inr_inv in Hret as [-> <-].
  destruct r as [[[[g t] p] m]|]; [|discriminate]. injection Hun as <-.
  apply embed_inr_inv in He as (l1' & Hc & ->).
  destruct (create_security_groups_some _ _ _ _ _ _ _ _ _ Hc) as (gs & Hgs & Hall).
  destruct gs as [|g' [|t' [|p' [|m' [|]]]]]; simplify_eq/=.
  exists g', t', p', m'. split; [done|]. intros s Hs. rewrite app_nil_r. unfold http_rule_call.
  apply list_elem_of_fmap_2, Hall; [done|]. unfold tier_rules. set_solver.
Qed.

Lemma admits_http_rule log gid src : http_rule_call gid ∈ log -> admits (sg_calls log) gid "tcp" 80 src = true.
Proof.
  intros Hin. unfold admits. apply existsb_exists.
  exists (AuthorizeSecurityGroupIngress gid (rule "tcp" 80 "0.0.0.0/0")). split.
  - apply list_elem_of_In, list_elem_of_omap. by exists (http_rule_call gid).
  - by rewrite bool_decide_eq_true_2, rule_admits_same, cidr_admits_any.
Qed.

(** ** The launches after the security groups *)

Definition launches_into (gids : list string) (c : aws_call) : Prop :=
  match c with CreateInstances lc => l_group lc ∈ map JStr gids | _ => True end.

Lemma no_launch_launches_into {A} gids (m : M A) : no_launch m -> calls_in (launches_into gids) m.
Proof. apply calls_in_weaken. by intros [] ?. Qed.

(** The part of [main] from [get_latest_ubuntu_ami] on launches each tier
    into one of the groups [main] unpacked. *)
Lemma main_launch_phase_groups cfg fs key_pair subnet g t p m :
  calls_in (launches_into [g; t; p; m])
    (ubuntu_ami_id <- get_latest_ubuntu_ami ;;
     mysql_instances <- create_instances ubuntu_ami_id (MYSQL_NODE_TYPE cfg) (MYSQL_NODE_COUNT cfg)
                          subnet (JStr m) "MySQLNodes" key_pair ;;
     proxy_manager_instances <- create_instances ubuntu_ami_id (PROXY_MANAGER_NODE_TYPE cfg)
                          (PROXY_MANAGER_NODE_COUNT cfg) subnet (JStr p) "ProxyManagerNode" key_pair ;;
     trusted_host_instances <- create_instances ubuntu_ami_id (TRUSTED_HOST_NODE_TYPE cfg)
                          (TRUSTED_HOST_NODE_COUNT cfg) subnet (JStr t) "TrustedHostNode" key_pair ;;
     gatekeeper_instances <- create_instances ubuntu_ami_id (GATEKEEPER_NODE_TYPE cfg)
                          (GATEKEEPER_NODE_COUNT cfg) subnet (JStr g) "GateKeeperNode" key_pair ;;
     call (Sleep 60) ;;;
     mysql <- load_all mysql_instances ;;
     proxy <- load_all proxy_manager_instances ;;
     gk <- load_all gatekeeper_instances ;;
     th <- load_all trusted_host_instances ;;
     ret (Provisioning.Provisioning.main_after_launch mysql proxy th gk fs))%script.
Proof.
  apply calls_in_bind; [apply no_launch_launches_into, get_latest_ubuntu_ami_no_launch|intros ami].
  unfold create_instances. calls_in_auto; [simpl; set_solver..| |  | |]; intros; by apply load_instances_calls.
Qed.

Lemma launched_app_r (P : aws_call -> Prop) l1 l2 : (exists c, P c /\ c ∈ l2) -> exists c, P c /\ c ∈ l1 ++ l2.
Proof. intros (c & Hc & Hin). exists c. split; [done|]. apply elem_of_app. by right. Qed.

Ltac peel_no_launch H lem :=
  let Hl := fresh "Hlog" in
  apply bind_log_in in H as [H | (?lg & ?a & ?Hm & Hl & H)];
  [exfalso; first [pose proof (lem _ _ _ H) | pose proof (lem _ _ _ _ H) | pose proof (lem _ _ _ _ _ H)];
   discriminate
  | rewrite Hl; clear Hl; apply launched_app_r; cbn beta zeta in H |- *].

End MainProofs.

Module MainTheorems.
Import Aws Infra SecurityGroups.SecurityGroups SecurityGroupProofs NetworkProofs MainProofs.

Lemma lift_no_launch {A} (r : exn + A) : no_launch (lift r).
Proof. apply calls_in_lift. Qed.

(** C20: every instance [main] launches admits HTTP from the whole
    Internet: [main] calls [create_instances] only once the four security
    groups were created and all their rules authorized, and each launch
    names one of those groups, so the MySQL nodes, the proxy manager and
    the trusted host are reachable on port 80 from any address, past the
    gatekeeper. *)
Theorem main_launches_into_open_groups cfg fs o h l :
  CreateInstances l ∈ (main cfg fs o h).1 ->
  exists gid, l_group l = JStr gid /\
    forall src, admits (sg_calls (main cfg fs o h).1) gid "tcp" 80 src = true.
Proof.
  intros Hin.
  enough (exists c, (exists gid, l_group l = JStr gid /\ c = http_rule_call gid) /\ c ∈ (main cfg fs o h).1)
    as (c & (gid & Hg & ->) & Hc) by (exists gid; split; [done|]; intros; by apply admits_http_rule).
  unfold main in *.
  peel_no_launch Hin create_keypair_no_launch.
  peel_no_launch Hin get_local_ip_cidr_step_no_launch.
  peel_no_launch Hin create_vpc_and_subnet_no_launch.
  peel_no_launch Hin (@lift_no_launch (list json)).
  apply bind_log_in in Hin as [Hin | (lsg & sgs & Hsg & -> & Hin)];
    [exfalso; pose proof (security_groups_step_no_launch _ _ _ _ _ Hin); discriminate|].
  apply bind_log_in in Hin as [Hin | (l0 & groups & Hun & _ & Hin)];
    [exfalso; simpl in Hin; by apply elem_of_nil in Hin|].
  unfold lift in Hun. injection Hun as <- Hun.
  destruct (security_groups_step_four _ _ _ _ _ _ _ Hsg Hun) as (g & t & p & m & -> & Hopen).
  cbn beta zeta in Hin. simpl nth in Hin.
  apply (main_launch_phase_groups cfg fs) in Hin. cbn [launches_into] in Hin.
  apply list_elem_of_fmap in Hin as (gid & Hgid & Hin).
  exists (http_rule_call gid). split; [by exists gid|].
  apply elem_of_app. left. by apply Hopen.
Qed.

(** ** Error paths of [main] *)

Lemma create_vpc_and_subnet_fails cfg o h e :
  o h (CreateVpc (VPC_CIDR_BLOCK cfg)) = inl e ->
  create_vpc_and_subnet cfg o h = ([], inr (JList [JNull; JNull; JNull])).
Proof.
  intros Ho. unfold create_vpc_and_subnet, try_except.
  rewrite (bind_err _ _ _ _ [] e) by (unfold call; by rewrite Ho). done.
Qed.

(** Runs a step of [main] that returned, in a goal about [main]. *)
Ltac step H := rewrite (bind_ok _ _ _ _ _ _ H); cbn beta; rewrite <- ?app_assoc.

(** C25: when the VPC cannot be created, [create_vpc_and_subnet] returns
    the triple [(None, None, None)] and [main] dies unpacking it into two
    names, with a [ValueError], before creating any security group or
    instance. *)
Theorem main_vpc_failure cfg fs o h lk key lip cidr e :
  create_keypair (SECRET_KEY_NAME cfg) o h = (lk, inr key) ->
  get_local_ip_cidr_step o (h ++ lk) = (lip, inr cidr) ->
  o (h ++ lk ++ lip) (CreateVpc (VPC_CIDR_BLOCK cfg)) = inl e ->
  main cfg fs o h = (lk ++ lip, inl (ValueError "too many values to unpack (expected 2)")).
Proof.
  intros Hk Hip Hvpc. unfold main. step Hk. step Hip.
  step (create_vpc_and_subnet_fails cfg o _ e Hvpc).
  rewrite (bind_err _ _ _ _ [] (ValueError "too many values to unpack (expected 2)")) by done.
  by rewrite !app_nil_r.
Qed.

(** C26: when [create_security_groups] fails, whichever AWS call raised,
    it returns [None] and [main] dies unpacking it into four names, with
    a [TypeError], before launching any instance. *)
Theorem main_security_groups_failure cfg fs o h lk key lip cidr lv vid subnet calls :
  create_keypair (SECRET_KEY_NAME cfg) o h = (lk, inr key) ->
  get_local_ip_cidr_step o (h ++ lk) = (lip, inr cidr) ->
  create_vpc_and_subnet cfg o (h ++ lk ++ lip) = (lv, inr (JList [vid; subnet])) ->
  create_security_groups vid cidr (sg_oracle o (h ++ lk ++ lip ++ lv)) [] = (calls, inr None) ->
  main cfg fs o h = (lk ++ lip ++ lv ++ map SecurityGroupCall calls,
                     inl (TypeError "cannot unpack non-iterable NoneType object")).
Proof.
  intros Hk Hip Hv Hsg. unfold main. step Hk. step Hip. step Hv.
  rewrite (bind_ok _ _ _ _ [] [vid; subnet]) by done. cbn beta zeta. simpl nth. rewrite !app_nil_r.
  rewrite (bind_ok _ _ _ _ (map SecurityGroupCall calls) JNull).
  2: { unfold security_groups_step. rewrite (bind_ok _ _ _ _ (map SecurityGroupCall calls) None).
       - by rewrite app_nil_r.
       - unfold embed. unfold sg_oracle in Hsg. by rewrite Hsg. }
  cbn beta. rewrite (bind_err _ _ _ _ [] (TypeError "cannot unpack non-iterable NoneType object")) by done.
  simpl. by rewrite !app_nil_r.
Qed.

End MainTheorems.


Module InfraWitness.
Import Aws Infra SecurityGroups.SecurityGroups ImageSort MainProofs MainTheorems.

Definition cfg : config :=
  mkConfig "us-east-1" "LOG8415_key" "10.0.0.0/16" "10.0.1.0/24" "0.0.0.0/0"
    "t2.micro" "t2.large" "t2.large" "t2.large" 3 1 1 1.

Definition image (id date : string) : json := JDict [("ImageId", JStr id); ("CreationDate", JStr date)].

Definition images : json :=
  JDict [("Images", JList [image "ami-old" "2023-01-10"; image "ami-a" "2024-05-01";
                           image "ami-b" "2024-05-01"])].

(** An AWS account where every call succeeds. *)
Definition aws : oracle := fun _ c =>
  match c with
  | CreateVpc _ => inr (JDict [("Vpc", JDict [("VpcId", JStr "vpc-1")])])
  | CreateSubnet _ _ => inr (JStr "subnet-1")
  | CreateInternetGateway => inr (JStr "igw-1")
  | CreateRouteTable _ => inr (JStr "rtb-1")
  | SecurityGroupCall (CreateSecurityGroup n _ _) => inr (JDict [("GroupId", JStr ("sg-" +:+ n))])
  | DescribeKeyPairs _ => inr (JDict [("KeyPairs", JList [JDict [("KeyName", JStr "LOG8415_key")]])])
  | DescribeImages _ _ => inr images
  | HttpGet _ => inr (JStr "81.56.7.200")
  | CreateInstances l => inr (JList [JStr ("i-" +:+ l_name_tag l)])
  | InstanceLoad _ => inr (JDict [("PublicDnsName", JStr "ec2.example"); ("PublicIpAddress", JStr "1.2.3.4")])
  | _ => inr JNull
  end.

(** The same account once the VPC limit is reached. *)
Definition vpc_limit : oracle := fun h c =>
  match c with
  | CreateVpc _ => inl (ClientError "VpcLimitExceeded" "CreateVpc" "The maximum number of VPCs has been reached.")
  | _ => aws h c
  end.

(** The same account when the HTTPS rule already exists. *)
Definition duplicate_rule : oracle := fun h c =>
  match c with
  | SecurityGroupCall (AuthorizeSecurityGroupIngress _ p) =>
      if bool_decide (to_port p = 443) then
        inl (ClientError "InvalidPermission.Duplicate" "AuthorizeSecurityGroupIngress" "the rule already exists")
      else inr JNull
  | _ => aws h c
  end.

Definition mysql_launch : launch :=
  mkLaunch (JStr "ami-a") "t2.micro" (JStr "LOG8415_key") 3 "subnet-1" (JStr "sg-MYSQL_NODES_SG") "MySQLNodes".

Example main_launches_four_tiers :
  length (filter (fun c => is_launch c) (main cfg ∅ aws []).1) = 4%nat.
Proof. vm_compute. reflexivity. Qed.

Lemma get_latest_ubuntu_ami_spec_witness :
  aws [] (DescribeImages ami_filters ["099720109477"]) = inr images /\
  py_subscript images "Images" = inr (JList [image "ami-old" "2023-01-10"; image "ami-a" "2024-05-01";
                                             image "ami-b" "2024-05-01"]) /\
  map_exn creation_date [image "ami-old" "2023-01-10"; image "ami-a" "2024-05-01"; image "ami-b" "2024-05-01"]
    = inr [("2023-01-10", image "ami-old" "2023-01-10"); ("2024-05-01", image "ami-a" "2024-05-01");
           ("2024-05-01", image "ami-b" "2024-05-01")] /\
  get_latest_ubuntu_ami aws [] = ([DescribeImages ami_filters ["099720109477"]], inr (JStr "ami-a")).
Proof.
  split_and!; [reflexivity..|].
  rewrite (get_latest_ubuntu_ami_spec aws [] images
    [image "ami-old" "2023-01-10"; image "ami-a" "2024-05-01"; image "ami-b" "2024-05-01"]
    [("2023-01-10", image "ami-old" "2023-01-10"); ("2024-05-01", image "ami-a" "2024-05-01");
     ("2024-05-01", image "ami-b" "2024-05-01")]); reflexivity.
Defined.

Lemma first_latest_spec_witness :
  first_latest [("2023", 1%nat); ("2024", 2%nat); ("2024", 3%nat)] = Some ("2024", 2%nat) /\
  exists l1 l2, [("2023", 1%nat); ("2024", 2%nat); ("2024", 3%nat)] = l1 ++ ("2024", 2%nat) :: l2 /\
    Forall (fun y => str_lt y.1 "2024" = true) l1 /\ Forall (fun y => str_lt "2024" y.1 = false) l2.
Proof. split; [reflexivity|]. apply first_latest_spec. reflexivity. Defined.

Lemma main_launches_into_open_groups_witness :
  CreateInstances mysql_launch ∈ (main cfg ∅ aws []).1 /\
  exists gid, l_group mysql_launch = JStr gid /\
    forall src, admits (sg_calls (main cfg ∅ aws []).1) gid "tcp" 80 src = true.
Proof.
  assert (H : CreateInstances mysql_launch ∈ (main cfg ∅ aws []).1).
  { apply list_elem_of_In. vm_compute. repeat (first [left; reflexivity | right]). }
  split; [exact H | exact (main_launches_into_open_groups cfg ∅ aws [] mysql_launch H)].
Defined.

Lemma main_vpc_failure_witness :
  create_keypair "LOG8415_key" vpc_limit [] = ([DescribeKeyPairs ["LOG8415_key"]], inr (JStr "LOG8415_key")) /\
  get_local_ip_cidr_step vpc_limit ([] ++ [DescribeKeyPairs ["LOG8415_key"]]) =
    ([HttpGet "https://api.ipify.org"], inr "81.56.7.0/24") /\
  vpc_limit ([] ++ [DescribeKeyPairs ["LOG8415_key"]] ++ [HttpGet "https://api.ipify.org"]) (CreateVpc "10.0.0.0/16") =
    inl (ClientError "VpcLimitExceeded" "CreateVpc" "The maximum number of VPCs has been reached.") /\
  main cfg ∅ vpc_limit [] = ([DescribeKeyPairs ["LOG8415_key"]] ++ [HttpGet "https://api.ipify.org"],
                             inl (ValueError "too many values to unpack (expected 2)")).
Proof.
  split_and!; [vm_compute; reflexivity..|].
  apply main_vpc_failure with (key := JStr "LOG8415_key") (cidr := "81.56.7.0/24")
    (e := ClientError "VpcLimitExceeded" "CreateVpc" "The maximum number of VPCs has been reached.");
    vm_compute; reflexivity.
Defined.

Definition dup_keypair_log : list aws_call := [DescribeKeyPairs ["LOG8415_key"]].
Definition dup_ip_log : list aws_call := [HttpGet "https://api.ipify.org"].
Definition dup_vpc_log : list aws_call := (create_vpc_and_subnet cfg duplicate_rule (dup_keypair_log ++ dup_ip_log)).1.
Definition dup_sg_log : list ec2_call :=
  (create_security_groups (JStr "vpc-1") "81.56.7.0/24"
     (sg_oracle duplicate_rule (dup_keypair_log ++ dup_ip_log ++ dup_vpc_log)) []).1.

Lemma main_security_groups_failure_witness :
  create_keypair "LOG8415_key" duplicate_rule [] = (dup_keypair_log, inr (JStr "LOG8415_key")) /\
  get_local_ip_cidr_step duplicate_rule ([] ++ dup_keypair_log) = (dup_ip_log, inr "81.56.7.0/24") /\
  create_vpc_and_subnet cfg duplicate_rule ([] ++ dup_keypair_log ++ dup_ip_log) =
    (dup_vpc_log, inr (JList [JStr "vpc-1"; JStr "subnet-1"])) /\
  create_security_groups (JStr "vpc-1") "81.56.7.0/24"
    (sg_oracle duplicate_rule ([] ++ dup_keypair_log ++ dup_ip_log ++ dup_vpc_log)) [] = (dup_sg_log, inr None) /\
  main cfg ∅ duplicate_rule [] =
    (dup_keypair_log ++ dup_ip_log ++ dup_vpc_log ++ map SecurityGroupCall dup_sg_log,
     inl (TypeError "cannot unpack non-iterable NoneType object")).
Proof.
  split_and!; [vm_compute; reflexivity..|].
  apply main_security_groups_failure with (key := JStr "LOG8415_key") (subnet := JStr "subnet-1")
    (cidr := "81.56.7.0/24") (vid := JStr "vpc-1");
    vm_compute; reflexivity.
Defined.

End InfraWitness.
