(* ===== verification/DbNode.v ===== *)
(** * The local MySQL server of a database node

    Each database node (primary or replica) runs its Flask app next to a
    MySQL server it reaches on localhost.  SQL itself is not modelled: the
    engine is the interface [Database], which says what executing a
    statement does to a database value.  [node_world] is the world a node's
    handler runs in: its database, whether the server accepts connections,
    and the rest of the world (files, network) behind any [Oracle]. *)

From S2P Require Import Prelude PyStr Json Effects.

(** ** The engine *)

(** [query] is [cursor.execute(q); cursor.fetchall()] without [commit()]:
    a statement that commits implicitly (DDL) may still change the
    database, so it returns the new database too.  [exec] is
    [cursor.execute(q); connection.commit(); cursor.rowcount].  A failed
    statement changes nothing. *)
Class Database (D : Type) := {
  db_query : D -> json -> db_result (D * list json);
  db_exec : D -> json -> db_result (D * Z)
}.

(** ** The world of a database node *)

Record node_world (D W : Type) : Type := mkNode {
  n_db : D;
  n_up : bool;
  n_rest : W
}.
Arguments mkNode {D W}.
Arguments n_db {D W}.
Arguments n_up {D W}.
Arguments n_rest {D W}.

(** The message of [mysql.connector] when the server refuses connections. *)
Definition mysql_conn_refused : string :=
  "2003 (HY000): Can't connect to MySQL server on 'localhost:3306' (111)".

Section NodeOracle.
Context {D W : Type} `{Database D} `{Oracle W}.

Definition set_db (s : node_world D W) (d : D) : node_world D W :=
    mkNode d (n_up s) (n_rest s).

Definition with_rest (s : node_world D W) (w : W) : node_world D W :=
    mkNode (n_db s) (n_up s) w.

(** Database commands go to the local server, every other command to the
    rest of the world. *)
Definition node_oracle (c : cmd) (s : node_world D W) : answer c * node_world D W :=
    match c return answer c * node_world D W with
    | DbConnect => (if n_up s then ConnOk else ConnFailed mysql_conn_refused, s)
    | DbIsConnected => (n_up s, s)
    | DbQuery q =>
        match db_query (n_db s) q with
        | DbOk (d, rows) => (DbOk rows, set_db s d)
        | DbFailed m => (DbFailed m, s)
        end
    | DbExec q =>
        match db_exec (n_db s) q with
        | DbOk (d, n) => (DbOk n, set_db s d)
        | DbFailed m => (DbFailed m, s)
        end
    | OpenJson p => let (a, w) := oracle (OpenJson p) (n_rest s) in (a, with_rest s w)
    | HttpPost u b h => let (a, w) := oracle (HttpPost u b h) (n_rest s) in (a, with_rest s w)
    | RunPing ip => let (a, w) := oracle (RunPing ip) (n_rest s) in (a, with_rest s w)
    | RandBelow n => let (a, w) := oracle (RandBelow n) (n_rest s) in (a, with_rest s w)
    end.

#[global] Instance node_oracle_inst : Oracle (node_world D W) := node_oracle.
End NodeOracle.

(** ** Database commands *)

Definition is_db_cmd (c : cmd) : bool :=
  match c with DbConnect | DbIsConnected | DbQuery _ | DbExec _ => true | _ => false end.

(** A database error as the [mysql.connector.Error] the sources catch. *)
Definition db_lift {A} (r : db_result A) : prog A :=
  match r with DbOk a => Ret a | DbFailed m => Throw (MySQLError m) end.

(** [except ConnectionError as err] / [except mysql.connector.Error as err]:
    [return jsonify({"error": str(err)}), 500]. *)
Definition db_errors (e : exn) : option (prog response) :=
  match e with
  | ConnectionError m | MySQLError m => Some (Ret (jsonify (error_body m) 500))
  | _ => None
  end.

(** ** Proof support *)

(** Unfold the node world's answers so that [simpl] runs a handler. *)
Ltac node_simpl := repeat progress (simpl; cbn [oracle node_oracle_inst node_oracle]; try unfold get_or).

(** ** Concrete worlds, for running the handlers on examples *)
Module Toy.
(** An engine that appends every executed statement to a log, one row
    affected; reads return the log.  A statement that is not a string
    is a syntax error. *)
#[export] Instance log_database : Database (list json) := {|
    db_query d q := match q with
                    | JStr _ => DbOk (d, d)
                    | _ => DbFailed "1064 (42000): You have an error in your SQL syntax"
                    end;
    db_exec d q := match q with
                   | JStr _ => DbOk (d ++ [q], 1%Z)
                   | _ => DbFailed "1064 (42000): You have an error in your SQL syntax"
                   end
  |}.

End Toy.
