(* ===== verification/Slave.v ===== *)
(** * Replica node: [src/mysql/slave/slave_app.py]

    The replica runs three Flask views over its local MySQL server:
    [/health], [/read] and [/write].  Neither forwards anything.  The
    theorems give each view's contract against the node world of
    [DbNode]: what it answers, what it does to the database, and that it
    never lets an exception escape for a JSON-object body. *)

From S2P Require Import Prelude PyStr Json Effects DbNode.

Module Slave.

(** [get_db_connection()]: a connector error becomes a [ConnectionError]. *)
Definition get_db_connection : prog unit :=
  r <- call DbConnect ;;
  match r : conn_result with
  | ConnOk => Ret tt
  | ConnFailed err => Throw (ConnectionError ("Database connection failed: " +:+ err))
  end.

(** [GET /health]: when the connection is not reported connected the view
    returns [None], which Flask turns into a [TypeError]. *)
Definition health_check : prog response :=
  catch
    (_ <- get_db_connection ;;
     connected <- call DbIsConnected ;;
     if connected : bool then Ret (jsonify (JDict [("status", JStr "healthy")]) 200)
     else Throw (TypeError "The view function did not return a valid response."))
    (fun e => match e with
              | ConnectionError m =>
                  Some (Ret (jsonify (JDict [("status", JStr "unhealthy"); ("error", JStr m)]) 500))
              | _ => None
              end).

(** [POST /read]. *)
Definition read_data (data : json) : prog response :=
  query <- lift (py_get data "query") ;;
  if negb (truthy query) then Ret (jsonify (error_body "Query is missing") 400) else
  catch
    (_ <- get_db_connection ;;
     r <- call (DbQuery query) ;;
     rows <- db_lift r ;;
     Ret (jsonify (JDict [("data", JList rows)]) 200))
    db_errors.

(** The body of a successful write. *)
Definition write_ok_body (n : Z) : json :=
  JDict [("message", JStr "Query executed successfully"); ("affected_rows", JInt n)].

(** [POST /write]. *)
Definition write_data (data : json) : prog response :=
  query <- lift (py_get data "query") ;;
  if negb (truthy query) then Ret (jsonify (error_body "Query is missing") 400) else
  catch
    (_ <- get_db_connection ;;
     r <- call (DbExec query) ;;
     n <- db_lift r ;;
     Ret (jsonify (write_ok_body n) 200))
    db_errors.

End Slave.

Module SlaveProofs.
Import Slave.

(** A branch of a contract where the view answers without touching the
    database. *)
Ltac contract_no :=
  eexists; split; [done|]; split; [repeat constructor|]; right; split; [discriminate|reflexivity].

Section Contracts.
Context {D W : Type} `{Database D} `{Oracle W}.

(** C11: the replica's [/write]: a normal answer, only database
    commands, and either 200 with the affected-row count of the local
    statement and the database it left, or an error status with the node
    world unchanged. *)
Theorem write_data_contract (kvs : list (string * json)) (s : node_world D W) :
    let r := run (write_data (JDict kvs)) s in
    exists resp, res_out r = Normal resp /\
      Forall (fun c => is_db_cmd c = true) (res_trace r) /\
      ((status resp = 200%Z /\
        exists q d n, assoc "query" kvs = Some q /\ n_up s = true /\
          db_exec (n_db s) q = DbOk (d, n) /\ res_state r = set_db s d /\
          rbody resp = BJson (write_ok_body n))
       \/ (status resp <> 200%Z /\ res_state r = s)).
  Proof.
    unfold write_data, get_db_connection, get_or. node_simpl.
    destruct (assoc "query" kvs) as [q|] eqn:Hq; node_simpl; [|contract_no].
    destruct (truthy q); node_simpl; [|contract_no].
    destruct (n_up s) eqn:Hup; node_simpl; [|contract_no].
    destruct (db_exec (n_db s) q) as [[d n]|m] eqn:He; node_simpl; [|contract_no].
    eexists; split; [done|]. split; [repeat constructor|].
    left. split; [done|]. eauto 10.
  Qed.

(** C12: the replica's [/read]: a normal answer, only database commands, and
    either 200 with the rows the local query returned, or an error
    status with the node world unchanged. *)
Theorem read_data_contract (kvs : list (string * json)) (s : node_world D W) :
    let r := run (read_data (JDict kvs)) s in
    exists resp, res_out r = Normal resp /\
      Forall (fun c => is_db_cmd c = true) (res_trace r) /\
      ((status resp = 200%Z /\
        exists q d rows, assoc "query" kvs = Some q /\ n_up s = true /\
          db_query (n_db s) q = DbOk (d, rows) /\ res_state r = set_db s d /\
          rbody resp = BJson (JDict [("data", JList rows)]))
       \/ (status resp <> 200%Z /\ res_state r = s)).
  Proof.
    unfold read_data, get_db_connection, get_or. node_simpl.
    destruct (assoc "query" kvs) as [q|] eqn:Hq; node_simpl; [|contract_no].
    destruct (truthy q); node_simpl; [|contract_no].
    destruct (n_up s) eqn:Hup; node_simpl; [|contract_no].
    destruct (db_query (n_db s) q) as [[d rows]|m] eqn:He; node_simpl; [|contract_no].
    eexists; split; [done|]. split; [repeat constructor|].
    left. split; [done|]. eauto 10.
  Qed.
End Contracts.
End SlaveProofs.
