(* ===== verification/Master.v ===== *)
(** * Primary node: [src/mysql/master/master_app.py]

    The primary runs the replica's views, except that [POST /write] loads
    the membership file [instance_info.json], executes the statement
    locally, then re-issues it to the [/write] endpoint of every
    non-primary member, one after the other, and answers 200 with one
    outcome per node: its own first, then the replicas' in membership
    order.  The theorems show the shape of that answer, that the posts go
    to every replica in order whatever the earlier replies were, that a
    replica failure is reported in its own entry only, and that the
    primary's own write is never rolled back. *)

From S2P Require Import Prelude PyStr Json Effects Membership DbNode.

Module Master.

(** [get_db_connection()]. *)
Definition get_db_connection : prog unit :=
  r <- call DbConnect ;;
  match r : conn_result with
  | ConnOk => Ret tt
  | ConnFailed err => Throw (ConnectionError ("Database connection failed: " +:+ err))
  end.

(** [get_instance_details()]: the membership file. *)
Definition get_instance_details : prog json :=
  r <- call (OpenJson "instance_info.json") ;;
  match r : file_result with
  | FileMissing => Throw (FileNotFoundError "Instance details file not found")
  | FileCorrupt => Throw (ValueError "Error decoding JSON from instance details file")
  | FileLoaded v => Ret v
  end.

(** [GET /health]. *)
Definition health_check : prog response :=
  catch
    (_ <- get_db_connection ;;
     connected <- call DbIsConnected ;;
     if connected : bool then Ret (jsonify (JDict [("status", JStr "healthy")]) 200)
     else Throw (TypeError "The view function did not return a valid response."))
    (fun e => match e with
              | ConnectionError m =>
                  Some (Ret (jsonify (JDict [("status", JStr "unhealthy"); ("error", JStr m)]) 500))
              | _ => None
              end).

(** [POST /read]: local only, no fan-out. *)
Definition read_data (data : json) : prog response :=
  query <- lift (py_get data "query") ;;
  if negb (truthy query) then Ret (jsonify (error_body "Query is missing") 400) else
  catch
    (_ <- get_db_connection ;;
     r <- call (DbQuery query) ;;
     rows <- db_lift r ;;
     Ret (jsonify (JDict [("data", JList rows)]) 200))
    db_errors.

(** ** The outcomes of [POST /write] *)

Definition executed (n : Z) : json :=
  JDict [("message", JStr "Query executed successfully"); ("affected_rows", JInt n)].

Definition query_failed (m : string) : json :=
  JDict [("message", JStr "Query failed"); ("error", JStr m); ("affected_rows", JInt 0)].

Definition forwarding_failed (err : json) : json :=
  JDict [("message", JStr "Query forwarding failed"); ("error", err); ("affected_rows", JInt 0)].

(** The local execution, lines 93-108: its outcome is always a value. *)
Definition execute_locally (query : json) : prog json :=
  catch
    (_ <- get_db_connection ;;
     r <- call (DbExec query) ;;
     n <- db_lift r ;;
     Ret (executed n))
    (fun e => match e with
              | ConnectionError m | MySQLError m => Some (Ret (query_failed m))
              | _ => None
              end).

(** [f"http://{ip}:80/write"]. *)
Definition write_url (ip : json) : string := "http://" +:+ py_str ip +:+ ":80/write".

(** One iteration of the replay loop, lines 114-135. *)
Definition forward_write (ip query : json) : prog json :=
  catch
    (r <- call (HttpPost (write_url ip) (JDict [("query", query)]) []) ;;
     match r : http_result with
     | HttpFailed m => Throw (RequestException m)
     | HttpReply resp =>
         if Z.eqb (status resp) 200 then
           j <- lift (resp_json resp) ;;
           msg <- lift (py_get_default j "message" (JStr "No message provided")) ;;
           rows <- lift (py_get_default j "affected_rows" (JInt 0)) ;;
           Ret (JDict [("message", msg); ("affected_rows", rows)])
         else
           j <- lift (resp_json resp) ;;
           Ret (forwarding_failed j)
     end)
    (fun e => match e with
              | RequestException m | JSONDecodeError m => Some (Ret (forwarding_failed (JStr m)))
              | _ => None
              end).

(** [for ip in public_ips: ...]: sequential, in list order. *)
Fixpoint forward_all (ips : list json) (query : json) : prog (list json) :=
  match ips with
  | [] => Ret []
  | ip :: ips' =>
      o <- forward_write ip query ;;
      os <- forward_all ips' query ;;
      Ret (o :: os)
  end.

(** [POST /write]. *)
Definition write_data (data : json) : prog response :=
  query <- lift (py_get data "query") ;;
  if negb (truthy query) then Ret (jsonify (error_body "Query is missing") 400) else
  details <- attempt get_instance_details
               (fun e => match e with
                         | FileNotFoundError m | ValueError m => Some (jsonify (error_body m) 500)
                         | _ => None
                         end) ;;
  match details with
  | inl resp => Ret resp
  | inr instance_details =>
      insts <- lift (py_iter instance_details) ;;
      _ <- lift (py_filter_map name_is_not_master (fun i => py_subscript i "InstanceID") insts) ;;
      public_ips <- lift (py_filter_map name_is_not_master (fun i => py_subscript i "PublicIP") insts) ;;
      local_response <- execute_locally query ;;
      replies <- forward_all public_ips query ;;
      Ret (jsonify (JList (local_response :: replies)) 200)
  end.

End Master.

Module MasterProofs.
Import Master.

(** ** What the primary computes, stated without the program *)

(** The request the primary sends to a replica. *)
Definition post_write (q ip : json) : cmd := HttpPost (write_url ip) (JDict [("query", q)]) [].

(** A reply the replay loop digests without raising: a 200 reply whose
    body is JSON must be a JSON object ([json_response.get] is called). *)
Definition replica_reply_ok (a : http_result) : bool :=
  match a with
  | HttpReply r =>
      if Z.eqb (status r) 200 then
        match rbody r with BJson (JDict _) | BText _ => true | BJson _ => false end
      else true
  | HttpFailed _ => true
  end.

(** The outcome entry recorded for a replica's reply. *)
Definition replica_entry (a : http_result) : json :=
  match a with
  | HttpFailed m => forwarding_failed (JStr m)
  | HttpReply r =>
      match resp_json r with
      | inl e => forwarding_failed (JStr (exn_str e))
      | inr j =>
          if Z.eqb (status r) 200 then
            match j with
            | JDict kvs =>
                JDict [("message", match assoc "message" kvs with Some x => x | None => JStr "No message provided" end);
                       ("affected_rows", match assoc "affected_rows" kvs with Some x => x | None => JInt 0 end)]
            | _ => j
            end
          else forwarding_failed j
      end
  end.

(** The primary's own entry, from the server's state and the engine's
    answer. *)
Definition local_entry {D} (up : bool) (r : db_result (D * Z)) : json :=
  if up then match r with DbOk (_, n) => executed n | DbFailed m => query_failed m end
  else query_failed ("Database connection failed: " +:+ mysql_conn_refused).

Definition db_after {D} (up : bool) (r : db_result (D * Z)) (d : D) : D :=
  if up then match r with DbOk (d', _) => d' | DbFailed _ => d end else d.

Definition local_trace (up : bool) (q : json) : list cmd :=
  if up then [DbConnect; DbExec q] else [DbConnect].

Definition is_post (c : cmd) : bool := match c with HttpPost _ _ _ => true | _ => false end.

Lemma filter_posts q ips :
  List.filter is_post (map (post_write q) ips) = map (post_write q) ips.
Proof. induction ips as [|ip ips IH]; simpl; by f_equal. Qed.

Section Replay.
Context {D W : Type} `{Database D} `{Oracle W}.

(** The network law the replay loop relies on. *)
Hypothesis replies_ok :
    forall u b h (w : W), replica_reply_ok (oracle (HttpPost u b h) w).1 = true.

Lemma forward_write_run ip q (s : node_world D W) :
    run (forward_write ip q) s =
      let (a, w) := oracle (post_write q ip) (n_rest s) in
      mkResult (Normal (replica_entry a)) (with_rest s w) [post_write q ip].
  Proof.
    unfold forward_write. node_simpl. unfold post_write.
    pose proof (replies_ok (write_url ip) (JDict [("query", q)]) [] (n_rest s)) as Hok.
    destruct (oracle _ (n_rest s)) as [[m|r] w]; simpl in *; [done|].
    destruct r as [st [v|t]]; simpl in *;
      destruct (Z.eqb st 200); simpl in *; try done.
    destruct v; done.
  Qed.

Lemma forward_all_run ips q (s : node_world D W) :
    exists outs w,
      run (forward_all ips q) s =
        mkResult (Normal outs) (with_rest s w) (map (post_write q) ips) /\
      Forall2 (fun ip o => exists w', o = replica_entry (oracle (post_write q ip) w').1) ips outs.
  Proof.
    revert s. induction ips as [|ip ips IH]; intros s.
    - exists [], (n_rest s). split; [by destruct s|constructor].
    - change (forward_all (ip :: ips) q)
        with (o <- forward_write ip q ;; os <- forward_all ips q ;; Ret (o :: os)).
      rewrite run_bind, forward_write_run.
      destruct (oracle (post_write q ip) (n_rest s)) as [a w] eqn:Ha. simpl.
      rewrite run_bind. destruct (IH (with_rest s w)) as (outs & w' & -> & Hall). simpl.
      exists (replica_entry a :: outs), w'. split; [by rewrite app_nil_r|].
      constructor; [|done]. exists (n_rest s). by rewrite Ha.
  Qed.

Lemma execute_locally_run q (s : node_world D W) :
    run (execute_locally q) s =
      mkResult (Normal (local_entry (n_up s) (db_exec (n_db s) q)))
               (mkNode (db_after (n_up s) (db_exec (n_db s) q) (n_db s)) (n_up s) (n_rest s))
               (local_trace (n_up s) q).
  Proof.
    destruct s as [d [|] w]; unfold execute_locally, get_db_connection; node_simpl; [|done].
    by destruct (db_exec d q) as [[d' n]|m].
  Qed.

Lemma write_data_run kvs q insts (s : node_world D W) w1 :
    assoc "query" kvs = Some q -> truthy q = true ->
    oracle (OpenJson "instance_info.json") (n_rest s) = (FileLoaded (JList insts), w1) ->
    members_wf insts ->
    exists outs w',
      run (write_data (JDict kvs)) s =
        mkResult (Normal (jsonify (JList (local_entry (n_up s) (db_exec (n_db s) q) :: outs)) 200))
                 (mkNode (db_after (n_up s) (db_exec (n_db s) q) (n_db s)) (n_up s) w')
                 (OpenJson "instance_info.json" :: local_trace (n_up s) q
                    ++ map (post_write q) (replica_ips insts)) /\
      Forall2 (fun ip o => exists w'', o = replica_entry (oracle (post_write q ip) w'').1)
              (replica_ips insts) outs.
  Proof.
    intros Hq Ht Hf Hwf. destruct s as [d up w]. simpl in Hf.
    unfold write_data. cbn [bind lift py_get py_get_default]. unfold get_or. rewrite Hq, Ht.
    cbn [negb]. rewrite run_bind.
    assert (Hd : run (attempt get_instance_details (fun e => match e with
                         | FileNotFoundError m | ValueError m => Some (jsonify (error_body m) 500)
                         | _ => None end)) (mkNode d up w) =
                 mkResult (Normal (inr (JList insts))) (mkNode d up w1) [OpenJson "instance_info.json"]).
    { unfold attempt, get_instance_details. node_simpl. by rewrite Hf. }
    rewrite Hd. cbn [res_out res_state res_trace py_iter lift bind].
    rewrite !replica_field_comprehension by auto. cbn [lift bind].
    rewrite run_bind, execute_locally_run. cbn [res_out res_state res_trace].
    rewrite run_bind. simpl n_db; simpl n_up; simpl n_rest.
    destruct (forward_all_run (replica_field "PublicIP" insts) q
                (mkNode (db_after up (db_exec d q) d) up w1)) as (outs & w' & Hrun & Hall).
    rewrite Hrun. exists outs, w'. split; [|done]. simpl.
    by rewrite app_nil_r.
  Qed.

(** C6: a write with a query and a readable membership file answers 200
    with one outcome per primary and replica, posts the statement to
    every replica's [/write] endpoint in membership order whatever the
    earlier replies were, and records for each replica the entry its own
    reply determines. *)
Theorem write_data_fanout kvs q insts (s : node_world D W) w1 :
    assoc "query" kvs = Some q -> truthy q = true ->
    oracle (OpenJson "instance_info.json") (n_rest s) = (FileLoaded (JList insts), w1) ->
    members_wf insts ->
    let r := run (write_data (JDict kvs)) s in
    exists outs,
      res_out r = Normal (jsonify (JList outs) 200) /\
      length outs = S (length (replica_ips insts)) /\
      List.filter is_post (res_trace r) = map (post_write q) (replica_ips insts) /\
      Forall2 (fun ip o => exists w, o = replica_entry (oracle (post_write q ip) w).1)
              (replica_ips insts) (tail outs).
  Proof.
    intros Hq Ht Hf Hwf.
    destruct (write_data_run kvs q insts s w1 Hq Ht Hf Hwf) as (outs & w' & -> & Hall).
    eexists; split; [done|]. simpl. split; [f_equal; symmetry; by eapply Forall2_length|]. split; [|done].
    destruct (n_up s); simpl; by rewrite filter_posts.
  Qed.

(** C7: the primary's own outcome comes first and is its local
    execution's; its database changes by that execution only, which
    happens once, before the first replica is contacted, and is not
    undone whatever the replicas answer. *)
Theorem write_data_local_first kvs q insts (s : node_world D W) w1 :
    assoc "query" kvs = Some q -> truthy q = true ->
    oracle (OpenJson "instance_info.json") (n_rest s) = (FileLoaded (JList insts), w1) ->
    members_wf insts ->
    let r := run (write_data (JDict kvs)) s in
    exists outs,
      res_out r = Normal (jsonify (JList (local_entry (n_up s) (db_exec (n_db s) q) :: outs)) 200) /\
      n_db (res_state r) = db_after (n_up s) (db_exec (n_db s) q) (n_db s) /\
      res_trace r = OpenJson "instance_info.json" :: local_trace (n_up s) q
                      ++ map (post_write q) (replica_ips insts).
  Proof.
    intros Hq Ht Hf Hwf.
    destruct (write_data_run kvs q insts s w1 Hq Ht Hf Hwf) as (outs & w' & -> & _).
    by exists outs.
  Qed.

(** C8: a replica that cannot be reached gets a forwarding-failure entry
    with zero affected rows at its own position; the answer is still 200
    with one entry per node. *)
Theorem write_unreachable_replica kvs q insts (s : node_world D W) w1 i ip m :
    assoc "query" kvs = Some q -> truthy q = true ->
    oracle (OpenJson "instance_info.json") (n_rest s) = (FileLoaded (JList insts), w1) ->
    members_wf insts ->
    replica_ips insts !! i = Some ip ->
    (forall w, (oracle (post_write q ip) w).1 = HttpFailed m) ->
    exists outs,
      res_out (run (write_data (JDict kvs)) s) = Normal (jsonify (JList outs) 200) /\
      length outs = S (length (replica_ips insts)) /\
      outs !! S i = Some (forwarding_failed (JStr m)).
  Proof.
    intros Hq Ht Hf Hwf Hi Hdown.
    destruct (write_data_run kvs q insts s w1 Hq Ht Hf Hwf) as (outs & w' & -> & Hall).
    exists (local_entry (n_up s) (db_exec (n_db s) q) :: outs). split; [done|].
    split; [simpl; f_equal; symmetry; by eapply Forall2_length|].
    destruct (Forall2_lookup_l _ _ _ _ _ Hall Hi) as (o & Ho & w'' & ->).
    simpl. by rewrite Ho, Hdown.
  Qed.
End Replay.

Section Errors.
Context {D W : Type} `{Database D} `{Oracle W}.

(** C14: when the membership file is missing or unreadable the primary
    answers 500 with the message [get_instance_details] raises
    ([Instance details file not found], or
    [Error decoding JSON from instance details file]) before touching its
    database or any replica. *)
Theorem write_data_config_error kvs q (s : node_world D W) fr w1 :
    assoc "query" kvs = Some q -> truthy q = true ->
    oracle (OpenJson "instance_info.json") (n_rest s) = (fr, w1) ->
    (fr = FileMissing \/ fr = FileCorrupt) ->
    run (write_data (JDict kvs)) s =
      mkResult (Normal (jsonify (error_body
                  (if fr is FileMissing then "Instance details file not found"
                   else "Error decoding JSON from instance details file")) 500))
               (with_rest s w1) [OpenJson "instance_info.json"].
  Proof.
    intros Hq Ht Hf Hfr. destruct s as [d up w]. simpl in Hf.
    unfold write_data, attempt, get_instance_details. cbn [bind lift py_get py_get_default]. unfold get_or.
    rewrite Hq, Ht. node_simpl. rewrite Hf.
    by destruct Hfr as [-> | ->].
  Qed.

(** C16: a write without a query is refused with 400 by a program that
    issues no command at all. *)
Theorem write_data_missing_query kvs :
    truthy (get_or kvs "query" JNull) = false ->
    write_data (JDict kvs) = Ret (jsonify (error_body "Query is missing") 400).
  Proof.
    intros Hq. unfold write_data. cbn [bind lift py_get py_get_default].
    by rewrite Hq.
  Qed.
End Errors.
End MasterProofs.

(** ** The example of the specification, run *)
Module MasterWitness.
Import Master MasterProofs Toy Tables.

Definition member (name ip : string) : json :=
  JDict [("Name", JStr name); ("InstanceID", JStr ("i-" +:+ ip)); ("PublicIP", JStr ip)].

(** membership = [primary@A, replica@B, replica@C] *)
Definition example_members : list json :=
  [member "mysql_master_node" "A"; member "mysql_slave_node" "B"; member "mysql_slave_node" "C"].

Definition example_files (p : string) : file_result :=
  if bool_decide (p = "instance_info.json") then FileLoaded (JList example_members) else FileMissing.

(** Replica B is unreachable; C executes the write. *)
Definition example_net (u : string) (_ : json) : http_result :=
  if bool_decide (u = "http://B:80/write") then HttpFailed "Connection refused"
  else HttpReply (jsonify (executed 1) 200).

Definition example_world : Oracle unit :=
  table_oracle (mkTables example_files example_net (fun _ => PingTimeout) (fun _ => 0%nat)).
#[local] Existing Instance example_world.

Definition example_insert : json := JStr "INSERT INTO actor (first_name) VALUES ('A')".
Definition example_request : list (string * json) := [("query", example_insert); ("mode", JStr "DIRECT")].
Definition example_node : node_world (list json) unit := mkNode [] true tt.

Lemma example_replies_ok u b h (w : unit) :
  replica_reply_ok (oracle (HttpPost u b h) w).1 = true.
Proof. simpl. unfold example_net. by case_bool_decide. Qed.

Lemma example_members_wf : members_wf example_members.
Proof. repeat constructor. Qed.

Example spec_example_write :
  res_out (run (write_data (JDict example_request)) example_node) =
  Normal (jsonify (JList [executed 1; forwarding_failed (JStr "Connection refused"); executed 1]) 200).
Proof. vm_compute. reflexivity. Qed.

Lemma write_data_fanout_witness :
  exists outs,
    res_out (run (write_data (JDict example_request)) example_node) = Normal (jsonify (JList outs) 200) /\
    length outs = 3.
Proof.
  destruct (write_data_fanout example_replies_ok example_request example_insert example_members
              example_node tt eq_refl eq_refl eq_refl example_members_wf) as (outs & H1 & H2 & _).
  exists outs. split; [exact H1|]. rewrite H2. reflexivity.
Defined.

Lemma write_data_local_first_witness :
  exists outs,
    res_out (run (write_data (JDict example_request)) example_node) =
      Normal (jsonify (JList (executed 1 :: outs)) 200).
Proof.
  destruct (write_data_local_first example_replies_ok example_request example_insert example_members
              example_node tt eq_refl eq_refl eq_refl example_members_wf) as (outs & H1 & _).
  exists outs. exact H1.
Defined.

Lemma write_unreachable_replica_witness :
  exists outs,
    res_out (run (write_data (JDict example_request)) example_node) = Normal (jsonify (JList outs) 200) /\
    outs !! 1%nat = Some (forwarding_failed (JStr "Connection refused")).
Proof.
  destruct (write_unreachable_replica example_replies_ok example_request example_insert example_members
              example_node tt 0 (JStr "B") "Connection refused" eq_refl eq_refl eq_refl
              example_members_wf eq_refl (fun w => eq_refl)) as (outs & H1 & _ & H3).
  exists outs. split; [exact H1|exact H3].
Defined.

Definition no_files : Oracle unit :=
  table_oracle (mkTables (fun _ => FileMissing) example_net (fun _ => PingTimeout) (fun _ => 0%nat)).

Lemma write_data_config_error_witness :
  @run _ (@node_oracle_inst _ _ log_database no_files) _ (write_data (JDict example_request)) example_node =
    mkResult (Normal (jsonify (error_body "Instance details file not found") 500)) example_node
             [OpenJson "instance_info.json"].
Proof.
  exact (@write_data_config_error _ _ log_database no_files example_request example_insert example_node
           FileMissing tt eq_refl eq_refl eq_refl (or_introl eq_refl)).
Defined.

Lemma write_data_missing_query_witness :
  write_data (JDict [("mode", JStr "DIRECT")]) = Ret (jsonify (error_body "Query is missing") 400).
Proof. apply write_data_missing_query. reflexivity. Defined.

End MasterWitness.
