(* ===== verification/ProxyManager.v ===== *)
(** * Proxy manager: [src/mysql/proxy_manager/proxy_manager_app.py]

    [POST /process] reloads the membership file [instance_info.json] on
    every request, picks a target by the request's mode and forwards
    [{"query": q}] to it:
    - ["DIRECT"]: the first member tagged ["mysql_master_node"], its
      [/write] endpoint;
    - ["RANDOM"]: [random.choice] among the other members, [/read];
    - any other mode: the member with the lowest ping time among the
      others, [/read] ([find_lowest_latency_instance]).
    The forwarded reply is returned with status 200, a failed forward as a
    failure envelope, also with status 200; any exception becomes
    [{"error": str(e)}] with status 500. *)

From Stdlib Require Import QArith.
From S2P Require Import Prelude PyStr PyFloat Json Effects Membership.

Module ProxyManager.

(** [load_instance_details()]. *)
Definition load_instance_details : prog json :=
  r <- call (OpenJson "instance_info.json") ;;
  match r : file_result with
  | FileMissing => Throw (FileNotFoundError "instance_info.json not found")
  | FileCorrupt => Throw (ValueError "Error decoding JSON from instance_info.json")
  | FileLoaded v => Ret v
  end.

(** The parsing part of [ping_address], lines 37-46: the time of the
    first output line containing ["time="]; any failure is [None]. *)
Definition parse_ping (r : ping_result) : option pyfloat :=
  match r with
  | PingTimeout => None
  | PingExited code out =>
      if Z.eqb code 0 then
        match List.find (py_str_contains "time=") (splitlines out) with
        | None => None
        | Some line =>
            match split_second "time=" line with
            | None => None
            | Some piece => match first_word piece with None => None | Some w => py_float w end
            end
        end
      else None
  end.

(** [ping_address(ip)]: [subprocess.run] refuses an argument that is not
    a string before starting ping ([TypeError], caught). *)
Definition ping_address (ip : json) : prog (option pyfloat) :=
  match ip with
  | JStr s => r <- call (RunPing s) ;; Ret (parse_ping r)
  | _ => Ret None
  end.

(** The loop of [find_lowest_latency_instance], lines 56-62, from the
    current [lowest_ping] and [best_instance]. *)
Fixpoint lowest_loop (insts : list json) (lowest : pyfloat) (best : option json)
  : prog (option json) :=
  match insts with
  | [] => Ret best
  | inst :: rest =>
      not_master <- lift (name_is_not_master inst) ;;
      if not_master : bool then
        ip <- lift (py_subscript inst "PublicIP") ;;
        t <- ping_address ip ;;
        match t with
        | Some pt => if pf_lt pt lowest then lowest_loop rest pt (Some inst)
                     else lowest_loop rest lowest best
        | None => lowest_loop rest lowest best
        end
      else lowest_loop rest lowest best
  end.

(** [(instance["InstanceID"], instance["PublicIP"])]. *)
Definition id_and_ip (inst : json) : prog (json * json) :=
  iid <- lift (py_subscript inst "InstanceID") ;;
  ip <- lift (py_subscript inst "PublicIP") ;;
  Ret (iid, ip).

(** [find_lowest_latency_instance(instance_details)]. *)
Definition find_lowest_latency_instance (details : json) : prog (json * json) :=
  insts <- lift (py_iter details) ;;
  best <- lowest_loop insts PInf None ;;
  match best with
  | Some b => if truthy b then id_and_ip b else Throw (ValueError "No instance with a valid ping found")
  | None => Throw (ValueError "No instance with a valid ping found")
  end.

(** [random.choice(seq)]: [seq[self._randbelow(len(seq))]]. *)
Definition random_choice (l : list json) : prog json :=
  match l with
  | [] => Throw (IndexError "Cannot choose from an empty sequence")
  | _ =>
      i <- call (RandBelow (length l)) ;;
      match l !! (i : nat) with
      | Some x => Ret x
      | None => Throw (IndexError "list index out of range")
      end
  end.

(** [select_random_read_node(instance_details)]. *)
Definition select_random_read_node (details : json) : prog (json * json) :=
  insts <- lift (py_iter details) ;;
  read_nodes <- lift (py_filter name_is_not_master insts) ;;
  match read_nodes with
  | [] => Throw (ValueError "No read nodes found")
  | _ => selected <- random_choice read_nodes ;; id_and_ip selected
  end.

(** [fetch_master_node(instance_details)]. *)
Definition fetch_master_node (details : json) : prog (json * json) :=
  insts <- lift (py_iter details) ;;
  master <- lift (py_find name_is_master insts) ;;
  match master with
  | Some m => if truthy m then id_and_ip m else Throw (ValueError "No master node found")
  | None => Throw (ValueError "No master node found")
  end.

(** [forward_query_request(url, payload)]: never raises. *)
Definition forward_query_request (url : string) (payload : json) : prog json :=
  catch
    (r <- call (HttpPost url payload []) ;;
     match r : http_result with
     | HttpFailed m => Throw (RequestException m)
     | HttpReply resp =>
         if Z.eqb (status resp) 200 then lift (resp_json resp)
         else Ret (JDict [("message", JStr "Query execution failed");
                          ("error", JStr (resp_text resp)); ("affected_rows", JInt 0)])
     end)
    (fun e => match e with
              | RequestException m | JSONDecodeError m =>
                  Some (Ret (JDict [("message", JStr "Query forwarding failed");
                                    ("error", JStr m); ("affected_rows", JInt 0)]))
              | _ => None
              end).

(** [f"http://{ip}:80/{path}"]. *)
Definition node_url (ip : json) (path : string) : string :=
  "http://" +:+ py_str ip +:+ ":80/" +:+ path.

Definition is_mode (mode : json) (name : string) : bool :=
  match mode with JStr s => bool_decide (s = name) | _ => false end.

(** The mode-based routing of lines 130-139: the URL to forward to. *)
Definition route (mode details : json) : prog string :=
  if is_mode mode "DIRECT" then
    master <- fetch_master_node details ;; Ret (node_url master.2 "write")
  else if is_mode mode "RANDOM" then
    picked <- select_random_read_node details ;; Ret (node_url picked.2 "read")
  else
    lowest <- find_lowest_latency_instance details ;; Ret (node_url lowest.2 "read").

(** [POST /process]: both [except] clauses answer [{"error": str(e)}], 500. *)
Definition process_query (data : json) : prog response :=
  query <- lift (py_get data "query") ;;
  mode <- lift (py_get data "mode") ;;
  if negb (truthy query) || negb (truthy mode) then
    Ret (jsonify (error_body "Missing query or mode") 400)
  else
    catch
      (instance_details <- load_instance_details ;;
       url <- route mode instance_details ;;
       reply <- forward_query_request url (JDict [("query", query)]) ;;
       Ret (jsonify reply 200))
      (fun e => Some (Ret (jsonify (error_body (exn_str e)) 500))).

(** [GET /health]. *)
Definition health_check : prog response := Ret (jsonify (JDict [("status", JStr "healthy")]) 200).

End ProxyManager.

Module ProxyManagerProofs.
Import ProxyManager.

(** ** Lowest latency: the selection the loop computes *)

(** The loop of [find_lowest_latency_instance] on recorded samples: each
    candidate with its ping time, [None] when the ping failed. *)
Fixpoint pick_lowest (ss : list (json * option pyfloat)) (lowest : pyfloat) (best : option json)
  : option json :=
  match ss with
  | [] => best
  | (inst, Some t) :: ss' =>
      if pf_lt t lowest then pick_lowest ss' t (Some inst) else pick_lowest ss' lowest best
  | (_, None) :: ss' => pick_lowest ss' lowest best
  end.

(** The policy of the specification: candidate [i] answered with time [t],
    no answer was faster, and every earlier answer was slower (ties go to
    the first in membership order). *)
Definition is_lowest (lats : list (option Q)) (i : nat) (t : Q) : Prop :=
  lats !! i = Some (Some t) /\
  (forall j t', lats !! j = Some (Some t') -> (t <= t')%Q) /\
  (forall j t', (j < i)%nat -> lats !! j = Some (Some t') -> (t < t')%Q).

(** Finite samples: ping prints decimal times. *)
Definition sample_finite (s : option pyfloat) : Prop :=
  match s with None | Some (PFin _) => True | Some _ => False end.

Definition sample_q (s : option pyfloat) : option Q :=
  match s with Some (PFin q) => Some q | _ => None end.

Lemma pf_lt_fin_trans a b cur :
  pf_lt (PFin a) cur = true -> pf_lt (PFin b) cur = false -> (a < b)%Q.
Proof.
  destruct cur as [c| | |]; simpl; try discriminate.
  intros Ha Hb. apply q_ltb_spec in Ha.
  assert (~ (b < c)%Q) as Hb' by (intros Hc; apply q_ltb_spec in Hc; congruence).
  apply Qnot_lt_le in Hb'. eapply Qlt_le_trans; eauto.
Qed.

Lemma pick_lowest_spec ss cur best :
  Forall (fun s => sample_finite s.2) ss ->
  (pick_lowest ss cur best = best /\
     forall j x q, ss !! j = Some (x, Some (PFin q)) -> pf_lt (PFin q) cur = false) \/
  (exists i x q, pick_lowest ss cur best = Some x /\ ss !! i = Some (x, Some (PFin q)) /\
     pf_lt (PFin q) cur = true /\ is_lowest ((fun s => sample_q s.2) <$> ss) i q).
Proof.
  intros Hfin. revert cur best.
  induction Hfin as [|[x [t|]] ss Hx Hfin IH]; intros cur best; simpl.
  - left. split; [done|]. intros j ? ? Hj. by rewrite lookup_nil in Hj.
  - destruct t as [q| | |]; try done. destruct (pf_lt (PFin q) cur) eqn:Hq.
    + right. destruct (IH (PFin q) (Some x)) as [[-> Hnone]|(i & y & q' & -> & Hi & Hlt & Hlow & Hall & Hbefore)].
      * exists 0%nat, x, q. repeat split; try done.
        -- intros [|j] t' Hj; simpl in Hj; [simplify_eq; apply Qle_refl|].
           apply list_lookup_fmap_Some in Hj as ([y [[t''| | |]|]] & Heq & Hj); simpl in Heq; try done.
           simplify_eq. apply Qnot_lt_le. intros Hlt.
           specialize (Hnone _ _ _ Hj). apply q_ltb_spec in Hlt. simpl in Hnone. congruence.
        -- intros j t' Hj. lia.
      * exists (S i), y, q'. apply q_ltb_spec in Hlt. repeat split; try done.
        -- destruct cur; simpl in *; try done. apply q_ltb_spec. apply q_ltb_spec in Hq.
           eapply Qlt_trans; eauto.
        -- intros [|j] t' Hj; simpl in Hj; [simplify_eq; by apply Qlt_le_weak|].
           by apply (Hall j).
        -- intros [|j] t' Hj Hj'; simpl in Hj'; [by simplify_eq|].
           apply (Hbefore j); [lia|done].
    + destruct (IH cur best) as [[-> Hnone]|(i & y & q' & -> & Hi & Hlt & Hlow & Hall & Hbefore)].
      * left. split; [done|]. intros [|j] y q' Hj; simpl in Hj; [by simplify_eq|eauto].
      * right. exists (S i), y, q'. pose proof (pf_lt_fin_trans _ _ _ Hlt Hq) as Hqq.
        repeat split; try done.
        -- intros [|j] t' Hj; simpl in Hj; [simplify_eq; by apply Qlt_le_weak|].
           by apply (Hall j).
        -- intros [|j] t' Hj Hj'; simpl in Hj'; [by simplify_eq|].
           apply (Hbefore j); [lia|done].
  - destruct (IH cur best) as [[-> Hnone]|(i & y & q' & -> & Hi & Hlt & Hlow & Hall & Hbefore)].
    + left. split; [done|]. intros [|j] y q' Hj; simpl in Hj; [done|eauto].
    + right. exists (S i), y, q'. repeat split; try done.
      * intros [|j] t' Hj; simpl in Hj; [done|]. by apply (Hall j).
      * intros [|j] t' Hj Hj'; simpl in Hj'; [done|]. apply (Hbefore j); [lia|done].
Qed.


(** ** Forwarding *)

(** The reply [forward_query_request] returns for an answer of
    [requests.post]. *)
Definition forward_result (a : http_result) : json :=
  match a with
  | HttpFailed m =>
      JDict [("message", JStr "Query forwarding failed"); ("error", JStr m); ("affected_rows", JInt 0)]
  | HttpReply r =>
      if Z.eqb (status r) 200 then
        match resp_json r with
        | inr j => j
        | inl e => JDict [("message", JStr "Query forwarding failed");
                          ("error", JStr (exn_str e)); ("affected_rows", JInt 0)]
        end
      else JDict [("message", JStr "Query execution failed");
                  ("error", JStr (resp_text r)); ("affected_rows", JInt 0)]
  end.

Definition post_query (url : string) (q : json) : cmd := HttpPost url (JDict [("query", q)]) [].

Definition member_ip (v : json) : json := from_option id JNull (member_field "PublicIP" v).

Section Forwarding.
Context {W : Type} `{Oracle W}.

Lemma forward_query_request_run url p (w : W) :
    run (forward_query_request url p) w =
      let (a, w') := oracle (HttpPost url p []) w in
      mkResult (Normal (forward_result a)) w' [HttpPost url p []].
  Proof.
    unfold forward_query_request. simpl.
    destruct (oracle (HttpPost url p []) w) as [[m|[st [v|t]]] w']; simpl; [done|..];
      by destruct (Z.eqb st 200).
  Qed.

(** The request once [query] and [mode] are checked: load, route,
    forward, all under the catch-all [except]. *)
Lemma process_query_checked kvs q m (w : W) :
    assoc "query" kvs = Some q -> truthy q = true ->
    assoc "mode" kvs = Some m -> truthy m = true ->
    run (process_query (JDict kvs)) w =
      run (catch (details <- load_instance_details ;;
                  url <- route m details ;;
                  reply <- forward_query_request url (JDict [("query", q)]) ;;
                  Ret (jsonify reply 200))
                 (fun e => Some (Ret (jsonify (error_body (exn_str e)) 500)))) w.
  Proof.
    intros Hq Htq Hm Htm. unfold process_query. cbn [bind lift py_get py_get_default]. unfold get_or.
    by rewrite Hq, Hm, Htq, Htm.
  Qed.
End Forwarding.

(** [fetch_master_node] issues no command: on well-formed descriptors it
    is the first primary-tagged member, or the routing error. *)
Lemma fetch_master_node_wf insts :
  members_wf insts ->
  fetch_master_node (JList insts) =
    match primary_member insts with
    | Some pm => Ret (from_option id JNull (member_field "InstanceID" pm), member_ip pm)
    | None => Throw (ValueError "No master node found")
    end.
Proof.
  intros Hwf. unfold fetch_master_node. cbn [py_iter lift bind].
  rewrite primary_member_generator by done. cbn [lift bind].
  destruct (primary_member insts) as [pm|] eqn:Hpm; [|done].
  unfold primary_member in Hpm. apply find_some in Hpm as [Hin _].
  apply Forall_forall with (x := pm) in Hwf; [|by apply list_elem_of_In].
  destruct (instance_wf_fields pm Hwf) as (kvs & n & i & p & -> & _ & Hi & Hp).
  assert (truthy (JDict kvs) = true) as -> by (destruct kvs; [discriminate|done]).
  unfold id_and_ip, member_ip. simpl. by rewrite Hi, Hp.
Qed.

Local Opaque forward_query_request.

Section Direct.
Context {W : Type} `{Oracle W}.

(** C3: DIRECT forwards the statement to the [/write] endpoint of the
    first primary-tagged member of the freshly loaded membership and
    relays the reply with status 200; with no primary-tagged member it
    answers the routing error with status 500 and forwards nothing. *)
Theorem process_direct kvs q insts (w w1 : W) :
    assoc "query" kvs = Some q -> truthy q = true ->
    assoc "mode" kvs = Some (JStr "DIRECT") ->
    oracle (OpenJson "instance_info.json") w = (FileLoaded (JList insts), w1) ->
    members_wf insts ->
    run (process_query (JDict kvs)) w =
      match primary_member insts with
      | Some pm =>
          let (a, w2) := oracle (post_query (node_url (member_ip pm) "write") q) w1 in
          mkResult (Normal (jsonify (forward_result a) 200)) w2
                   [OpenJson "instance_info.json"; post_query (node_url (member_ip pm) "write") q]
      | None =>
          mkResult (Normal (jsonify (error_body "No master node found") 500)) w1
                   [OpenJson "instance_info.json"]
      end.
  Proof.
    intros Hq Htq Hm Hf Hwf. rewrite (process_query_checked kvs q _ w Hq Htq Hm eq_refl).
    unfold load_instance_details. rewrite run_catch, run_bind. simpl. rewrite Hf. simpl.
    unfold route. simpl. rewrite fetch_master_node_wf by done.
    destruct (primary_member insts) as [pm|]; simpl; [|done].
    rewrite run_bind, forward_query_request_run. unfold post_query.
    by destruct (oracle _ w1).
  Qed.
End Direct.

Lemma member_in_wf insts v : members_wf insts -> In v insts -> instance_wf v = true.
Proof. intros Hwf Hin. by apply Forall_forall with (x := v) in Hwf; [|apply list_elem_of_In]. Qed.

Lemma id_and_ip_wf v :
  instance_wf v = true ->
  id_and_ip v = Ret (from_option id JNull (member_field "InstanceID" v), member_ip v).
Proof.
  intros (kvs & n & i & p & -> & _ & Hi & Hp)%instance_wf_fields.
  unfold id_and_ip, member_ip. simpl. by rewrite Hi, Hp.
Qed.

Section Random.
Context {W : Type} `{Oracle W}.

Lemma select_random_read_node_run insts (w : W) i w' :
    members_wf insts ->
    oracle (RandBelow (length (replica_members insts))) w = (i, w') ->
    (i < length (replica_members insts))%nat ->
    exists v, replica_members insts !! i = Some v /\
      run (select_random_read_node (JList insts)) w =
        mkResult (Normal (from_option id JNull (member_field "InstanceID" v), member_ip v)) w'
                 [RandBelow (length (replica_members insts))].
  Proof.
    intros Hwf Hr Hi. destruct (lookup_lt_is_Some_2 _ _ Hi) as [v Hv].
    exists v. split; [done|].
    assert (Hvwf : instance_wf v = true).
    { apply (member_in_wf (replica_members insts)); [by apply replica_members_wf|].
      apply list_elem_of_In. by eapply list_elem_of_lookup_2. }
    unfold select_random_read_node. cbn [py_iter lift bind].
    rewrite replica_members_comprehension by done. cbn [lift bind].
    destruct (replica_members insts) as [|v0 vs] eqn:Hrm; [simpl in Hi; lia|].
    unfold random_choice. rewrite run_bind. simpl. simpl in Hr. rewrite Hr. simpl.
    rewrite Hv. simpl. by rewrite id_and_ip_wf.
  Qed.

Lemma select_random_read_node_empty insts :
    members_wf insts -> replica_members insts = [] ->
    select_random_read_node (JList insts) = Throw (ValueError "No read nodes found").
  Proof.
    intros Hwf He. unfold select_random_read_node. cbn [py_iter lift bind].
    rewrite replica_members_comprehension by done. by rewrite He.
  Qed.

(** C4: RANDOM forwards to the [/read] endpoint of the replica that
    [random.choice] draws among the members not tagged primary: any
    replica is the target when the draw falls on it, the primary never
    is, and the reply is relayed with status 200; when no member is a
    replica it answers [No read nodes found] with status 500, draws
    nothing and forwards nothing (it does not fall back to the primary). *)
Theorem process_random kvs q insts (w w1 : W) :
    assoc "query" kvs = Some q -> truthy q = true ->
    assoc "mode" kvs = Some (JStr "RANDOM") ->
    oracle (OpenJson "instance_info.json") w = (FileLoaded (JList insts), w1) ->
    members_wf insts ->
    (replica_members insts = [] ->
       run (process_query (JDict kvs)) w =
         mkResult (Normal (jsonify (error_body "No read nodes found") 500)) w1
                  [OpenJson "instance_info.json"]) /\
    (forall i w2,
       oracle (RandBelow (length (replica_members insts))) w1 = (i, w2) ->
       (i < length (replica_members insts))%nat ->
       exists v, replica_members insts !! i = Some v /\ is_primary v = false /\
         run (process_query (JDict kvs)) w =
           let (a, w3) := oracle (post_query (node_url (member_ip v) "read") q) w2 in
           mkResult (Normal (jsonify (forward_result a) 200)) w3
                    [OpenJson "instance_info.json"; RandBelow (length (replica_members insts));
                     post_query (node_url (member_ip v) "read") q]).
  Proof.
    intros Hq Htq Hm Hf Hwf.
    rewrite (process_query_checked kvs q _ w Hq Htq Hm eq_refl).
    unfold load_instance_details. rewrite run_catch, run_bind. simpl. rewrite Hf. simpl.
    unfold route. simpl. split.
    { intros He. by rewrite select_random_read_node_empty. }
    intros i w2 Hr Hi.
    destruct (select_random_read_node_run insts w1 i w2 Hwf Hr Hi) as (v & Hv & Hrun).
    exists v. split; [done|]. split.
    { apply list_elem_of_lookup_2, list_elem_of_In in Hv.
      unfold replica_members in Hv. apply filter_In in Hv as [_ Hv]. by destruct (is_primary v). }
    rewrite run_bind, run_bind, Hrun. simpl.
    rewrite run_bind, forward_query_request_run. unfold post_query.
    by destruct (oracle _ w2).
  Qed.
End Random.

(** ** CUSTOMIZED: the samples the loop records *)

Definition sample_of (ping_of : string -> ping_result) (ip : json) : option pyfloat :=
  match ip with JStr s => parse_ping (ping_of s) | _ => None end.

(** Each replica with its ping sample, in membership order. *)
Definition samples (ping_of : string -> ping_result) (insts : list json) : list (json * option pyfloat) :=
  (fun v => (v, sample_of ping_of (member_ip v))) <$> replica_members insts.

Definition latencies (ping_of : string -> ping_result) (insts : list json) : list (option Q) :=
  (fun s => sample_q s.2) <$> samples ping_of insts.

(** The pings issued: one per replica whose address is a string. *)
Definition ping_cmds (insts : list json) : list cmd :=
  omap (fun v => match member_ip v with JStr s => Some (RunPing s) | _ => None end)
       (replica_members insts).

Lemma pick_lowest_in ss cur best x :
  pick_lowest ss cur best = Some x -> best = Some x \/ x ∈ ss.*1.
Proof.
  revert cur best. induction ss as [|[y [t|]] ss IH]; intros cur best; simpl.
  - intros ->. by left.
  - destruct (pf_lt t cur); intros Hp; destruct (IH _ _ Hp) as [Hb|Hin];
      [simplify_eq; right; set_solver|right; set_solver|by left|right; set_solver].
  - intros Hp. destruct (IH _ _ Hp) as [Hb|Hin]; [by left|right; set_solver].
Qed.

Lemma samples_cons p v insts :
  samples p (v :: insts) =
    if is_primary v then samples p insts else (v, sample_of p (member_ip v)) :: samples p insts.
Proof. unfold samples, replica_members. simpl. by destruct (is_primary v). Qed.

Lemma ping_cmds_cons v insts :
  ping_cmds (v :: insts) =
    if is_primary v then ping_cmds insts
    else match member_ip v with JStr s => RunPing s :: ping_cmds insts | _ => ping_cmds insts end.
Proof. unfold ping_cmds, replica_members. simpl. destruct (is_primary v); simpl; [done|]. by destruct (member_ip v). Qed.

Section Customized.
Context {W : Type} `{Oracle W}.
Variable ping_of : string -> ping_result.
(** The probes of one routing decision see a fixed round-trip time per
    address. *)
Hypothesis ping_stable : forall ip (w : W), (oracle (RunPing ip) w).1 = ping_of ip.

Lemma lowest_loop_run insts cur best (w : W) :
    members_wf insts ->
    exists w', run (lowest_loop insts cur best) w =
      mkResult (Normal (pick_lowest (samples ping_of insts) cur best)) w' (ping_cmds insts).
  Proof.
    intros Hwf. revert cur best w.
    induction Hwf as [|v insts Hv Hwf IH]; intros cur best w; [by exists w|].
    change (lowest_loop (v :: insts) cur best) with
      (not_master <- lift (name_is_not_master v) ;;
       if not_master : bool then
         ip <- lift (py_subscript v "PublicIP") ;;
         t <- ping_address ip ;;
         match t with
         | Some pt => if pf_lt pt cur then lowest_loop insts pt (Some v) else lowest_loop insts cur best
         | None => lowest_loop insts cur best
         end
       else lowest_loop insts cur best).
    rewrite samples_cons, ping_cmds_cons, name_is_not_master_wf by done. rewrite run_bind. simpl.
    destruct (is_primary v); simpl; [destruct (IH cur best w) as [w' ->]; by exists w'|].
    destruct (instance_wf_fields v Hv) as (kvs & n & i & p & -> & _ & _ & Hp).
    assert (Hip : member_ip (JDict kvs) = p) by (unfold member_ip; simpl; by rewrite Hp).
    rewrite Hip. simpl. rewrite Hp. simpl.
    destruct p as [| | |s| |]; simpl;
      try (destruct (IH cur best w) as [w' ->]; by exists w').
    pose proof (ping_stable s w) as Hs. destruct (oracle (RunPing s) w) as [a w1] eqn:Ha.
    simpl in Hs. subst a. simpl.
    destruct (parse_ping (ping_of s)) as [t|]; simpl.
    - destruct (pf_lt t cur);
        [destruct (IH t (Some (JDict kvs)) w1) as [w' ->]|destruct (IH cur best w1) as [w' ->]];
        by exists w'.
    - destruct (IH cur best w1) as [w' ->]. by exists w'.
  Qed.

Lemma samples_finite insts :
    Forall (fun v => sample_finite (sample_of ping_of (member_ip v))) (replica_members insts) ->
    Forall (fun s => sample_finite s.2) (samples ping_of insts).
  Proof. intros Hf. unfold samples. by apply Forall_fmap. Qed.

Lemma find_lowest_latency_run insts (w : W) :
    members_wf insts ->
    exists w', run (find_lowest_latency_instance (JList insts)) w =
      match pick_lowest (samples ping_of insts) PInf None with
      | Some b => mkResult (Normal (from_option id JNull (member_field "InstanceID" b), member_ip b))
                           w' (ping_cmds insts)
      | None => mkResult (Raised (ValueError "No instance with a valid ping found")) w' (ping_cmds insts)
      end.
  Proof.
    intros Hwf. unfold find_lowest_latency_instance. cbn [py_iter lift bind].
    rewrite run_bind. destruct (lowest_loop_run insts PInf None w Hwf) as [w' ->]. simpl.
    exists w'. destruct (pick_lowest _ PInf None) as [b|] eqn:Hb; simpl; [|by rewrite app_nil_r].
    destruct (pick_lowest_in _ _ _ _ Hb) as [|Hin]; [done|].
    assert (Hbwf : instance_wf b = true).
    { unfold samples in Hin. rewrite <- list_fmap_compose in Hin. simpl in Hin.
      rewrite list_fmap_id in Hin. apply (member_in_wf (replica_members insts)); auto with cluster.
      by apply list_elem_of_In. }
    destruct (instance_wf_fields b Hbwf) as (kvs & n & i & p & -> & Hn & _ & _).
    assert (truthy (JDict kvs) = true) as -> by (destruct kvs; [discriminate|done]).
    rewrite id_and_ip_wf by done. simpl. by rewrite app_nil_r.
  Qed.

(** C5: any mode other than DIRECT and RANDOM pings every replica once,
    in membership order, and forwards to the [/read] endpoint of the
    replica with the lowest round-trip time, the first one in
    membership order among equals; when no replica answers its ping the
    request fails with the routing error, status 500, and nothing is
    forwarded. *)
Theorem process_customized kvs q m insts (w w1 : W) :
    assoc "query" kvs = Some q -> truthy q = true ->
    assoc "mode" kvs = Some m -> truthy m = true ->
    is_mode m "DIRECT" = false -> is_mode m "RANDOM" = false ->
    oracle (OpenJson "instance_info.json") w = (FileLoaded (JList insts), w1) ->
    members_wf insts ->
    Forall (fun v => sample_finite (sample_of ping_of (member_ip v))) (replica_members insts) ->
    let r := run (process_query (JDict kvs)) w in
    (exists i v t a,
       replica_members insts !! i = Some v /\ is_lowest (latencies ping_of insts) i t /\
       res_out r = Normal (jsonify (forward_result a) 200) /\
       res_trace r = OpenJson "instance_info.json" :: ping_cmds insts
                       ++ [post_query (node_url (member_ip v) "read") q])
    \/
    (Forall (fun l => l = None) (latencies ping_of insts) /\
     res_out r = Normal (jsonify (error_body "No instance with a valid ping found") 500) /\
     res_trace r = OpenJson "instance_info.json" :: ping_cmds insts).
  Proof.
    intros Hq Htq Hm Htm Hd Hr Hf Hwf Hfin.
    rewrite (process_query_checked kvs q m w Hq Htq Hm Htm).
    unfold load_instance_details. rewrite run_catch, run_bind. simpl. rewrite Hf. simpl.
    unfold route. rewrite Hd, Hr. rewrite run_bind, run_bind.
    destruct (find_lowest_latency_run insts w1 Hwf) as [w' ->].
    destruct (pick_lowest_spec _ PInf None (samples_finite insts Hfin))
      as [[-> Hnone]|(i & v & t & -> & Hi & _ & Hlow)]; simpl.
    - right. split; [|by rewrite app_nil_r].
      apply Forall_lookup. intros j l Hj. unfold latencies in Hj.
      apply list_lookup_fmap_Some in Hj as ([v [[t| | |]|]] & -> & Hj); simpl; try done.
      by specialize (Hnone _ _ _ Hj).
    - left. rewrite run_bind, forward_query_request_run.
      destruct (oracle (HttpPost (node_url (member_ip v) "read") (JDict [("query", q)]) []) _)
        as [a w2] eqn:Ha.
      exists i, v, t, a. split; [|split; [done|]].
      + unfold samples in Hi. apply list_lookup_fmap_Some in Hi as (v' & Hv' & Hi). by simplify_eq.
      + simpl. split; [done|]. by rewrite app_nil_r.
  Qed.
End Customized.

(** ** Totality *)

Section Total.
Context {W : Type} `{Oracle W}.

(** C13: for any JSON-object body and any world, [/process] answers:
    400 when [query] or [mode] is missing or falsy, otherwise 200 with
    the relayed reply or a failure envelope, or 500 with a structured
    error; no exception reaches Flask. *)
Theorem process_query_total kvs (w : W) :
    exists resp, res_out (run (process_query (JDict kvs)) w) = Normal resp /\
      (status resp = 200 \/ status resp = 400 \/ status resp = 500)%Z.
  Proof.
    unfold process_query. cbn [bind lift py_get py_get_default]. unfold get_or.
    destruct (negb _ || negb _); [eexists; split; [done|]; simpl; auto|].
    set (body := catch _ _).
    assert (Hnt : no_throw body).
    { apply no_throw_catch. intros e. by eexists. }
    assert (Hst : all_returns (fun r => status r = 200%Z \/ status r = 500%Z) body).
    { apply all_returns_catch; [|intros e q [= <-]; simpl; auto].
      repeat (apply all_returns_bind; intros ?). simpl. auto. }
    destruct (no_throw_run body w Hnt) as [resp Hresp].
    exists resp. split; [done|].
    destruct (all_returns_run _ _ _ _ Hst Hresp); auto.
  Qed.
End Total.

(** A request without a truthy [query] or [mode] is refused with 400
    before the membership file is read. *)
Theorem process_query_missing kvs :
  negb (truthy (get_or kvs "query" JNull)) ||
  negb (truthy (get_or kvs "mode" JNull)) = true ->
  process_query (JDict kvs) = Ret (jsonify (error_body "Missing query or mode") 400).
Proof.
  intros Hm. unfold process_query. cbn [bind lift py_get py_get_default].
  by rewrite Hm.
Qed.

(** Modes are compared case-sensitively and every mode other than
    ["DIRECT"] and ["RANDOM"] takes the lowest-latency policy. *)
Lemma route_fallback m details :
  is_mode m "DIRECT" = false -> is_mode m "RANDOM" = false ->
  route m details = (lowest <- find_lowest_latency_instance details ;; Ret (node_url lowest.2 "read")).
Proof. intros Hd Hr. unfold route. by rewrite Hd, Hr. Qed.

End ProxyManagerProofs.

(** ** Runs on a three-node cluster *)
Module ProxyManagerWitness.
Import ProxyManager ProxyManagerProofs Tables.

Definition member (name ip : string) : json :=
  JDict [("Name", JStr name); ("InstanceID", JStr ("i-" +:+ ip)); ("PublicIP", JStr ip)].

(** membership = [primary@A, replica@B, replica@C] *)
Definition members : list json :=
  [member "mysql_master_node" "A"; member "mysql_slave_node" "B"; member "mysql_slave_node" "C"].

Definition files (p : string) : file_result :=
  if bool_decide (p = "instance_info.json") then FileLoaded (JList members) else FileMissing.

(** What [ping -c 1] prints: C is closer than B. *)
Definition ping_of (ip : string) : ping_result :=
  if bool_decide (ip = "B") then
    PingExited 0 "PING B (B) 56(84) bytes of data.
64 bytes from B: icmp_seq=1 ttl=64 time=0.512 ms"
  else if bool_decide (ip = "C") then
    PingExited 0 "PING C (C) 56(84) bytes of data.
64 bytes from C: icmp_seq=1 ttl=64 time=0.045 ms"
  else PingTimeout.

Definition net (_ : string) (_ : json) : http_result :=
  HttpReply (jsonify (JDict [("data", JList [])]) 200).

Definition world : Oracle unit := table_oracle (mkTables files net ping_of (fun _ => 1%nat)).
#[local] Existing Instance world.

Definition select : json := JStr "SELECT * FROM actor".
Definition request (mode : string) : list (string * json) := [("query", select); ("mode", JStr mode)].

Example parse_ping_example : parse_ping (ping_of "C") = Some (PFin (45 # 1000)).
Proof. vm_compute. reflexivity. Qed.

Example customized_picks_c :
  res_trace (run (process_query (JDict (request "CUSTOMIZED"))) tt) =
    [OpenJson "instance_info.json"; RunPing "B"; RunPing "C"; post_query "http://C:80/read" select].
Proof. vm_compute. reflexivity. Qed.

(** A lower-case ["direct"] is not ["DIRECT"]: it is routed by latency to a
    replica's [/read] endpoint. *)
Example lowercase_direct_reads_replica :
  res_trace (run (process_query (JDict (request "direct"))) tt) =
    [OpenJson "instance_info.json"; RunPing "B"; RunPing "C"; post_query "http://C:80/read" select].
Proof. vm_compute. reflexivity. Qed.

Lemma members_ok : members_wf members.
Proof. repeat constructor. Qed.

Lemma process_direct_witness :
  res_trace (run (process_query (JDict (request "DIRECT"))) tt) =
    [OpenJson "instance_info.json"; post_query "http://A:80/write" select].
Proof.
  rewrite (process_direct (request "DIRECT") select members tt tt eq_refl eq_refl eq_refl eq_refl members_ok).
  reflexivity.
Defined.

(** A membership file that lists only the primary. *)
Definition primary_only (p : string) : file_result :=
  if bool_decide (p = "instance_info.json") then FileLoaded (JList [member "mysql_master_node" "A"])
  else FileMissing.

Lemma process_random_witness :
  (exists v, replica_members members !! 1%nat = Some v /\ is_primary v = false /\
    run (process_query (JDict (request "RANDOM"))) tt =
      mkResult (Normal (jsonify (forward_result (net (node_url (member_ip v) "read") select)) 200)) tt
               [OpenJson "instance_info.json"; RandBelow 2; post_query (node_url (member_ip v) "read") select]) /\
  @run _ (table_oracle (mkTables primary_only net ping_of (fun _ => 1%nat))) _
       (process_query (JDict (request "RANDOM"))) tt =
    mkResult (Normal (jsonify (error_body "No read nodes found") 500)) tt [OpenJson "instance_info.json"].
Proof.
  split.
  - destruct (proj2 (process_random (request "RANDOM") select members tt tt eq_refl eq_refl eq_refl
                eq_refl members_ok) 1 tt eq_refl ltac:(simpl; lia)) as (v & Hv & Hp & Hrun).
    exists v. split; [done|]. split; [done|]. rewrite Hrun. reflexivity.
  - apply (proj1 (@process_random unit (table_oracle (mkTables primary_only net ping_of (fun _ => 1%nat)))
             (request "RANDOM") select [member "mysql_master_node" "A"] tt tt eq_refl eq_refl eq_refl
             eq_refl ltac:(repeat constructor))).
    reflexivity.
Defined.

Lemma process_customized_witness :
  let r := run (process_query (JDict (request "CUSTOMIZED"))) tt in
  (exists i v t a,
     replica_members members !! i = Some v /\ is_lowest (latencies ping_of members) i t /\
     res_out r = Normal (jsonify (forward_result a) 200) /\
     res_trace r = OpenJson "instance_info.json" :: ping_cmds members
                     ++ [post_query (node_url (member_ip v) "read") select])
  \/
  (Forall (fun l => l = None) (latencies ping_of members) /\
   res_out r = Normal (jsonify (error_body "No instance with a valid ping found") 500) /\
   res_trace r = OpenJson "instance_info.json" :: ping_cmds members).
Proof.
  apply (@process_customized unit world ping_of (fun ip (w : unit) => eq_refl) (request "CUSTOMIZED") select
           (JStr "CUSTOMIZED") members tt tt eq_refl eq_refl eq_refl eq_refl eq_refl eq_refl
           eq_refl members_ok).
  repeat constructor.
Defined.

Lemma process_query_missing_witness :
  process_query (JDict [("query", select)]) = Ret (jsonify (error_body "Missing query or mode") 400).
Proof. apply process_query_missing. reflexivity. Defined.

End ProxyManagerWitness.
