(* ===== verification/TrustedHost.v ===== *)
(** * Trusted host: [src/mysql/trusted_host/trusted_host_app.py]

    [POST /process] checks, in this order, that the body has the keys
    [query] and [mode], that [mode.upper()] is one of [ALLOWED_MODES], and
    that the headers carry the one configured user name and password.
    Only then does it read [proxy_info.json] and forward the body, as it
    received it, to the proxy manager.  The theorems show that each check
    answers before any command is issued (400, 400, 401), that a valid
    request reaches the proxy manager unchanged, and that the mode it
    validates is not the mode it forwards. *)

From S2P Require Import Prelude PyStr Json Effects.

Module TrustedHost.

Definition ALLOWED_MODES : list string := ["DIRECT"; "RANDOM"; "CUSTOMIZED"].

Definition VALID_CREDENTIALS : list (string * string) := [("admin_elaa", "admin_elaa_password123")].

(** [request.headers.get(name)]: header names are compared without case. *)
Fixpoint header_get (hs : list (string * string)) (name : string) : option string :=
  match hs with
  | [] => None
  | (k, v) :: hs' =>
      if bool_decide (ascii_lower k = ascii_lower name) then Some v else header_get hs' name
  end.

Definition str_truthy (o : option string) : bool :=
  match o with Some s => negb (bool_decide (s = EmptyString)) | None => false end.

(** [validate_user_credentials(headers)]. *)
Definition validate_user_credentials (headers : list (string * string)) : bool * option string :=
  let username := header_get headers "username" in
  let password := header_get headers "password" in
  if negb (str_truthy username) || negb (str_truthy password) then
    (false, Some "Missing 'username' or 'password' in headers.")
  else
    match username, password with
    | Some u, Some p =>
        match list_to_map (M := gmap string string) VALID_CREDENTIALS !! u with
        | Some expected => if bool_decide (expected = p) then (true, None)
                           else (false, Some "Invalid username or password.")
        | None => (false, Some "Invalid username or password.")
        end
    | _, _ => (false, Some "Missing 'username' or 'password' in headers.")
    end.

(** [load_proxy_manager_details()]. *)
Definition load_proxy_manager_details : prog json :=
  r <- call (OpenJson "proxy_info.json") ;;
  match r : file_result with
  | FileMissing => Throw (FileNotFoundError "proxy_info.json not found")
  | FileCorrupt => Throw (ValueError "Error decoding JSON from proxy_info.json")
  | FileLoaded v => Ret v
  end.

(** [forward_query(url, data)]: the body is forwarded without headers. *)
Definition forward_query (url : string) (data : json) : prog response :=
  catch
    (r <- call (HttpPost url data []) ;;
     match r : http_result with
     | HttpFailed m => Throw (RequestException m)
     | HttpReply resp =>
         if Z.eqb (status resp) 200 then j <- lift (resp_json resp) ;; Ret (jsonify j 200)
         else Ret (jsonify (JDict [("message", JStr "Query execution failed");
                                   ("error", JStr (resp_text resp)); ("affected_rows", JInt 0)])
                           (status resp))
     end)
    (fun e => match e with
              | RequestException m | JSONDecodeError m =>
                  Some (Ret (jsonify (JDict [("message", JStr "Query forwarding failed");
                                             ("error", JStr m); ("affected_rows", JInt 0)]) 500))
              | _ => None
              end).

(** [mode.upper()]: only strings have [upper]. *)
Definition py_upper_value (v : json) : exn + string :=
  match v with
  | JStr s => inr (py_upper s)
  | _ => inl (AttributeError ("'" +:+ type_name v +:+ "' object has no attribute 'upper'"))
  end.

(** [next((instance["PublicIP"] for instance in insts), None)]. *)
Definition first_public_ip (details : json) : exn + json :=
  match py_iter details with
  | inl e => inl e
  | inr [] => inr JNull
  | inr (inst :: _) => py_subscript inst "PublicIP"
  end.

(** The text of [', '.join(ALLOWED_MODES)]; a Python set has no fixed
    iteration order, this is one of its orders. *)
Definition invalid_mode_msg : string :=
  "Invalid mode. Allowed modes are: " +:+ join_comma ALLOWED_MODES.

(** [POST /process]. *)
Definition process_query (data : json) (headers : list (string * string)) : prog response :=
  has_query <- lift (py_contains data "query") ;;
  missing <- (if negb has_query then Ret true
              else has_mode <- lift (py_contains data "mode") ;; Ret (negb has_mode)) ;;
  if missing : bool then
    Ret (jsonify (error_body "Missing required keys. Required keys: 'query', 'mode'") 400)
  else
  m <- lift (py_get data "mode") ;;
  mode <- lift (py_upper_value m) ;;
  if negb (bool_decide (mode ∈ ALLOWED_MODES)) then Ret (jsonify (error_body invalid_mode_msg) 400)
  else
  match validate_user_credentials headers with
  | (false, err) => Ret (jsonify (JDict [("error", match err with Some e => JStr e | None => JNull end)]) 401)
  | (true, _) =>
      catch
        (instance_details <- load_proxy_manager_details ;;
         proxy_manager_ip <- lift (first_public_ip instance_details) ;;
         if negb (truthy proxy_manager_ip) then Ret (jsonify (error_body "No proxy manager IP found") 500)
         else forward_query ("http://" +:+ py_str proxy_manager_ip +:+ ":80/process") data)
        (fun e => match e with
                  | FileNotFoundError m | ValueError m => Some (Ret (jsonify (error_body m) 500))
                  | _ => None
                  end)
  end.

(** [GET /health]. *)
Definition health_check : prog response := Ret (jsonify (JDict [("status", JStr "healthy")]) 200).

End TrustedHost.

Module TrustedHostProofs.
Import TrustedHost.

(** ** What the trusted host admits *)

(** The body names a query and a mode, and the mode is a string whose
    upper-case form is an allowed mode. *)
Definition valid_request (kvs : list (string * json)) : Prop :=
  exists q m, assoc "query" kvs = Some q /\ assoc "mode" kvs = Some (JStr m) /\
              py_upper m ∈ ALLOWED_MODES.

(** The headers carry a configured user name with its password. *)
Definition valid_credentials (hs : list (string * string)) : Prop :=
  exists u p, header_get hs "username" = Some u /\ header_get hs "password" = Some p /\
              (u, p) ∈ VALID_CREDENTIALS.

Lemma valid_credentials_lookup u :
  list_to_map (M := gmap string string) VALID_CREDENTIALS !! u =
    if bool_decide (u = "admin_elaa") then Some "admin_elaa_password123" else None.
Proof.
  unfold VALID_CREDENTIALS. simpl. case_bool_decide as Hu.
  - subst. by rewrite lookup_insert_eq.
  - rewrite lookup_insert_ne; [|done]. by rewrite lookup_empty.
Qed.

(** The answer of the proxy manager as [forward_query] relays it. *)
Definition relay_reply (a : http_result) : response :=
  match a with
  | HttpFailed m =>
      jsonify (JDict [("message", JStr "Query forwarding failed"); ("error", JStr m);
                      ("affected_rows", JInt 0)]) 500
  | HttpReply r =>
      if Z.eqb (status r) 200 then
        match resp_json r with
        | inr j => jsonify j 200
        | inl e => jsonify (JDict [("message", JStr "Query forwarding failed");
                                   ("error", JStr (exn_str e)); ("affected_rows", JInt 0)]) 500
        end
      else jsonify (JDict [("message", JStr "Query execution failed");
                           ("error", JStr (resp_text r)); ("affected_rows", JInt 0)]) (status r)
  end.

(** The URL of the proxy manager at [ip]. *)
Definition proxy_url (ip : string) : string := "http://" +:+ ip +:+ ":80/process".

(** [validate_user_credentials] accepts exactly the headers that carry a
    configured user name with its password. *)
Lemma validate_user_credentials_spec hs :
  (validate_user_credentials hs).1 = true <-> valid_credentials hs.
Proof.
  unfold validate_user_credentials, valid_credentials.
  destruct (header_get hs "username") as [u|], (header_get hs "password") as [p|];
    cbn -[VALID_CREDENTIALS list_to_map]; rewrite ?valid_credentials_lookup; simpl;
    repeat (case_bool_decide; simpl); subst; split; try discriminate;
    try (intros (? & ? & [=] & [=] & Hin); subst;
         apply list_elem_of_singleton in Hin; simplify_eq; congruence).
  intros _. do 2 eexists. split_and!; [done|done|by left].
Qed.

Lemma validate_user_credentials_ok hs :
  (validate_user_credentials hs).1 = true -> validate_user_credentials hs = (true, None).
Proof.
  unfold validate_user_credentials.
  destruct (header_get hs "username") as [u|], (header_get hs "password") as [p|];
    cbn -[VALID_CREDENTIALS list_to_map]; rewrite ?valid_credentials_lookup; simpl;
    repeat (case_bool_decide; simpl); done.
Qed.

(** C2: the trusted host answers a request it does not admit without any
    call to the outside: 400 when the body lacks [query] or [mode] or the
    mode is not allowed, 401 when the body is valid and the credentials
    are not; a mode that is not a string raises [AttributeError] at
    [.upper()]. *)
Theorem process_query_rejects kvs hs :
  ~ (valid_request kvs /\ valid_credentials hs) ->
  (exists resp, process_query (JDict kvs) hs = Ret resp /\
     ((status resp = 400%Z /\ ~ valid_request kvs) \/
      (status resp = 401%Z /\ valid_request kvs /\ ~ valid_credentials hs))) \/
  (exists v msg, assoc "mode" kvs = Some v /\ type_name v <> "str" /\
     process_query (JDict kvs) hs = Throw (AttributeError msg)).
Proof.
  intros Hadm. unfold process_query; simpl.
  destruct (assoc "query" kvs) as [q|] eqn:Hq; simpl.
  2:{ left. eexists. split; [done|]. left. split; [done|].
      intros (? & ? & ? & _); congruence. }
  destruct (assoc "mode" kvs) as [v|] eqn:Hm; simpl.
  2:{ left. eexists. split; [done|]. left. split; [done|].
      intros (? & ? & _ & ? & _); congruence. }
  unfold get_or. rewrite Hm. destruct v as [| | |m| |]; simpl;
    try (right; by eexists _, _).
  case_bool_decide as Hallowed; simpl.
  2:{ left. eexists. split; [done|]. left. split; [done|].
      intros (? & ? & _ & Hm' & ?); rewrite Hm in Hm'; by simplify_eq. }
  assert (valid_request kvs) as Hreq by (exists q, m; split_and!; done).
  destruct (validate_user_credentials hs) as [[] err] eqn:Hv.
  - exfalso. apply Hadm. split; [done|]. apply validate_user_credentials_spec. by rewrite Hv.
  - left. eexists. split; [done|]. right. split_and!; [done|done|].
    rewrite <-validate_user_credentials_spec, Hv. discriminate.
Qed.

(** Past the three checks: reduce [process_query] on an admitted request
    to the block that reads [proxy_info.json]. *)
Ltac admitted_request Hreq Hcred :=
  let q := fresh "q" in let m := fresh "m" in
  let Hq := fresh "Hq" in let Hm := fresh "Hm" in let Hallowed := fresh "Hallowed" in
  destruct Hreq as (q & m & Hq & Hm & Hallowed);
  apply validate_user_credentials_spec, validate_user_credentials_ok in Hcred;
  unfold process_query; simpl; rewrite Hq; simpl; unfold get_or; rewrite Hm; simpl;
  rewrite (bool_decide_eq_true_2 _ Hallowed); simpl; rewrite Hcred.

Section Forward.
Context {W : Type} `{Oracle W}.

Lemma forward_query_run url data (w : W) :
    run (forward_query url data) w =
      let (a, w') := oracle (HttpPost url data []) w in
      mkResult (Normal (relay_reply a)) w' [HttpPost url data []].
  Proof.
    unfold forward_query. simpl.
    destruct (oracle (HttpPost url data []) w) as [[m|[st [v|t]]] w']; simpl; [done|..];
      by destruct (Z.eqb st 200).
  Qed.

(** C9: an admitted request is forwarded, as the trusted host received
    it and without the client's headers, to the first proxy manager of
    [proxy_info.json]; the proxy manager's answer is relayed.  Nothing
    else is called. *)
Theorem process_query_forwards kvs hs (w w1 : W) inst rest ip :
    valid_request kvs -> valid_credentials hs ->
    oracle (OpenJson "proxy_info.json") w = (FileLoaded (JList (inst :: rest)), w1) ->
    py_subscript inst "PublicIP" = inr (JStr ip) -> ip <> EmptyString ->
    run (process_query (JDict kvs) hs) w =
      let post := HttpPost (proxy_url ip) (JDict kvs) [] in
      let (a, w2) := oracle post w1 in
      mkResult (Normal (relay_reply a)) w2 [OpenJson "proxy_info.json"; post].
  Proof.
    intros Hreq Hcred Hfile Hip Hne. admitted_request Hreq Hcred.
    simpl. rewrite Hfile. cbn -[py_subscript forward_query]. rewrite Hip. cbn -[forward_query].
    rewrite (bool_decide_eq_false_2 _ Hne). cbn -[forward_query].
    rewrite run_catch, forward_query_run. unfold proxy_url.
    by destruct (oracle _ w1).
  Qed.

(** C15: when [proxy_info.json] is missing or is not JSON, an admitted
    request is answered 500 with the loader's message, and nothing is
    forwarded. *)
Theorem process_query_config_error kvs hs (w w1 : W) f :
    valid_request kvs -> valid_credentials hs ->
    oracle (OpenJson "proxy_info.json") w = (f, w1) -> f = FileMissing \/ f = FileCorrupt ->
    run (process_query (JDict kvs) hs) w =
      mkResult (Normal (jsonify (error_body
        (if f is FileMissing then "proxy_info.json not found"
         else "Error decoding JSON from proxy_info.json")) 500)) w1 [OpenJson "proxy_info.json"].
  Proof.
    intros Hreq Hcred Hfile Hf. admitted_request Hreq Hcred.
    simpl. rewrite Hfile. by destruct Hf as [->| ->].
  Qed.
End Forward.

End TrustedHostProofs.

Module TrustedHostWitness.
Import TrustedHost TrustedHostProofs Tables.

Definition proxy_entry : json :=
  JDict [("Name", JStr "proxy_manager"); ("InstanceID", JStr "i-P"); ("PublicIP", JStr "P")].

Definition files (p : string) : file_result :=
  if bool_decide (p = "proxy_info.json") then FileLoaded (JList [proxy_entry]) else FileMissing.

Definition net (_ : string) (_ : json) : http_result :=
  HttpReply (jsonify (JDict [("data", JList [])]) 200).

Definition world : Oracle unit := table_oracle (mkTables files net (fun _ => PingTimeout) (fun _ => 0%nat)).
#[local] Existing Instance world.

Definition request (mode : string) : list (string * json) :=
  [("query", JStr "SELECT * FROM actor"); ("mode", JStr mode)].

Definition admin : list (string * string) :=
  [("Username", "admin_elaa"); ("Password", "admin_elaa_password123")].

Definition intruder : list (string * string) :=
  [("username", "admin_elaa"); ("password", "guess")].

Lemma admin_ok : valid_credentials admin.
Proof. apply validate_user_credentials_spec. by vm_compute. Qed.

Lemma intruder_rejected : ~ valid_credentials intruder.
Proof. rewrite <-validate_user_credentials_spec. by vm_compute. Qed.

Lemma request_ok mode : py_upper mode ∈ ALLOWED_MODES -> valid_request (request mode).
Proof. intros. by exists (JStr "SELECT * FROM actor"), mode. Qed.

(** A lower-case ["direct"] passes the check on [mode.upper()] and is
    forwarded as ["direct"]. *)
Example lowercase_mode_forwarded :
  res_trace (run (process_query (JDict (request "direct")) admin) tt) =
    [OpenJson "proxy_info.json"; HttpPost "http://P:80/process" (JDict (request "direct")) []].
Proof. vm_compute. reflexivity. Qed.

Lemma process_query_rejects_witness :
  ~ (valid_request (request "DIRECT") /\ valid_credentials intruder) /\
  ((exists resp, process_query (JDict (request "DIRECT")) intruder = Ret resp /\
     ((status resp = 400%Z /\ ~ valid_request (request "DIRECT")) \/
      (status resp = 401%Z /\ valid_request (request "DIRECT") /\ ~ valid_credentials intruder))) \/
   (exists v msg, assoc "mode" (request "DIRECT") = Some v /\ type_name v <> "str" /\
     process_query (JDict (request "DIRECT")) intruder = Throw (AttributeError msg))).
Proof.
  assert (~ (valid_request (request "DIRECT") /\ valid_credentials intruder)) as Hn.
  { intros [_ Hc]. by apply intruder_rejected. }
  split; [exact Hn|]. apply process_query_rejects. exact Hn.
Defined.

Lemma process_query_forwards_witness :
  valid_request (request "direct") /\ valid_credentials admin /\
  run (process_query (JDict (request "direct")) admin) tt =
    let post := HttpPost (proxy_url "P") (JDict (request "direct")) [] in
    let (a, w2) := oracle post tt in
    mkResult (Normal (relay_reply a)) w2 [OpenJson "proxy_info.json"; post].
Proof.
  split; [apply request_ok, (bool_decide_eq_true_1 _); vm_compute; reflexivity|]. split; [exact admin_ok|].
  apply (process_query_forwards _ _ tt tt proxy_entry [] "P");
    [apply request_ok, (bool_decide_eq_true_1 _); vm_compute; reflexivity|exact admin_ok|reflexivity|reflexivity|discriminate].
Defined.

Lemma process_query_config_error_witness :
  let no_files := table_oracle (mkTables (fun _ => FileMissing) net (fun _ => PingTimeout) (fun _ => 0%nat)) in
  @run unit no_files _ (process_query (JDict (request "RANDOM")) admin) tt =
    mkResult (Normal (jsonify (error_body "proxy_info.json not found") 500)) tt [OpenJson "proxy_info.json"].
Proof.
  apply (@process_query_config_error unit _ _ _ tt tt FileMissing);
    [apply request_ok, (bool_decide_eq_true_1 _); vm_compute; reflexivity|exact admin_ok|reflexivity|by left].
Defined.

End TrustedHostWitness.
