(* ===== verification/Gatekeeper.v ===== *)
(** * Gatekeeper: [src/mysql/gatekeeper/gatekeeper_app.py]

    The only public service.  [POST /process] reads [query] from the body,
    rejects it with 400 unless [query.strip()] matches
    [SQL_SANITIZATION_REGEX], and otherwise forwards the body and the
    client's headers to the first trusted host of [trustedhost_info.json].
    The theorems show that the check is exactly the allow-list of the
    spec (one or more allowed characters and an optional final [;]), that
    a rejected query causes no call at all, and what an accepted query
    causes: one file read and one forward, the reply relayed. *)

From Stdlib Require Import Ascii.
From S2P Require Import Prelude PyStr Json Regex Effects TrustedHost.

Module Gatekeeper.

(** The character class of the pattern: ASCII letters and digits, [\s]
    (in a [str] pattern, the characters of [str.isspace]), the
    punctuation [,.*_=<>@'()-] and the double quote (code 34). *)
Definition sql_char (c : ascii) : bool :=
  let n := N_of_ascii c in
  ((65 <=? n) && (n <=? 90))%N || ((97 <=? n) && (n <=? 122))%N || ((48 <=? n) && (n <=? 57))%N ||
  py_isspace c ||
  bool_decide (c ∈ [","; "."; "*"; "_"; "="; "<"; ">"; "@"; "'"; "034"; "("; ")"; "-"]%char).

Definition semicolon (c : ascii) : bool := bool_decide (c = ";"%char).

(** [SQL_SANITIZATION_REGEX = re.compile(...)]: the class, one or more
    times, then an optional [;]; the anchors [^] and [$] are those of
    [py_re_match_anchored]. *)
Definition SQL_SANITIZATION_REGEX : regex :=
  RSeq (RPlus (RClass sql_char)) (ROpt (RClass semicolon)).

Definition rejection_body : json :=
  error_body "Query contains potentially dangerous characters or is not sanitized.".

(** [get_trusted_host_config()]. *)
Definition get_trusted_host_config : prog json :=
  r <- call (OpenJson "trustedhost_info.json") ;;
  match r : file_result with
  | FileMissing => Throw (FileNotFoundError "trustedhost_info.json not found")
  | FileCorrupt => Throw (ValueError "Error decoding JSON from trustedhost_info.json")
  | FileLoaded v => Ret v
  end.

(** [query.strip()]: only strings have [strip]. *)
Definition py_strip_value (v : json) : exn + string :=
  match v with
  | JStr s => inr (py_strip s)
  | _ => inl (AttributeError ("'" +:+ type_name v +:+ "' object has no attribute 'strip'"))
  end.

(** [POST /process]. *)
Definition handle_query_request (data : json) (headers : list (string * string)) : prog response :=
  query <- lift (py_get data "query") ;;
  if negb (truthy query) then Ret (jsonify rejection_body 400) else
  stripped <- lift (py_strip_value query) ;;
  if negb (py_re_match_anchored SQL_SANITIZATION_REGEX stripped) then Ret (jsonify rejection_body 400)
  else
  catch
    (instance_details <- get_trusted_host_config ;;
     trusted_host_ip <- lift (TrustedHost.first_public_ip instance_details) ;;
     if negb (truthy trusted_host_ip) then Ret (jsonify (error_body "No trusted host found") 500)
     else
     r <- call (HttpPost ("http://" +:+ py_str trusted_host_ip +:+ ":80/process") data headers) ;;
     match r : http_result with
     | HttpFailed m => Throw (RequestException m)
     | HttpReply resp =>
         if Z.eqb (status resp) 200 then j <- lift (resp_json resp) ;; Ret (jsonify j 200)
         else Ret (jsonify (JDict [("message", JStr "Query execution failed");
                                   ("error", JStr (resp_text resp)); ("affected_rows", JInt 0)])
                           (status resp))
     end)
    (fun e => match e with
              | FileNotFoundError m => Some (Ret (jsonify (error_body m) 500))
              | ValueError m | JSONDecodeError m => Some (Ret (jsonify (error_body m) 500))
              | RequestException m =>
                  Some (Ret (jsonify (JDict [("message", JStr "Query forwarding failed");
                                             ("error", JStr m); ("affected_rows", JInt 0)]) 500))
              | _ => None
              end).

(** [GET /health]. *)
Definition health_check : prog response := Ret (jsonify (JDict [("status", JStr "healthy")]) 200).

End Gatekeeper.

Module GatekeeperProofs.
Import Gatekeeper.

(** ** The allow-list of the spec *)

(** One or more allowed characters, then an optional [;]. *)
Definition sanitized (w : list ascii) : Prop :=
  exists body, (w = body \/ w = body ++ [";"%char]) /\ body <> [] /\
               Forall (fun c => sql_char c = true) body.

Lemma sql_char_semicolon : sql_char ";" = false.
Proof. by vm_compute. Qed.

Lemma sanitization_lang w : in_lang SQL_SANITIZATION_REGEX w <-> sanitized w.
Proof.
  unfold SQL_SANITIZATION_REGEX, sanitized. split.
  - intros (w1 & w2 & -> & [Hne Hall]%plus_class_spec & Hopt%opt_class_spec)%seq_inv.
    exists w1. split_and!; [|done|done].
    destruct Hopt as [->|(c & -> & Hc)]; [left; by rewrite app_nil_r|right].
    unfold semicolon in Hc. by apply bool_decide_eq_true_1 in Hc as ->.
  - intros (body & Hw & Hne & Hall).
    destruct Hw as [->| ->]; [rewrite <-(app_nil_r body)|]; constructor;
      try by apply plus_class_spec.
    + apply opt_class_spec. by left.
    + apply opt_class_spec. right. by exists ";"%char.
Qed.

Lemma anchored_match_stripped s :
  py_re_match_anchored SQL_SANITIZATION_REGEX (py_strip s) = true <->
  sanitized (String.list_ascii_of_string (py_strip s)).
Proof.
  rewrite <-sanitization_lang, <-re_matches_spec. unfold py_re_match_anchored.
  destruct (last _) as [c|] eqn:Hlast; [|by rewrite andb_false_l, orb_false_r].
  apply py_strip_last in Hlast.
  rewrite (bool_decide_eq_false_2 (c = "010"%char)); [by rewrite andb_false_l, orb_false_r|].
  intros ->. discriminate.
Qed.

Lemma sanitized_nil : ~ sanitized [].
Proof. intros (body & [->|Hw] & Hne & _); [done|]. by destruct body. Qed.

(** C1: a request whose [query] is a string is rejected with 400 exactly
    when the stripped statement is not in the allow-list; the rejection
    is a value, so no file is read and nothing is forwarded. *)
Theorem handle_query_request_sanitization kvs hs q :
  assoc "query" kvs = Some (JStr q) ->
  (handle_query_request (JDict kvs) hs = Ret (jsonify rejection_body 400) <->
   ~ sanitized (String.list_ascii_of_string (py_strip q))).
Proof.
  intros Hq. unfold handle_query_request. simpl. unfold get_or. rewrite Hq. simpl.
  case_bool_decide as Hempty; simpl.
  { subst q. split; [intros _; apply sanitized_nil|done]. }
  destruct (py_re_match_anchored SQL_SANITIZATION_REGEX (py_strip q)) eqn:Hm; simpl.
  - split; [discriminate|]. intros Hn. exfalso. by apply Hn, anchored_match_stripped.
  - split; [|done]. intros _ Hs%anchored_match_stripped. congruence.
Qed.

(** ** What an accepted request does *)

(** The trusted host at [ip]. *)
Definition trusted_host_url (ip : string) : string := "http://" +:+ ip +:+ ":80/process".

(** The gatekeeper's answer to the trusted host's reply.  A 200 reply
    that is not JSON raises [requests.JSONDecodeError], which the
    [except ValueError] clause catches first. *)
Definition gk_relay (a : http_result) : response :=
  match a with
  | HttpFailed m =>
      jsonify (JDict [("message", JStr "Query forwarding failed"); ("error", JStr m);
                      ("affected_rows", JInt 0)]) 500
  | HttpReply r =>
      if Z.eqb (status r) 200 then
        match resp_json r with
        | inr j => jsonify j 200
        | inl e => jsonify (error_body (exn_str e)) 500
        end
      else jsonify (JDict [("message", JStr "Query execution failed");
                           ("error", JStr (resp_text r)); ("affected_rows", JInt 0)]) (status r)
  end.

Section Forward.
Context {W : Type} `{Oracle W}.

(** C10: an accepted request is forwarded once, body and headers as the
    client sent them, to the first trusted host of
    [trustedhost_info.json], and the reply is relayed. *)
Theorem handle_query_request_forwards kvs hs q (w w1 : W) inst rest ip :
    assoc "query" kvs = Some (JStr q) -> sanitized (String.list_ascii_of_string (py_strip q)) ->
    oracle (OpenJson "trustedhost_info.json") w = (FileLoaded (JList (inst :: rest)), w1) ->
    py_subscript inst "PublicIP" = inr (JStr ip) -> ip <> EmptyString ->
    run (handle_query_request (JDict kvs) hs) w =
      let post := HttpPost (trusted_host_url ip) (JDict kvs) hs in
      let (a, w2) := oracle post w1 in
      mkResult (Normal (gk_relay a)) w2 [OpenJson "trustedhost_info.json"; post].
  Proof.
    intros Hq Hs Hfile Hip Hne. apply anchored_match_stripped in Hs.
    unfold handle_query_request. simpl. unfold get_or. rewrite Hq. simpl.
    rewrite (bool_decide_eq_false_2 (q = EmptyString)); simpl.
    2:{ intros ->. by vm_compute in Hs. }
    rewrite Hs. simpl. rewrite Hfile. cbn -[py_subscript]. rewrite Hip. simpl.
    rewrite (bool_decide_eq_false_2 _ Hne). simpl. unfold trusted_host_url.
    destruct (oracle _ w1) as [[m|[st [v|t]]] w2]; simpl; [done|..]; by destruct (Z.eqb st 200).
  Qed.
End Forward.

End GatekeeperProofs.

Module GatekeeperWitness.
Import Gatekeeper GatekeeperProofs Tables.

Definition trusted_entry : json :=
  JDict [("Name", JStr "trusted_host"); ("InstanceID", JStr "i-T"); ("PublicIP", JStr "T")].

Definition files (p : string) : file_result :=
  if bool_decide (p = "trustedhost_info.json") then FileLoaded (JList [trusted_entry]) else FileMissing.

Definition net (_ : string) (_ : json) : http_result :=
  HttpReply (jsonify (JDict [("data", JList [])]) 200).

Definition world : Oracle unit := table_oracle (mkTables files net (fun _ => PingTimeout) (fun _ => 0%nat)).
#[local] Existing Instance world.

Definition headers : list (string * string) :=
  [("username", "admin_elaa"); ("password", "admin_elaa_password123")].

Definition body (q : string) : list (string * json) := [("query", JStr q); ("mode", JStr "DIRECT")].

Definition stacked : string := "SELECT * FROM actor; DROP TABLE actor".

Definition select : string := "  SELECT first_name FROM actor WHERE actor_id = 1;
".

Example stacked_statement_rejected :
  res_trace (run (handle_query_request (JDict (body stacked)) headers) tt) = [] /\
  res_out (run (handle_query_request (JDict (body stacked)) headers) tt) =
    Normal (jsonify rejection_body 400).
Proof. vm_compute. split; reflexivity. Qed.

(** The check reads the stripped statement; the statement forwarded keeps
    its blanks and final newline. *)
Example select_forwarded_raw :
  res_trace (run (handle_query_request (JDict (body select)) headers) tt) =
    [OpenJson "trustedhost_info.json"; HttpPost "http://T:80/process" (JDict (body select)) headers].
Proof. vm_compute. reflexivity. Qed.

(** A 200 reply that is not JSON is answered 500 with the decoder's
    message, not with the forwarding-failure envelope. *)
Example non_json_reply :
  gk_relay (HttpReply (mkResponse 200 (BText "<html></html>"))) =
    jsonify (error_body "Expecting value: line 1 column 1 (char 0)") 500.
Proof. reflexivity. Qed.

Lemma handle_query_request_sanitization_witness :
  assoc "query" (body stacked) = Some (JStr stacked) /\
  (handle_query_request (JDict (body stacked)) headers = Ret (jsonify rejection_body 400) <->
   ~ sanitized (String.list_ascii_of_string (py_strip stacked))).
Proof.
  split; [reflexivity|]. apply handle_query_request_sanitization. reflexivity.
Defined.

Lemma select_sanitized : sanitized (String.list_ascii_of_string (py_strip select)).
Proof.
  apply sanitization_lang, re_matches_spec. vm_compute. reflexivity.
Qed.

Lemma handle_query_request_forwards_witness :
  run (handle_query_request (JDict (body select)) headers) tt =
    let post := HttpPost (trusted_host_url "T") (JDict (body select)) headers in
    let (a, w2) := oracle post tt in
    mkResult (Normal (gk_relay a)) w2 [OpenJson "trustedhost_info.json"; post].
Proof.
  apply (handle_query_request_forwards _ _ select tt tt trusted_entry [] "T");
    [reflexivity|exact select_sanitized|reflexivity|reflexivity|discriminate].
Defined.

End GatekeeperWitness.
