(* ===== verification/Benchmark.v ===== *)
(** * The load-test client: [src/benchmark/benchmark.py]

    [generate_sakila_queries] builds one hundred INSERT, UPDATE and SELECT
    statements; [send_requests_to_api] reads the gatekeeper's address from
    [gatekeeper_info.json], posts every statement [repetitions] times to
    its [/process] endpoint with the credentials in the headers, times
    each request with [time.time()], prints the replies, and appends the
    mean, minimum, maximum and standard deviation of the times to
    [query_statistics.txt].  It is a [Script] over [bench_call]; the world
    answers each call with a [bench_reply], of which a call reads the part
    its Python counterpart returns.

    Times are exact rationals, as in [PyFloat]: [time.time()] and the
    arithmetic on its values are not rounded to doubles.  [:.4f] rounds
    half to even at four decimals; the square root of the standard
    deviation is rounded to the nearest multiple of 0.0001 with ties up,
    which differs from Python only on the ties of a double rounding. *)

From Stdlib Require Import Ascii QArith Qround.
From S2P Require Import Prelude PyStr Json Script Regex Gatekeeper TrustedHost.

Module Benchmark.
Local Open Scope script_scope.

Definition USERNAME : string := "admin_elaa".
Definition PASSWORD : string := "admin_elaa_password123".

Definition nl : string := String "010" EmptyString.

(** ** [generate_sakila_queries] *)

Definition insert_query (i : nat) : string :=
  let s := py_str_int (Z.of_nat i) in
  "INSERT INTO customer (store_id, first_name, last_name, email, address_id, create_date, last_update) VALUES (1, 'Customer" +:+
  s +:+ "', 'Lastname" +:+ s +:+ "', 'customer" +:+ s +:+ "@example.com', " +:+
  py_str_int (Z.of_nat (i mod 10 + 1)) +:+ ", NOW(), NOW());".

Definition update_query (i : nat) : string :=
  let s := py_str_int (Z.of_nat i) in
  "UPDATE customer SET last_name = 'UpdatedLastname" +:+ s +:+ "' WHERE first_name = 'Customer" +:+
  s +:+ "';".

Definition select_query (i : nat) : string :=
  "SELECT * FROM customer WHERE customer_id = " +:+ py_str_int (Z.of_nat (i + 1)) +:+ ";".

(** The dict [queries], with its three keys. *)
Record sakila_queries : Type := mkQueries {
  INSERT : list string;
  UPDATE : list string;
  SELECT : list string
}.

Definition generate_sakila_queries : sakila_queries :=
  mkQueries (map insert_query (seq 0 100)) (map update_query (seq 0 100))
    (map select_query (seq 0 100)).

(** ** The calls of [send_requests_to_api] *)

Inductive bench_call : Type :=
| LoadJson (path : string)
| Say (text : string)
| Now
| Post (url : string) (payload : json) (headers : list (string * string))
| AppendText (path text : string).

(** What the world answers: the value [json.load] returns, the clock
    [time.time()] reads, and a response's status and [response.json()],
    which may raise. *)
Record bench_reply : Type := mkBenchReply {
  value : json;
  clock : Q;
  status_code : Z;
  body : exn + json
}.

Abbreviation B := (M bench_call bench_reply).

Definition print (s : string) : B unit := call (Say s) ;;; ret tt.

(** ** The statistics *)

Section Statistics.
Local Open Scope Q_scope.

Definition q_sum (l : list Q) : Q := fold_right Qplus 0%Q l.

(** [statistics.mean], [min] and [max]; the callers check that [l] is
    not empty. *)
Definition q_mean (l : list Q) : Q := q_sum l / inject_Z (Z.of_nat (length l)).

Definition q_min (x : Q) (l : list Q) : Q := fold_left (fun m y => if Qlt_le_dec y m then y else m) l x.
Definition q_max (x : Q) (l : list Q) : Q := fold_left (fun m y => if Qlt_le_dec m y then y else m) l x.

(** [statistics.variance]: the sample variance. *)
Definition q_variance (l : list Q) : Q :=
  let m := q_mean l in
  q_sum (map (fun x => (x - m) * (x - m)) l) / inject_Z (Z.of_nat (length l) - 1)%Z.

(** Half to even. *)
Definition round_half_even (q : Q) : Z :=
  let f := Qfloor q in
  let r := q - inject_Z f in
  match Qcompare r (1 # 2) with
  | Lt => f
  | Gt => (f + 1)%Z
  | Eq => if Z.even f then f else (f + 1)%Z
  end.

End Statistics.

(** [f"{n:04d}"] for [0 <= n < 10000]. *)
Definition pad4 (n : Z) : string :=
  let s := py_str_int n in
  if (n <? 10)%Z then "000" +:+ s
  else if (n <? 100)%Z then "00" +:+ s
  else if (n <? 1000)%Z then "0" +:+ s
  else s.

(** The text of a number given as [n] ten-thousandths, negative when
    [neg]. *)
Definition fixed4 (neg : bool) (n : Z) : string :=
  (if neg then "-" else "") +:+ py_str_int (Z.abs n / 10000) +:+ "." +:+ pad4 (Z.abs n mod 10000).

(** [f"{x:.4f}"]. *)
Definition format_4f (x : Q) : string :=
  fixed4 (negb (Qle_bool 0 x)) (round_half_even (x * 10000)%Q).

(** [f"{stdev(l):.4f}"]: the nearest [k] to [sqrt(v) * 10^4] is
    [(isqrt(4 v 10^8) + 1) / 2]. *)
Definition format_sqrt_4f (v : Q) : string :=
  let t := (v * inject_Z (10 ^ 8))%Q in
  fixed4 false ((Z.sqrt (4 * Qnum t / Zpos (Qden t)) + 1) / 2).

Definition statistics_text (mode : string) (total : Z) (times : list Q) (t0 : Q) (rest : list Q)
    : string :=
  let avg_time := q_mean times in
  let min_time := q_min t0 rest in
  let max_time := q_max t0 rest in
  let std_dev := if (1 <? length times)%nat then format_sqrt_4f (q_variance times) else format_4f 0%Q in
  "Statistics for " +:+ mode +:+ " mode:" +:+ nl +:+
  "  Total queries executed: " +:+ py_str_int total +:+ nl +:+
  "  Average response time: " +:+ format_4f avg_time +:+ " seconds" +:+ nl +:+
  "  Minimum response time: " +:+ format_4f min_time +:+ " seconds" +:+ nl +:+
  "  Maximum response time: " +:+ format_4f max_time +:+ " seconds" +:+ nl +:+
  "  Standard deviation: " +:+ std_dev +:+ " seconds" +:+ nl +:+
  repeat_str "=" 50 +:+ nl.

(** ** [send_requests_to_api] *)

(** [[instance['PublicIP'] for instance in instance_details]]. *)
Definition public_ips_of (instance_details : json) : exn + list json :=
  match py_iter instance_details with
  | inl e => inl e
  | inr insts =>
      fold_right (fun inst acc =>
        match py_subscript inst "PublicIP", acc with
        | inl e, _ => inl e
        | inr ip, inl e => inl e
        | inr ip, inr ips => inr (ip :: ips)
        end) (inr []) insts
  end.

Definition headers : list (string * string) := [("username", USERNAME); ("password", PASSWORD)].

Definition payload (query mode : string) : json := JDict [("query", JStr query); ("mode", JStr mode)].

Definition base_url (ip : json) : string := "http://" +:+ py_str ip +:+ ":80/process".

(** The [except requests.RequestException as e] clause. *)
Definition request_failed (mode : string) (e : exn) : B unit :=
  match e with
  | RequestException m | JSONDecodeError m => print ("Request failed (" +:+ mode +:+ "): " +:+ m)
  | _ => raise e
  end.

(** One pass of the inner loop: the time is appended as soon as the
    response is in, before [response.json()], which may raise. *)
Definition send_one (url mode query : string) (response_times : list Q) : B (list Q) :=
  print ("Executing Query: " +:+ query) ;;;
  r <- catch (start_time <- call Now ;;
              response <- call (Post url (payload query mode) headers) ;;
              end_time <- call Now ;;
              ret (response, (clock end_time - clock start_time)%Q)) ;;
  match r with
  | inl e => request_failed mode e ;;; ret response_times
  | inr (response, dt) =>
      let response_times := response_times ++ [dt] in
      r2 <- catch (if negb (status_code response =? 200)%Z
                   then j <- lift (body response) ;;
                        print ("Error (" +:+ mode +:+ "): " +:+ py_str_int (status_code response) +:+
                               ", " +:+ py_str j)
                   else j <- lift (body response) ;; print ("Response: " +:+ py_str j)) ;;
      match r2 with
      | inl e => request_failed mode e ;;; ret response_times
      | inr _ => ret response_times
      end
  end.

Fixpoint query_loop (url mode : string) (queries : list string) (response_times : list Q)
    : B (list Q) :=
  match queries with
  | [] => ret response_times
  | query :: queries' =>
      response_times <- send_one url mode query response_times ;;
      query_loop url mode queries' response_times
  end.

(** [for _ in range(repetitions)]. *)
Fixpoint repeat_loop (n : nat) (url mode : string) (queries : list string) (response_times : list Q)
    : B (list Q) :=
  match n with
  | O => ret response_times
  | S n' =>
      response_times <- query_loop url mode queries response_times ;;
      repeat_loop n' url mode queries response_times
  end.

Definition statistics_file : string := "query_statistics.txt".

(** [send_requests_to_api(queries, mode, repetitions)]; [mean] of no
    times raises first. *)
Definition send_requests_to_api (queries : list string) (mode : string) (repetitions : Z) : B unit :=
  instance_details <- call (LoadJson "gatekeeper_info.json") ;;
  public_ips <- lift (public_ips_of (value instance_details)) ;;
  ip <- lift (match public_ips with ip :: _ => inr ip | [] => inl (IndexError "list index out of range") end) ;;
  let url := base_url ip in
  response_times <- repeat_loop (Z.to_nat repetitions) url mode queries [] ;;
  match response_times with
  | [] => raise (StatisticsError "mean requires at least one data point")
  | t0 :: rest =>
      let statistics := statistics_text mode (Z.of_nat (length queries) * repetitions) response_times t0 rest in
      print statistics ;;;
      call (AppendText statistics_file statistics) ;;;
      ret tt
  end.

(** The [__main__] block. *)
Definition main : B unit :=
  let repetitions := 10%Z in
  let queries := generate_sakila_queries in
  print "Running queries in DIRECT mode..." ;;;
  send_requests_to_api (INSERT queries ++ UPDATE queries) "DIRECT" repetitions ;;;
  print "Running queries in RANDOM mode..." ;;;
  send_requests_to_api (SELECT queries) "RANDOM" repetitions ;;;
  print "Running queries in CUSTOMIZED mode..." ;;;
  send_requests_to_api (SELECT queries) "CUSTOMIZED" repetitions.

End Benchmark.

Module BenchmarkProofs.
Import Benchmark.
Local Open Scope script_scope.

(** The requests the client sends: URL, JSON body and headers. *)
Definition sent_request (c : bench_call) : option (string * json * list (string * string)) :=
  match c with Post url p hs => Some (url, p, hs) | _ => None end.

(** [response.json()] returns, or raises [JSONDecodeError], as
    [requests] does. *)
Definition json_body (r : bench_reply) : Prop :=
  (exists j, body r = inr j) \/ (exists m, body r = inl (JSONDecodeError m)).

(** The gatekeeper answers every request. *)
Definition responds (o : oracle bench_call bench_reply) : Prop :=
  forall h url p hs, exists r, o h (Post url p hs) = inr r /\ json_body r.

Section Loops.
Context (W : oracle bench_call bench_reply -> Prop).
Hypothesis W_responds : forall o, W o -> responds o.

Lemma print_post (s : string) :
  emits_post (W:=W) sent_request [] (fun _ => True) (print s).
Proof. apply emits_post_of. unfold print. emits_auto. Qed.

Lemma send_one_posts url mode query ts :
  emits_post (W:=W) sent_request [(url, payload query mode, headers)]
    (fun ts' => length ts' = S (length ts)) (send_one url mode query ts).
Proof.
  unfold send_one.
  eapply emits_post_bind; [apply print_post | intros _ _ | done].
  eapply (emits_post_catch_bind _ _ [(url, payload query mode, headers)] [] (fun rd => json_body rd.1));
    [| intros [resp dt] Hj | done].
  - eapply emits_post_bind; [apply emits_post_of; by apply emits_call_eq | intros st _ |]; [|done].
    eapply (emits_post_call_known json_body); [| intros v Hv | done].
    + intros o h Ho. destruct (W_responds o Ho h url (payload query mode) headers) as (r & ? & ?).
      by exists r.
    + eapply emits_post_bind; [apply emits_post_of; by apply emits_call_eq | intros en _ |]; [|done].
      by apply emits_post_ret.
  - cbn [fst] in Hj. destruct Hj as [[j Hj]|[m Hm]].
    + eapply (emits_post_catch_bind _ _ [] [] (fun _ => True)); [| intros _ _ | done].
      * rewrite Hj. destruct (negb _); apply emits_post_of; unfold print; emits_auto.
      * apply emits_post_ret. rewrite length_app. simpl. lia.
    + eapply emits_post_ext.
      { intros o h. apply catch_raised. destruct (negb _); unfold bind, lift; by rewrite Hm. }
      eapply emits_post_bind; [apply print_post | intros _ _ | done].
      apply emits_post_ret. rewrite length_app. simpl. lia.
Qed.

Lemma query_loop_posts url mode qs ts :
  emits_post (W:=W) sent_request (map (fun q => (url, payload q mode, headers)) qs)
    (fun ts' => length ts' = length ts + length qs)%nat (query_loop url mode qs ts).
Proof.
  revert ts. induction qs as [|q qs IH]; intros ts; simpl.
  - apply emits_post_ret. lia.
  - eapply emits_post_bind; [apply send_one_posts | intros ts' Hts | done].
    eapply emits_post_mono; [apply IH|]. intros a Ha. cbv beta in *. simpl. lia.
Qed.

Lemma repeat_loop_posts n url mode qs ts :
  emits_post (W:=W) sent_request (concat (repeat (map (fun q => (url, payload q mode, headers)) qs) n))
    (fun ts' => length ts' = length ts + n * length qs)%nat (repeat_loop n url mode qs ts).
Proof.
  revert ts. induction n as [|n IH]; intros ts; simpl.
  - apply emits_post_ret. lia.
  - eapply emits_post_bind; [apply query_loop_posts | intros ts' Hts | done].
    eapply emits_post_mono; [apply IH|]. intros a Ha. cbv beta in *. simpl. lia.
Qed.

End Loops.

(** [gatekeeper_info.json] lists instances whose addresses are [ips]. *)
Definition gatekeeper_file (ips : list json) (o : oracle bench_call bench_reply) : Prop :=
  forall h, exists r, o h (LoadJson "gatekeeper_info.json") = inr r /\ public_ips_of (value r) = inr ips.

(** The requests of one call of [send_requests_to_api]. *)
Definition requests_of (ip : json) (queries : list string) (mode : string) (n : nat)
    : list (string * json * list (string * string)) :=
  concat (repeat (map (fun q => (base_url ip, payload q mode, headers)) queries) n).

Lemma send_requests_to_api_emits queries mode repetitions ip ips :
  queries <> [] -> (0 < repetitions)%Z ->
  emits_in (fun o => gatekeeper_file (ip :: ips) o /\ responds o) sent_request
    (requests_of ip queries mode (Z.to_nat repetitions))
    (send_requests_to_api queries mode repetitions).
Proof.
  intros Hq Hr. apply emits_of_post with (P := fun _ => True). unfold send_requests_to_api.
  eapply (emits_post_call_known (fun r => public_ips_of (value r) = inr (ip :: ips)));
    [by intros o h [Hf _]; apply Hf | intros v Hv | done].
  rewrite Hv. unfold lift at 1. eapply emits_post_ext; [intros o h; apply bind_ret_l|].
  eapply emits_post_ext; [intros o h; apply bind_ret_l|].
  rewrite <- (app_nil_r (requests_of _ _ _ _)).
  eapply emits_post_bind; [apply repeat_loop_posts; by intros o [_ ?] | intros ts Hts | done].
  destruct ts as [|t0 rest].
  - exfalso. cbv beta in Hts. destruct queries; [done|]. simpl in Hts. lia.
  - apply emits_post_of. unfold print. emits_auto.
Qed.

(** C33: when [gatekeeper_info.json] lists the gatekeeper at [ip] first
    and the gatekeeper answers, [send_requests_to_api] returns, having
    posted every query [repetitions] times, in order, to
    [http://ip:80/process] with the body [{query, mode}] and the
    credentials in the headers, whatever the replies. *)
Theorem send_requests_to_api_posts queries mode repetitions ip ips :
  queries <> [] -> (0 < repetitions)%Z ->
  emits_in (fun o => gatekeeper_file (ip :: ips) o /\ responds o) sent_request
    (requests_of ip queries mode (Z.to_nat repetitions))
    (send_requests_to_api queries mode repetitions).
Proof. apply send_requests_to_api_emits. Qed.

(** ** When the gatekeeper cannot be reached *)

Definition no_append (c : bench_call) : Prop := match c with AppendText _ _ => False | _ => True end.

(** The lines the client prints. *)
Definition said (c : bench_call) : option string := match c with Say s => Some s | _ => None end.

(** What one refused request prints, [m] being the text of the
    exception. *)
Definition failure_report (mode q m : string) : list string :=
  ["Executing Query: " +:+ q; "Request failed (" +:+ mode +:+ "): " +:+ m].

Definition failure_reports (mode : string) (qs ms : list string) : list string :=
  concat (zip_with (failure_report mode) qs ms).

Lemma failure_reports_app mode qs1 qs2 ms1 ms2 :
  length qs1 = length ms1 ->
  failure_reports mode (qs1 ++ qs2) (ms1 ++ ms2) =
    failure_reports mode qs1 ms1 ++ failure_reports mode qs2 ms2.
Proof. intros Hl. unfold failure_reports. by rewrite zip_with_app, concat_app. Qed.

Section Unreachable.
Context (o : oracle bench_call bench_reply).
Hypothesis o_says : forall h s, exists r, o h (Say s) = inr r.
Hypothesis o_clock : forall h, exists r, o h Now = inr r.
Hypothesis o_refuses : forall h url p hs, exists m, o h (Post url p hs) = inl (RequestException m).

Ltac answer :=
  repeat (simpl; match goal with
  | |- context [o ?hh Now] => let r := fresh "r" in destruct (o_clock hh) as [r ->]
  | |- context [o ?hh (Say ?s)] => let r := fresh "r" in destruct (o_says hh s) as [r ->]
  | |- context [o ?hh (Post ?u ?p ?hs)] =>
      let m := fresh "m" in destruct (o_refuses hh u p hs) as [m ->]
  end).

Lemma send_one_refused url mode query ts h :
  exists l m, send_one url mode query ts o h = (l, inr ts) /\ Forall no_append l /\
              omap said l = failure_report mode query m.
Proof.
  unfold send_one, request_failed, print, bind, catch, call, ret. answer.
  eexists _, _. split; [reflexivity|]. split; [repeat constructor|reflexivity].
Qed.

Lemma query_loop_refused url mode qs ts h :
  exists l ms, query_loop url mode qs ts o h = (l, inr ts) /\ Forall no_append l /\
               length ms = length qs /\ omap said l = failure_reports mode qs ms.
Proof.
  revert h. induction qs as [|q qs IH]; intros h; simpl; [by exists [], []|].
  destruct (send_one_refused url mode q ts h) as (l1 & m & H1 & F1 & S1).
  destruct (IH (h ++ l1)) as (l2 & ms & H2 & F2 & L2 & S2). exists (l1 ++ l2), (m :: ms).
  rewrite (bind_ok _ _ _ _ _ _ H1), H2. split_and!; [done|by apply Forall_app|simpl; lia|].
  by rewrite omap_app, S1, S2.
Qed.

Lemma repeat_loop_refused n url mode qs ts h :
  exists l ms, repeat_loop n url mode qs ts o h = (l, inr ts) /\ Forall no_append l /\
               length ms = (n * length qs)%nat /\
               omap said l = failure_reports mode (concat (repeat qs n)) ms.
Proof.
  revert h. induction n as [|n IH]; intros h; simpl; [by exists [], []|].
  destruct (query_loop_refused url mode qs ts h) as (l1 & ms1 & H1 & F1 & L1 & S1).
  destruct (IH (h ++ l1)) as (l2 & ms2 & H2 & F2 & L2 & S2). exists (l1 ++ l2), (ms1 ++ ms2).
  rewrite (bind_ok _ _ _ _ _ _ H1), H2. split_and!; [done|by apply Forall_app|rewrite length_app; lia|].
  by rewrite omap_app, S1, S2, failure_reports_app.
Qed.

End Unreachable.

(** C34: when every request fails with a [requests.RequestException]
    (the gatekeeper is down or unreachable), [send_requests_to_api]
    prints, for each of the [repetitions] passes over [queries] and each
    query in order, [Executing Query: q] and then
    [Request failed (mode): m] with the exception's text, prints nothing
    else, and then dies with [StatisticsError] in [mean(response_times)],
    without writing the statistics file. *)
Theorem send_requests_to_api_unreachable queries mode repetitions ip ips o h :
  gatekeeper_file (ip :: ips) o ->
  (forall h s, exists r, o h (Say s) = inr r) ->
  (forall h, exists r, o h Now = inr r) ->
  (forall h url p hs, exists m, o h (Post url p hs) = inl (RequestException m)) ->
  exists l ms, send_requests_to_api queries mode repetitions o h =
                 (l, inl (StatisticsError "mean requires at least one data point")) /\
               Forall no_append l /\
               length ms = (Z.to_nat repetitions * length queries)%nat /\
               omap said l = failure_reports mode (concat (repeat queries (Z.to_nat repetitions))) ms.
Proof.
  intros Hf Hs Hc Hp. unfold send_requests_to_api.
  destruct (Hf h) as (r & Hr & Hips).
  assert (Hl : call (LoadJson "gatekeeper_info.json") o h = ([LoadJson "gatekeeper_info.json"], inr r))
    by (unfold call; by rewrite Hr).
  rewrite (bind_ok _ _ _ _ _ _ Hl). cbn [fst snd]. rewrite Hips.
  rewrite !bind_lift_inr.
  destruct (repeat_loop_refused o Hs Hc Hp (Z.to_nat repetitions) (base_url ip) mode queries []
              (h ++ [LoadJson "gatekeeper_info.json"])) as (l & ms & Hrun & Hna & Hlen & Hsaid).
  rewrite (bind_ok _ _ _ _ _ _ Hrun). cbn. eexists _, ms. split; [reflexivity|].
  rewrite app_nil_r. split_and!; [by constructor|done|done].
Qed.

(** ** The statistics printed *)

Section Bounds.
Local Open Scope Q_scope.

Lemma q_min_le x l : q_min x l <= x /\ Forall (fun y => q_min x l <= y) l.
Proof.
  unfold q_min. revert x. induction l as [|y l IH]; intros x; simpl; [split; [apply Qle_refl|done]|].
  destruct (Qlt_le_dec y x) as [Hyx|Hxy].
  - destruct (IH y) as [H1 H2]. split; [|by constructor].
    apply Qlt_le_weak. eapply Qle_lt_trans; eauto.
  - destruct (IH x) as [H1 H2]. split; [done|]. constructor; [|done]. eapply Qle_trans; eauto.
Qed.

Lemma q_max_ge x l : x <= q_max x l /\ Forall (fun y => y <= q_max x l) l.
Proof.
  unfold q_max. revert x. induction l as [|y l IH]; intros x; simpl; [split; [apply Qle_refl|done]|].
  destruct (Qlt_le_dec x y) as [Hxy|Hyx].
  - destruct (IH y) as [H1 H2]. split; [|by constructor].
    apply Qlt_le_weak. eapply Qlt_le_trans; eauto.
  - destruct (IH x) as [H1 H2]. split; [done|]. constructor; [|done]. eapply Qle_trans; eauto.
Qed.

Lemma q_sum_lower m l : Forall (fun y => m <= y) l -> inject_Z (Z.of_nat (length l)) * m <= q_sum l.
Proof.
  induction 1 as [|y l Hy Hl IH]; simpl; [rewrite Qmult_0_l; apply Qle_refl|].
  rewrite Nat2Z.inj_succ, <- Z.add_1_l, inject_Z_plus, Qmult_plus_distr_l, Qmult_1_l.
  by apply Qplus_le_compat.
Qed.

Lemma q_sum_upper m l : Forall (fun y => y <= m) l -> q_sum l <= inject_Z (Z.of_nat (length l)) * m.
Proof.
  induction 1 as [|y l Hy Hl IH]; simpl; [rewrite Qmult_0_l; apply Qle_refl|].
  rewrite Nat2Z.inj_succ, <- Z.add_1_l, inject_Z_plus, Qmult_plus_distr_l, Qmult_1_l.
  by apply Qplus_le_compat.
Qed.

Lemma length_pos_Q (l : list Q) : l <> [] -> 0 < inject_Z (Z.of_nat (length l)).
Proof.
  intros Hl. destruct l as [|x l]; [done|]. unfold Qlt. simpl. lia.
Qed.

Lemma q_min_in x l : q_min x l ∈ x :: l.
Proof.
  unfold q_min. revert x. induction l as [|y l IH]; intros x; simpl; [set_solver|].
  destruct (Qlt_le_dec y x); [specialize (IH y)|specialize (IH x)]; set_solver.
Qed.

Lemma q_max_in x l : q_max x l ∈ x :: l.
Proof.
  unfold q_max. revert x. induction l as [|y l IH]; intros x; simpl; [set_solver|].
  destruct (Qlt_le_dec x y); [specialize (IH y)|specialize (IH x)]; set_solver.
Qed.

End Bounds.

(** The minimum is at most the mean, which is at most the maximum, and
    the minimum and the maximum are times of the list. *)
Lemma statistics_bounds t0 rest :
  (q_min t0 rest <= q_mean (t0 :: rest) <= q_max t0 rest)%Q /\
  q_min t0 rest ∈ t0 :: rest /\ q_max t0 rest ∈ t0 :: rest.
Proof.
  destruct (q_min_le t0 rest) as [Hm0 Hm]. destruct (q_max_ge t0 rest) as [HM0 HM].
  pose proof (length_pos_Q (t0 :: rest) ltac:(done)) as Hn.
  split_and!; [| |apply q_min_in|apply q_max_in]; unfold q_mean.
  - apply Qle_shift_div_l; [done|]. rewrite Qmult_comm. apply q_sum_lower. by constructor.
  - apply Qle_shift_div_r; [done|]. rewrite Qmult_comm. apply q_sum_upper. by constructor.
Qed.

(** C35: the report [send_requests_to_api] prints and appends for the
    times [t0 :: rest] names the mode and the total, then shows on its
    average line the mean of the times, on its minimum line a time that
    is at most every time and on its maximum line a time that is at
    least every time, each to four decimals, the minimum at most the
    mean and the mean at most the maximum. *)
Theorem statistics_report mode total t0 rest :
  exists mn mx sd,
    statistics_text mode total (t0 :: rest) t0 rest =
      "Statistics for " +:+ mode +:+ " mode:" +:+ nl +:+
      "  Total queries executed: " +:+ py_str_int total +:+ nl +:+
      "  Average response time: " +:+ format_4f (q_mean (t0 :: rest)) +:+ " seconds" +:+ nl +:+
      "  Minimum response time: " +:+ format_4f mn +:+ " seconds" +:+ nl +:+
      "  Maximum response time: " +:+ format_4f mx +:+ " seconds" +:+ nl +:+
      "  Standard deviation: " +:+ sd +:+ " seconds" +:+ nl +:+
      repeat_str "=" 50 +:+ nl /\
    mn ∈ t0 :: rest /\ Forall (fun y => mn <= y)%Q (t0 :: rest) /\
    mx ∈ t0 :: rest /\ Forall (fun y => y <= mx)%Q (t0 :: rest) /\
    (mn <= q_mean (t0 :: rest) <= mx)%Q.
Proof.
  destruct (statistics_bounds t0 rest) as ([Hb1 Hb2] & Hmin & Hmax).
  destruct (q_min_le t0 rest) as [Hm0 Hm]. destruct (q_max_ge t0 rest) as [HM0 HM].
  eexists (q_min t0 rest), (q_max t0 rest), _.
  split; [with_strategy opaque [format_4f q_min q_max q_mean] reflexivity|].
  split_and!; try done; by constructor.
Qed.

(** ** What the requests of the benchmark meet on the way *)

(** The gatekeeper's check and the trusted host's three checks pass:
    the statement is in the gatekeeper's allow-list language, the body
    has a query and an allowed mode, and the headers carry valid
    credentials. *)
Definition admitted (r : string * json * list (string * string)) : Prop :=
  let '(_, p, hs) := r in
  exists q m, p = JDict [("query", JStr q); ("mode", JStr m)] /\
    Gatekeeper.GatekeeperProofs.sanitized (String.list_ascii_of_string (py_strip q)) /\
    TrustedHost.TrustedHostProofs.valid_request [("query", JStr q); ("mode", JStr m)] /\
    TrustedHost.TrustedHostProofs.valid_credentials hs.

Lemma requests_of_forall (P : string * json * list (string * string) -> Prop) ip qs mode n :
  Forall (fun q => P (base_url ip, payload q mode, headers)) qs -> Forall P (requests_of ip qs mode n).
Proof.
  intros Hq. unfold requests_of. induction n as [|n IH]; simpl; [done|].
  apply Forall_app; split; [|done]. by apply Forall_map.
Qed.

Lemma requests_of_length ip qs mode n : length (requests_of ip qs mode n) = (n * length qs)%nat.
Proof.
  unfold requests_of. induction n as [|n IH]; simpl; [done|]. by rewrite length_app, length_map, IH.
Qed.

Lemma admitted_query ip q mode :
  py_re_match_anchored Gatekeeper.Gatekeeper.SQL_SANITIZATION_REGEX (py_strip q) = true ->
  mode ∈ TrustedHost.TrustedHost.ALLOWED_MODES -> py_upper mode = mode ->
  admitted (base_url ip, payload q mode, headers).
Proof.
  intros Hm Hmode Hup. exists q, mode. split_and!; [done| | |].
  - by apply Gatekeeper.GatekeeperProofs.anchored_match_stripped.
  - exists (JStr q), mode. split_and!; [done|done|by rewrite Hup].
  - exists USERNAME, PASSWORD. split_and!; [reflexivity|reflexivity|]. left.
Qed.

Lemma requests_admitted ip qs mode n :
  Forall (fun q => py_re_match_anchored Gatekeeper.Gatekeeper.SQL_SANITIZATION_REGEX (py_strip q) = true) qs ->
  mode ∈ TrustedHost.TrustedHost.ALLOWED_MODES -> py_upper mode = mode ->
  Forall admitted (requests_of ip qs mode n).
Proof.
  intros Hqs Hm Hu. apply requests_of_forall. eapply Forall_impl; [exact Hqs|].
  intros q Hq. by apply admitted_query.
Qed.

(** Every statement [generate_sakila_queries] builds passes the
    gatekeeper's check. *)
Lemma generated_queries_sanitized :
  let qs := generate_sakila_queries in
  Forall (fun q => py_re_match_anchored Gatekeeper.Gatekeeper.SQL_SANITIZATION_REGEX (py_strip q) = true)
    (INSERT qs ++ UPDATE qs ++ SELECT qs).
Proof.
  apply Forall_forall. intros q Hq%list_elem_of_In. revert q Hq. apply forallb_forall.
  vm_compute. reflexivity.
Qed.

(** The requests [main] sends: DIRECT for the writes, then RANDOM and
    CUSTOMIZED for the reads, ten rounds each. *)
Definition main_requests (ip : json) : list (string * json * list (string * string)) :=
  let qs := generate_sakila_queries in
  requests_of ip (INSERT qs ++ UPDATE qs) "DIRECT" 10 ++
  requests_of ip (SELECT qs) "RANDOM" 10 ++ requests_of ip (SELECT qs) "CUSTOMIZED" 10.

Lemma main_emits ip ips :
  emits_in (fun o => gatekeeper_file (ip :: ips) o /\ responds o) sent_request (main_requests ip) main.
Proof.
  set (qs := generate_sakila_queries).
  assert (Hw : INSERT qs ++ UPDATE qs <> []) by (subst qs; vm_compute; discriminate).
  assert (Hr : SELECT qs <> []) by (subst qs; vm_compute; discriminate).
  unfold main, main_requests. fold qs.
  set (R1 := requests_of ip (INSERT qs ++ UPDATE qs) "DIRECT" 10).
  set (R2 := requests_of ip (SELECT qs) "RANDOM" 10).
  set (R3 := requests_of ip (SELECT qs) "CUSTOMIZED" 10).
  eapply (emits_bind _ _ [] (R1 ++ R2 ++ R3)); [unfold print; emits_auto; reflexivity | intros _ | done].
  eapply (emits_bind _ _ R1 (R2 ++ R3)); [by apply send_requests_to_api_emits | intros _ | done].
  eapply (emits_bind _ _ [] (R2 ++ R3)); [unfold print; emits_auto; reflexivity | intros _ | done].
  eapply (emits_bind _ _ R2 R3); [by apply send_requests_to_api_emits | intros _ | done].
  eapply (emits_bind _ _ [] R3); [unfold print; emits_auto; reflexivity | intros _ | done].
  by apply send_requests_to_api_emits.
Qed.

(** C36: the benchmark's [main] returns, when the gatekeeper answers,
    after sending 4000 requests to it, and every one of them passes the
    gatekeeper's sanitization and the trusted host's checks of the body,
    the mode and the credentials: the load test measures the whole path
    to the database, never a rejection. *)
Theorem main_requests_admitted ip ips :
  emits_in (fun o => gatekeeper_file (ip :: ips) o /\ responds o) sent_request (main_requests ip) main /\
  length (main_requests ip) = 4000%nat /\ Forall admitted (main_requests ip).
Proof.
  pose proof generated_queries_sanitized as Hs. cbv zeta in Hs.
  apply Forall_app in Hs as [Hi Hs]. apply Forall_app in Hs as [Hu Hsel].
  split_and!.
  - apply main_emits.
  - unfold main_requests. rewrite !length_app, !requests_of_length. cbn [generate_sakila_queries INSERT UPDATE SELECT].
    by rewrite length_app, !length_map, !length_seq.
  - unfold main_requests. cbv zeta.
    apply Forall_app; split; [|apply Forall_app; split];
      (apply requests_admitted; [|apply list_elem_of_In; simpl; tauto|reflexivity]).
    + apply Forall_app. split; [exact Hi|exact Hu].
    + exact Hsel.
    + exact Hsel.
Qed.


End BenchmarkProofs.

Module BenchmarkWitness.
Import Benchmark BenchmarkProofs.

Definition gk_ip : json := JStr "54.1.2.3".

Definition reply0 : bench_reply := mkBenchReply (JList [JDict [("PublicIP", gk_ip)]]) 0 200 (inr (JDict [])).

Lemma send_requests_to_api_posts_witness :
  ["SELECT 1;"] <> [] /\ (0 < 2)%Z /\
  emits_in (fun o => gatekeeper_file [gk_ip] o /\ responds o) sent_request
    (requests_of gk_ip ["SELECT 1;"] "RANDOM" 2) (send_requests_to_api ["SELECT 1;"] "RANDOM" 2).
Proof.
  split_and!; [discriminate | lia |].
  apply (send_requests_to_api_posts ["SELECT 1;"] "RANDOM" 2 gk_ip []); [discriminate | lia].
Defined.

(** A gatekeeper that refuses every connection. *)
Definition down : oracle bench_call bench_reply := fun _ c =>
  match c with
  | Post _ _ _ => inl (RequestException "Connection refused")
  | _ => inr reply0
  end.

Lemma send_requests_to_api_unreachable_witness :
  exists l ms, send_requests_to_api ["SELECT 1;"] "RANDOM" 2 down [] =
                 (l, inl (StatisticsError "mean requires at least one data point")) /\
               Forall no_append l /\ length ms = 2%nat /\
               omap said l = failure_reports "RANDOM" ["SELECT 1;"; "SELECT 1;"] ms.
Proof.
  apply (send_requests_to_api_unreachable ["SELECT 1;"] "RANDOM" 2 gk_ip [] down []).
  - intros h. exists reply0. split; reflexivity.
  - intros h s. by exists reply0.
  - intros h. by exists reply0.
  - intros h url p hs. by exists "Connection refused".
Defined.

(** Against a refusing gatekeeper the client prints the query and the
    refusal twice. *)
Example unreachable_reports :
  omap said (send_requests_to_api ["SELECT 1;"] "RANDOM" 2 down []).1 =
    failure_reports "RANDOM" ["SELECT 1;"; "SELECT 1;"] ["Connection refused"; "Connection refused"].
Proof. vm_compute. reflexivity. Qed.

(** Two requests timed at 0.1 s and 0.3 s. *)
Example two_requests_statistics :
  statistics_text "RANDOM" 2 [1 # 10; 3 # 10]%Q (1 # 10) [3 # 10] =
    "Statistics for RANDOM mode:" +:+ nl +:+
    "  Total queries executed: 2" +:+ nl +:+
    "  Average response time: 0.2000 seconds" +:+ nl +:+
    "  Minimum response time: 0.1000 seconds" +:+ nl +:+
    "  Maximum response time: 0.3000 seconds" +:+ nl +:+
    "  Standard deviation: 0.1414 seconds" +:+ nl +:+
    repeat_str "=" 50 +:+ nl.
Proof. vm_compute. reflexivity. Qed.

End BenchmarkWitness.
