(* ===== verification/Cluster.v ===== *)
(** * The services together: one request through the whole cluster

    Each service is a Flask app on port 80 of its own host, and the
    services call one another with [requests.post("http://{ip}:80/{path}")].
    [Cluster] puts the handlers of [Gatekeeper], [TrustedHost],
    [ProxyManager], [Master] and [Slave] in one world: a [topology] says
    which service runs at which address ([t_roles]), which JSON files each
    host has ([t_files]), what [ping] prints and what [random] draws; the
    state that changes is the database of every host ([dbs]).  A post is
    answered by running the handler of the service at the URL's address,
    under Flask's catch-all ([flask_view]), in the same world: the
    request's database changes are those of every service it reached.
    The nesting of requests is bounded by a fuel [n]: a post at fuel
    [S n] runs the callee at fuel [n], and at fuel [0] it fails as a
    connection error.  A request that enters at the gatekeeper nests four
    posts deep (trusted host, proxy manager, database node, replay to the
    replicas), so fuel 5 runs it whole; the safety theorem holds at every
    fuel.

    [primary_untouched] is the composition theorem: in a cluster whose
    membership files name the primary's address only under the master
    tag, a request whose mode is not exactly ["DIRECT"] never changes the
    primary's database, whichever service it enters at.  In particular
    the lower-case ["direct"], which the trusted host admits
    ([mode.upper()] is checked, the original forwarded), is routed by the
    proxy manager as latency-based and never reaches the primary.  The
    frame proof takes what the proxy manager's routing promises
    ([routing_contract]: outside DIRECT, a [/read] route of a non-master
    entry) as a section hypothesis; [primary_untouched] discharges it
    from [ProxyManager.route]. *)

From Stdlib Require Import Ascii.
From S2P Require Import Prelude PyStr PyFloat Json Effects Membership DbNode Slave Master ProxyManager TrustedHost Gatekeeper.

Module Cluster.

(** The service a host runs. *)
Inductive role : Type :=
| GatekeeperRole
| TrustedHostRole
| ProxyManagerRole
| PrimaryRole
| ReplicaRole.

#[global] Instance role_eq_dec : EqDecision role.
Proof. solve_decision. Defined.

(** What does not change while a request runs. *)
Record topology : Type := mkTopology {
  t_roles : list (string * role);
  t_files : list (string * string * json);
  t_ping : string -> ping_result;
  t_rand : nat -> nat
}.

Definition role_of (T : topology) (ip : string) : option role :=
  snd <$> List.find (fun e => bool_decide (e.1 = ip)) (t_roles T).

(** [json.load(open(path))] on the disk of host [ip]. *)
Definition file_at (T : topology) (ip path : string) : file_result :=
  match List.find (fun e => bool_decide (e.1.1 = ip /\ e.1.2 = path)) (t_files T) with
  | Some e => FileLoaded e.2
  | None => FileMissing
  end.

(** The world a handler runs in: the host it runs on, the topology and
    the database of every host ([None]: no MySQL server answers). *)
Record world (D : Type) : Type := mkWorld {
  host : string;
  topo : topology;
  dbs : string -> option D
}.
Arguments mkWorld {D}.
Arguments host {D}.
Arguments topo {D}.
Arguments dbs {D}.

(** The URLs the services build, [f"http://{ip}:80/{path}"]: the address
    is what precedes the first [:], the path what follows [:80/].  Any
    other URL is refused by [requests] before it is sent. *)
Definition parse_url (url : string) : option (string * string) :=
  if is_prefix "http://" url then
    match break_at ":" (string_drop 7 url) with
    | Some (ip, rest) => if is_prefix "80/" rest then Some (ip, string_drop 3 rest) else None
    | None => None
    end
  else None.

Abbreviation handler := (json -> list (string * string) -> prog response) (only parsing).

(** The [POST] routes of each app: [@app.route("/process", methods=["POST"])]
    and the like. *)
Definition gatekeeper_routes (path : string) : option handler :=
  if bool_decide (path = "process") then Some Gatekeeper.handle_query_request else None.

Definition trusted_host_routes (path : string) : option handler :=
  if bool_decide (path = "process") then Some TrustedHost.process_query else None.

Definition proxy_manager_routes (path : string) : option handler :=
  if bool_decide (path = "process") then Some (fun d _ => ProxyManager.process_query d) else None.

Definition master_routes (path : string) : option handler :=
  if bool_decide (path = "read") then Some (fun d _ => Master.read_data d)
  else if bool_decide (path = "write") then Some (fun d _ => Master.write_data d) else None.

Definition slave_routes (path : string) : option handler :=
  if bool_decide (path = "read") then Some (fun d _ => Slave.read_data d)
  else if bool_decide (path = "write") then Some (fun d _ => Slave.write_data d) else None.

(** The app each role's host serves, as [deploy_master], [deploy_slave],
    ... deploy them. *)
Definition endpoint (r : role) : string -> option handler :=
  match r with
  | GatekeeperRole => gatekeeper_routes
  | TrustedHostRole => trusted_host_routes
  | ProxyManagerRole => proxy_manager_routes
  | PrimaryRole => master_routes
  | ReplicaRole => slave_routes
  end.

(** Flask's answer to a path the app has no route for. *)
Definition not_found : response := mkResponse 404 (BText "Not Found").

Definition response_of (o : outcome response) : response :=
  match o with Normal r => r | Raised _ => internal_server_error end.

Section Answer.
Context {D : Type} `{Database D}.

Definition set_db (w : world D) (d : D) : world D :=
  mkWorld (host w) (topo w) (fun ip => if bool_decide (ip = host w) then Some d else dbs w ip).

(** How the cluster answers a command issued on host [host w], with
    fuel [n] for the requests it sends. *)
Fixpoint cluster_answer (n : nat) (c : cmd) (w : world D) {struct n} : answer c * world D :=
  match c return answer c * world D with
  | OpenJson p => (file_at (topo w) (host w) p, w)
  | RunPing ip => (t_ping (topo w) ip, w)
  | RandBelow k => (t_rand (topo w) k, w)
  | DbConnect =>
      (match dbs w (host w) with Some _ => ConnOk | None => ConnFailed mysql_conn_refused end, w)
  | DbIsConnected => (bool_decide (is_Some (dbs w (host w))), w)
  | DbQuery q =>
      match dbs w (host w) with
      | Some d =>
          match db_query d q with
          | DbOk (d', rows) => (DbOk rows, set_db w d')
          | DbFailed m => (DbFailed m, w)
          end
      | None => (DbFailed mysql_conn_refused, w)
      end
  | DbExec q =>
      match dbs w (host w) with
      | Some d =>
          match db_exec d q with
          | DbOk (d', k) => (DbOk k, set_db w d')
          | DbFailed m => (DbFailed m, w)
          end
      | None => (DbFailed mysql_conn_refused, w)
      end
  | HttpPost url p hs =>
      match n with
      | O => (HttpFailed ("Max retries exceeded with url: " +:+ url), w)
      | S n' =>
          match parse_url url with
          | None => (HttpFailed ("Invalid URL " +:+ url), w)
          | Some (ip, path) =>
              match role_of (topo w) ip with
              | None => (HttpFailed ("Connection refused: " +:+ ip), w)
              | Some r =>
                  match endpoint r path with
                  | None => (HttpReply not_found, w)
                  | Some h =>
                      let res := @run _ (cluster_answer n') _ (flask_view (h p hs))
                                   (mkWorld ip (topo w) (dbs w)) in
                      (HttpReply (response_of (res_out res)),
                       mkWorld (host w) (topo w) (dbs (res_state res)))
                  end
              end
          end
      end
  end.

(** A request [p] arriving at [ip], with fuel [n]: the reply and the
    databases after it. *)
Definition request (n : nat) (T : topology) (dbs0 : string -> option D) (ip : string)
    (h : handler) (p : json) (hs : list (string * string)) : response * (string -> option D) :=
  let res := @run _ (cluster_answer n) _ (flask_view (h p hs)) (mkWorld ip T dbs0) in
  (response_of (res_out res), dbs (res_state res)).

End Answer.

End Cluster.

Module ClusterProofs.
Import Cluster.

Section Frame.
Context {D : Type} `{Database D}.

Abbreviation crun n := (@run (world D) (cluster_answer n) _) (only parsing).

Lemma answer_host_topo n c (w : world D) :
  host (cluster_answer n c w).2 = host w /\ topo (cluster_answer n c w).2 = topo w.
Proof.
  destruct n as [|n], c; simpl; try done;
    try (destruct (dbs w (host w)) as [d|]; [|done]);
    try (destruct (db_query d query) as [[??]|]; done);
    try (destruct (db_exec d query) as [[??]|]; done).
  destruct (parse_url url) as [[ip path]|]; [|done].
  destruct (role_of _ ip) as [r|]; [|done]. by destruct (endpoint r path).
Qed.

Lemma run_host_topo n {A} (p : prog A) (w : world D) :
  host (res_state (crun n p w)) = host w /\ topo (res_state (crun n p w)) = topo w.
Proof.
  revert w. induction p as [a|e|c k IH]; intros w; simpl; [done|done|]. unfold oracle.
  destruct (cluster_answer n c w) as [r w1] eqn:E. simpl.
  destruct (IH r w1) as [-> ->]. pose proof (answer_host_topo n c w) as Hw. by rewrite E in Hw.
Qed.

(** [p], run with fuel [n] on host [z] of topology [T], leaves the
    database of host [x] as it was. *)
Definition safe (n : nat) (x : string) (T : topology) (z : string) {A} (p : prog A) : Prop :=
  forall w : world D, host w = z -> topo w = T -> dbs (res_state (crun n p w)) x = dbs w x.

(** Every value [p] returns there satisfies [P]. *)
Definition returns_in (n : nat) (T : topology) (z : string) {A} (P : A -> Prop) (p : prog A) : Prop :=
  forall w : world D, host w = z -> topo w = T -> forall a, res_out (crun n p w) = Normal a -> P a.

Context (n : nat) (x : string) (T : topology) (z : string).

Lemma safe_ret {A} (a : A) : safe n x T z (Ret a).
Proof. done. Qed.

Lemma safe_throw {A} e : safe n x T z (Throw (A:=A) e).
Proof. done. Qed.

Lemma safe_lift {A} (r : exn + A) : safe n x T z (lift r).
Proof. by destruct r. Qed.

Lemma safe_bind_P {A B} (P : A -> Prop) (p : prog A) (f : A -> prog B) :
  returns_in n T z P p -> safe n x T z p -> (forall a, P a -> safe n x T z (f a)) ->
  safe n x T z (bind p f).
Proof.
  intros HP Hp Hf w Hh Ht. rewrite run_bind.
  destruct (crun n p w) as [[a|e] w1 tr] eqn:E; simpl; [|by rewrite <- (Hp w), E].
  destruct (run_host_topo n p w) as [Hh1 Ht1]. rewrite E in Hh1, Ht1. simpl in Hh1, Ht1.
  rewrite (Hf a); [| eapply (HP w); rewrite ?E; done | congruence | congruence].
  by rewrite <- (Hp w), E.
Qed.

Lemma safe_bind {A B} (p : prog A) (f : A -> prog B) :
  safe n x T z p -> (forall a, safe n x T z (f a)) -> safe n x T z (bind p f).
Proof. intros Hp Hf. apply (safe_bind_P (fun _ => True)); auto. by intros ?????. Qed.

Lemma safe_catch {A} (p : prog A) h :
  safe n x T z p -> (forall e q, h e = Some q -> safe n x T z q) -> safe n x T z (catch p h).
Proof.
  intros Hp Hh w Hw Ht. rewrite run_catch.
  destruct (crun n p w) as [[a|e] w1 tr] eqn:E; simpl; [by rewrite <- (Hp w), E|].
  destruct (h e) as [q|] eqn:He; simpl; [|by rewrite <- (Hp w), E].
  destruct (run_host_topo n p w) as [Hh1 Ht1]. rewrite E in Hh1, Ht1. simpl in Hh1, Ht1.
  rewrite (Hh e q He); [|congruence|congruence]. by rewrite <- (Hp w), E.
Qed.

Lemma safe_do {A} c (k : answer c -> prog A) :
  (forall w : world D, host w = z -> topo w = T -> dbs (cluster_answer n c w).2 x = dbs w x) ->
  (forall r, safe n x T z (k r)) -> safe n x T z (Do c k).
Proof.
  intros Hc Hk w Hw Ht. simpl. unfold oracle. destruct (cluster_answer n c w) as [r w1] eqn:E. simpl.
  pose proof (answer_host_topo n c w) as [Hh1 Ht1]. pose proof (Hc w Hw Ht) as Hx.
  rewrite E in Hh1, Ht1, Hx. simpl in *. rewrite (Hk r w1); congruence.
Qed.

(** A command other than a post, issued on a host other than [x]. *)
Lemma answer_local c (w : world D) :
  (forall url p hs, c <> HttpPost url p hs) -> host w <> x ->
  dbs (cluster_answer n c w).2 x = dbs w x.
Proof.
  intros Hc Hx. destruct c; [| by destruct (Hc url payload headers) | ..];
    destruct n; simpl; try done;
    destruct (dbs w (host w)) as [d|]; try done;
    try destruct (db_query d query) as [[??]|]; try destruct (db_exec d query) as [[??]|]; try done;
    simpl; by rewrite bool_decide_eq_false_2.
Qed.

Lemma safe_call_local c :
  z <> x -> (forall url p hs, c <> HttpPost url p hs) -> safe n x T z (call c).
Proof.
  intros Hz Hc. apply safe_do; [|intros; apply safe_ret].
  intros w Hw _. apply answer_local; [done|]. by rewrite Hw.
Qed.

Lemma returns_in_all {A} (P : A -> Prop) (p : prog A) : all_returns P p -> returns_in n T z P p.
Proof. intros Hp w _ _ a Ha. exact (@all_returns_run (world D) (cluster_answer n) A P p w a Hp Ha). Qed.

Lemma returns_in_lift {A} (r : exn + A) : returns_in n T z (fun a => r = inr a) (lift r).
Proof. destruct r as [e|v]; intros w _ _ a; simpl; congruence. Qed.

End Frame.

(** ** The URLs the services post to *)

Lemma parse_url_some url ip path :
  parse_url url = Some (ip, path) -> url = "http://" +:+ ip +:+ ":" +:+ "80/" +:+ path.
Proof.
  unfold parse_url. destruct (is_prefix "http://" url) eqn:Hh; [|done].
  destruct (break_at ":" _) as [[ip' rest]|] eqn:Hb; [|done].
  destruct (is_prefix "80/" rest) eqn:H8; [|done]. intros He. injection He; intros <- <-.
  pose proof (is_prefix_drop _ _ Hh) as Eu. pose proof (is_prefix_drop _ _ H8) as Er.
  change (String.length "http://") with 7 in Eu. change (String.length "80/") with 3 in Er.
  rewrite (break_at_some _ _ _ _ Hb), Er in Eu. exact Eu.
Qed.

Lemma parse_url_of ip path :
  has_char ":"%char ip = false -> parse_url ("http://" +:+ ip +:+ ":80/" +:+ path) = Some (ip, path).
Proof.
  intros Hip. unfold parse_url. rewrite is_prefix_app.
  change (string_drop 7 ("http://" +:+ ip +:+ ":80/" +:+ path)) with
    (string_drop (String.length "http://") ("http://" +:+ ip +:+ ":80/" +:+ path)).
  rewrite string_drop_length_app.
  change (":80/" +:+ path) with (String ":"%char ("80/" +:+ path)).
  rewrite break_at_char_app by done. rewrite is_prefix_app.
  change (string_drop 3 ("80/" +:+ path)) with (string_drop (String.length "80/") ("80/" +:+ path)).
  by rewrite string_drop_length_app.
Qed.

Lemma string_app_head_neq c d a b u v : c <> d -> String c a +:+ u <> String d b +:+ v.
Proof. rewrite !string_app_cons. congruence. Qed.

(** A URL built to reach [/process] is never routed to [/read] or [/write]. *)
Lemma process_url_path s ip path :
  parse_url ("http://" +:+ s +:+ ":80/process") = Some (ip, path) -> path <> "read" /\ path <> "write".
Proof.
  intros Hp%parse_url_some.
  apply (f_equal (string_drop (String.length "http://"))) in Hp.
  rewrite !string_drop_length_app in Hp. apply (f_equal string_rev) in Hp.
  rewrite !string_rev_app_distr in Hp.
  split; intros ->; revert Hp; rewrite ?string_app_assoc; apply string_app_head_neq; discriminate.
Qed.

(** The databases a request can reach, and the requests that keep away
    from [x]: a post goes to an address other than [x], and a request to
    a [/process] route does not carry the mode ["DIRECT"]. *)
Definition mode_not_direct (p : json) : Prop := py_get p "mode" <> inr (JStr "DIRECT").

Definition post_ok (x : string) (T : topology) (url : string) (p : json) : Prop :=
  forall ip path r h, parse_url url = Some (ip, path) -> role_of T ip = Some r ->
    endpoint r path = Some h -> ip <> x /\ (path = "process" -> mode_not_direct p).

Section Posts.
Context {D : Type} `{Database D} (x : string) (T : topology).

Definition endpoints_safe (n : nat) : Prop :=
  forall z r path h p hs, z <> x -> role_of T z = Some r -> endpoint r path = Some h ->
    (path = "process" -> mode_not_direct p) -> safe (D:=D) n x T z (flask_view (h p hs)).

Definition posts_safe (n : nat) : Prop :=
  forall z url p hs, post_ok x T url p -> safe (D:=D) n x T z (call (HttpPost url p hs)).

Lemma posts_safe_0 : posts_safe 0.
Proof. intros z url p hs _. apply safe_do; [done|]. intros. apply safe_ret. Qed.

Lemma posts_safe_S n : endpoints_safe n -> posts_safe (S n).
Proof.
  intros He z url p hs Hok. apply safe_do; [|intros; apply safe_ret].
  intros w Hw Ht. simpl. destruct (parse_url url) as [[ip path]|] eqn:Hp; [|done].
  destruct (role_of (topo w) ip) as [r|] eqn:Hr; [|done].
  destruct (endpoint r path) as [h|] eqn:Hh; [|done]. simpl.
  rewrite Ht in Hr. destruct (Hok ip path r h Hp Hr Hh) as [Hx Hm].
  exact (He ip r path h p hs Hx Hr Hh Hm (mkWorld ip (topo w) (dbs w)) eq_refl Ht).
Qed.

(** A post to the [/process] route of any address keeps away from the
    primary, whose app has no such route. *)
Lemma process_post_ok s p :
  role_of T x = Some PrimaryRole -> mode_not_direct p ->
  post_ok x T ("http://" +:+ s +:+ ":80/process") p.
Proof.
  intros Hx Hm ip path r h Hp Hr Hh. split; [|done].
  intros ->. rewrite Hx in Hr. injection Hr as <-.
  destruct (process_url_path _ _ _ Hp) as [Hread Hwrite]. simpl in Hh. unfold master_routes in Hh.
  by rewrite !bool_decide_eq_false_2 in Hh.
Qed.

End Posts.

(** Decompose a program into the calls it makes. *)
Ltac safe_step :=
  match goal with
  | |- safe _ _ _ _ (bind _ _) => apply safe_bind; [|intros ?]
  | |- safe _ _ _ _ (catch _ _) => apply safe_catch; [|let e := fresh "e" in intros e ? ?; destruct e; simplify_eq/=]
  | |- safe _ _ _ _ (Ret _) => apply safe_ret
  | |- safe _ _ _ _ (Throw _) => apply safe_throw
  | |- safe _ _ _ _ (lift _) => apply safe_lift
  | |- safe _ _ _ _ (if ?b then _ else _) => destruct b
  | |- safe _ _ _ _ (match ?r with _ => _ end) => destruct r
  | |- safe _ _ _ _ (call (HttpPost _ _ _)) => fail 1
  | |- safe _ _ _ _ (call _) => apply safe_call_local; [assumption|discriminate]
  end.


Section Handlers.
Context {D : Type} `{Database D} (x : string) (T : topology) (n : nat).
Hypothesis Hposts : posts_safe (D:=D) x T n.
Hypothesis Hx : role_of T x = Some PrimaryRole.

Lemma slave_read_safe z p : z <> x -> safe (D:=D) n x T z (Slave.read_data p).
Proof. intros Hz. unfold Slave.read_data, Slave.get_db_connection, db_lift. repeat safe_step. Qed.

Lemma slave_write_safe z p : z <> x -> safe (D:=D) n x T z (Slave.write_data p).
Proof. intros Hz. unfold Slave.write_data, Slave.get_db_connection, db_lift. repeat safe_step. Qed.

Lemma gatekeeper_safe z p hs :
  z <> x -> mode_not_direct p -> safe (D:=D) n x T z (Gatekeeper.handle_query_request p hs).
Proof.
  intros Hz Hm. unfold Gatekeeper.handle_query_request, Gatekeeper.get_trusted_host_config.
  repeat safe_step. apply Hposts, process_post_ok; done.
Qed.

Lemma trusted_host_safe z p hs :
  z <> x -> mode_not_direct p -> safe (D:=D) n x T z (TrustedHost.process_query p hs).
Proof.
  intros Hz Hm. unfold TrustedHost.process_query, TrustedHost.load_proxy_manager_details,
    TrustedHost.forward_query.
  repeat safe_step. apply Hposts, process_post_ok; done.
Qed.

End Handlers.

(** ** Where the proxy manager sends a request *)

(** The [/read] URL of an entry of the membership list that is not the
    master. *)
Definition read_target (details : json) (url : string) : Prop :=
  exists l v ip, py_iter details = inr l /\ In v l /\ name_is_not_master v = inr true /\
    py_subscript v "PublicIP" = inr ip /\ url = ProxyManager.node_url ip "read".

(** The membership file names [x] only under the master tag, and by
    plain addresses. *)
Definition members_ok (x : string) (details : json) : Prop :=
  forall l v ip, py_iter details = inr l -> In v l -> name_is_not_master v = inr true ->
    py_subscript v "PublicIP" = inr ip -> exists s, ip = JStr s /\ has_char ":"%char s = false /\ s <> x.

Lemma all_returns_bind_post {A B} (Q : A -> Prop) (P : B -> Prop) (p : prog A) (f : A -> prog B) :
  all_returns Q p -> (forall a, Q a -> all_returns P (f a)) -> all_returns P (bind p f).
Proof. intros Hp Hf. induction p; simpl in *; auto. Qed.

Lemma all_returns_weaken {A} (P Q : A -> Prop) (p : prog A) :
  all_returns P p -> (forall a, P a -> Q a) -> all_returns Q p.
Proof. intros Hp HPQ. induction p; simpl in *; auto. Qed.

Lemma py_filter_in (f : json -> exn + bool) l rn v :
  py_filter f l = inr rn -> In v rn -> In v l /\ f v = inr true.
Proof.
  unfold py_filter. revert rn. induction l as [|y l IH]; intros rn; simpl; [by intros [= <-]|].
  destruct (f y) as [e|[|]] eqn:Hy; [done| |].
  - destruct (py_filter_map f inr l) as [e|ys] eqn:Hl; [done|]. intros [= <-] [->|Hv]; [split; [left|]; done|].
    destruct (IH ys eq_refl Hv). auto.
  - intros Hl Hv. destruct (IH rn Hl Hv). auto.
Qed.

Lemma random_choice_in l : all_returns (fun v => In v l) (ProxyManager.random_choice l).
Proof.
  destruct l as [|y l]; simpl; [done|]. intros i.
  destruct ((y :: l) !! i) as [v|] eqn:Hi; simpl; [|done].
  change (In v (y :: l)). apply list_elem_of_In. by eapply list_elem_of_lookup_2.
Qed.

Lemma id_and_ip_ip v : all_returns (fun r => py_subscript v "PublicIP" = inr r.2) (ProxyManager.id_and_ip v).
Proof.
  unfold ProxyManager.id_and_ip. destruct (py_subscript v "InstanceID"); simpl; [done|].
  by destruct (py_subscript v "PublicIP").
Qed.

(** The loop of [find_lowest_latency_instance] keeps a candidate that is
    a non-master entry of the list. *)
Lemma lowest_loop_in l0 insts lowest best :
  (forall v, In v insts -> In v l0) ->
  (forall b, best = Some b -> In b l0 /\ name_is_not_master b = inr true) ->
  all_returns (fun r => forall b, r = Some b -> In b l0 /\ name_is_not_master b = inr true)
    (ProxyManager.lowest_loop insts lowest best).
Proof.
  revert lowest best. induction insts as [|v insts IH]; intros lowest best Hin Hb; simpl; [done|].
  destruct (name_is_not_master v) as [e|[|]] eqn:Hv; simpl; [done| |apply IH; auto with datatypes].
  destruct (py_subscript v "PublicIP") as [e|ip]; simpl; [done|].
  apply all_returns_bind. intros [t|]; [|apply IH; auto with datatypes].
  destruct (pf_lt t lowest); apply IH; auto with datatypes.
  intros b [= <-]. auto with datatypes.
Qed.

Lemma is_mode_direct mode : ProxyManager.is_mode mode "DIRECT" = true -> mode = JStr "DIRECT".
Proof. destruct mode; simpl; try done. by intros ->%bool_decide_eq_true_1. Qed.

(** A node picked by the proxy manager: a non-master entry of the
    membership list, with its address. *)
Definition picked_from (details : json) (r : json * json) : Prop :=
  exists l v, py_iter details = inr l /\ In v l /\ name_is_not_master v = inr true /\
    py_subscript v "PublicIP" = inr r.2.

Lemma select_random_picks details :
  all_returns (picked_from details) (ProxyManager.select_random_read_node details).
Proof.
  unfold ProxyManager.select_random_read_node. destruct (py_iter details) as [e|l] eqn:Hl; simpl; [done|].
  destruct (py_filter name_is_not_master l) as [e|rn] eqn:Hf; simpl; [done|].
  destruct rn as [|y rn]; [done|].
  apply (all_returns_bind_post (fun v => In v (y :: rn))); [apply random_choice_in|].
  intros v Hv. eapply all_returns_weaken; [apply id_and_ip_ip|].
  intros r Hr. destruct (py_filter_in _ _ _ _ Hf Hv). by exists l, v.
Qed.

Lemma lowest_latency_picks details :
  all_returns (picked_from details) (ProxyManager.find_lowest_latency_instance details).
Proof.
  unfold ProxyManager.find_lowest_latency_instance. destruct (py_iter details) as [e|l] eqn:Hl; simpl; [done|].
  eapply all_returns_bind_post; [apply (lowest_loop_in l); [done|done]|].
  intros [b|] Hb; [|done]. destruct (truthy b); [|done].
  eapply all_returns_weaken; [apply id_and_ip_ip|].
  intros r Hr. destruct (Hb b eq_refl). by exists l, b.
Qed.

Lemma picked_read_target details r : picked_from details r -> read_target details (ProxyManager.node_url r.2 "read").
Proof. intros (l & v & Hl & Hv & Hn & Hi). by exists l, v, r.2. Qed.

(** What the proxy manager's routing promises the frame proof: outside
    DIRECT mode it forwards to the [/read] route of a non-master entry
    of the membership list. *)
Definition routing_contract : Prop :=
  forall mode details, ProxyManager.is_mode mode "DIRECT" = false ->
    all_returns (read_target details) (ProxyManager.route mode details).

(** A [/read] URL of a non-master entry keeps away from [x]. *)
Lemma read_target_post_ok x T details url q :
  members_ok x details -> read_target details url -> post_ok x T url q.
Proof.
  intros Hm (l & v & ip & Hl & Hv & Hn & Hi & ->).
  destruct (Hm l v ip Hl Hv Hn Hi) as (s & -> & Hs & Hsx).
  intros ip' path r h Hp _ _. unfold ProxyManager.node_url in Hp. simpl in Hp.
  rewrite parse_url_of in Hp by done. injection Hp as <- <-. done.
Qed.

Section Proxy.
Context {D : Type} `{Database D} (x : string) (T : topology) (n : nat).
Hypothesis Hposts : posts_safe (D:=D) x T n.
Hypothesis Hmembers :
  forall z details, file_at T z "instance_info.json" = FileLoaded details -> members_ok x details.
Hypothesis Hroute : routing_contract.

Lemma lowest_loop_safe z insts lowest best :
  z <> x -> safe (D:=D) n x T z (ProxyManager.lowest_loop insts lowest best).
Proof.
  intros Hz. revert lowest best. induction insts as [|v insts IH]; intros lowest best; simpl.
  - apply safe_ret.
  - unfold ProxyManager.ping_address. repeat safe_step; apply IH.
Qed.

Lemma route_safe z mode details : z <> x -> safe (D:=D) n x T z (ProxyManager.route mode details).
Proof.
  intros Hz. unfold ProxyManager.route, ProxyManager.fetch_master_node,
    ProxyManager.select_random_read_node, ProxyManager.find_lowest_latency_instance,
    ProxyManager.random_choice, ProxyManager.id_and_ip.
  repeat safe_step; apply lowest_loop_safe, Hz.
Qed.

Lemma load_returns z :
  returns_in (D:=D) n T z (fun d => file_at T z "instance_info.json" = FileLoaded d)
    ProxyManager.load_instance_details.
Proof.
  intros w Hw Ht a. unfold ProxyManager.load_instance_details. simpl. unfold oracle.
  replace (cluster_answer n (OpenJson "instance_info.json") w)
    with (file_at (topo w) (host w) "instance_info.json", w) by (by destruct n).
  simpl. rewrite Hw, Ht. destruct (file_at T z "instance_info.json"); simpl; congruence.
Qed.

Lemma forward_safe z url q :
  z <> x -> post_ok x T url q -> safe (D:=D) n x T z (ProxyManager.forward_query_request url q).
Proof.
  intros Hz Hok. unfold ProxyManager.forward_query_request. repeat safe_step. by apply Hposts.
Qed.

Lemma proxy_manager_safe z p :
  z <> x -> mode_not_direct p -> safe (D:=D) n x T z (ProxyManager.process_query p).
Proof.
  intros Hz Hm. unfold ProxyManager.process_query.
  apply safe_bind; [apply safe_lift|intros query].
  apply (safe_bind_P n x T z (fun mode => py_get p "mode" = inr mode));
    [apply returns_in_lift|apply safe_lift|intros mode Hmode].
  destruct (negb (truthy query) || negb (truthy mode)); [apply safe_ret|].
  apply safe_catch; [|intros e q [= <-]; apply safe_ret].
  apply (safe_bind_P n x T z (fun d => file_at T z "instance_info.json" = FileLoaded d));
    [apply load_returns|unfold ProxyManager.load_instance_details; repeat safe_step|intros details Hd].
  assert (Hdir : ProxyManager.is_mode mode "DIRECT" = false).
  { destruct (ProxyManager.is_mode mode "DIRECT") eqn:E; [|done].
    apply is_mode_direct in E. subst. done. }
  apply (safe_bind_P n x T z (read_target details));
    [apply returns_in_all, Hroute, Hdir|apply route_safe, Hz|intros url Hurl].
  apply safe_bind; [|intros; apply safe_ret].
  apply forward_safe; [done|]. eapply read_target_post_ok; [apply (Hmembers z), Hd|exact Hurl].
Qed.

End Proxy.

(** ** The topologies the theorem is about, as a check *)

Definition member_okb (x : string) (v : json) : bool :=
  match name_is_not_master v with
  | inr true =>
      match py_subscript v "PublicIP" with
      | inr (JStr s) => negb (has_char ":"%char s) && negb (bool_decide (s = x))
      | inr _ => false
      | inl _ => true
      end
  | _ => true
  end.

Definition members_okb (x : string) (details : json) : bool :=
  match py_iter details with inr l => forallb (member_okb x) l | inl _ => true end.

(** Only [x] runs the primary's app, and every membership file names
    [x] only under the master tag. *)
Definition topology_ok (x : string) (T : topology) : bool :=
  forallb (fun e => bool_decide (e.2 = PrimaryRole -> e.1 = x)) (t_roles T) &&
  forallb (fun e => negb (bool_decide (e.1.2 = "instance_info.json")) || members_okb x e.2) (t_files T).

Lemma members_okb_sound x details : members_okb x details = true -> members_ok x details.
Proof.
  unfold members_okb. intros Hb l v ip Hl Hv Hn Hi. rewrite Hl, forallb_forall in Hb.
  specialize (Hb v Hv). unfold member_okb in Hb. rewrite Hn, Hi in Hb.
  destruct ip as [| | |s| |]; try done. apply andb_true_iff in Hb as [H1 H2].
  exists s. split; [done|]. split; [by apply negb_true_iff|].
  by apply negb_true_iff, bool_decide_eq_false in H2.
Qed.

Lemma topology_ok_primary x T z :
  topology_ok x T = true -> role_of T z = Some PrimaryRole -> z = x.
Proof.
  intros [Hr _]%andb_true_iff. unfold role_of.
  destruct (List.find _ _) as [e|] eqn:He; [|done]. intros [= He2].
  apply find_some in He as [Hin Hz%bool_decide_eq_true_1].
  rewrite forallb_forall in Hr. specialize (Hr e Hin). apply bool_decide_eq_true_1 in Hr. subst. auto.
Qed.

Lemma topology_ok_members x T z details :
  topology_ok x T = true -> file_at T z "instance_info.json" = FileLoaded details -> members_ok x details.
Proof.
  intros [_ Hf]%andb_true_iff. unfold file_at.
  destruct (List.find _ _) as [e|] eqn:He; [|done]. intros [= <-].
  apply find_some in He as [Hin [Hz Hp]%bool_decide_eq_true_1].
  rewrite forallb_forall in Hf. specialize (Hf e Hin). rewrite bool_decide_eq_true_2 in Hf by done.
  by apply members_okb_sound.
Qed.

Section Safety.
Context {D : Type} `{Database D} (x : string) (T : topology).
Hypothesis Htopo : topology_ok x T = true.
Hypothesis Hx : role_of T x = Some PrimaryRole.
Hypothesis Hroute : routing_contract.

Lemma endpoints_safe_of n : posts_safe (D:=D) x T n -> endpoints_safe (D:=D) x T n.
Proof.
  intros Hp z r path h p hs Hz Hr Hh Hm. unfold flask_view.
  apply safe_catch; [|intros e q [= <-]; apply safe_ret].
  destruct r; simpl in Hh;
    unfold gatekeeper_routes, trusted_host_routes, proxy_manager_routes, slave_routes in Hh.
  - case_bool_decide; [|done]. injection Hh as <-. apply (gatekeeper_safe x T n Hp Hx); auto.
  - case_bool_decide; [|done]. injection Hh as <-. apply (trusted_host_safe x T n Hp Hx); auto.
  - case_bool_decide; [|done]. injection Hh as <-.
    apply (proxy_manager_safe x T n Hp); auto. intros. by eapply topology_ok_members.
  - by destruct Hz; apply (topology_ok_primary x T z Htopo Hr).
  - case_bool_decide; [injection Hh as <-; by apply (slave_read_safe x T n)|].
    case_bool_decide; [injection Hh as <-; by apply (slave_write_safe x T n)|done].
Qed.

Lemma all_safe n : endpoints_safe (D:=D) x T n /\ posts_safe (D:=D) x T n.
Proof.
  induction n as [|n [He _]].
  - split; [apply endpoints_safe_of|]; apply posts_safe_0.
  - pose proof (posts_safe_S x T n He) as Hp. split; [by apply endpoints_safe_of|done].
Qed.

End Safety.

(** C17: in any cluster where only [x] runs the primary's app and every
    membership file names [x] only under the master tag, a request whose
    mode is anything but exactly ["DIRECT"], entering at any route of any
    other host, leaves [x]'s database as it was, at every fuel: neither
    the gatekeeper nor the trusted host changes the mode, and the proxy
    manager sends every other mode, the lower-case ["direct"] the
    trusted host admits included, to the [/read] route of a non-master
    entry. *)
Theorem primary_untouched {D} `{Database D} n T x z r path h p hs (dbs0 : string -> option D) :
  topology_ok x T = true -> role_of T x = Some PrimaryRole ->
  z <> x -> role_of T z = Some r -> endpoint r path = Some h -> mode_not_direct p ->
  (request n T dbs0 z h p hs).2 x = dbs0 x.
Proof.
  intros Ht Hx Hz Hr Hh Hm.
  assert (Hroute : routing_contract).
  { intros mode details Hd. unfold ProxyManager.route. rewrite Hd.
    destruct (ProxyManager.is_mode mode "RANDOM");
      (eapply all_returns_bind_post; [apply select_random_picks || apply lowest_latency_picks|]);
      intros a Ha; apply picked_read_target, Ha. }
  destruct (all_safe x T Ht Hx Hroute n) as [He _].
  exact (He z r path h p hs Hz Hr Hh (fun _ => Hm) (mkWorld z T dbs0) eq_refl eq_refl).
Qed.

End ClusterProofs.

Module ClusterWitness.
Import Cluster ClusterProofs DbNode.Toy.

(** The spec's example behind the front tiers: primary@A, replica@B,
    replica@C, each tier on its own host, the files provisioning
    writes, every replica answering ping. *)
Definition gk_ip : string := "10.0.0.1".
Definition th_ip : string := "10.0.0.2".
Definition pm_ip : string := "10.0.0.3".
Definition primary_ip : string := "10.0.0.4".

Definition member (name ip : string) : json :=
  JDict [("Name", JStr name); ("InstanceID", JStr ("i-" +:+ ip)); ("PublicIP", JStr ip)].

Definition members : json :=
  JList [member "mysql_master_node" primary_ip; member "mysql_slave_node" "10.0.0.5";
         member "mysql_slave_node" "10.0.0.6"].

Definition topology0 : topology :=
  mkTopology
    [(gk_ip, GatekeeperRole); (th_ip, TrustedHostRole); (pm_ip, ProxyManagerRole);
     (primary_ip, PrimaryRole); ("10.0.0.5", ReplicaRole); ("10.0.0.6", ReplicaRole)]
    [(gk_ip, "trustedhost_info.json", JList [member "trusted_host_node" th_ip]);
     (th_ip, "proxy_info.json", JList [member "proxy_manager_node" pm_ip]);
     (pm_ip, "instance_info.json", members);
     (primary_ip, "instance_info.json", members)]
    (fun ip => PingExited 0 ("64 bytes from " +:+ ip +:+ ": icmp_seq=1 ttl=64 time=0.5 ms"))
    (fun _ => 0%nat).

(** Empty logs on the three database nodes. *)
Definition dbs0 : string -> option (list json) := fun ip =>
  if bool_decide (ip = primary_ip \/ ip = "10.0.0.5" \/ ip = "10.0.0.6") then Some [] else None.

Definition client_headers : list (string * string) :=
  [("username", "admin_elaa"); ("password", "admin_elaa_password123")].

Definition insert : string := "INSERT INTO actor (first_name) VALUES ('A')".

Definition body (mode : string) : json := JDict [("query", JStr insert); ("mode", JStr mode)].

Lemma primary_untouched_witness :
  topology_ok primary_ip topology0 = true /\
  (request 5 topology0 dbs0 gk_ip Gatekeeper.handle_query_request (body "direct") client_headers).2
    primary_ip = dbs0 primary_ip.
Proof.
  split; [vm_compute; reflexivity|].
  apply (primary_untouched (D:=list json) 5 topology0 primary_ip gk_ip GatekeeperRole "process"
           Gatekeeper.handle_query_request (body "direct") client_headers dbs0);
    [vm_compute; reflexivity | vm_compute; reflexivity | discriminate | vm_compute; reflexivity
    | reflexivity | intros E; vm_compute in E; discriminate].
Defined.

(** With ["direct"] the write is answered 200 by a replica's [/read],
    whose log is unchanged: it is executed nowhere. *)
Example lowercase_direct_lost :
  let '(r1, d1) := request 5 topology0 dbs0 gk_ip Gatekeeper.handle_query_request
                     (body "direct") client_headers in
  status r1 = 200%Z /\ d1 primary_ip = Some [] /\ d1 "10.0.0.5" = Some [] /\ d1 "10.0.0.6" = Some [].
Proof. vm_compute. repeat split. Qed.

End ClusterWitness.
